(** * A D-Bus forwarding proxy: shallow embedding and verification

    The repository holds three variants of one program, a GDBus proxy that
    exposes a service living on a source bus as a facade on a target bus:

    - [MultiBus]    (DBus_proxy.c): one [ProxyContext] per proxied service,
                    system, session or custom-address buses;
    - [ConfigProxy] (the configuration-file variant): one bus, settings read
                    from a key=value file;
    - [CrossBus]    (the cross-bus variant): a global [ProxyState] with two
                    hash tables that track registrations and subscriptions.

    The program is written against GLib/GIO.  The GIO calls it makes are
    modelled in [Section GIO] below as operations on an explicit [World];
    each variant is then transcribed function by function into a small state
    monad over that world. *)

From Stdlib Require Import ZArith String Ascii List Lia.
From stdpp Require Import base option list gmap strings fin_maps.

Local Open Scope Z_scope.
Local Open Scope string_scope.
Local Open Scope list_scope.
Local Open Scope stdpp_scope.
Set Warnings "-register-all".

(** ** Values carried on the bus *)

(** A [GVariant]: the program treats payloads as opaque, the only shapes it
    builds or takes apart are tuples, strings and the variant box [v]. *)
Inductive GVariant : Type :=
| GVString (s : string)
| GVBool (b : bool)
| GVInt (z : Z)
| GVBox (v : GVariant)
| GVTuple (vs : list GVariant).

Fixpoint g_variant_get_type_string (v : GVariant) : string :=
  match v with
  | GVString _ => "s"
  | GVBool _ => "b"
  | GVInt _ => "i"
  | GVBox _ => "v"
  | GVTuple vs =>
      "(" +:+ (fix members (l : list GVariant) : string :=
                 match l with
                 | [] => ""
                 | x :: r => g_variant_get_type_string x +:+ members r
                 end) vs +:+ ")"
  end.

(** [reply_type] argument of the call functions: [None] is the C [NULL]
    (any reply accepted). *)
Definition g_variant_is_of_type (v : GVariant) (ty : option string) : bool :=
  match ty with
  | None => true
  | Some t => String.eqb (g_variant_get_type_string v) t
  end.

(** [g_variant_new("(ss)", a, b)] and [g_variant_new("(ssv)", a, b, v)]. *)
Definition g_variant_new_ss (a b : string) : GVariant :=
  GVTuple [GVString a; GVString b].
Definition g_variant_new_ssv (a b : string) (v : GVariant) : GVariant :=
  GVTuple [GVString a; GVString b; GVBox v].

(** [g_variant_get(result, "(v)", &value)]: the value inside the box of a
    one-element tuple.  On any other shape GLib aborts; the callers only
    reach it behind a reply-type check for "(v)". *)
Definition g_variant_get_v (result : GVariant) : GVariant :=
  match result with
  | GVTuple [GVBox value] => value
  | other => other
  end.

(** [g_variant_get(xml, "(s)", &xml_data)]. *)
Definition g_variant_get_s (xml : GVariant) : string :=
  match xml with
  | GVTuple [GVString s] => s
  | _ => ""
  end.

(** A [GError]: domain quark, code and message. *)
Record GError : Type := mkGError {
  domain : string;
  code : Z;
  message : string
}.

Definition G_IO_ERROR : string := "g-io-error-quark".
Definition G_IO_ERROR_FAILED : Z := 0.
Definition G_IO_ERROR_EXISTS : Z := 2.
Definition G_IO_ERROR_INVALID_ARGUMENT : Z := 13.
Definition G_IO_ERROR_CLOSED : Z := 18.

Definition connection_closed_error : GError :=
  mkGError G_IO_ERROR G_IO_ERROR_CLOSED "The connection is closed".

(** ** Introspection data *)

Record GDBusSignalInfo : Type := mkSignalInfo { signal_info_name : string }.

(** Only the interface name and its signal array are ever read by the
    program; [iface_signals] is [None] for a [NULL] array. *)
Record GDBusInterfaceInfo : Type := mkInterfaceInfo {
  iface_name : string;
  iface_methods : list string;
  iface_signals : option (list GDBusSignalInfo);
  iface_properties : list string
}.

(** [node_interfaces] is [None] for a [NULL] array ("NULL if there are no
    interfaces" in GIO), otherwise the NULL-terminated array as a list. *)
Record GDBusNodeInfo : Type := mkNodeInfo {
  node_interfaces : option (list GDBusInterfaceInfo)
}.

(** ** The world outside the program *)

Definition GDBusConnection : Type := nat.
Definition GDBusMethodInvocation : Type := nat.

Inductive GBusType : Type := G_BUS_TYPE_SYSTEM | G_BUS_TYPE_SESSION.

#[global] Instance GBusType_eq_dec : EqDecision GBusType.
Proof. solve_decision. Defined.

Inductive PrintfArg : Type :=
| PStr (s : string)
| PNum (n : Z).

(** The two callbacks the variants pass to [g_dbus_connection_signal_subscribe]. *)
Inductive SignalCallback : Type :=
| CbOnSignalReceived
| CbOnPropertiesChanged.

(** A match rule installed by [g_dbus_connection_signal_subscribe]. *)
Record SignalRule : Type := mkSignalRule {
  rule_sender : string;
  rule_interface : string;
  rule_member : string;
  rule_path : string;
  rule_callback : SignalCallback
}.

(** State of one connection: what is exported on it and which signal
    subscriptions are installed, by identifier. *)
Record Bus : Type := mkBus {
  unique_name : string;
  closed : bool;
  exported : gmap nat (string * string);
  subscriptions : gmap nat SignalRule
}.

Inductive Reply : Type :=
| ReplyValue (v : option GVariant)
| ReplyError (e : GError).

(** An asynchronous call issued with [g_dbus_connection_call] and not yet
    finished; [pc_user_data] is the pointer handed to the ready callback. *)
Record PendingCall : Type := mkPendingCall {
  pc_conn : GDBusConnection;
  pc_dest : string;
  pc_path : string;
  pc_interface : string;
  pc_method : string;
  pc_parameters : option GVariant;
  pc_timeout : Z;
  pc_user_data : GDBusMethodInvocation
}.

(** What the program does that can be observed from outside, most recent
    event first. *)
Inductive Event : Type :=
| EvPrint (fmt : string) (args : list PrintfArg)
| EvPrintErr (fmt : string) (args : list PrintfArg)
| EvLogFile (fmt : string) (args : list PrintfArg)
| EvCall (conn : GDBusConnection) (dest path iface method : string)
         (params : option GVariant) (timeout_msec : Z)
| EvReturn (inv : GDBusMethodInvocation) (r : Reply)
| EvEmitSignal (conn : GDBusConnection) (path iface signal : string)
               (params : option GVariant)
| EvOwnName (conn : option GDBusConnection) (name : string)
| EvErrorFree (e : GError)
| EvUnref (conn : GDBusConnection).

Record World : Type := mkWorld {
  (* environment: how the outside answers *)
  bus_get : GBusType → GDBusConnection + GError;
  new_for_address : string → GDBusConnection + GError;
  answer : GDBusConnection → string → string → string → string →
           option GVariant → GVariant + GError;
  parse_xml : string → GDBusNodeInfo + GError;
  (* state *)
  conns : GDBusConnection → Bus;
  next_registration_id : nat;
  next_subscriber_id : nat;
  next_owner_id : nat;
  pending : list PendingCall;
  trace : list Event
}.

Definition set_trace (t : list Event) (w : World) : World :=
  mkWorld (bus_get w) (new_for_address w) (answer w) (parse_xml w) (conns w)
          (next_registration_id w) (next_subscriber_id w) (next_owner_id w)
          (pending w) t.

Definition set_pending (p : list PendingCall) (w : World) : World :=
  mkWorld (bus_get w) (new_for_address w) (answer w) (parse_xml w) (conns w)
          (next_registration_id w) (next_subscriber_id w) (next_owner_id w)
          p (trace w).

Definition set_bus (c : GDBusConnection) (b : Bus) (w : World) : World :=
  mkWorld (bus_get w) (new_for_address w) (answer w) (parse_xml w)
          (λ c', if decide (c' = c) then b else conns w c')
          (next_registration_id w) (next_subscriber_id w) (next_owner_id w)
          (pending w) (trace w).

Definition set_next_registration_id (n : nat) (w : World) : World :=
  mkWorld (bus_get w) (new_for_address w) (answer w) (parse_xml w) (conns w)
          n (next_subscriber_id w) (next_owner_id w) (pending w) (trace w).

Definition set_next_subscriber_id (n : nat) (w : World) : World :=
  mkWorld (bus_get w) (new_for_address w) (answer w) (parse_xml w) (conns w)
          (next_registration_id w) n (next_owner_id w) (pending w) (trace w).

Definition set_next_owner_id (n : nat) (w : World) : World :=
  mkWorld (bus_get w) (new_for_address w) (answer w) (parse_xml w) (conns w)
          (next_registration_id w) (next_subscriber_id w) n (pending w)
          (trace w).

Definition set_exported (m : gmap nat (string * string)) (b : Bus) : Bus :=
  mkBus (unique_name b) (closed b) m (subscriptions b).

Definition set_subscriptions (m : gmap nat SignalRule) (b : Bus) : Bus :=
  mkBus (unique_name b) (closed b) (exported b) m.

(** ** The state monad the program runs in *)

Definition M (A : Type) : Type := World → A * World.

Definition ret {A : Type} (a : A) : M A := λ w, (a, w).

Definition bind {A B : Type} (m : M A) (k : A → M B) : M B :=
  λ w, let (a, w') := m w in k a w'.

Declare Scope io_scope.
Delimit Scope io_scope with io.
Bind Scope io_scope with M.

Notation "x <- m ;; k" := (bind m (λ x, k))
  (at level 20, m at level 99, k at level 200, only parsing) : io_scope.
Notation "' pat <- m ;; k" := (bind m (λ x, match x with pat => k end))
  (at level 20, pat pattern, m at level 99, k at level 200, only parsing)
  : io_scope.
Notation "m ;; k" := (bind m (λ _, k))
  (at level 100, k at level 200, only parsing, right associativity)
  : io_scope.

Local Open Scope io_scope.

Definition exec {A : Type} (m : M A) (w : World) : World := snd (m w).
Definition eval {A : Type} (m : M A) (w : World) : A := fst (m w).

Fixpoint for_each {A : Type} (l : list A) (body : A → M unit) : M unit :=
  match l with
  | [] => ret tt
  | x :: r => body x ;; for_each r body
  end.

(** ** The GIO calls the program makes

    Pointers that may be [NULL] are options.  A GIO function handed a [NULL]
    connection fails its argument check: it does nothing and returns its
    failure value without setting an error. *)

Definition emit (e : Event) : M unit :=
  λ w, (tt, set_trace (e :: trace w) w).

Definition g_print (fmt : string) (args : list PrintfArg) : M unit :=
  emit (EvPrint fmt args).

Definition g_printerr (fmt : string) (args : list PrintfArg) : M unit :=
  emit (EvPrintErr fmt args).

Definition g_error_free (error : option GError) : M unit :=
  match error with
  | Some e => emit (EvErrorFree e)
  | None => ret tt
  end.

Definition g_object_unref (conn : option GDBusConnection) : M unit :=
  match conn with
  | Some c => emit (EvUnref c)
  | None => ret tt
  end.

Definition g_bus_get_sync (bus_type : GBusType)
  : M (option GDBusConnection * option GError) :=
  λ w, match bus_get w bus_type with
       | inl c => ((Some c, None), w)
       | inr e => ((None, Some e), w)
       end.

Definition g_dbus_connection_new_for_address_sync (address : string)
  : M (option GDBusConnection * option GError) :=
  λ w, match new_for_address w address with
       | inl c => ((Some c, None), w)
       | inr e => ((None, Some e), w)
       end.

Definition g_dbus_connection_get_unique_name (conn : option GDBusConnection)
  : M string :=
  λ w, (match conn with
        | Some c => unique_name (conns w c)
        | None => "(null)"
        end, w).

(** Synchronous call: the message goes out, the peer's [answer] comes back;
    a reply that does not have the expected type is turned into an error. *)
Definition g_dbus_connection_call_sync (conn : option GDBusConnection)
    (bus_name object_path interface_name method_name : string)
    (parameters : option GVariant) (reply_type : option string)
    (timeout_msec : Z) : M (option GVariant * option GError) :=
  match conn with
  | None => ret (None, None)
  | Some c =>
      λ w,
        let w' := set_trace (EvCall c bus_name object_path interface_name
                                    method_name parameters timeout_msec
                             :: trace w) w in
        match answer w c bus_name object_path interface_name method_name
                     parameters with
        | inl v =>
            if g_variant_is_of_type v reply_type then ((Some v, None), w')
            else ((None, Some (mkGError G_IO_ERROR G_IO_ERROR_INVALID_ARGUMENT
                                 "Method returned an unexpected type")), w')
        | inr e => ((None, Some e), w')
        end
  end.

(** Asynchronous call: the message goes out and the call is parked until the
    main loop finishes it; every variant passes its one ready callback and
    the invocation as [user_data]. *)
Definition g_dbus_connection_call (conn : option GDBusConnection)
    (bus_name object_path interface_name method_name : string)
    (parameters : option GVariant) (reply_type : option string)
    (timeout_msec : Z) (user_data : GDBusMethodInvocation) : M unit :=
  match conn with
  | None => ret tt
  | Some c =>
      λ w,
        (tt, set_pending
               (pending w ++ [mkPendingCall c bus_name object_path
                                interface_name method_name parameters
                                timeout_msec user_data])
               (set_trace (EvCall c bus_name object_path interface_name
                                  method_name parameters timeout_msec
                           :: trace w) w))
  end.

(** The result of a finished call: a value, or [NULL] with the error set. *)
Definition g_dbus_connection_call_finish (res : GVariant + GError)
  : option GVariant * option GError :=
  match res with
  | inl v => (Some v, None)
  | inr e => (None, Some e)
  end.

Definition g_dbus_method_invocation_return_value
    (invocation : GDBusMethodInvocation) (parameters : option GVariant)
  : M unit :=
  emit (EvReturn invocation (ReplyValue parameters)).

Definition g_dbus_method_invocation_return_gerror
    (invocation : GDBusMethodInvocation) (error : option GError) : M unit :=
  match error with
  | Some e => emit (EvReturn invocation (ReplyError e))
  | None => ret tt
  end.

Definition g_dbus_method_invocation_return_error_literal
    (invocation : GDBusMethodInvocation) (dom : string) (c : Z)
    (msg : string) : M unit :=
  emit (EvReturn invocation (ReplyError (mkGError dom c msg))).

Definition g_dbus_connection_emit_signal (conn : option GDBusConnection)
    (destination_bus_name : option string)
    (object_path interface_name signal_name : string)
    (parameters : option GVariant) : M (bool * option GError) :=
  match conn with
  | None => ret (false, None)
  | Some c =>
      λ w,
        if closed (conns w c)
        then ((false, Some connection_closed_error), w)
        else ((true, None),
              set_trace (EvEmitSignal c object_path interface_name
                                      signal_name parameters :: trace w) w)
  end.

Definition exported_at (b : Bus) (object_path interface_name : string) : bool :=
  existsb (λ kv : nat * (string * string),
             bool_decide (kv.2 = (object_path, interface_name)))
          (map_to_list (exported b)).

(** A [GError *] variable whose address is handed to a GIO call.  The
    program frees errors with [g_error_free], which leaves the variable
    pointing at the freed error. *)
Inductive GErrorSlot : Type :=
| SlotNull
| SlotSet (e : GError)
| SlotFreed (e : GError).

(** What a C function does besides returning: reading through a [NULL] or
    a freed pointer, or reading a variable that was never set, is undefined
    behaviour. *)
Inductive UB : Type := NullDeref | UseAfterFree | Uninitialized.

Inductive Outcome (A : Type) : Type :=
| Returned (a : A)
| Undefined (why : UB).
Arguments Returned {A} a.
Arguments Undefined {A} why.

(** [error->message] *)
Definition slot_message (error : GErrorSlot) : Outcome string :=
  match error with
  | SlotSet e => Returned (message e)
  | SlotNull => Undefined NullDeref
  | SlotFreed _ => Undefined UseAfterFree
  end.

(** [g_error_free(error)] on the caller's variable. *)
Definition slot_free (error : GErrorSlot) : M (Outcome GErrorSlot) :=
  match error with
  | SlotSet e => emit (EvErrorFree e) ;; ret (Returned (SlotFreed e))
  | SlotNull => ret (Returned SlotNull)
  | SlotFreed _ => ret (Undefined UseAfterFree)
  end.

(** Registration takes the next global registration id; it fails, with
    [G_IO_ERROR_EXISTS], when the interface is already exported at the
    path.  Like every GIO function with a [GError **] parameter it refuses
    (returns 0, nothing done) a slot that is not [NULL] on entry. *)
Definition g_dbus_connection_register_object (conn : option GDBusConnection)
    (object_path : string) (interface_info : GDBusInterfaceInfo)
    (error : GErrorSlot) : M (nat * GErrorSlot) :=
  match conn, error with
  | Some c, SlotNull =>
      λ w,
        let b := conns w c in
        if exported_at b object_path (iface_name interface_info)
        then ((0%nat,
               SlotSet (mkGError G_IO_ERROR G_IO_ERROR_EXISTS
                          ("An object is already exported for the interface "
                           +:+ iface_name interface_info +:+ " at "
                           +:+ object_path))), w)
        else
          let id := next_registration_id w in
          ((id, SlotNull),
           set_next_registration_id (S id)
             (set_bus c
                (set_exported
                   (<[id := (object_path, iface_name interface_info)]>
                      (exported b)) b) w))
  | _, _ => ret (0%nat, error)
  end.

Definition g_dbus_connection_unregister_object (conn : option GDBusConnection)
    (registration_id : nat) : M bool :=
  match conn with
  | None => ret false
  | Some c =>
      λ w,
        let b := conns w c in
        match exported b !! registration_id with
        | Some _ =>
            (true,
             set_bus c (set_exported (delete registration_id (exported b)) b) w)
        | None => (false, w)
        end
  end.

Definition g_dbus_connection_signal_subscribe (conn : option GDBusConnection)
    (sender interface_name member object_path : string)
    (callback : SignalCallback) : M nat :=
  match conn with
  | None => ret 0%nat
  | Some c =>
      λ w,
        let b := conns w c in
        let id := next_subscriber_id w in
        (id,
         set_next_subscriber_id (S id)
           (set_bus c
              (set_subscriptions
                 (<[id := mkSignalRule sender interface_name member
                            object_path callback]> (subscriptions b)) b) w))
  end.

Definition g_dbus_connection_signal_unsubscribe
    (conn : option GDBusConnection) (subscription_id : nat) : M unit :=
  match conn with
  | None => ret tt
  | Some c =>
      λ w,
        let b := conns w c in
        (tt,
         set_bus c
           (set_subscriptions (delete subscription_id (subscriptions b)) b) w)
  end.

Definition g_bus_own_name_on_connection (conn : option GDBusConnection)
    (name : string) : M nat :=
  match conn with
  | None => ret 0%nat
  | Some c =>
      λ w,
        let id := next_owner_id w in
        (id, set_next_owner_id (S id)
               (set_trace (EvOwnName (Some c) name :: trace w) w))
  end.

Definition g_bus_own_name (bus_type : GBusType) (name : string) : M nat :=
  λ w,
    let id := next_owner_id w in
    let conn := match bus_get w bus_type with
                | inl c => Some c
                | inr _ => None
                end in
    (id, set_next_owner_id (S id)
           (set_trace (EvOwnName conn name :: trace w) w)).

Definition g_dbus_node_info_new_for_xml (xml_data : string)
  : M (option GDBusNodeInfo * option GError) :=
  λ w, match parse_xml w xml_data with
       | inl info => ((Some info, None), w)
       | inr e => ((None, Some e), w)
       end.

(** [error->message] where the program reads it right after a failed call
    that was given a fresh [NULL] slot. *)
Definition error_message (error : option GError) : Outcome string :=
  match error with
  | Some e => Returned (message e)
  | None => Undefined NullDeref
  end.

Definition non_null {A : Type} (p : option A) : bool :=
  match p with
  | Some _ => true
  | None => false
  end.

(** Sequencing of code that may run into undefined behaviour. *)
Definition and_then {A B : Type} (m : M (Outcome A)) (k : A → M (Outcome B))
  : M (Outcome B) :=
  r <- m ;;
  match r with
  | Returned a => k a
  | Undefined why => ret (Undefined why)
  end.

Definition with_message {A : Type} (error : option GError)
    (k : string → M (Outcome A)) : M (Outcome A) :=
  match error_message error with
  | Returned msg => k msg
  | Undefined why => ret (Undefined why)
  end.

Definition with_slot_message {A : Type} (error : GErrorSlot)
    (k : string → M (Outcome A)) : M (Outcome A) :=
  match slot_message error with
  | Returned msg => k msg
  | Undefined why => ret (Undefined why)
  end.

(** [g_variant_get_child (parameters, 0, "&s", &name)]: the string that is
    the first child of the container [parameters].  A [NULL] pointer is
    dereferenced.  On a value that has no first child, or whose first child
    is not a string, GLib's checks fail and nothing is stored: the caller
    goes on, if the process is still there, with [name] never set. *)
Definition g_variant_get_child_0_s (parameters : option GVariant)
  : Outcome string :=
  match parameters with
  | None => Undefined NullDeref
  | Some (GVTuple (GVString s :: _)) => Returned s
  | Some (GVBox (GVString s)) => Returned s
  | Some _ => Undefined Uninitialized
  end.

(** ** The main loop

    Once set up, the program sits in [g_main_loop_run] and GIO calls back
    into it.  [LoopEvent] lists what can arrive; [CallFinished i res] is the
    completion of the [i]-th outstanding asynchronous call with result
    [res]. *)

Inductive LoopEvent : Type :=
| MethodCall (sender object_path interface_name method_name : string)
             (parameters : option GVariant)
             (invocation : GDBusMethodInvocation)
| CallFinished (i : nat) (res : GVariant + GError)
| SignalReceived (callback : SignalCallback)
                 (sender_name object_path interface_name signal_name : string)
                 (parameters : option GVariant)
| GetProperty (sender object_path interface_name property_name : string)
| SetProperty (sender object_path interface_name property_name : string)
              (value : GVariant).

(** The callbacks a variant hands to GIO: the three vtable entries, the
    ready callback of the forwarded call, and the signal callbacks. *)
Record Callbacks : Type := mkCallbacks {
  cb_method_call : string → string → string → string → option GVariant →
                   GDBusMethodInvocation → M unit;
  cb_call_ready : GVariant + GError → GDBusMethodInvocation → M unit;
  cb_signal : SignalCallback → string → string → string → string →
              option GVariant → M (Outcome unit);
  cb_get_property : string → string → string → string →
                    M (option GVariant * option GError);
  cb_set_property : string → string → string → string → GVariant →
                    M (bool * option GError)
}.

Definition take_pending (i : nat) : M (option PendingCall) :=
  λ w, match pending w !! i with
       | Some pc => (Some pc, set_pending (delete i (pending w)) w)
       | None => (None, w)
       end.

(** The completion of the [i]-th outstanding call with result [res]: the
    call leaves the list and its ready callback runs. *)
Definition call_finished (cbs : Callbacks) (i : nat)
    (res : GVariant + GError) : M unit :=
  pc <- take_pending i ;;
  match pc with
  | Some pc => cb_call_ready cbs res (pc_user_data pc)
  | None => ret tt
  end.

Definition dispatch (cbs : Callbacks) (ev : LoopEvent) : M (Outcome unit) :=
  match ev with
  | MethodCall sender object_path interface_name method_name parameters
               invocation =>
      cb_method_call cbs sender object_path interface_name method_name
                     parameters invocation ;;
      ret (Returned tt)
  | CallFinished i res =>
      call_finished cbs i res ;;
      ret (Returned tt)
  | SignalReceived callback sender_name object_path interface_name
                   signal_name parameters =>
      cb_signal cbs callback sender_name object_path interface_name
                signal_name parameters
  | GetProperty sender object_path interface_name property_name =>
      _ <- cb_get_property cbs sender object_path interface_name
                           property_name ;;
      ret (Returned tt)
  | SetProperty sender object_path interface_name property_name value =>
      _ <- cb_set_property cbs sender object_path interface_name
                           property_name value ;;
      ret (Returned tt)
  end.

(** The loop hands the events to the callbacks one after the other, for
    as long as what they do is defined. *)
Fixpoint g_main_loop_run (cbs : Callbacks) (events : list LoopEvent)
  : M (Outcome unit) :=
  match events with
  | [] => ret (Returned tt)
  | ev :: rest =>
      and_then (dispatch cbs ev) (λ _, g_main_loop_run cbs rest)
  end.

(** The main loop finishing every outstanding call, oldest first, with the
    results [results] assigns. *)
Fixpoint finish_calls (cbs : Callbacks)
    (results : PendingCall → GVariant + GError) (n : nat) : M unit :=
  match n with
  | O => ret tt
  | S n' =>
      λ w, match pending w with
           | [] => (tt, w)
           | pc :: _ =>
               (call_finished cbs 0 (results pc) ;;
                finish_calls cbs results n') w
           end
  end.

Definition finish_all (cbs : Callbacks)
    (results : PendingCall → GVariant + GError) : M unit :=
  λ w, finish_calls cbs results (length (pending w)) w.

(** How far [main] has got when it stops executing statements of its own:
    it has returned with an exit status, or it sits in [g_main_loop_run]
    with its context set up. *)
Inductive Stage (Ctx : Type) : Type :=
| Exit (status : Z)
| MainLoop (ctx : Ctx).
Arguments Exit {Ctx} status.
Arguments MainLoop {Ctx} ctx.

(** * Variant 1: the multi-bus proxy (DBus_proxy.c) *)

Module MultiBus.

Record ProxyContext : Type := mkProxyContext {
  source_bus : option GDBusConnection;
  target_bus : option GDBusConnection;
  source_bus_name : string;
  source_object_path : string;
  proxy_bus_name : string;
  introspection_data : option GDBusNodeInfo;
  registration_id : nat;
  signal_subscriptions : list nat
}.

Definition set_introspection_data (d : option GDBusNodeInfo)
    (ctx : ProxyContext) : ProxyContext :=
  mkProxyContext (source_bus ctx) (target_bus ctx) (source_bus_name ctx)
    (source_object_path ctx) (proxy_bus_name ctx) d (registration_id ctx)
    (signal_subscriptions ctx).

Definition set_registration_id (id : nat) (ctx : ProxyContext)
  : ProxyContext :=
  mkProxyContext (source_bus ctx) (target_bus ctx) (source_bus_name ctx)
    (source_object_path ctx) (proxy_bus_name ctx) (introspection_data ctx)
    id (signal_subscriptions ctx).

Definition set_signal_subscriptions (l : list nat) (ctx : ProxyContext)
  : ProxyContext :=
  mkProxyContext (source_bus ctx) (target_bus ctx) (source_bus_name ctx)
    (source_object_path ctx) (proxy_bus_name ctx) (introspection_data ctx)
    (registration_id ctx) l.

Section Handlers.
(** The global [verbose] flag, and the context passed as [user_data]. *)
Variable verbose : bool.
Variable ctx : ProxyContext.

Definition handle_method_call
    (sender object_path interface_name method_name : string)
    (parameters : option GVariant) (invocation : GDBusMethodInvocation)
  : M unit :=
  (if verbose then
     t <- g_dbus_connection_get_unique_name (target_bus ctx) ;;
     s <- g_dbus_connection_get_unique_name (source_bus ctx) ;;
     g_print "Forwarding method call: %s.%s from %s to %s\n"
             [PStr interface_name; PStr method_name; PStr t; PStr s]
   else ret tt) ;;
  g_dbus_connection_call (source_bus ctx) (source_bus_name ctx)
    (source_object_path ctx) interface_name method_name parameters
    None (-1) invocation.

(** The ready callback given to [g_dbus_connection_call]. *)
Definition handle_method_call_ready (res : GVariant + GError)
    (user_data : GDBusMethodInvocation) : M unit :=
  let inv := user_data in
  let '(result, error) := g_dbus_connection_call_finish res in
  if non_null result then
    g_dbus_method_invocation_return_value inv result
  else
    g_dbus_method_invocation_return_gerror inv error ;;
    g_error_free error.

Definition on_signal_received
    (sender_name object_path interface_name signal_name : string)
    (parameters : option GVariant) : M unit :=
  (if verbose then
     s <- g_dbus_connection_get_unique_name (source_bus ctx) ;;
     t <- g_dbus_connection_get_unique_name (target_bus ctx) ;;
     g_print "Forwarding signal: %s.%s from %s to %s\n"
             [PStr interface_name; PStr signal_name; PStr s; PStr t]
   else ret tt) ;;
  '(_, error) <- g_dbus_connection_emit_signal (target_bus ctx) None
                   (source_object_path ctx) interface_name signal_name
                   parameters ;;
  match error with
  | Some e =>
      g_printerr "Failed to emit signal: %s\n" [PStr (message e)] ;;
      g_error_free error
  | None => ret tt
  end.

Definition handle_get_property
    (sender object_path interface_name property_name : string)
  : M (option GVariant * option GError) :=
  (if verbose then
     g_print "Forwarding property get: %s.%s\n"
             [PStr interface_name; PStr property_name]
   else ret tt) ;;
  '(result, error) <-
    g_dbus_connection_call_sync (source_bus ctx) (source_bus_name ctx)
      (source_object_path ctx) "org.freedesktop.DBus.Properties" "Get"
      (Some (g_variant_new_ss interface_name property_name))
      (Some "(v)") (-1) ;;
  match result with
  | Some r => ret (Some (g_variant_get_v r), error)
  | None => ret (None, error)
  end.

Definition handle_set_property
    (sender object_path interface_name property_name : string)
    (value : GVariant) : M (bool * option GError) :=
  (if verbose then
     g_print "Forwarding property set: %s.%s\n"
             [PStr interface_name; PStr property_name]
   else ret tt) ;;
  '(result, error) <-
    g_dbus_connection_call_sync (source_bus ctx) (source_bus_name ctx)
      (source_object_path ctx) "org.freedesktop.DBus.Properties" "Set"
      (Some (g_variant_new_ssv interface_name property_name value))
      None (-1) ;;
  match result with
  | Some _ => ret (true, error)
  | None => ret (false, error)
  end.

Definition callbacks : Callbacks :=
  mkCallbacks handle_method_call handle_method_call_ready
    (λ _ sender_name object_path interface_name signal_name parameters,
       on_signal_received sender_name object_path interface_name
                          signal_name parameters ;;
       ret (Returned tt))
    handle_get_property handle_set_property.

End Handlers.

Definition create_connection (address : string)
  : M (option GDBusConnection * option GError) :=
  if String.eqb address "system" then g_bus_get_sync G_BUS_TYPE_SYSTEM
  else if String.eqb address "session" then g_bus_get_sync G_BUS_TYPE_SESSION
  else g_dbus_connection_new_for_address_sync address.

(** The inner [for] loop of [setup_proxy]: one subscription per signal of
    the interface, each id prepended to [ctx->signal_subscriptions]. *)
Fixpoint subscribe_signals (ctx : ProxyContext) (iface : GDBusInterfaceInfo)
    (signals : list GDBusSignalInfo) : M ProxyContext :=
  match signals with
  | [] => ret ctx
  | sig :: rest =>
      subscription_id <-
        g_dbus_connection_signal_subscribe (source_bus ctx)
          (source_bus_name ctx) (iface_name iface) (signal_info_name sig)
          (source_object_path ctx) CbOnSignalReceived ;;
      subscribe_signals
        (set_signal_subscriptions
           (subscription_id :: signal_subscriptions ctx) ctx)
        iface rest
  end.

(** The outer [for] loop of [setup_proxy].  [error] is the function's one
    [GError *] variable: it is freed but not reset when a registration
    fails. *)
Fixpoint register_interfaces (ctx : ProxyContext) (error : GErrorSlot)
    (interfaces : list GDBusInterfaceInfo) : M (Outcome ProxyContext) :=
  match interfaces with
  | [] => ret (Returned ctx)
  | iface :: rest =>
      '(id, error) <-
        g_dbus_connection_register_object (target_bus ctx)
          (source_object_path ctx) iface error ;;
      let ctx := set_registration_id id ctx in
      if (registration_id ctx =? 0)%nat then
        with_slot_message error (λ msg,
          g_printerr "Failed to register interface %s: %s\n"
                     [PStr (iface_name iface); PStr msg] ;;
          and_then (slot_free error) (λ error,
            register_interfaces ctx error rest))
      else
        ctx <- match iface_signals iface with
               | Some signals => subscribe_signals ctx iface signals
               | None => ret ctx
               end ;;
        register_interfaces ctx error rest
  end.

Definition setup_proxy
    (source_address target_address source_service source_path
     proxy_service : string) : M (Outcome (option ProxyContext)) :=
  '(source, error) <- create_connection source_address ;;
  if negb (non_null source) then
    with_message error (λ msg,
      g_printerr "Failed to connect to source bus (%s): %s\n"
                 [PStr source_address; PStr msg] ;;
      g_error_free error ;;
      ret (Returned None))
  else
  '(target, error) <- create_connection target_address ;;
  if negb (non_null target) then
    with_message error (λ msg,
      g_printerr "Failed to connect to target bus (%s): %s\n"
                 [PStr target_address; PStr msg] ;;
      g_error_free error ;;
      g_object_unref source ;;
      ret (Returned None))
  else
  let ctx := mkProxyContext source target source_service source_path
                            proxy_service None 0 [] in
  '(xml, error) <-
    g_dbus_connection_call_sync (source_bus ctx) (source_bus_name ctx)
      (source_object_path ctx) "org.freedesktop.DBus.Introspectable"
      "Introspect" None (Some "(s)") (-1) ;;
  match xml with
  | None =>
      with_message error (λ msg,
        g_printerr "Introspection failed for %s: %s\n"
                   [PStr source_service; PStr msg] ;;
        g_error_free error ;;
        g_object_unref (source_bus ctx) ;;
        g_object_unref (target_bus ctx) ;;
        ret (Returned None))
  | Some xml =>
      let xml_data := g_variant_get_s xml in
      '(info, error) <- g_dbus_node_info_new_for_xml xml_data ;;
      let ctx := set_introspection_data info ctx in
      match introspection_data ctx with
      | None =>
          with_message error (λ msg,
            g_printerr "Failed to parse introspection XML: %s\n"
                       [PStr msg] ;;
            g_error_free error ;;
            g_object_unref (source_bus ctx) ;;
            g_object_unref (target_bus ctx) ;;
            ret (Returned None))
      | Some data =>
          match node_interfaces data with
          | None => ret (Undefined NullDeref)
          | Some interfaces =>
              and_then (register_interfaces ctx SlotNull interfaces) (λ ctx,
                _ <- g_bus_own_name_on_connection (target_bus ctx)
                       (proxy_bus_name ctx) ;;
                t <- g_dbus_connection_get_unique_name (target_bus ctx) ;;
                g_print "Proxy setup: %s (%s) -> %s (%s) as %s\n"
                        [PStr source_service; PStr source_address; PStr t;
                         PStr target_address; PStr proxy_service] ;;
                ret (Returned (Some ctx)))
          end
      end
  end.

(** A [ProxyContext *] handed to [cleanup_proxy]: [NULL], a context set up
    by [setup_proxy], or one that [cleanup_proxy] has already released with
    [g_free]. *)
Inductive ContextPtr : Type :=
| CtxNull
| CtxLive (ctx : ProxyContext)
| CtxFreed.

(** Returns what the pointer points to afterwards. *)
Definition cleanup_proxy (ctx : ContextPtr) : M (Outcome ContextPtr) :=
  match ctx with
  | CtxNull => ret (Returned CtxNull)
  | CtxFreed => ret (Undefined UseAfterFree)
  | CtxLive ctx =>
      for_each (signal_subscriptions ctx)
        (g_dbus_connection_signal_unsubscribe (source_bus ctx)) ;;
      (if (0 <? registration_id ctx)%nat then
         _ <- g_dbus_connection_unregister_object (target_bus ctx)
                (registration_id ctx) ;;
         ret tt
       else ret tt) ;;
      (if non_null (source_bus ctx) then g_object_unref (source_bus ctx)
       else ret tt) ;;
      (if non_null (target_bus ctx) then g_object_unref (target_bus ctx)
       else ret tt) ;;
      ret (Returned CtxFreed)
  end.

(** [main] after its command-line parsing, up to the point where it enters
    [g_main_loop_run] with [proxy_contexts] holding the one context. *)
Definition main_startup
    (source_address target_address source_service source_path
     proxy_service : string) : M (Outcome (Stage (list ProxyContext))) :=
  and_then (setup_proxy source_address target_address source_service
                        source_path proxy_service) (λ ctx,
    match ctx with
    | None => ret (Returned (Exit 1))
    | Some ctx =>
        let proxy_contexts := ctx :: [] in
        g_print "Multi-bus proxy running. Press Ctrl+C to stop.\n" [] ;;
        ret (Returned (MainLoop proxy_contexts))
    end).

(** [main] after the loop has been quit by SIGINT or SIGTERM. *)
Definition main_shutdown (proxy_contexts : list ProxyContext) : M Z :=
  for_each proxy_contexts (λ ctx,
    _ <- cleanup_proxy (CtxLive ctx) ;;
    ret tt) ;;
  ret 0.

(** ** The command line

    What the option loop of [main] leaves in the global [verbose] and in
    the five locals of [main]. *)
Record Options : Type := mkOptions {
  opt_verbose : bool;
  opt_source_address : string;
  opt_target_address : string;
  opt_source_service : string;
  opt_source_path : string;
  opt_proxy_service : string
}.

Definition default_options : Options :=
  mkOptions false "system" "session" "org.freedesktop.NetworkManager"
            "/org/freedesktop/NetworkManager" "org.example.Proxy".

Definition print_usage (prog_name : string) : M unit :=
  g_print "Usage: %s [options]\n" [PStr prog_name] ;;
  g_print "Options:\n" [] ;;
  g_print "  -v, --verbose              Enable verbose output\n" [] ;;
  g_print "  -s, --source ADDRESS       Source bus address (system|session|unix:path=...)\n" [] ;;
  g_print "  -t, --target ADDRESS       Target bus address (system|session|unix:path=...)\n" [] ;;
  g_print "  -n, --service-name NAME    Source service name\n" [] ;;
  g_print "  -p, --object-path PATH     Source object path\n" [] ;;
  g_print "  -x, --proxy-name NAME      Proxy service name\n" [] ;;
  g_print "\nExample:\n" [] ;;
  g_print "  %s -s system -t session -n org.freedesktop.NetworkManager \\\n"
          [PStr prog_name] ;;
  g_print "     -p /org/freedesktop/NetworkManager -x org.example.Proxy\n" [].

(** [g_strcmp0(arg, short) == 0 || g_strcmp0(arg, long) == 0] *)
Definition is_option (arg short long : string) : bool :=
  String.eqb arg short || String.eqb arg long.

(** The [for] loop over [argv[1..]]: [inl status] is a [return status]
    from inside the loop.  An option that takes a value consumes the next
    argument whatever it is; as the last argument it changes nothing
    ([if (++i < argc)]). *)
Fixpoint parse_args (prog_name : string) (args : list string) (o : Options)
  : M (Z + Options) :=
  match args with
  | [] => ret (inr o)
  | arg :: rest =>
      if is_option arg "-v" "--verbose" then
        parse_args prog_name rest
          (mkOptions true (opt_source_address o) (opt_target_address o)
             (opt_source_service o) (opt_source_path o)
             (opt_proxy_service o))
      else if is_option arg "-s" "--source" then
        match rest with
        | value :: rest =>
            parse_args prog_name rest
              (mkOptions (opt_verbose o) value (opt_target_address o)
                 (opt_source_service o) (opt_source_path o)
                 (opt_proxy_service o))
        | [] => ret (inr o)
        end
      else if is_option arg "-t" "--target" then
        match rest with
        | value :: rest =>
            parse_args prog_name rest
              (mkOptions (opt_verbose o) (opt_source_address o) value
                 (opt_source_service o) (opt_source_path o)
                 (opt_proxy_service o))
        | [] => ret (inr o)
        end
      else if is_option arg "-n" "--service-name" then
        match rest with
        | value :: rest =>
            parse_args prog_name rest
              (mkOptions (opt_verbose o) (opt_source_address o)
                 (opt_target_address o) value (opt_source_path o)
                 (opt_proxy_service o))
        | [] => ret (inr o)
        end
      else if is_option arg "-p" "--object-path" then
        match rest with
        | value :: rest =>
            parse_args prog_name rest
              (mkOptions (opt_verbose o) (opt_source_address o)
                 (opt_target_address o) (opt_source_service o) value
                 (opt_proxy_service o))
        | [] => ret (inr o)
        end
      else if is_option arg "-x" "--proxy-name" then
        match rest with
        | value :: rest =>
            parse_args prog_name rest
              (mkOptions (opt_verbose o) (opt_source_address o)
                 (opt_target_address o) (opt_source_service o)
                 (opt_source_path o) value)
        | [] => ret (inr o)
        end
      else if is_option arg "-h" "--help" then
        print_usage prog_name ;;
        ret (inl 0)
      else
        g_printerr "Unknown option: %s\n" [PStr arg] ;;
        print_usage prog_name ;;
        ret (inl 1)
  end.

(** [main] from its first statement up to [g_main_loop_run]; in the main
    loop the global [verbose] and [proxy_contexts] are as returned.
    [argv] is the whole argument vector, program name first. *)
Definition main (argv : list string)
  : M (Outcome (Stage (bool * list ProxyContext))) :=
  r <- match argv with
       | [] => ret (inr default_options)
       | prog_name :: args => parse_args prog_name args default_options
       end ;;
  match r with
  | inl status => ret (Returned (Exit status))
  | inr o =>
      stage <- main_startup (opt_source_address o) (opt_target_address o)
                 (opt_source_service o) (opt_source_path o)
                 (opt_proxy_service o) ;;
      ret (match stage with
           | Returned (MainLoop proxy_contexts) =>
               Returned (MainLoop (opt_verbose o, proxy_contexts))
           | Returned (Exit status) => Returned (Exit status)
           | Undefined why => Undefined why
           end)
  end.

End MultiBus.

(** * The C++ standard library, as the configuration reader uses it *)

Module Std.

(** The two exceptions these calls can throw. *)
Inductive exception : Type := out_of_range | invalid_argument.

Inductive Except (A : Type) : Type :=
| Normal (a : A)
| Throws (e : exception).
Arguments Normal {A} a.
Arguments Throws {A} e.

Definition and_next {A B : Type} (r : Except A) (k : A → Except B)
  : Except B :=
  match r with
  | Normal a => k a
  | Throws e => Throws e
  end.

(** [size_t] is 64 bits wide; arithmetic on it wraps around, and
    [std::string::npos] is its largest value.  Positions inside a string
    stay below [npos], so only the sums the program forms from [npos] are
    written with the wrap-around. *)
Definition npos : Z := 2 ^ 64 - 1.

Definition size_t (z : Z) : Z := z mod 2 ^ 64.

Definition INT_MAX : Z := 2 ^ 31 - 1.
Definition INT_MIN : Z := - 2 ^ 31.

Definition TAB : ascii := "009"%char.
Definition LF : ascii := "010"%char.
Definition VT : ascii := "011"%char.
Definition FF : ascii := "012"%char.
Definition CR : ascii := "013"%char.
Definition SPACE : ascii := " "%char.
Definition DOUBLE_QUOTE : ascii := "034"%char.
Definition SINGLE_QUOTE : ascii := "'"%char.

Definition size (s : string) : Z := Z.of_nat (String.length s).

Definition empty (s : string) : bool :=
  match s with
  | EmptyString => true
  | String _ _ => false
  end.

(** [s[0]] and [s.back()] of a string that is not empty; the program reads
    them only after it has checked the size. *)
Definition front (s : string) : ascii :=
  match s with
  | String c _ => c
  | EmptyString => "000"%char
  end.

Fixpoint back (s : string) : ascii :=
  match s with
  | EmptyString => "000"%char
  | String c EmptyString => c
  | String _ r => back r
  end.

Fixpoint contains (chars : string) (c : ascii) : bool :=
  match chars with
  | EmptyString => false
  | String d r => Ascii.eqb c d || contains r c
  end.

(** [s.find_first_not_of(chars)], scanning from a string of which [i]
    characters have been passed. *)
Fixpoint find_first_not_of_from (s chars : string) (i : Z) : Z :=
  match s with
  | EmptyString => npos
  | String c r =>
      if contains chars c then find_first_not_of_from r chars (i + 1) else i
  end.

Definition find_first_not_of (s chars : string) : Z :=
  find_first_not_of_from s chars 0.

(** [s.find_last_not_of(chars)]; [found] is the last position seen so far
    whose character is not in [chars]. *)
Fixpoint find_last_not_of_from (s chars : string) (i found : Z) : Z :=
  match s with
  | EmptyString => found
  | String c r =>
      find_last_not_of_from r chars (i + 1)
        (if contains chars c then found else i)
  end.

Definition find_last_not_of (s chars : string) : Z :=
  find_last_not_of_from s chars 0 npos.

(** [s.find(ch)] *)
Fixpoint find_from (s : string) (ch : ascii) (i : Z) : Z :=
  match s with
  | EmptyString => npos
  | String c r => if Ascii.eqb c ch then i else find_from r ch (i + 1)
  end.

Definition find (s : string) (ch : ascii) : Z := find_from s ch 0.

Fixpoint drop (n : nat) (s : string) : string :=
  match n, s with
  | O, _ => s
  | S _, EmptyString => EmptyString
  | S n, String _ r => drop n r
  end.

Fixpoint take (n : nat) (s : string) : string :=
  match n, s with
  | O, _ => EmptyString
  | S _, EmptyString => EmptyString
  | S n, String c r => String c (take n r)
  end.

(** [s.substr(pos, count)]: the characters from [pos] on, at most [count]
    of them; throws when [pos] lies beyond the end. *)
Definition substr (s : string) (pos count : Z) : Except string :=
  if (size s <? pos)%Z then Throws out_of_range
  else
    Normal (take (Z.to_nat (Z.min count (size s - pos)))
                 (drop (Z.to_nat pos) s)).

(** [s.erase(index, count)]: [s] without the [count] characters from
    [index] on (without all of them, when fewer are left); throws when
    [index] lies beyond the end.  [s.erase(index)] is
    [s.erase(index, npos)]. *)
Definition erase (s : string) (index count : Z) : Except string :=
  if (size s <? index)%Z then Throws out_of_range
  else
    Normal (take (Z.to_nat index) s
            +:+ drop (Z.to_nat (index + Z.min count (size s - index))) s).

(** [std::getline] called until it fails: the lines of a stream, without
    their line feeds.  A last line without a line feed is a line; nothing
    after the last line feed is not. *)
Fixpoint getlines (content : string) : list string :=
  match content with
  | EmptyString => []
  | String c r =>
      if Ascii.eqb c LF then EmptyString :: getlines r
      else
        match getlines r with
        | [] => [String c EmptyString]
        | line :: lines => String c line :: lines
        end
  end.

(** [std::stoi(str)], base 10, which is [strtol] and a range check: white
    space is skipped, a sign is optional, the digits that follow are the
    number and whatever comes after them is ignored.  Without a digit it
    throws [invalid_argument], with a number that is no [int] it throws
    [out_of_range]. *)
Definition isspace (c : ascii) : bool :=
  Ascii.eqb c SPACE || Ascii.eqb c TAB || Ascii.eqb c LF || Ascii.eqb c VT
  || Ascii.eqb c FF || Ascii.eqb c CR.

Definition digit_value (c : ascii) : option Z :=
  let n := Z.of_N (N_of_ascii c) in
  if (48 <=? n)%Z && (n <=? 57)%Z then Some (n - 48) else None.

Fixpoint skip_spaces (s : string) : string :=
  match s with
  | EmptyString => EmptyString
  | String c r => if isspace c then skip_spaces r else s
  end.

(** The digit loop: [None] when there is no digit at all. *)
Fixpoint read_digits (s : string) (acc : Z) (any : bool) : option Z :=
  match s with
  | EmptyString => if any then Some acc else None
  | String c r =>
      match digit_value c with
      | Some d => read_digits r (acc * 10 + d) true
      | None => if any then Some acc else None
      end
  end.

Definition stoi (str : string) : Except Z :=
  let s := skip_spaces str in
  let '(negative, s) :=
    match s with
    | String c r =>
        if Ascii.eqb c "-"%char then (true, r)
        else if Ascii.eqb c "+"%char then (false, r)
        else (false, s)
    | EmptyString => (false, s)
    end in
  match read_digits s 0 false with
  | None => Throws invalid_argument
  | Some n =>
      let value := if negative then - n else n in
      if (value <? INT_MIN)%Z || (INT_MAX <? value)%Z then
        Throws out_of_range
      else Normal value
  end.

(** [stream << n] for an [int]: decimal digits, most significant first,
    after a minus sign when negative.  [fuel] bounds the number of
    digits. *)
Definition digit_char (d : Z) : ascii := ascii_of_N (Z.to_N (48 + d)).

Fixpoint digits (fuel : nat) (n : Z) : string :=
  match fuel with
  | O => EmptyString
  | S fuel =>
      if (n <? 10)%Z then String (digit_char n) EmptyString
      else digits fuel (n / 10) +:+ String (digit_char (n mod 10)) EmptyString
  end.

Definition to_string (n : Z) : string :=
  let magnitude := Z.abs n in
  let text := digits (S (Z.to_nat (Z.log2 magnitude))) magnitude in
  if (n <? 0)%Z then String "-"%char text else text.

End Std.

(** * Variant 2: the configuration-file proxy *)

Module ConfigProxy.

Record ProxyConfig : Type := mkProxyConfig {
  source_bus_name : string;
  source_object_path : string;
  proxy_bus_name : string;
  bus_type : string;
  verbose : bool;
  enable_logging : bool;
  timeout_ms : Z;
  log_file : string
}.

Section Globals.
(** The globals [config] and [log_fp] (is a log file open), fixed before
    the bus is touched. *)
Variable config : ProxyConfig.
Variable log_fp : bool.

Definition log_message (fmt : string) (args : list PrintfArg) : M unit :=
  if negb (enable_logging config) then ret tt
  else if log_fp then emit (EvLogFile fmt args)
  else emit (EvPrint fmt args).

Definition message_or (error : option GError) (fallback : string)
  : string :=
  match error with
  | Some e => message e
  | None => fallback
  end.

Section Handlers.
(** The global [bus], set by [main] before any callback can run. *)
Variable bus : option GDBusConnection.

Definition handle_method_call
    (sender object_path interface_name method_name : string)
    (parameters : option GVariant) (invocation : GDBusMethodInvocation)
  : M unit :=
  (if verbose config then
     log_message "Forwarding method call: %s.%s from %s\n"
                 [PStr interface_name; PStr method_name; PStr sender]
   else ret tt) ;;
  g_dbus_connection_call bus (source_bus_name config)
    (source_object_path config) interface_name method_name parameters
    None (timeout_ms config) invocation.

Definition handle_method_call_ready (res : GVariant + GError)
    (user_data : GDBusMethodInvocation) : M unit :=
  let inv := user_data in
  let '(result, error) := g_dbus_connection_call_finish res in
  if non_null result then
    (if verbose config then
       log_message "Method call succeeded, returning result\n" []
     else ret tt) ;;
    g_dbus_method_invocation_return_value inv result
  else
    (if verbose config then
       log_message "Method call failed: %s\n"
                   [PStr (message_or error "Unknown error")]
     else ret tt) ;;
    g_dbus_method_invocation_return_error_literal inv G_IO_ERROR
      G_IO_ERROR_FAILED (message_or error "Call failed") ;;
    (if non_null error then g_error_free error else ret tt).

Definition handle_get_property
    (sender object_path interface_name property_name : string)
  : M (option GVariant * option GError) :=
  (if verbose config then
     log_message "Getting property: %s.%s from %s\n"
                 [PStr interface_name; PStr property_name; PStr sender]
   else ret tt) ;;
  '(result, error) <-
    g_dbus_connection_call_sync bus (source_bus_name config)
      (source_object_path config) "org.freedesktop.DBus.Properties"
      "Get" (Some (g_variant_new_ss interface_name property_name))
      (Some "(v)") (timeout_ms config) ;;
  match result with
  | None =>
      (if verbose config then
         log_message "Failed to get property %s.%s: %s\n"
                     [PStr interface_name; PStr property_name;
                      PStr (message_or error "Unknown error")]
       else ret tt) ;;
      ret (None, error)
  | Some r =>
      let value := g_variant_get_v r in
      (if verbose config then
         log_message "Property %s.%s retrieved successfully\n"
                     [PStr interface_name; PStr property_name]
       else ret tt) ;;
      ret (Some value, error)
  end.

Definition handle_set_property
    (sender object_path interface_name property_name : string)
    (value : GVariant) : M (bool * option GError) :=
  (if verbose config then
     log_message "Setting property: %s.%s from %s\n"
                 [PStr interface_name; PStr property_name; PStr sender]
   else ret tt) ;;
  '(result, error) <-
    g_dbus_connection_call_sync bus (source_bus_name config)
      (source_object_path config) "org.freedesktop.DBus.Properties"
      "Set" (Some (g_variant_new_ssv interface_name property_name value))
      None (timeout_ms config) ;;
  match result with
  | None =>
      (if verbose config then
         log_message "Failed to set property %s.%s: %s\n"
                     [PStr interface_name; PStr property_name;
                      PStr (message_or error "Unknown error")]
       else ret tt) ;;
      ret (false, error)
  | Some _ =>
      (if verbose config then
         log_message "Property %s.%s set successfully\n"
                     [PStr interface_name; PStr property_name]
       else ret tt) ;;
      ret (true, error)
  end.

Definition on_signal_received
    (sender_name object_path interface_name signal_name : string)
    (parameters : option GVariant) : M unit :=
  (if verbose config then
     log_message "Forwarding signal: %s.%s\n"
                 [PStr interface_name; PStr signal_name]
   else ret tt) ;;
  '(success, error) <-
    g_dbus_connection_emit_signal bus None (source_object_path config)
      interface_name signal_name parameters ;;
  if negb success && verbose config then
    log_message "Failed to emit signal: %s\n"
                [PStr (message_or error "Unknown error")] ;;
    (if non_null error then g_error_free error else ret tt)
  else ret tt.

Definition subscribe_to_properties_changed : M unit :=
  (if verbose config then
     log_message "Subscribing to PropertiesChanged signals\n" []
   else ret tt) ;;
  subscription_id <-
    g_dbus_connection_signal_subscribe bus (source_bus_name config)
      "org.freedesktop.DBus.Properties" "PropertiesChanged"
      (source_object_path config) CbOnSignalReceived ;;
  if (subscription_id =? 0)%nat then
    g_printerr "Failed to subscribe to PropertiesChanged signals\n" []
  else if verbose config then
    log_message
      "Subscribed to PropertiesChanged signals (subscription ID: %u)\n"
      [PNum (Z.of_nat subscription_id)]
  else ret tt.

Definition callbacks : Callbacks :=
  mkCallbacks handle_method_call handle_method_call_ready
    (λ _ sender_name object_path interface_name signal_name parameters,
       on_signal_received sender_name object_path interface_name
                          signal_name parameters ;;
       ret (Returned tt))
    handle_get_property handle_set_property.

(** The inner [for] loop of [main]; returns [signal_count]. *)
Fixpoint subscribe_signals (iface : GDBusInterfaceInfo)
    (signals : list GDBusSignalInfo) (signal_count : Z) : M Z :=
  match signals with
  | [] => ret signal_count
  | sig :: rest =>
      (if verbose config then
         log_message "Subscribing to signal: %s.%s\n"
                     [PStr (iface_name iface);
                      PStr (signal_info_name sig)]
       else ret tt) ;;
      subscription_id <-
        g_dbus_connection_signal_subscribe bus (source_bus_name config)
          (iface_name iface) (signal_info_name sig)
          (source_object_path config) CbOnSignalReceived ;;
      if (subscription_id =? 0)%nat then
        g_printerr "Failed to subscribe to signal %s.%s\n"
                   [PStr (iface_name iface);
                    PStr (signal_info_name sig)] ;;
        subscribe_signals iface rest signal_count
      else subscribe_signals iface rest (signal_count + 1)
  end.

(** The outer [for] loop of [main]; [error] is [main]'s one [GError *]
    variable, freed but not reset when a registration fails.  Returns
    [(interface_count, signal_count)]. *)
Fixpoint register_interfaces (error : GErrorSlot)
    (interface_count signal_count : Z)
    (interfaces : list GDBusInterfaceInfo) : M (Outcome (Z * Z)) :=
  match interfaces with
  | [] => ret (Returned (interface_count, signal_count))
  | iface :: rest =>
      log_message "Registering interface: %s\n"
                  [PStr (iface_name iface)] ;;
      '(registration_id, error) <-
        g_dbus_connection_register_object bus
          (source_object_path config) iface error ;;
      if (registration_id =? 0)%nat then
        with_slot_message error (λ msg,
          g_printerr "Failed to register interface %s: %s\n"
                     [PStr (iface_name iface); PStr msg] ;;
          and_then (slot_free error) (λ error,
            register_interfaces error interface_count signal_count
                                rest))
      else
        let interface_count := interface_count + 1 in
        signal_count <-
          match iface_signals iface with
          | Some signals => subscribe_signals iface signals signal_count
          | None => ret signal_count
          end ;;
        register_interfaces error interface_count signal_count rest
  end.

End Handlers.

(** [main] from "Connect to bus" up to [g_main_loop_run]; what precedes
    (command line, configuration file, log file) only fixes [config] and
    [log_fp].  In the main loop the globals [bus] and
    [introspection_data] are as returned. *)
Definition main_startup
  : M (Outcome (Stage (option GDBusConnection * option GDBusNodeInfo))) :=
  let bus_type_ := if String.eqb (bus_type config) "system"
                   then G_BUS_TYPE_SYSTEM else G_BUS_TYPE_SESSION in
  '(bus, error) <- g_bus_get_sync bus_type_ ;;
  if negb (non_null bus) then
    with_message error (λ msg,
      g_printerr "Failed to connect to %s bus: %s\n"
                 [PStr (bus_type config); PStr msg] ;;
      g_error_free error ;;
      ret (Returned (Exit 1)))
  else
  log_message "Connected to %s bus\n" [PStr (bus_type config)] ;;
  log_message "Introspecting %s at %s\n"
              [PStr (source_bus_name config);
               PStr (source_object_path config)] ;;
  '(xml, error) <-
    g_dbus_connection_call_sync bus (source_bus_name config)
      (source_object_path config) "org.freedesktop.DBus.Introspectable"
      "Introspect" None (Some "(s)") (timeout_ms config) ;;
  match xml with
  | None =>
      with_message error (λ msg,
        g_printerr "Introspection failed: %s\n" [PStr msg] ;;
        g_error_free error ;;
        ret (Returned (Exit 1)))
  | Some xml =>
      let xml_data := g_variant_get_s xml in
      '(introspection_data, error) <-
        g_dbus_node_info_new_for_xml xml_data ;;
      match introspection_data with
      | None =>
          with_message error (λ msg,
            g_printerr "Failed to parse introspection XML: %s\n"
                       [PStr msg] ;;
            g_error_free error ;;
            ret (Returned (Exit 1)))
      | Some data =>
          log_message "Introspection successful\n" [] ;;
          match node_interfaces data with
          | None => ret (Undefined NullDeref)
          | Some interfaces =>
              and_then (register_interfaces bus SlotNull 0 0 interfaces)
                (λ '(interface_count, signal_count),
                  log_message
                    "Registered %d interfaces with %d signal subscriptions\n"
                    [PNum interface_count; PNum signal_count] ;;
                  subscribe_to_properties_changed bus ;;
                  log_message "Acquiring bus name: %s\n"
                              [PStr (proxy_bus_name config)] ;;
                  _ <- g_bus_own_name bus_type_ (proxy_bus_name config) ;;
                  g_print "Proxy running: %s -> %s on %s bus\n"
                          [PStr (source_bus_name config);
                           PStr (proxy_bus_name config);
                           PStr (bus_type config)] ;;
                  ret (Returned (MainLoop (bus, introspection_data))))
          end
      end
  end.

End Globals.

(** ** The configuration: defaults, file, validation, template *)

(** The member initialisers of [struct ProxyConfig]. *)
Definition default_config : ProxyConfig :=
  mkProxyConfig "org.freedesktop.NetworkManager"
    "/org/freedesktop/NetworkManager" "org.example.Proxy" "system" false
    true 30000 "".

(** The character sets of the two kinds of trimming: [" \t\r\n"] and
    [" \t"]. *)
Definition LINE_SPACE : string :=
  String Std.SPACE (String Std.TAB (String Std.CR (String Std.LF ""))).

Definition BLANK : string := String Std.SPACE (String Std.TAB "").

(** Sequencing of code a library call of which may throw. *)
Definition unless_thrown {A B : Type} (r : Std.Except A)
    (k : A → M (Std.Except B)) : M (Std.Except B) :=
  match r with
  | Std.Normal a => k a
  | Std.Throws e => ret (Std.Throws e)
  end.

(** [s.erase(0, s.find_first_not_of(" \t"));
     s.erase(s.find_last_not_of(" \t") + 1);]
    as done to the key and to the value. *)
Definition trim (s : string) : Std.Except string :=
  Std.and_next (Std.erase s 0 (Std.find_first_not_of s BLANK)) (λ s,
    Std.erase s (Std.size_t (Std.find_last_not_of s BLANK + 1)) Std.npos).

(** "Remove quotes from value if present". *)
Definition unquote (value : string) : Std.Except string :=
  if (2 <=? Std.size value)%Z
     && ((Ascii.eqb (Std.front value) Std.DOUBLE_QUOTE
          && Ascii.eqb (Std.back value) Std.DOUBLE_QUOTE)
         || (Ascii.eqb (Std.front value) Std.SINGLE_QUOTE
             && Ascii.eqb (Std.back value) Std.SINGLE_QUOTE))
  then Std.substr value 1 (Std.size value - 2)
  else Std.Normal value.

Definition is_true (value : string) : bool :=
  String.eqb value "true" || String.eqb value "1" || String.eqb value "yes"
  || String.eqb value "on".

(** "Set configuration values": the chain of comparisons on [key]. *)
Definition set_value (key value : string) (config : ProxyConfig)
  : M (Std.Except ProxyConfig) :=
  if String.eqb key "source_bus_name" then
    ret (Std.Normal
           (mkProxyConfig value (source_object_path config)
              (proxy_bus_name config) (bus_type config) (verbose config)
              (enable_logging config) (timeout_ms config)
              (log_file config)))
  else if String.eqb key "source_object_path" then
    ret (Std.Normal
           (mkProxyConfig (source_bus_name config) value
              (proxy_bus_name config) (bus_type config) (verbose config)
              (enable_logging config) (timeout_ms config)
              (log_file config)))
  else if String.eqb key "proxy_bus_name" then
    ret (Std.Normal
           (mkProxyConfig (source_bus_name config)
              (source_object_path config) value (bus_type config)
              (verbose config) (enable_logging config) (timeout_ms config)
              (log_file config)))
  else if String.eqb key "bus_type" then
    ret (Std.Normal
           (mkProxyConfig (source_bus_name config)
              (source_object_path config) (proxy_bus_name config) value
              (verbose config) (enable_logging config) (timeout_ms config)
              (log_file config)))
  else if String.eqb key "verbose" then
    ret (Std.Normal
           (mkProxyConfig (source_bus_name config)
              (source_object_path config) (proxy_bus_name config)
              (bus_type config) (is_true value) (enable_logging config)
              (timeout_ms config) (log_file config)))
  else if String.eqb key "enable_logging" then
    ret (Std.Normal
           (mkProxyConfig (source_bus_name config)
              (source_object_path config) (proxy_bus_name config)
              (bus_type config) (verbose config) (is_true value)
              (timeout_ms config) (log_file config)))
  else if String.eqb key "timeout_ms" then
    unless_thrown (Std.stoi value) (λ n,
      ret (Std.Normal
             (mkProxyConfig (source_bus_name config)
                (source_object_path config) (proxy_bus_name config)
                (bus_type config) (verbose config) (enable_logging config)
                n (log_file config))))
  else if String.eqb key "log_file" then
    ret (Std.Normal
           (mkProxyConfig (source_bus_name config)
              (source_object_path config) (proxy_bus_name config)
              (bus_type config) (verbose config) (enable_logging config)
              (timeout_ms config) value))
  else
    g_printerr "Warning: Unknown config option: %s\n" [PStr key] ;;
    ret (Std.Normal config).

(** The body of the [while] loop of [loadFromFile] for one line, numbered
    [lineNum]; a [continue] gives the configuration back unchanged. *)
Definition process_line (lineNum : Z) (line : string) (config : ProxyConfig)
  : M (Std.Except ProxyConfig) :=
  let start := Std.find_first_not_of line LINE_SPACE in
  if (start =? Std.npos)%Z then ret (Std.Normal config)
  else
    let end_ := Std.find_last_not_of line LINE_SPACE in
    unless_thrown (Std.substr line start (Std.size_t (end_ - start + 1)))
      (λ line,
    if Std.empty line || Ascii.eqb (Std.front line) "#"%char
       || Ascii.eqb (Std.front line) ";"%char
    then ret (Std.Normal config)
    else
      let pos := Std.find line "="%char in
      if (pos =? Std.npos)%Z then
        g_printerr "Warning: Invalid line %d in config: %s\n"
                   [PNum lineNum; PStr line] ;;
        ret (Std.Normal config)
      else
        unless_thrown (Std.substr line 0 pos) (λ key,
        unless_thrown (Std.substr line (Std.size_t (pos + 1)) Std.npos)
          (λ value,
        unless_thrown (trim key) (λ key,
        unless_thrown (trim value) (λ value,
        unless_thrown (unquote value) (λ value,
        set_value key value config)))))).

(** The [while] loop, [lineNum] lines having been read before [lines]. *)
Fixpoint load_lines (lines : list string) (lineNum : Z)
    (config : ProxyConfig) : M (Std.Except ProxyConfig) :=
  match lines with
  | [] => ret (Std.Normal config)
  | line :: lines =>
      let lineNum := lineNum + 1 in
      r <- process_line lineNum line config ;;
      match r with
      | Std.Normal config => load_lines lines lineNum config
      | Std.Throws e => ret (Std.Throws e)
      end
  end.

(** [config.loadFromFile(filename)]; [file] is what opening the file
    gives: its content, or nothing when it cannot be opened.  Returns the
    function's result and the configuration it leaves. *)
Definition loadFromFile (filename : string) (file : option string)
    (config : ProxyConfig) : M (Std.Except (bool * ProxyConfig)) :=
  match file with
  | None =>
      g_printerr "Warning: Cannot open config file: %s, using defaults\n"
                 [PStr filename] ;;
      ret (Std.Normal (false, config))
  | Some content =>
      r <- load_lines (Std.getlines content) 0 config ;;
      ret (match r with
           | Std.Normal config => Std.Normal (true, config)
           | Std.Throws e => Std.Throws e
           end)
  end.

Definition bool_name (b : bool) : string := if b then "true" else "false".

Definition print (config : ProxyConfig) : M unit :=
  g_print "Configuration:\n" [] ;;
  g_print "  source_bus_name: %s\n" [PStr (source_bus_name config)] ;;
  g_print "  source_object_path: %s\n" [PStr (source_object_path config)] ;;
  g_print "  proxy_bus_name: %s\n" [PStr (proxy_bus_name config)] ;;
  g_print "  bus_type: %s\n" [PStr (bus_type config)] ;;
  g_print "  verbose: %s\n" [PStr (bool_name (verbose config))] ;;
  g_print "  enable_logging: %s\n"
          [PStr (bool_name (enable_logging config))] ;;
  g_print "  timeout_ms: %d\n" [PNum (timeout_ms config)] ;;
  g_print "  log_file: %s\n"
          [PStr (if Std.empty (log_file config) then "(none)"
                 else log_file config)].

Definition validate (config : ProxyConfig) : M bool :=
  if Std.empty (source_bus_name config) then
    g_printerr "Error: source_bus_name cannot be empty\n" [] ;;
    ret false
  else if Std.empty (source_object_path config) then
    g_printerr "Error: source_object_path cannot be empty\n" [] ;;
    ret false
  else if Std.empty (proxy_bus_name config) then
    g_printerr "Error: proxy_bus_name cannot be empty\n" [] ;;
    ret false
  else if negb (String.eqb (bus_type config) "system")
          && negb (String.eqb (bus_type config) "session") then
    g_printerr "Error: bus_type must be 'system' or 'session'\n" [] ;;
    ret false
  else if (timeout_ms config <=? 0)%Z then
    g_printerr "Error: timeout_ms must be positive\n" [] ;;
    ret false
  else ret true.

(** What [saveTemplate] streams into the file. *)
Definition NL : string := String Std.LF "".

Definition template_text (config : ProxyConfig) : string :=
  "# GDBus Proxy Configuration File" +:+ NL
  +:+ "# Lines starting with # or ; are comments" +:+ NL +:+ NL
  +:+ "# Source service to proxy" +:+ NL
  +:+ "source_bus_name=" +:+ source_bus_name config +:+ NL
  +:+ "source_object_path=" +:+ source_object_path config +:+ NL +:+ NL
  +:+ "# Proxy service name" +:+ NL
  +:+ "proxy_bus_name=" +:+ proxy_bus_name config +:+ NL +:+ NL
  +:+ "# Bus type: 'system' or 'session'" +:+ NL
  +:+ "bus_type=" +:+ bus_type config +:+ NL +:+ NL
  +:+ "# Enable verbose output" +:+ NL
  +:+ "verbose=" +:+ bool_name (verbose config) +:+ NL +:+ NL
  +:+ "# Enable logging" +:+ NL
  +:+ "enable_logging=" +:+ bool_name (enable_logging config) +:+ NL
  +:+ NL
  +:+ "# Timeout in milliseconds" +:+ NL
  +:+ "timeout_ms=" +:+ Std.to_string (timeout_ms config) +:+ NL +:+ NL
  +:+ "# Log file (empty for stdout)" +:+ NL
  +:+ "log_file=" +:+ log_file config +:+ NL.

(** The files the program can see: those that can be opened for reading,
    with their content, and the names that can be opened for writing. *)
Record Disk : Type := mkDisk {
  disk_files : gmap string string;
  disk_writable : string → bool
}.

Definition saveTemplate (config : ProxyConfig) (filename : string)
    (disk : Disk) : M Disk :=
  if negb (disk_writable disk filename) then
    g_printerr "Error: Cannot create config template: %s\n"
               [PStr filename] ;;
    ret disk
  else
    g_print "Configuration template saved to: %s\n" [PStr filename] ;;
    ret (mkDisk (<[filename := template_text config]> (disk_files disk))
                (disk_writable disk)).

(** [fopen(filename, "a")]: whether a stream was returned; the file
    exists afterwards. *)
Definition fopen_append (filename : string) (disk : Disk) : bool * Disk :=
  if disk_writable disk filename then
    (true,
     mkDisk (match disk_files disk !! filename with
             | Some _ => disk_files disk
             | None => <[filename := ""]> (disk_files disk)
             end)
            (disk_writable disk))
  else (false, disk).

(** ** The command line and [main] *)

Definition print_usage (program_name : string) : M unit :=
  g_print "Usage: %s [OPTIONS]\n" [PStr program_name] ;;
  g_print "Options:\n" [] ;;
  g_print "  -c, --config FILE     Use specific config file (default: proxy.conf)\n" [] ;;
  g_print "  -h, --help            Show this help\n" [] ;;
  g_print "  --create-config FILE  Create a sample config file\n" [] ;;
  g_print "  --show-config         Show current configuration and exit\n" [] ;;
  g_print "\nConfig file format:\n" [] ;;
  g_print "  source_bus_name=org.freedesktop.NetworkManager\n" [] ;;
  g_print "  source_object_path=/org/freedesktop/NetworkManager\n" [] ;;
  g_print "  proxy_bus_name=org.example.Proxy\n" [] ;;
  g_print "  bus_type=system\n" [] ;;
  g_print "  verbose=false\n" [] ;;
  g_print "  enable_logging=true\n" [] ;;
  g_print "  timeout_ms=30000\n" [] ;;
  g_print "  log_file=\n" [].

(** How the option loop of [main] ends: with a [return status], or at its
    end with the two locals it sets. *)
Inductive Parsed : Type :=
| Stop (status : Z)
| Go (config_file : string) (show_config_only : bool).

(** The [for] loop over [argv[1..]].  The global [config] still holds the
    defaults while it runs. *)
Fixpoint parse_args (program_name : string) (args : list string)
    (config_file : string) (show_config_only : bool) (disk : Disk)
  : M (Parsed * Disk) :=
  match args with
  | [] => ret (Go config_file show_config_only, disk)
  | arg :: rest =>
      if String.eqb arg "-h" || String.eqb arg "--help" then
        print_usage program_name ;;
        ret (Stop 0, disk)
      else if String.eqb arg "-c" || String.eqb arg "--config" then
        match rest with
        | value :: rest =>
            parse_args program_name rest value show_config_only disk
        | [] =>
            g_printerr "Error: --config requires a filename\n" [] ;;
            ret (Stop 1, disk)
        end
      else if String.eqb arg "--create-config" then
        match rest with
        | value :: _ =>
            disk <- saveTemplate default_config value disk ;;
            ret (Stop 0, disk)
        | [] =>
            g_printerr "Error: --create-config requires a filename\n" [] ;;
            ret (Stop 1, disk)
        end
      else if String.eqb arg "--show-config" then
        parse_args program_name rest config_file true disk
      else
        g_printerr "Error: Unknown option: %s\n" [PStr arg] ;;
        print_usage program_name ;;
        ret (Stop 1, disk)
  end.

(** How [main] stops executing statements of its own: as [main_startup]
    does, or terminated by an exception nothing catches. *)
Inductive Run : Type :=
| Ran (stage : Outcome (Stage (option GDBusConnection
                               * option GDBusNodeInfo)))
| Terminated (e : Std.exception).

(** [main] from its first statement up to [g_main_loop_run].  Returns how
    it stopped, the globals [config] and [log_fp] (is a log file open),
    and the files. *)
Definition main (argv : list string) (disk : Disk)
  : M (Run * (ProxyConfig * bool) * Disk) :=
  '(parsed, disk) <-
    match argv with
    | [] => ret (Go "proxy.conf" false, disk)
    | program_name :: args =>
        parse_args program_name args "proxy.conf" false disk
    end ;;
  match parsed with
  | Stop status => ret (Ran (Returned (Exit status)), (default_config, false), disk)
  | Go config_file show_config_only =>
      g_print "Loading configuration from: %s\n" [PStr config_file] ;;
      loaded <- loadFromFile config_file (disk_files disk !! config_file)
                  default_config ;;
      match loaded with
      | Std.Throws e => ret (Terminated e, (default_config, false), disk)
      | Std.Normal (_, config) =>
          valid <- validate config ;;
          if negb valid then
            ret (Ran (Returned (Exit 1)), (config, false), disk)
          else if show_config_only then
            print config ;;
            ret (Ran (Returned (Exit 0)), (config, false), disk)
          else
            (if verbose config then print config else ret tt) ;;
            '(log_fp, disk) <-
              (if negb (Std.empty (log_file config)) then
                 let '(log_fp, disk) :=
                   fopen_append (log_file config) disk in
                 (if negb log_fp then
                    g_printerr "Warning: Cannot open log file: %s\n"
                               [PStr (log_file config)]
                  else ret tt) ;;
                 ret (log_fp, disk)
               else ret (false, disk)) ;;
            stage <- main_startup config log_fp ;;
            ret (Ran stage, (config, log_fp), disk)
      end
  end.

End ConfigProxy.

(** * Variant 3: the cross-bus proxy *)

Module CrossBus.

Record ProxyConfig : Type := mkProxyConfig {
  source_bus_name : string;
  source_object_path : string;
  proxy_bus_name : string;
  source_bus_type : GBusType;
  target_bus_type : GBusType;
  verbose : bool
}.

(** The struct behind the global [proxy_state] pointer.  The two
    [GHashTable]s map an identifier to its label. *)
Record ProxyState : Type := mkProxyState {
  source_bus : option GDBusConnection;
  target_bus : option GDBusConnection;
  introspection_data : option GDBusNodeInfo;
  registered_objects : option (gmap nat string);
  signal_subscriptions : option (gmap nat string);
  config : ProxyConfig
}.

Definition set_source_bus (c : option GDBusConnection) (st : ProxyState)
  : ProxyState :=
  mkProxyState c (target_bus st) (introspection_data st)
    (registered_objects st) (signal_subscriptions st) (config st).

Definition set_target_bus (c : option GDBusConnection) (st : ProxyState)
  : ProxyState :=
  mkProxyState (source_bus st) c (introspection_data st)
    (registered_objects st) (signal_subscriptions st) (config st).

Definition set_introspection_data (d : option GDBusNodeInfo)
    (st : ProxyState) : ProxyState :=
  mkProxyState (source_bus st) (target_bus st) d (registered_objects st)
    (signal_subscriptions st) (config st).

Definition set_registered_objects (t : option (gmap nat string))
    (st : ProxyState) : ProxyState :=
  mkProxyState (source_bus st) (target_bus st) (introspection_data st) t
    (signal_subscriptions st) (config st).

Definition set_signal_subscriptions (t : option (gmap nat string))
    (st : ProxyState) : ProxyState :=
  mkProxyState (source_bus st) (target_bus st) (introspection_data st)
    (registered_objects st) t (config st).

(** [g_hash_table_insert]: a [NULL] table fails the argument check. *)
Definition g_hash_table_insert (table : option (gmap nat string))
    (key : nat) (value : string) : option (gmap nat string) :=
  match table with
  | Some t => Some (<[key := value]> t)
  | None => None
  end.

Definition message_or (error : option GError) (fallback : string) : string :=
  match error with
  | Some e => message e
  | None => fallback
  end.

Definition bus_type_name (t : GBusType) : string :=
  if decide (t = G_BUS_TYPE_SYSTEM) then "system" else "session".

Definition log_error (fmt : string) (args : list PrintfArg) : M unit :=
  g_printerr "[ERROR] " [] ;;
  g_printerr fmt args ;;
  g_printerr "\n" [].

Definition log_info (fmt : string) (args : list PrintfArg) : M unit :=
  g_print "[INFO] " [] ;;
  g_print fmt args ;;
  g_print "\n" [].

Section WithState.
(** What the global [proxy_state] points to while the function runs. *)
Variable st : ProxyState.

Definition log_verbose (fmt : string) (args : list PrintfArg) : M unit :=
  if negb (verbose (config st)) then ret tt
  else
    g_print "[VERBOSE] " [] ;;
    g_print fmt args ;;
    g_print "\n" [].

Definition handle_method_call
    (sender object_path interface_name method_name : string)
    (parameters : option GVariant) (invocation : GDBusMethodInvocation)
  : M unit :=
  log_verbose "Method call: %s.%s from %s object_path=%s"
              [PStr interface_name; PStr method_name; PStr sender;
               PStr object_path] ;;
  g_dbus_connection_call (source_bus st) (source_bus_name (config st))
    (source_object_path (config st)) interface_name method_name parameters
    None (-1) invocation.

Definition handle_method_call_ready (res : GVariant + GError)
    (user_data : GDBusMethodInvocation) : M unit :=
  let inv := user_data in
  let '(result, error) := g_dbus_connection_call_finish res in
  if non_null result then
    log_verbose "Method call successful, returning result" [] ;;
    g_dbus_method_invocation_return_value inv result
  else
    log_error "Method call failed: %s"
              [PStr (message_or error "Unknown error")] ;;
    g_dbus_method_invocation_return_gerror inv error ;;
    (if non_null error then g_error_free error else ret tt).

Definition handle_get_property
    (sender object_path interface_name property_name : string)
  : M (option GVariant * option GError) :=
  log_verbose "Property get: %s.%s from %s"
              [PStr interface_name; PStr property_name; PStr sender] ;;
  '(result, error) <-
    g_dbus_connection_call_sync (source_bus st)
      (source_bus_name (config st)) (source_object_path (config st))
      "org.freedesktop.DBus.Properties" "Get"
      (Some (g_variant_new_ss interface_name property_name))
      (Some "(v)") (-1) ;;
  match result with
  | Some r =>
      let value := g_variant_get_v r in
      log_verbose "Property get successful" [] ;;
      ret (Some value, error)
  | None =>
      log_error "Property get failed: %s"
                [PStr (message_or error "Unknown error")] ;;
      ret (None, error)
  end.

Definition handle_set_property
    (sender object_path interface_name property_name : string)
    (value : GVariant) : M (bool * option GError) :=
  log_verbose "Property set: %s.%s from %s"
              [PStr interface_name; PStr property_name; PStr sender] ;;
  '(result, error) <-
    g_dbus_connection_call_sync (source_bus st)
      (source_bus_name (config st)) (source_object_path (config st))
      "org.freedesktop.DBus.Properties" "Set"
      (Some (g_variant_new_ssv interface_name property_name value))
      None (-1) ;;
  match result with
  | Some _ =>
      log_verbose "Property set successful" [] ;;
      ret (true, error)
  | None =>
      log_error "Property set failed: %s"
                [PStr (message_or error "Unknown error")] ;;
      ret (false, error)
  end.

Definition on_signal_received
    (sender_name object_path interface_name signal_name : string)
    (parameters : option GVariant) : M unit :=
  log_verbose "Signal received: %s.%s from %s"
              [PStr interface_name; PStr signal_name; PStr sender_name] ;;
  '(success, error) <-
    g_dbus_connection_emit_signal (target_bus st) None
      (source_object_path (config st)) interface_name signal_name
      parameters ;;
  if success then log_verbose "Signal forwarded successfully" []
  else
    log_error "Failed to forward signal: %s"
              [PStr (message_or error "Unknown error")] ;;
    (if non_null error then g_error_free error else ret tt).

(** [on_properties_changed]: reads the name of the changed interface out
    of the payload with
    [g_variant_get_child(parameters, 0, "&s", &changed_interface)], into a
    variable that was never set, logs it and hands the signal to
    [on_signal_received]. *)
Definition on_properties_changed
    (sender_name object_path interface_name signal_name : string)
    (parameters : option GVariant) : M (Outcome unit) :=
  match g_variant_get_child_0_s parameters with
  | Undefined why => ret (Undefined why)
  | Returned changed_interface =>
      log_verbose "Properties changed signal for interface: %s"
                  [PStr changed_interface] ;;
      on_signal_received sender_name object_path interface_name signal_name
                         parameters ;;
      ret (Returned tt)
  end.

Definition callbacks : Callbacks :=
  mkCallbacks handle_method_call handle_method_call_ready
    (λ cb sender_name object_path interface_name signal_name parameters,
       match cb with
       | CbOnSignalReceived =>
           on_signal_received sender_name object_path interface_name
                              signal_name parameters ;;
           ret (Returned tt)
       | CbOnPropertiesChanged =>
           on_properties_changed sender_name object_path interface_name
                                 signal_name parameters
       end)
    handle_get_property handle_set_property.

End WithState.

Definition init_proxy_state (config : ProxyConfig) : bool * ProxyState :=
  (true, mkProxyState None None None (Some ∅) (Some ∅) config).

Definition connect_to_buses (st : ProxyState)
  : M (Outcome (bool * ProxyState)) :=
  '(conn, error) <- g_bus_get_sync (source_bus_type (config st)) ;;
  let st := set_source_bus conn st in
  if negb (non_null (source_bus st)) then
    with_message error (λ msg,
      log_error "Failed to connect to source bus: %s" [PStr msg] ;;
      g_error_free error ;;
      ret (Returned (false, st)))
  else
  log_info "Connected to source bus (%s)"
           [PStr (bus_type_name (source_bus_type (config st)))] ;;
  '(conn, error) <- g_bus_get_sync (target_bus_type (config st)) ;;
  let st := set_target_bus conn st in
  if negb (non_null (target_bus st)) then
    with_message error (λ msg,
      log_error "Failed to connect to target bus: %s" [PStr msg] ;;
      g_error_free error ;;
      ret (Returned (false, st)))
  else
  log_info "Connected to target bus (%s)"
           [PStr (bus_type_name (target_bus_type (config st)))] ;;
  ret (Returned (true, st)).

Definition fetch_introspection_data (st : ProxyState)
  : M (Outcome (bool * ProxyState)) :=
  log_info "Fetching introspection data from %s%s"
           [PStr (source_bus_name (config st));
            PStr (source_object_path (config st))] ;;
  '(xml_variant, error) <-
    g_dbus_connection_call_sync (source_bus st)
      (source_bus_name (config st)) (source_object_path (config st))
      "org.freedesktop.DBus.Introspectable" "Introspect" None
      (Some "(s)") (-1) ;;
  match xml_variant with
  | None =>
      with_message error (λ msg,
        log_error "Introspection failed: %s" [PStr msg] ;;
        g_error_free error ;;
        ret (Returned (false, st)))
  | Some xml_variant =>
      let xml_data := g_variant_get_s xml_variant in
      log_verbose st "Introspection XML received (%zu bytes)"
                  [PNum (Z.of_nat (String.length xml_data))] ;;
      '(info, error) <- g_dbus_node_info_new_for_xml xml_data ;;
      let st := set_introspection_data info st in
      if negb (non_null (introspection_data st)) then
        with_message error (λ msg,
          log_error "Failed to parse introspection XML: %s" [PStr msg] ;;
          g_error_free error ;;
          ret (Returned (false, st)))
      else
        log_info "Introspection data parsed successfully" [] ;;
        ret (Returned (true, st))
  end.

(** The inner [for] loop of [setup_proxy_interfaces]. *)
Fixpoint subscribe_signals (st : ProxyState) (iface : GDBusInterfaceInfo)
    (signals : list GDBusSignalInfo) : M ProxyState :=
  match signals with
  | [] => ret st
  | sig :: rest =>
      log_verbose st "Subscribing to signal: %s.%s"
                  [PStr (iface_name iface); PStr (signal_info_name sig)] ;;
      subscription_id <-
        g_dbus_connection_signal_subscribe (source_bus st)
          (source_bus_name (config st)) (iface_name iface)
          (signal_info_name sig) (source_object_path (config st))
          CbOnSignalReceived ;;
      subscribe_signals
        (set_signal_subscriptions
           (g_hash_table_insert (signal_subscriptions st) subscription_id
              (iface_name iface +:+ "." +:+ signal_info_name sig)) st)
        iface rest
  end.

(** The outer [for] loop of [setup_proxy_interfaces]; [false] is its
    [return FALSE].  Each iteration declares its own [error], initially
    [NULL]. *)
Fixpoint register_interfaces (st : ProxyState)
    (interfaces : list GDBusInterfaceInfo)
  : M (Outcome (bool * ProxyState)) :=
  match interfaces with
  | [] => ret (Returned (true, st))
  | iface :: rest =>
      log_info "Registering interface: %s" [PStr (iface_name iface)] ;;
      '(registration_id, error) <-
        g_dbus_connection_register_object (target_bus st)
          (source_object_path (config st)) iface SlotNull ;;
      if (registration_id =? 0)%nat then
        with_slot_message error (λ msg,
          log_error "Failed to register interface %s: %s"
                    [PStr (iface_name iface); PStr msg] ;;
          and_then (slot_free error) (λ _,
            ret (Returned (false, st))))
      else
        let st :=
          set_registered_objects
            (g_hash_table_insert (registered_objects st) registration_id
               (iface_name iface)) st in
        st <- match iface_signals iface with
              | Some signals => subscribe_signals st iface signals
              | None => ret st
              end ;;
        register_interfaces st rest
  end.

Definition setup_proxy_interfaces (st : ProxyState)
  : M (Outcome (bool * ProxyState)) :=
  match introspection_data st with
  | None => ret (Undefined NullDeref)
  | Some data =>
      match node_interfaces data with
      | None =>
          log_error "No interfaces found in introspection data" [] ;;
          ret (Returned (false, st))
      | Some interfaces =>
          and_then (register_interfaces st interfaces) (λ '(ok, st),
            if negb ok then ret (Returned (false, st))
            else
              props_subscription_id <-
                g_dbus_connection_signal_subscribe (source_bus st)
                  (source_bus_name (config st))
                  "org.freedesktop.DBus.Properties" "PropertiesChanged"
                  (source_object_path (config st)) CbOnPropertiesChanged ;;
              let st :=
                set_signal_subscriptions
                  (g_hash_table_insert (signal_subscriptions st)
                     props_subscription_id
                     "org.freedesktop.DBus.Properties.PropertiesChanged")
                  st in
              log_info
                "All interfaces registered and signal subscriptions set up"
                [] ;;
              ret (Returned (true, st)))
      end
  end.

Definition acquire_bus_name (st : ProxyState) : M bool :=
  log_info "Acquiring bus name: %s" [PStr (proxy_bus_name (config st))] ;;
  owner_id <- g_bus_own_name_on_connection (target_bus st)
                (proxy_bus_name (config st)) ;;
  if (owner_id =? 0)%nat then
    log_error "Failed to start owning bus name: %s"
              [PStr (proxy_bus_name (config st))] ;;
    ret false
  else
    log_info "Started owning process for bus name (owner id %u)"
             [PNum (Z.of_nat owner_id)] ;;
    ret true.

(** Takes the global [proxy_state] pointer and returns its new value. *)
Definition cleanup_proxy_state (proxy_state : option ProxyState)
  : M (option ProxyState) :=
  match proxy_state with
  | None => ret None
  | Some st =>
      match registered_objects st with
      | Some table =>
          for_each (map_to_list table) (λ '(key, value),
            _ <- g_dbus_connection_unregister_object (target_bus st) key ;;
            ret tt)
      | None => ret tt
      end ;;
      match signal_subscriptions st with
      | Some table =>
          for_each (map_to_list table) (λ '(key, value),
            g_dbus_connection_signal_unsubscribe (source_bus st) key)
      | None => ret tt
      end ;;
      (if non_null (source_bus st) then g_object_unref (source_bus st)
       else ret tt) ;;
      (if non_null (target_bus st) then g_object_unref (target_bus st)
       else ret tt) ;;
      ret None
  end.

(** [signal_handler]: returns the exit status and the global pointer. *)
Definition signal_handler (signum : Z) (proxy_state : option ProxyState)
  : M (Z * option ProxyState) :=
  log_info "Received signal %d, shutting down..." [PNum signum] ;;
  proxy_state <- cleanup_proxy_state proxy_state ;;
  ret (0, proxy_state).

(** [main] from the call of [setup_proxy_interfaces] up to
    [g_main_loop_run]. *)
Definition main_from_setup (st : ProxyState)
  : M (Outcome (Stage ProxyState) * option ProxyState) :=
  r <- setup_proxy_interfaces st ;;
  match r with
  | Undefined why => ret (Undefined why, Some st)
  | Returned (false, st) =>
      p <- cleanup_proxy_state (Some st) ;;
      ret (Returned (Exit 1), p)
  | Returned (true, st) =>
      ok <- acquire_bus_name st ;;
      if negb ok then
        p <- cleanup_proxy_state (Some st) ;;
        ret (Returned (Exit 1), p)
      else
        log_info "Cross-bus proxy is running and ready to forward calls" [] ;;
        log_info "Press Ctrl+C to stop" [] ;;
        ret (Returned (MainLoop st), Some st)
  end.

(** [main] from the call of [fetch_introspection_data] on. *)
Definition main_from_fetch (st : ProxyState)
  : M (Outcome (Stage ProxyState) * option ProxyState) :=
  r <- fetch_introspection_data st ;;
  match r with
  | Undefined why => ret (Undefined why, Some st)
  | Returned (false, st) =>
      p <- cleanup_proxy_state (Some st) ;;
      ret (Returned (Exit 1), p)
  | Returned (true, st) => main_from_setup st
  end.

(** [main] after command-line parsing and validation, up to
    [g_main_loop_run]: the stage reached, and the global [proxy_state]. *)
Definition main_startup (config : ProxyConfig)
  : M (Outcome (Stage ProxyState) * option ProxyState) :=
  log_info "Starting cross-bus D-Bus proxy" [] ;;
  log_info "Source: %s%s on %s bus"
           [PStr (source_bus_name config); PStr (source_object_path config);
            PStr (bus_type_name (source_bus_type config))] ;;
  log_info "Target: %s on %s bus"
           [PStr (proxy_bus_name config);
            PStr (bus_type_name (target_bus_type config))] ;;
  let '(ok, st) := init_proxy_state config in
  if negb ok then
    log_error "Failed to initialize proxy state" [] ;;
    ret (Returned (Exit 1), Some st)
  else
  r <- connect_to_buses st ;;
  match r with
  | Undefined why => ret (Undefined why, Some st)
  | Returned (false, st) =>
      p <- cleanup_proxy_state (Some st) ;;
      ret (Returned (Exit 1), p)
  | Returned (true, st) => main_from_fetch st
  end.

(** [main] after the loop has returned. *)
Definition main_shutdown (proxy_state : option ProxyState)
  : M (Z * option ProxyState) :=
  proxy_state <- cleanup_proxy_state proxy_state ;;
  ret (0, proxy_state).

(** ** The command line *)

(** The two name-owner callbacks handed to [g_bus_own_name_on_connection]. *)
Definition on_bus_name_acquired (name : string) : M unit :=
  log_info "Name acquired: %s" [PStr name].

Definition on_bus_name_lost (name : string) : M unit :=
  log_error "Name lost or failed to acquire: %s" [PStr name].

Definition parse_bus_type (bus_str : string) : GBusType :=
  if String.eqb bus_str "system" then G_BUS_TYPE_SYSTEM
  else if String.eqb bus_str "session" then G_BUS_TYPE_SESSION
  else G_BUS_TYPE_SYSTEM.

Definition print_usage (program_name : string) : M unit :=
  g_print "Usage: %s [OPTIONS]\n" [PStr program_name] ;;
  g_print "Cross-bus D-Bus proxy that forwards method calls and signals between buses.\n\n" [] ;;
  g_print "Options:\n" [] ;;
  g_print "  --source-bus-name NAME     Source service bus name (example: org.freedesktop.NetworkManager)\n" [] ;;
  g_print "  --source-object-path PATH  Source object path (example: /org/freedesktop/NetworkManager)\n" [] ;;
  g_print "  --proxy-bus-name NAME      Proxy bus name (example: org.example.Proxy)\n" [] ;;
  g_print "  --source-bus-type TYPE     Source bus type: system|session (default: system)\n" [] ;;
  g_print "  --target-bus-type TYPE     Target bus type: system|session (default: session)\n" [] ;;
  g_print "  --verbose                  Enable verbose logging\n" [] ;;
  g_print "  --help                     Show this help message\n" [].

(** [validateProxyConfigOrExit]: [Some status] is a call of [exit]. *)
Definition validateProxyConfigOrExit (config : ProxyConfig)
  : M (option Z) :=
  if (String.length (source_bus_name config) =? 0)%nat then
    log_error "Error: source_bus_name is required!\n" [] ;;
    ret (Some 1)
  else if (String.length (source_object_path config) =? 0)%nat then
    log_error "Error: source_object_path is required!\n" [] ;;
    ret (Some 1)
  else if (String.length (proxy_bus_name config) =? 0)%nat then
    log_error "Error: proxy_bus_name is required!\n" [] ;;
    ret (Some 1)
  else ret None.

Definition default_config : ProxyConfig :=
  mkProxyConfig "" "" "" G_BUS_TYPE_SYSTEM G_BUS_TYPE_SESSION false.

(** The [for] loop of [main] over [args], the part of [argv] from index
    [i] on; the loop starts at index 0, the program name.  An option that
    takes a value is recognised only when an argument follows
    ([i + 1 < argc]); otherwise the later tests of the chain see it.
    [inl status] is a [return status] from inside the loop. *)
Fixpoint parse_args (argc : nat) (argv0 : string) (args : list string)
    (config : ProxyConfig) : M (Z + ProxyConfig) :=
  match args with
  | [] => ret (inr config)
  | arg :: rest =>
      let more := match rest with [] => false | _ :: _ => true end in
      if String.eqb arg "--source-bus-name" && more then
        match rest with
        | value :: rest =>
            parse_args argc argv0 rest
              (mkProxyConfig value (source_object_path config)
                 (proxy_bus_name config) (source_bus_type config)
                 (target_bus_type config) (verbose config))
        | [] => ret (inr config)
        end
      else if String.eqb arg "--source-object-path" && more then
        match rest with
        | value :: rest =>
            parse_args argc argv0 rest
              (mkProxyConfig (source_bus_name config) value
                 (proxy_bus_name config) (source_bus_type config)
                 (target_bus_type config) (verbose config))
        | [] => ret (inr config)
        end
      else if String.eqb arg "--proxy-bus-name" && more then
        match rest with
        | value :: rest =>
            parse_args argc argv0 rest
              (mkProxyConfig (source_bus_name config)
                 (source_object_path config) value (source_bus_type config)
                 (target_bus_type config) (verbose config))
        | [] => ret (inr config)
        end
      else if String.eqb arg "--source-bus-type" && more then
        match rest with
        | value :: rest =>
            parse_args argc argv0 rest
              (mkProxyConfig (source_bus_name config)
                 (source_object_path config) (proxy_bus_name config)
                 (parse_bus_type value) (target_bus_type config)
                 (verbose config))
        | [] => ret (inr config)
        end
      else if String.eqb arg "--target-bus-type" && more then
        match rest with
        | value :: rest =>
            parse_args argc argv0 rest
              (mkProxyConfig (source_bus_name config)
                 (source_object_path config) (proxy_bus_name config)
                 (source_bus_type config) (parse_bus_type value)
                 (verbose config))
        | [] => ret (inr config)
        end
      else if String.eqb arg "--verbose" then
        parse_args argc argv0 rest
          (mkProxyConfig (source_bus_name config)
             (source_object_path config) (proxy_bus_name config)
             (source_bus_type config) (target_bus_type config) true)
      else if String.eqb arg "--help" || String.eqb arg "-h"
              || (argc =? 1)%nat then
        print_usage argv0 ;;
        ret (inl 0)
      else parse_args argc argv0 rest config
  end.

(** [main] from its first statement up to [g_main_loop_run]: the stage
    reached and the global [proxy_state].  [argv] is the whole argument
    vector, program name first. *)
Definition main (argv : list string)
  : M (Outcome (Stage ProxyState) * option ProxyState) :=
  r <- parse_args (length argv) (hd "" argv) argv default_config ;;
  match r with
  | inl status => ret (Returned (Exit status), None)
  | inr config =>
      exited <- validateProxyConfigOrExit config ;;
      match exited with
      | Some status => ret (Returned (Exit status), None)
      | None => main_startup config
      end
  end.

End CrossBus.

(** * What is observed of a run *)

(** The replies delivered to invocations, most recent first. *)
Definition returned (e : Event) : option (GDBusMethodInvocation * Reply) :=
  match e with
  | EvReturn inv r => Some (inv, r)
  | _ => None
  end.

Definition returns (w : World) : list (GDBusMethodInvocation * Reply) :=
  omap returned (trace w).

(** The method calls sent out, most recent first. *)
Definition called (e : Event)
  : option (GDBusConnection * string * string * string * string
            * option GVariant) :=
  match e with
  | EvCall c dest path iface method params _ =>
      Some (c, dest, path, iface, method, params)
  | _ => None
  end.

Definition calls (w : World) :=
  omap called (trace w).

Definition count {A : Type} (f : A → bool) (l : list A) : nat :=
  length (List.filter f l).

Definition replies_to (inv : GDBusMethodInvocation) (w : World) : nat :=
  count (λ p, Nat.eqb (fst p) inv) (returns w).

Definition pending_for (inv : GDBusMethodInvocation) (w : World) : nat :=
  count (λ pc, Nat.eqb (pc_user_data pc) inv) (pending w).

Definition accepts (inv : GDBusMethodInvocation) (ev : LoopEvent) : bool :=
  match ev with
  | MethodCall _ _ _ _ _ invocation => Nat.eqb invocation inv
  | _ => false
  end.

Definition accepted (inv : GDBusMethodInvocation) (evs : list LoopEvent)
  : nat :=
  count (accepts inv) evs.

(** The reply that answers the result of a forwarded call: the result
    value itself, or an error that carries the message of the source's
    error. *)
Definition reply_matches (res : GVariant + GError) (r : Reply) : Prop :=
  match res with
  | inl v => r = ReplyValue (Some v)
  | inr e => ∃ e', r = ReplyError e' ∧ message e' = message e
  end.

(** Code that neither replies to an invocation nor touches the outstanding
    calls. *)
Definition quiet {A : Type} (m : M A) : Prop :=
  ∀ w, pending (snd (m w)) = pending w ∧ returns (snd (m w)) = returns w.

(** The replies delivered to [inv] so far, most recent first, and the
    calls forwarded for it that are still outstanding. *)
Definition replies (inv : GDBusMethodInvocation) (w : World) : list Reply :=
  snd <$> List.filter (λ p, Nat.eqb (fst p) inv) (returns w).

Definition calls_for (inv : GDBusMethodInvocation) (w : World)
  : list PendingCall :=
  List.filter (λ pc, Nat.eqb (pc_user_data pc) inv) (pending w).

(** [inv] waits for the result of its one forwarded call [pc]; [inv] has
    been answered with [r] and has no call outstanding. *)
Definition waiting (inv : GDBusMethodInvocation) (pc : PendingCall)
    (w : World) : Prop :=
  calls_for inv w = [pc] ∧ replies inv w = [].

Definition answered (inv : GDBusMethodInvocation) (r : Reply) (w : World)
  : Prop :=
  calls_for inv w = [] ∧ replies inv w = [r].

(** An event whose payload has the shape its callback takes apart: a
    signal handed to the PropertiesChanged callback carries a string as the
    first child of its parameters, as the signal of the standard properties
    interface does.  The other callbacks take nothing apart. *)
Definition well_formed (ev : LoopEvent) : bool :=
  match ev with
  | SignalReceived CbOnPropertiesChanged _ _ _ _ parameters =>
      match g_variant_get_child_0_s parameters with
      | Returned _ => true
      | Undefined _ => false
      end
  | _ => true
  end.

(** The contract between a variant's callbacks that makes replies come out
    exactly once, on the events [ok] admits: the method-call handler parks
    one call for its invocation and replies nothing; the ready callback
    replies once to the invocation it is given, with the reply that answers
    the result; nothing else replies, and every callback returns. *)
Record Forwarder (cbs : Callbacks) (ok : LoopEvent → bool) : Prop :=
  mkForwarder {
  fw_call : ∀ sender path iface method params inv w,
    let w' := exec (cb_method_call cbs sender path iface method params inv) w in
    returns w' = returns w ∧
    ∃ pc, pc_user_data pc = inv ∧ pending w' = pending w ++ [pc];
  fw_ready : ∀ res inv w,
    let w' := exec (cb_call_ready cbs res inv) w in
    pending w' = pending w ∧
    ∃ r, reply_matches res r ∧ returns w' = (inv, r) :: returns w;
  fw_signal : ∀ cb sender path iface signal params w,
    ok (SignalReceived cb sender path iface signal params) = true →
    ∃ w', cb_signal cbs cb sender path iface signal params w
          = (Returned tt, w') ∧
          pending w' = pending w ∧ returns w' = returns w;
  fw_get : ∀ sender path iface property,
    quiet (cb_get_property cbs sender path iface property);
  fw_set : ∀ sender path iface property value,
    quiet (cb_set_property cbs sender path iface property value)
}.

(** Replies delivered to an invocation plus forwarded calls still
    outstanding for it. *)
Definition balance (inv : GDBusMethodInvocation) (w : World) : nat :=
  (replies_to inv w + pending_for inv w)%nat.

(** What relaying property access to the source means for a pair of
    handlers that talk to connection [c], service [dest], object [path]:
    both send one call to the standard properties interface; Get hands back
    the value found inside the variant of the reply, Set sends the caller's
    value boxed in a variant; either hands back the source's error as it
    is. *)
Definition properties_iface : string := "org.freedesktop.DBus.Properties".

Definition relays_properties
    (get : string → string → string → string →
           M (option GVariant * option GError))
    (set : string → string → string → string → GVariant →
           M (bool * option GError))
    (c : GDBusConnection) (dest path : string) : Prop :=
  ∀ sender object_path iface prop w,
    let get_params := Some (GVTuple [GVString iface; GVString prop]) in
    calls (exec (get sender object_path iface prop) w)
    = (c, dest, path, properties_iface, "Get", get_params) :: calls w ∧
    (∀ v, answer w c dest path properties_iface "Get" get_params
          = inl (GVTuple [GVBox v]) →
          eval (get sender object_path iface prop) w = (Some v, None)) ∧
    (∀ e, answer w c dest path properties_iface "Get" get_params = inr e →
          eval (get sender object_path iface prop) w = (None, Some e)) ∧
    ∀ value,
      let set_params :=
        Some (GVTuple [GVString iface; GVString prop; GVBox value]) in
      calls (exec (set sender object_path iface prop value) w)
      = (c, dest, path, properties_iface, "Set", set_params) :: calls w ∧
      (∀ r, answer w c dest path properties_iface "Set" set_params = inl r →
            eval (set sender object_path iface prop value) w
            = (true, None)) ∧
      (∀ e, answer w c dest path properties_iface "Set" set_params = inr e →
            eval (set sender object_path iface prop value) w
            = (false, Some e)).

(** [main] gave up before the introspection call: it returned a non-zero
    exit status, the line [report] went to stderr, and no method call was
    sent on any bus. *)
Definition exits_before_introspection {Ctx : Type}
    (r : Outcome (Stage Ctx)) (w w' : World) (report : Event) : Prop :=
  (∃ status, r = Returned (Exit status) ∧ status ≠ 0) ∧
  (∃ fmt args, report = EvPrintErr fmt args) ∧
  In report (trace w') ∧
  calls w' = calls w.

(** Events that put something on a bus. *)
Definition on_the_wire (e : Event) : bool :=
  match e with
  | EvCall _ _ _ _ _ _ _ | EvReturn _ _ | EvEmitSignal _ _ _ _ _
  | EvOwnName _ _ => true
  | _ => false
  end.

(** What a run has put on the buses so far, most recent first. *)
Definition wire (w : World) : list Event :=
  List.filter on_the_wire (trace w).

(** Code that puts nothing on a bus. *)
Definition offline {A : Type} (m : M A) : Prop :=
  ∀ w, wire (exec m w) = wire w.

(** A callback whose whole effect on world [w] is to print or free: it
    returns, leaving behind the events [events], none of them on a bus, and
    every connection, counter and outstanding call as it was. *)
Definition contained (m : M unit) (w : World) (events : list Event) : Prop :=
  exec m w = set_trace (events ++ trace w) w ∧
  forallb (λ e, negb (on_the_wire e)) events = true.

(** A callback that puts signal [ev] on the wire in world [w]. *)
Definition emits (m : M unit) (w : World) (ev : Event) : Prop :=
  In ev (trace (exec m w)) ∧ conns (exec m w) = conns w ∧
  pending (exec m w) = pending w.

(** ** Registrations and subscriptions as a setup leaves them *)

(** [install n vs m]: the values [vs] stored under the consecutive
    identifiers [n], [n+1], ... on top of [m]; identifiers are handed out
    from a global counter, so this is what a run of registrations or
    subscriptions adds to a table. *)
Fixpoint install {V : Type} (n : nat) (vs : list V) (m : gmap nat V)
  : gmap nat V :=
  match vs with
  | [] => m
  | v :: r => install (S n) r (<[n := v]> m)
  end.

(** The identifiers [install n vs] uses. *)
Definition installed_ids {V : Type} (n : nat) (vs : list V) : list nat :=
  seq n (length vs).

(** The match rules one interface gives rise to: one per declared signal. *)
Definition rules_of_signals (sender path : string)
    (iface : GDBusInterfaceInfo) (signals : list GDBusSignalInfo)
  : list SignalRule :=
  (λ sig, mkSignalRule sender (iface_name iface) (signal_info_name sig) path
                       CbOnSignalReceived) <$> signals.

Definition signal_rules (sender path : string) (iface : GDBusInterfaceInfo)
  : list SignalRule :=
  rules_of_signals sender path iface (default [] (iface_signals iface)).

Definition labels_of_signals (iface : GDBusInterfaceInfo)
    (signals : list GDBusSignalInfo) : list string :=
  (λ sig, iface_name iface +:+ "." +:+ signal_info_name sig) <$> signals.

Definition signal_labels (iface : GDBusInterfaceInfo) : list string :=
  labels_of_signals iface (default [] (iface_signals iface)).

(** The one rule for the standard property-change notification, scoped to
    the object path. *)
Definition properties_changed_rule (sender path : string)
    (callback : SignalCallback) : SignalRule :=
  mkSignalRule sender "org.freedesktop.DBus.Properties" "PropertiesChanged"
               path callback.

Definition exports_of (path : string) (interfaces : list GDBusInterfaceInfo)
  : list (string * string) :=
  (λ iface, (path, iface_name iface)) <$> interfaces.

(** Identifiers are fresh: the global counters start at 1 and lie above
    every identifier in use on any connection. *)
Definition world_wf (w : World) : Prop :=
  (1 ≤ next_registration_id w)%nat ∧
  (1 ≤ next_subscriber_id w)%nat ∧
  (∀ c id, (next_registration_id w ≤ id)%nat →
           exported (conns w c) !! id = None) ∧
  (∀ c id, (next_subscriber_id w ≤ id)%nat →
           subscriptions (conns w c) !! id = None).

(** From world [w] to world [w']: [exports] were registered on connection
    [t] and [rules] subscribed on connection [s], under the next free
    identifiers, and no other registration or subscription changed. *)
Definition registered_on (w w' : World) (t s : GDBusConnection)
    (exports : list (string * string)) (rules : list SignalRule) : Prop :=
  (∀ c, exported (conns w' c)
        = if decide (c = t)
          then install (next_registration_id w) exports (exported (conns w t))
          else exported (conns w c)) ∧
  (∀ c, subscriptions (conns w' c)
        = if decide (c = s)
          then install (next_subscriber_id w) rules
                       (subscriptions (conns w s))
          else subscriptions (conns w c)) ∧
  next_registration_id w' = (next_registration_id w + length exports)%nat ∧
  next_subscriber_id w' = (next_subscriber_id w + length rules)%nat.

(** None of [interfaces] is exported at [path] on bus [b] yet, and no two
    of them have the same name: each can be registered in turn. *)
Definition all_fresh (b : Bus) (path : string)
    (interfaces : list GDBusInterfaceInfo) : Prop :=
  NoDup (iface_name <$> interfaces) ∧
  ∀ iface, iface ∈ interfaces →
           exported_at b path (iface_name iface) = false.

(** Registering [bad] at [path] collides once [before] are registered on
    [b]: its name is exported already or is one of theirs. *)
Definition collides (b : Bus) (path : string)
    (before : list GDBusInterfaceInfo) (bad : GDBusInterfaceInfo) : Prop :=
  exported_at b path (iface_name bad) = true ∨
  iface_name bad ∈ iface_name <$> before.

(** The part of the world that printing and freeing leave alone. *)
Definition bus_state (w : World) :=
  (conns w, next_registration_id w, next_subscriber_id w, next_owner_id w,
   pending w, bus_get w, new_for_address w, answer w, parse_xml w).

Definition silent {A : Type} (m : M A) : Prop :=
  ∀ w, bus_state (exec m w) = bus_state w.

(** ** Configuration text *)

(** Every character of [s] is one of [chars]. *)
Fixpoint all_in (chars s : string) : bool :=
  match s with
  | EmptyString => true
  | String c r => Std.contains chars c && all_in chars r
  end.

(** [c] does not occur in [s]. *)
Fixpoint free_of (c : ascii) (s : string) : bool :=
  match s with
  | EmptyString => true
  | String d r => negb (Ascii.eqb d c) && free_of c r
  end.

(** A string that fits a [std::string] with room to spare for [npos]. *)
Definition fits (s : string) : Prop := (Std.size s < Std.npos)%Z.

(** A key as [loadFromFile] can read it back from a line: not empty, no
    ['='] in it, its first character neither white space nor a comment
    mark, its last character no blank. *)
Definition config_key (key : string) : bool :=
  negb (Std.empty key)
  && negb (Std.contains ConfigProxy.LINE_SPACE (Std.front key))
  && negb (Ascii.eqb (Std.front key) "#"%char)
  && negb (Ascii.eqb (Std.front key) ";"%char)
  && negb (Std.contains ConfigProxy.BLANK (Std.back key))
  && free_of "="%char key.

(** A value without white space at its ends. *)
Definition config_value (value : string) : bool :=
  Std.empty value
  || (negb (Std.contains ConfigProxy.BLANK (Std.front value))
      && negb (Std.contains ConfigProxy.LINE_SPACE (Std.back value))).

(** A value that starts and ends with the same quotation mark. *)
Definition quoted (value : string) : bool :=
  (2 <=? Std.size value)%Z
  && ((Ascii.eqb (Std.front value) Std.DOUBLE_QUOTE
       && Ascii.eqb (Std.back value) Std.DOUBLE_QUOTE)
      || (Ascii.eqb (Std.front value) Std.SINGLE_QUOTE
          && Ascii.eqb (Std.back value) Std.SINGLE_QUOTE)).

(** A line that is white space only, or whose first character after white
    space is a comment mark. *)
Definition comment_or_blank (line : string) : Prop :=
  ∃ pad rest,
    line = pad +:+ rest ∧ all_in ConfigProxy.LINE_SPACE pad = true ∧
    (rest = "" ∨ Std.front rest = "#"%char ∨ Std.front rest = ";"%char).

(** Every character of [s] is white space for [isspace]. *)
Fixpoint all_space (s : string) : bool :=
  match s with
  | EmptyString => true
  | String c r => Std.isspace c && all_space r
  end.

(** A value that a configuration line gives back as it is: no white space
    at its ends, not in quotation marks, no line feed in it. *)
Definition plain_value (value : string) : bool :=
  config_value value && negb (quoted value) && free_of Std.LF value.

(** Lines, each ended by a line feed, as one text. *)
Fixpoint unlines (lines : list string) : string :=
  match lines with
  | [] => ""
  | line :: lines => line +:+ ConfigProxy.NL +:+ unlines lines
  end.

(** The lines of the template that [saveTemplate] writes. *)
Definition template_lines (config : ConfigProxy.ProxyConfig) : list string :=
  [ "# GDBus Proxy Configuration File";
    "# Lines starting with # or ; are comments";
    "";
    "# Source service to proxy";
    "source_bus_name=" +:+ ConfigProxy.source_bus_name config;
    "source_object_path=" +:+ ConfigProxy.source_object_path config;
    "";
    "# Proxy service name";
    "proxy_bus_name=" +:+ ConfigProxy.proxy_bus_name config;
    "";
    "# Bus type: 'system' or 'session'";
    "bus_type=" +:+ ConfigProxy.bus_type config;
    "";
    "# Enable verbose output";
    "verbose=" +:+ ConfigProxy.bool_name (ConfigProxy.verbose config);
    "";
    "# Enable logging";
    "enable_logging="
    +:+ ConfigProxy.bool_name (ConfigProxy.enable_logging config);
    "";
    "# Timeout in milliseconds";
    "timeout_ms=" +:+ Std.to_string (ConfigProxy.timeout_ms config);
    "";
    "# Log file (empty for stdout)";
    "log_file=" +:+ ConfigProxy.log_file config ].

(** ** Runs that only print *)

Definition is_print (e : Event) : bool :=
  match e with
  | EvPrint _ _ | EvPrintErr _ _ => true
  | _ => false
  end.

(** Code whose whole effect is to print on stdout or stderr. *)
Definition prints_only {A : Type} (m : M A) : Prop :=
  ∀ w, ∃ events,
    exec m w = set_trace (events ++ trace w) w ∧
    forallb is_print events = true.

(** What [validate] accepts. *)
Definition valid_config (config : ConfigProxy.ProxyConfig) : bool :=
  negb (Std.empty (ConfigProxy.source_bus_name config))
  && negb (Std.empty (ConfigProxy.source_object_path config))
  && negb (Std.empty (ConfigProxy.proxy_bus_name config))
  && (String.eqb (ConfigProxy.bus_type config) "system"
      || String.eqb (ConfigProxy.bus_type config) "session")
  && (0 <? ConfigProxy.timeout_ms config)%Z.

(** What comes out of [main] when it stops before [main_startup]. *)
Definition stopped_early (run : ConfigProxy.Run) : Prop :=
  match run with
  | ConfigProxy.Ran (Returned (Exit _)) | ConfigProxy.Terminated _ => True
  | _ => False
  end.

(** ** The command line of the configuration-file variant *)

(** Arguments that only select something for the start-up, as the usage
    text describes them: [--show-config], and [-c] or [--config] with the
    file name after it. *)
Fixpoint selects_only (args : list string) : bool :=
  match args with
  | [] => true
  | arg :: rest =>
      if String.eqb arg "--show-config" then selects_only rest
      else if String.eqb arg "-c" || String.eqb arg "--config" then
        match rest with
        | _ :: rest => selects_only rest
        | [] => false
        end
      else false
  end.

(** The file such arguments select: the one named by the last [-c] or
    [--config], else [config_file]. *)
Fixpoint selected_file (args : list string) (config_file : string)
  : string :=
  match args with
  | [] => config_file
  | arg :: rest =>
      if String.eqb arg "--show-config" then selected_file rest config_file
      else if String.eqb arg "-c" || String.eqb arg "--config" then
        match rest with
        | value :: rest => selected_file rest value
        | [] => config_file
        end
      else config_file
  end.

(** Whether [--show-config] is among such arguments. *)
Fixpoint selected_show (args : list string) : bool :=
  match args with
  | [] => false
  | arg :: rest =>
      if String.eqb arg "--show-config" then true
      else if String.eqb arg "-c" || String.eqb arg "--config" then
        match rest with
        | _ :: rest => selected_show rest
        | [] => false
        end
      else false
  end.

(** The options the usage text lists. *)
Definition known_option (arg : string) : bool :=
  String.eqb arg "-h" || String.eqb arg "--help"
  || String.eqb arg "-c" || String.eqb arg "--config"
  || String.eqb arg "--create-config" || String.eqb arg "--show-config".

(** [main] on [argv] stops before it contacts a bus: it returns as [run]
    says, no log file open, with [config] in the global configuration and
    the files [disk'], having only printed, [said] among the lines. *)
Definition front_end_stops (argv : list string) (disk : ConfigProxy.Disk)
    (w : World) (run : ConfigProxy.Run) (config : ConfigProxy.ProxyConfig)
    (disk' : ConfigProxy.Disk) (said : Event) : Prop :=
  ∃ events,
    forallb is_print events = true ∧
    In said events ∧
    ConfigProxy.main argv disk w
    = ((run, (config, false), disk'), set_trace (events ++ trace w) w).

(** ** Command lines *)

(** The command line that spells out every option of the multi-bus
    variant, with the short or the long option names. *)
Definition multibus_command_line (long : bool) (o : MultiBus.Options)
  : list string :=
  (if MultiBus.opt_verbose o
   then [if long then "--verbose" else "-v"] else [])
  ++ [if long then "--source" else "-s"; MultiBus.opt_source_address o;
      if long then "--target" else "-t"; MultiBus.opt_target_address o;
      if long then "--service-name" else "-n"; MultiBus.opt_source_service o;
      if long then "--object-path" else "-p"; MultiBus.opt_source_path o;
      if long then "--proxy-name" else "-x"; MultiBus.opt_proxy_service o].

(** The command line that spells out a configuration of the cross-bus
    variant. *)
Definition crossbus_command_line (config : CrossBus.ProxyConfig)
  : list string :=
  ["--source-bus-name"; CrossBus.source_bus_name config;
   "--source-object-path"; CrossBus.source_object_path config;
   "--proxy-bus-name"; CrossBus.proxy_bus_name config;
   "--source-bus-type";
   CrossBus.bus_type_name (CrossBus.source_bus_type config);
   "--target-bus-type";
   CrossBus.bus_type_name (CrossBus.target_bus_type config)]
  ++ (if CrossBus.verbose config then ["--verbose"] else []).

(** The arguments the option loop of the cross-bus variant reacts to. *)
Definition crossbus_option (arg : string) : bool :=
  existsb (String.eqb arg)
    ["--source-bus-name"; "--source-object-path"; "--proxy-bus-name";
     "--source-bus-type"; "--target-bus-type"; "--verbose"; "--help"; "-h"].

(** The setting that one of the three required options of the cross-bus
    variant fills in. *)
Definition required_setting (option : string) (config : CrossBus.ProxyConfig)
  : string :=
  if String.eqb option "--source-bus-name" then
    CrossBus.source_bus_name config
  else if String.eqb option "--source-object-path" then
    CrossBus.source_object_path config
  else CrossBus.proxy_bus_name config.

(** ** Start-up that gives up *)

(** [main] gave up during start-up: it returned exit status 1 after the
    line [report] went to stderr; what it put on a bus is [sent], and no
    registration, subscription, name request or outstanding call was
    made. *)
Definition gives_up {Ctx : Type} (r : Outcome (Stage Ctx)) (w w' : World)
    (report : Event) (sent : list Event) : Prop :=
  r = Returned (Exit 1) ∧
  (∃ fmt args, report = EvPrintErr fmt args) ∧
  In report (trace w') ∧
  wire w' = sent ++ wire w ∧
  bus_state w' = bus_state w.

(** The introspection request of a start-up. *)
Definition introspect_call (c : GDBusConnection) (dest path : string)
    (timeout_msec : Z) : Event :=
  EvCall c dest path "org.freedesktop.DBus.Introspectable" "Introspect" None
         timeout_msec.

(** Code that does not ask for a bus name: the counter of name owners
    stays where it was, and so does the way the buses are reached. *)
Definition keeps_naming {A : Type} (m : M A) : Prop :=
  ∀ w, next_owner_id (exec m w) = next_owner_id w ∧
       bus_get (exec m w) = bus_get w.

(** ** A small concrete world for worked examples

    Connection 1 is the system bus, connection 2 the session bus; the
    source service answers [Introspect] with a document that [parse_xml]
    turns into the given interface array, and fails every other call. *)
Definition example_error : GError :=
  mkGError "g-dbus-error-quark" 19 "No such method".

Definition example_bus : Bus := mkBus ":1.42" false ∅ ∅.

Definition example_world (interfaces : option (list GDBusInterfaceInfo))
  : World :=
  mkWorld
    (λ t, match t with
          | G_BUS_TYPE_SYSTEM => inl 1%nat
          | G_BUS_TYPE_SESSION => inl 2%nat
          end)
    (λ _, inr (mkGError G_IO_ERROR 39 "Connection refused"))
    (λ _ _ _ _ method _,
       if String.eqb method "Introspect"
       then inl (GVTuple [GVString "<node/>"])
       else inr example_error)
    (λ _, inl (mkNodeInfo interfaces))
    (λ _, example_bus) 1 1 1 [] [].

(** The same world with the system bus unreachable. *)
Definition example_world_down : World :=
  mkWorld (λ _, inr (mkGError G_IO_ERROR 39 "Connection refused"))
    (new_for_address (example_world None)) (answer (example_world None))
    (parse_xml (example_world None)) (conns (example_world None))
    1 1 1 [] [].

(** The same world with every connection closed. *)
Definition example_world_closed : World :=
  mkWorld (bus_get (example_world None))
    (new_for_address (example_world None)) (answer (example_world None))
    (parse_xml (example_world None))
    (λ _, mkBus ":1.42" true ∅ ∅) 1 1 1 [] [].

Definition example_ctx : MultiBus.ProxyContext :=
  MultiBus.mkProxyContext (Some 1%nat) (Some 2%nat) "com.example.Source"
    "/com/example/Object" "org.example.Proxy" None 0 [].

Definition example_config : ConfigProxy.ProxyConfig :=
  ConfigProxy.mkProxyConfig "com.example.Source" "/com/example/Object"
    "org.example.Proxy" "system" false true 30000 "".

Definition example_cross_config : CrossBus.ProxyConfig :=
  CrossBus.mkProxyConfig "com.example.Source" "/com/example/Object"
    "org.example.Proxy" G_BUS_TYPE_SYSTEM G_BUS_TYPE_SESSION false.

Definition example_state : CrossBus.ProxyState :=
  CrossBus.mkProxyState (Some 1%nat) (Some 2%nat) None (Some ∅) (Some ∅)
    example_cross_config.

Definition demo_iface : GDBusInterfaceInfo :=
  mkInterfaceInfo "com.example.Demo" ["Echo"]
    (Some [mkSignalInfo "Ping"]) [].

Definition other_iface : GDBusInterfaceInfo :=
  mkInterfaceInfo "com.example.Other" [] None ["Level"].

(** The example world with a source that answers no call. *)
Definition example_world_mute : World :=
  mkWorld (bus_get (example_world None))
    (new_for_address (example_world None))
    (λ _ _ _ _ _ _, inr example_error)
    (parse_xml (example_world None)) (conns (example_world None))
    1 1 1 [] [].

(** The example world with an introspection document that does not
    parse. *)
Definition example_parse_error : GError :=
  mkGError "g-markup-error-quark" 1 "Document was empty".

Definition example_world_garbled : World :=
  mkWorld (bus_get (example_world None))
    (new_for_address (example_world None)) (answer (example_world None))
    (λ _, inr example_parse_error) (conns (example_world None))
    1 1 1 [] [].

(** The example world with the system bus up and the session bus
    unreachable. *)
Definition example_world_target_down : World :=
  mkWorld
    (λ t, match t with
          | G_BUS_TYPE_SYSTEM => inl 1%nat
          | G_BUS_TYPE_SESSION =>
              inr (mkGError G_IO_ERROR 39 "Connection refused")
          end)
    (new_for_address (example_world None)) (answer (example_world None))
    (parse_xml (example_world None)) (conns (example_world None))
    1 1 1 [] [].

(** The example world with [demo_iface] exported on the system bus
    already, under registration 1. *)
Definition example_world_taken : World :=
  mkWorld (bus_get (example_world None))
    (new_for_address (example_world None)) (answer (example_world None))
    (parse_xml (example_world None))
    (λ _, mkBus ":1.42" false
            {[1%nat := ("/com/example/Object", "com.example.Demo")]} ∅)
    2 1 1 [] [].

(** * Verification *)

(** ** The monad and the GIO model *)

Lemma exec_bind {A B : Type} (m : M A) (k : A → M B) (w : World) :
  exec (bind m k) w = exec (k (eval m w)) (exec m w).
Proof. unfold exec, eval, bind. destruct (m w); reflexivity. Qed.

Lemma eval_bind {A B : Type} (m : M A) (k : A → M B) (w : World) :
  eval (bind m k) w = eval (k (eval m w)) (exec m w).
Proof. unfold exec, eval, bind. destruct (m w); reflexivity. Qed.

Lemma run_bind {A B : Type} (m : M A) (k : A → M B) (w : World) :
  bind m k w = k (eval m w) (exec m w).
Proof. unfold exec, eval, bind. destruct (m w); reflexivity. Qed.

Lemma quiet_ret {A : Type} (a : A) : quiet (ret a).
Proof. intros w; split; reflexivity. Qed.

Lemma quiet_bind {A B : Type} (m : M A) (k : A → M B) :
  quiet m → (∀ a, quiet (k a)) → quiet (bind m k).
Proof.
  intros Hm Hk w. unfold bind. destruct (m w) as [a w1] eqn:E.
  destruct (Hm w) as [P1 R1]. rewrite E in P1, R1. simpl in P1, R1.
  destruct (Hk a w1) as [P2 R2]. split; congruence.
Qed.

Lemma quiet_emit (e : Event) : returned e = None → quiet (emit e).
Proof.
  intros He w. split; [reflexivity|].
  unfold returns; simpl. rewrite He. reflexivity.
Qed.

Lemma quiet_g_print fmt args : quiet (g_print fmt args).
Proof. apply quiet_emit; reflexivity. Qed.

Lemma quiet_g_printerr fmt args : quiet (g_printerr fmt args).
Proof. apply quiet_emit; reflexivity. Qed.

Lemma quiet_g_error_free error : quiet (g_error_free error).
Proof. destruct error; [apply quiet_emit; reflexivity | apply quiet_ret]. Qed.

Lemma quiet_get_unique_name conn :
  quiet (g_dbus_connection_get_unique_name conn).
Proof. intros w; split; reflexivity. Qed.

Lemma quiet_call_sync conn dest path iface method params ty timeout :
  quiet (g_dbus_connection_call_sync conn dest path iface method params ty
                                     timeout).
Proof.
  destruct conn as [c|]; [|apply quiet_ret].
  intros w. unfold g_dbus_connection_call_sync.
  destruct (answer w c dest path iface method params) as [v|e];
    [destruct (g_variant_is_of_type v ty)|]; split; reflexivity.
Qed.

Lemma quiet_emit_signal conn dest path iface signal params :
  quiet (g_dbus_connection_emit_signal conn dest path iface signal params).
Proof.
  destruct conn as [c|]; [|apply quiet_ret].
  intros w. unfold g_dbus_connection_emit_signal.
  destruct (closed (conns w c)); split; reflexivity.
Qed.

Ltac quiet_step :=
  first
    [ apply quiet_ret
    | apply quiet_g_print
    | apply quiet_g_printerr
    | apply quiet_g_error_free
    | apply quiet_get_unique_name
    | apply quiet_call_sync
    | apply quiet_emit_signal
    | apply quiet_emit; reflexivity
    | apply quiet_bind; [|intros ?]
    | match goal with
      | |- quiet (if ?b then _ else _) => destruct b
      | |- quiet (match ?x with _ => _ end) => destruct x
      end ].

Ltac quiet_tac := repeat quiet_step.

Lemma count_app {A : Type} (f : A → bool) (l1 l2 : list A) :
  count f (l1 ++ l2) = (count f l1 + count f l2)%nat.
Proof. unfold count. rewrite List.filter_app, length_app. reflexivity. Qed.

Lemma count_delete {A : Type} (f : A → bool) (l : list A) (i : nat) (x : A) :
  l !! i = Some x →
  (count f (delete i l) + (if f x then 1 else 0))%nat = count f l.
Proof.
  revert i. induction l as [|y l IH]; intros [|i] H; simpl in *;
    try discriminate.
  - injection H as ->. unfold count; simpl. destruct (f x); simpl; lia.
  - specialize (IH i H). unfold count in *; simpl.
    destruct (f y); simpl; lia.
Qed.

(** ** Replies are delivered exactly once *)

Lemma filter_delete_other {A : Type} (f : A → bool) (l : list A) (i : nat)
    (x : A) :
  l !! i = Some x → f x = false →
  List.filter f (delete i l) = List.filter f l.
Proof.
  revert i. induction l as [|y l IH]; intros [|i] H Hx; simpl in *;
    try discriminate.
  - injection H as ->. rewrite Hx. reflexivity.
  - rewrite (IH i H Hx). reflexivity.
Qed.

Lemma filter_delete_only {A : Type} (f : A → bool) (l : list A) (i : nat)
    (x y : A) :
  l !! i = Some x → f x = true → List.filter f l = [y] →
  x = y ∧ List.filter f (delete i l) = [].
Proof.
  revert i. induction l as [|z l IH]; intros [|i] H Hx Hf; simpl in *;
    try discriminate.
  - injection H as ->. rewrite Hx in Hf. injection Hf as -> Hf.
    split; [reflexivity | exact Hf].
  - destruct (f z) eqn:Hz.
    + injection Hf as -> Hf. exfalso.
      assert (Hin : In x (List.filter f l)).
      { apply List.filter_In. split; [|exact Hx].
        apply list_elem_of_In, list_elem_of_lookup. eauto. }
      rewrite Hf in Hin. destruct Hin.
    + destruct (IH i H Hx Hf) as [-> Hd]. split; [reflexivity | exact Hd].
Qed.

Lemma filter_nil_lookup {A : Type} (f : A → bool) (l : list A) (i : nat)
    (x : A) :
  List.filter f l = [] → l !! i = Some x → f x = false.
Proof.
  intros Hf H. destruct (f x) eqn:Hx; [|reflexivity]. exfalso.
  assert (Hin : In x (List.filter f l)).
  { apply List.filter_In. split; [|exact Hx].
    apply list_elem_of_In, list_elem_of_lookup. eauto. }
  rewrite Hf in Hin. destruct Hin.
Qed.

Lemma replies_to_length inv w : replies_to inv w = length (replies inv w).
Proof. unfold replies_to, count, replies. rewrite length_fmap. reflexivity. Qed.

Lemma pending_for_length inv w :
  pending_for inv w = length (calls_for inv w).
Proof. reflexivity. Qed.

Lemma fresh_invocation inv w :
  balance inv w = 0%nat → calls_for inv w = [] ∧ replies inv w = [].
Proof.
  unfold balance. rewrite replies_to_length, pending_for_length.
  intros H. split; apply length_zero_iff_nil; lia.
Qed.

Section ExactlyOnce.
Variable cbs : Callbacks.
Variable ok : LoopEvent → bool.
Hypothesis Hfw : Forwarder cbs ok.
Variable inv : GDBusMethodInvocation.

(** What the completion of a call does to the outstanding calls and to the
    replies. *)
Lemma call_finished_view i res w :
  let w' := exec (call_finished cbs i res) w in
  match pending w !! i with
  | Some pc0 =>
      pending w' = delete i (pending w) ∧
      ∃ r, reply_matches res r ∧
           returns w' = (pc_user_data pc0, r) :: returns w
  | None => pending w' = pending w ∧ returns w' = returns w
  end.
Proof.
  unfold call_finished. rewrite exec_bind.
  assert (Ht : take_pending i w
               = match pending w !! i with
                 | Some pc => (Some pc, set_pending (delete i (pending w)) w)
                 | None => (None, w)
                 end) by reflexivity.
  cbv zeta. unfold eval, exec. rewrite Ht.
  destruct (pending w !! i) as [pc0|] eqn:E; cbn [fst snd].
  - destruct (fw_ready cbs ok Hfw res (pc_user_data pc0)
                (set_pending (delete i (pending w)) w)) as [P [r [Hr R]]].
    unfold exec in P, R.
    split; [exact P|]. exists r. split; [exact Hr | exact R].
  - split; reflexivity.
Qed.

(** What one event does: every admitted event is handled to its end; a
    method call adds one outstanding call for its invocation, a completion
    removes the call it completes and answers its invocation, and nothing
    else touches calls or replies. *)
Lemma dispatch_view ev w :
  ok ev = true →
  ∃ w', dispatch cbs ev w = (Returned tt, w') ∧
        match ev with
        | MethodCall _ _ _ _ _ inv0 =>
            returns w' = returns w ∧
            ∃ pc0, pc_user_data pc0 = inv0 ∧ pending w' = pending w ++ [pc0]
        | CallFinished i res =>
            match pending w !! i with
            | Some pc0 =>
                pending w' = delete i (pending w) ∧
                ∃ r, reply_matches res r ∧
                     returns w' = (pc_user_data pc0, r) :: returns w
            | None => pending w' = pending w ∧ returns w' = returns w
            end
        | _ => pending w' = pending w ∧ returns w' = returns w
        end.
Proof.
  intros Hok.
  destruct ev as [s p i m a inv0 | i res | cb s p i g a | s p i g
                 | s p i g v]; cbn [dispatch].
  - rewrite run_bind. eexists. split; [reflexivity|].
    apply (fw_call cbs ok Hfw).
  - rewrite run_bind. eexists. split; [reflexivity|].
    apply call_finished_view.
  - destruct (fw_signal cbs ok Hfw cb s p i g a w Hok) as (w' & E & P & R).
    exists w'. split; [exact E|]. split; assumption.
  - rewrite run_bind. eexists. split; [reflexivity|].
    apply (fw_get cbs ok Hfw).
  - rewrite run_bind. eexists. split; [reflexivity|].
    apply (fw_set cbs ok Hfw).
Qed.

Lemma answered_step r ev w w' :
  answered inv r w → ok ev = true → accepts inv ev = false →
  dispatch cbs ev w = (Returned tt, w') → answered inv r w'.
Proof.
  intros [Hc Hr] Hok Hacc Hrun.
  destruct (dispatch_view ev w Hok) as (w0 & E & Hv).
  rewrite Hrun in E. injection E as <-.
  unfold answered, calls_for, replies in *.
  destruct ev as [s p i m a inv0 | i res | cb s p i g a | s p i g
                 | s p i g v]; cbn [accepts] in Hacc.
  - destruct Hv as [R [pc0 [Hpc P]]].
    rewrite R, P, List.filter_app. cbn [List.filter].
    rewrite Hpc, Hacc, Hc. split; [reflexivity | exact Hr].
  - destruct (pending w !! i) as [pc0|] eqn:Ei.
    + destruct Hv as [P [r0 [_ R]]].
      pose proof (filter_nil_lookup _ _ _ _ Hc Ei) as Hother.
      rewrite P, R. cbn [List.filter fst]. rewrite Hother.
      rewrite (filter_delete_other _ _ _ _ Ei Hother).
      split; [exact Hc | exact Hr].
    + destruct Hv as [P R]. rewrite P, R. split; assumption.
  - destruct Hv as [P R]. rewrite P, R. split; assumption.
  - destruct Hv as [P R]. rewrite P, R. split; assumption.
  - destruct Hv as [P R]. rewrite P, R. split; assumption.
Qed.

Lemma waiting_step pc ev w w' :
  waiting inv pc w → ok ev = true → accepts inv ev = false →
  dispatch cbs ev w = (Returned tt, w') →
  match ev with
  | CallFinished i res =>
      match pending w !! i with
      | Some pc0 =>
          if Nat.eqb (pc_user_data pc0) inv
          then pc0 = pc ∧ ∃ r, reply_matches res r ∧ answered inv r w'
          else waiting inv pc w'
      | None => waiting inv pc w'
      end
  | _ => waiting inv pc w'
  end.
Proof.
  intros [Hc Hr] Hok Hacc Hrun.
  destruct (dispatch_view ev w Hok) as (w0 & E & Hv).
  rewrite Hrun in E. injection E as <-.
  unfold waiting, answered, calls_for, replies in *.
  destruct ev as [s p i m a inv0 | i res | cb s p i g a | s p i g
                 | s p i g v]; cbn [accepts] in Hacc.
  - destruct Hv as [R [pc0 [Hpc P]]].
    rewrite R, P, List.filter_app. cbn [List.filter].
    rewrite Hpc, Hacc, Hc. split; [reflexivity | exact Hr].
  - destruct (pending w !! i) as [pc0|] eqn:Ei.
    + destruct Hv as [P [r0 [Hm R]]].
      destruct (Nat.eqb (pc_user_data pc0) inv) eqn:Hown.
      * destruct (filter_delete_only _ _ _ _ _ Ei Hown Hc) as [-> Hd].
        split; [reflexivity|]. exists r0. split; [exact Hm|].
        rewrite P, R. cbn [List.filter fst]. rewrite Hown.
        cbn [fmap list_fmap snd]. rewrite Hd.
        split; [reflexivity|].
        change (r0 :: (snd <$> List.filter (λ p, Nat.eqb (fst p) inv)
                                 (returns w)) = [r0]).
        rewrite Hr. reflexivity.
      * rewrite P, R. cbn [List.filter fst]. rewrite Hown.
        rewrite (filter_delete_other _ _ _ _ Ei Hown).
        split; [exact Hc | exact Hr].
    + destruct Hv as [P R]. rewrite P, R. split; assumption.
  - destruct Hv as [P R]. rewrite P, R. split; assumption.
  - destruct Hv as [P R]. rewrite P, R. split; assumption.
  - destruct Hv as [P R]. rewrite P, R. split; assumption.
Qed.

Lemma loop_cons ev evs w w1 :
  dispatch cbs ev w = (Returned tt, w1) →
  g_main_loop_run cbs (ev :: evs) w = g_main_loop_run cbs evs w1.
Proof.
  intros E. cbn [g_main_loop_run]. unfold and_then. rewrite run_bind.
  unfold eval, exec. rewrite E. reflexivity.
Qed.

(** The loop handles admitted events to the last one. *)
Lemma loop_runs evs w :
  forallb ok evs = true →
  ∃ w', g_main_loop_run cbs evs w = (Returned tt, w').
Proof.
  revert w. induction evs as [|ev evs IH]; intros w Hok.
  - exists w. reflexivity.
  - cbn [forallb] in Hok. apply andb_true_iff in Hok as [Hev Hrest].
    destruct (dispatch_view ev w Hev) as (w1 & E & _).
    rewrite (loop_cons _ _ _ _ E). apply IH, Hrest.
Qed.

Lemma loop_app before after w wb :
  g_main_loop_run cbs before w = (Returned tt, wb) →
  g_main_loop_run cbs (before ++ after) w = g_main_loop_run cbs after wb.
Proof.
  revert w. induction before as [|ev evs IH]; intros w E.
  - injection E as <-. reflexivity.
  - cbn [app]. revert E. cbn [g_main_loop_run]. unfold and_then.
    rewrite !run_bind.
    destruct (eval (dispatch cbs ev) w) as [[]|why] eqn:Ev.
    + apply IH.
    + discriminate.
Qed.

Lemma accepted_cons ev evs :
  accepted inv (ev :: evs) = 0%nat →
  accepts inv ev = false ∧ accepted inv evs = 0%nat.
Proof.
  unfold accepted, count. cbn [List.filter].
  destruct (accepts inv ev); cbn [length]; [discriminate | auto].
Qed.

Lemma accepted_app l1 l2 :
  accepted inv (l1 ++ l2) = 0%nat →
  accepted inv l1 = 0%nat ∧ accepted inv l2 = 0%nat.
Proof. unfold accepted. rewrite count_app. lia. Qed.

Lemma answered_loop r evs w w' :
  answered inv r w → forallb ok evs = true → accepted inv evs = 0%nat →
  g_main_loop_run cbs evs w = (Returned tt, w') → answered inv r w'.
Proof.
  revert w. induction evs as [|ev evs IH]; intros w Ha Hok Hacc Hrun.
  - injection Hrun as <-. exact Ha.
  - cbn [forallb] in Hok. apply andb_true_iff in Hok as [Hev Hrest].
    apply accepted_cons in Hacc as [Hacc1 Hacc2].
    destruct (dispatch_view ev w Hev) as (w1 & E & _).
    rewrite (loop_cons _ _ _ _ E) in Hrun.
    apply (IH w1); try assumption.
    apply (answered_step r ev w w1); assumption.
Qed.

Lemma waiting_loop pc evs w w' :
  waiting inv pc w → forallb ok evs = true → accepted inv evs = 0%nat →
  g_main_loop_run cbs evs w = (Returned tt, w') →
  waiting inv pc w' ∨ ∃ r, answered inv r w'.
Proof.
  revert w. induction evs as [|ev evs IH]; intros w Hw Hok Hacc Hrun.
  - injection Hrun as <-. left. exact Hw.
  - cbn [forallb] in Hok. apply andb_true_iff in Hok as [Hev Hrest].
    apply accepted_cons in Hacc as [Hacc1 Hacc2].
    destruct (dispatch_view ev w Hev) as (w1 & E & _).
    rewrite (loop_cons _ _ _ _ E) in Hrun.
    pose proof (waiting_step pc ev w w1 Hw Hev Hacc1 E) as Hstep.
    assert (Hcase : waiting inv pc w1 ∨ ∃ r, answered inv r w1).
    { destruct ev as [s p i m a inv0 | i res | cb s p i g a | s p i g
                     | s p i g v]; try (left; exact Hstep).
      destruct (pending w !! i) as [pc0|]; [|left; exact Hstep].
      destruct (Nat.eqb (pc_user_data pc0) inv); [|left; exact Hstep].
      destruct Hstep as (_ & r & _ & Ha). right. exists r. exact Ha. }
    destruct Hcase as [Hw1 | [r Ha]].
    + apply (IH w1); assumption.
    + right. exists r. apply (answered_loop r evs w1); assumption.
Qed.

(** The main loop finishing the outstanding calls. *)
Lemma exec_finish_calls_S results n pc0 rest w :
  pending w = pc0 :: rest →
  exec (finish_calls cbs results (S n)) w
  = exec (finish_calls cbs results n)
         (exec (call_finished cbs 0 (results pc0)) w).
Proof.
  intros E. unfold exec at 1. simpl. rewrite E.
  rewrite run_bind. reflexivity.
Qed.

Lemma exec_finish_calls_nil results n w :
  pending w = [] → exec (finish_calls cbs results n) w = w.
Proof.
  intros E. destruct n; unfold exec; simpl; [reflexivity|].
  rewrite E. reflexivity.
Qed.

Lemma finish_calls_pending results n w :
  pending (exec (finish_calls cbs results n) w) = drop n (pending w).
Proof.
  revert w. induction n as [|n IH]; intros w.
  - rewrite drop_0. reflexivity.
  - destruct (pending w) as [|pc0 rest] eqn:E.
    + rewrite exec_finish_calls_nil by exact E. rewrite E. reflexivity.
    + rewrite (exec_finish_calls_S _ _ pc0 rest) by exact E.
      rewrite IH.
      pose proof (call_finished_view 0 (results pc0) w) as Hv.
      rewrite E in Hv. cbn [lookup list_lookup] in Hv.
      destruct Hv as [P _]. rewrite P. reflexivity.
Qed.

Lemma finish_all_pending results w :
  pending (exec (finish_all cbs results) w) = [].
Proof.
  unfold finish_all, exec.
  fold (exec (finish_calls cbs results (length (pending w))) w).
  rewrite finish_calls_pending. apply drop_all.
Qed.

Lemma call_finished_head_answered r results pc0 rest w :
  pending w = pc0 :: rest → answered inv r w →
  answered inv r (exec (call_finished cbs 0 (results pc0)) w).
Proof.
  intros E [Hc Hr].
  pose proof (call_finished_view 0 (results pc0) w) as Hv.
  assert (Ei : pending w !! 0%nat = Some pc0) by (rewrite E; reflexivity).
  rewrite Ei in Hv. destruct Hv as [P [r0 [_ R]]].
  unfold answered, calls_for, replies in *.
  pose proof (filter_nil_lookup _ _ _ _ Hc Ei) as Hother.
  rewrite P, R. cbn [List.filter fst]. rewrite Hother.
  rewrite (filter_delete_other _ _ _ _ Ei Hother).
  split; [exact Hc | exact Hr].
Qed.

Lemma finish_calls_answered r results n w :
  answered inv r w → answered inv r (exec (finish_calls cbs results n) w).
Proof.
  revert w. induction n as [|n IH]; intros w Ha; [exact Ha|].
  destruct (pending w) as [|pc0 rest] eqn:E.
  - rewrite exec_finish_calls_nil by exact E. exact Ha.
  - rewrite (exec_finish_calls_S _ _ pc0 rest) by exact E.
    apply IH, (call_finished_head_answered r results pc0 rest); assumption.
Qed.

Lemma finish_calls_waiting pc results n w :
  waiting inv pc w →
  let w' := exec (finish_calls cbs results n) w in
  waiting inv pc w' ∨ ∃ r, reply_matches (results pc) r ∧ answered inv r w'.
Proof.
  revert w. induction n as [|n IH]; intros w Hw; [left; exact Hw|].
  destruct (pending w) as [|pc0 rest] eqn:E.
  - cbv zeta. rewrite exec_finish_calls_nil by exact E. left. exact Hw.
  - cbv zeta. rewrite (exec_finish_calls_S _ _ pc0 rest) by exact E.
    pose proof (call_finished_view 0 (results pc0) w) as Hv.
    assert (Ei : pending w !! 0%nat = Some pc0) by (rewrite E; reflexivity).
    rewrite Ei in Hv. destruct Hv as [P [r0 [Hm R]]].
    destruct Hw as [Hc Hr]. unfold calls_for, replies in Hc, Hr.
    destruct (Nat.eqb (pc_user_data pc0) inv) eqn:Hown.
    + destruct (filter_delete_only _ _ _ _ _ Ei Hown Hc) as [-> Hd].
      right. exists r0. split; [exact Hm|].
      apply finish_calls_answered.
      unfold answered, calls_for, replies.
      rewrite P, R. cbn [List.filter fst]. rewrite Hown.
      cbn [fmap list_fmap snd]. rewrite Hd. split; [reflexivity|].
      change (r0 :: (snd <$> List.filter (λ p, Nat.eqb (fst p) inv)
                               (returns w)) = [r0]).
      rewrite Hr. reflexivity.
    + apply IH. unfold waiting, calls_for, replies.
      rewrite P, R. cbn [List.filter fst]. rewrite Hown.
      rewrite (filter_delete_other _ _ _ _ Ei Hown).
      split; [exact Hc | exact Hr].
Qed.

(** An invocation that waits for its forwarded call [pc], while the main
    loop handles the events [later]: it has one reply or its one call
    outstanding, never both and never neither; the completion of its call
    is answered with the reply that belongs to the result, and that is its
    one reply from then on; and once the main loop has finished the
    outstanding calls it has exactly one reply. *)
Lemma forwarder_exactly_once pc (later : list LoopEvent) w1 :
  waiting inv pc w1 →
  forallb ok later = true →
  accepted inv later = 0%nat →
  ∃ w2,
    g_main_loop_run cbs later w1 = (Returned tt, w2) ∧
    (replies_to inv w2 + pending_for inv w2 = 1)%nat ∧
    (∀ before i res after wb pc',
       later = before ++ CallFinished i res :: after →
       g_main_loop_run cbs before w1 = (Returned tt, wb) →
       pending wb !! i = Some pc' →
       pc_user_data pc' = inv →
       pc' = pc ∧ ∃ r, reply_matches res r ∧ replies inv w2 = [r]) ∧
    (∀ results,
       let w3 := exec (finish_all cbs results) w2 in
       pending w3 = [] ∧
       ∃ r, replies inv w3 = [r] ∧
            (pending_for inv w2 = 1%nat → reply_matches (results pc) r)).
Proof.
  intros Hw Hok Hacc.
  destruct (loop_runs later w1 Hok) as (w2 & Hrun).
  exists w2. split; [exact Hrun|].
  pose proof (waiting_loop pc later w1 w2 Hw Hok Hacc Hrun) as Hend.
  split; [|split].
  - rewrite replies_to_length, pending_for_length.
    destruct Hend as [[Hc Hr] | [r [Hc Hr]]]; rewrite Hc, Hr; reflexivity.
  - intros before i res after wb pc' -> Hb Hi Hown.
    rewrite forallb_app in Hok. apply andb_true_iff in Hok as [Hok1 Hok2].
    cbn [forallb] in Hok2. apply andb_true_iff in Hok2 as [Hev Hok2].
    apply accepted_app in Hacc as [Hacc1 Hacc2].
    apply accepted_cons in Hacc2 as [Hacc2 Hacc3].
    apply Nat.eqb_eq in Hown.
    assert (Hwb : waiting inv pc wb).
    { destruct (waiting_loop pc before w1 wb Hw Hok1 Hacc1 Hb)
        as [Hwb | [r [Hc _]]]; [exact Hwb|].
      unfold calls_for in Hc.
      rewrite (filter_nil_lookup _ _ _ _ Hc Hi) in Hown. discriminate. }
    rewrite (loop_app _ _ _ _ Hb) in Hrun.
    destruct (dispatch_view (CallFinished i res) wb Hev) as (wc & E & _).
    rewrite (loop_cons _ _ _ _ E) in Hrun.
    pose proof (waiting_step pc _ wb wc Hwb Hev Hacc2 E) as Hstep.
    cbv beta iota in Hstep. rewrite Hi, Hown in Hstep. destruct Hstep as (-> & r & Hm & Ha).
    split; [reflexivity|]. exists r. split; [exact Hm|].
    apply (answered_loop r after wc w2 Ha Hok2 Hacc3 Hrun).
  - intros results w3. split; [apply finish_all_pending|].
    unfold w3, finish_all, exec.
    fold (exec (finish_calls cbs results (length (pending w2))) w2).
    destruct Hend as [Hw2 | [r Ha]].
    + pose proof (finish_calls_pending results (length (pending w2)) w2)
        as Hp.
      rewrite drop_all in Hp.
      destruct (finish_calls_waiting pc results (length (pending w2)) w2 Hw2)
        as [[Hc _] | (r & Hm & [_ Hr])].
      * unfold calls_for in Hc. rewrite Hp in Hc. discriminate.
      * exists r. split; [exact Hr | intros _; exact Hm].
    + pose proof (finish_calls_answered r results (length (pending w2)) w2
                    Ha) as [_ Hr].
      exists r. split; [exact Hr|].
      intros H1. rewrite pending_for_length in H1.
      destruct Ha as [Hc _]. rewrite Hc in H1. discriminate.
Qed.

End ExactlyOnce.

Lemma replies_emit inv r w :
  pending (exec (emit (EvReturn inv r)) w) = pending w ∧
  returns (exec (emit (EvReturn inv r)) w) = (inv, r) :: returns w.
Proof. split; reflexivity. Qed.

Lemma replies_after_quiet {A B : Type} (m : M A) (k : A → M B) inv r :
  quiet m →
  (∀ a w, pending (exec (k a) w) = pending w ∧
          returns (exec (k a) w) = (inv, r) :: returns w) →
  ∀ w, pending (exec (bind m k) w) = pending w ∧
       returns (exec (bind m k) w) = (inv, r) :: returns w.
Proof.
  intros Hq Hk w. rewrite exec_bind.
  destruct (Hk (eval m w) (exec m w)) as [P R].
  destruct (Hq w) as [P0 R0]. fold (exec m w) in P0, R0.
  rewrite P, R, P0, R0. split; reflexivity.
Qed.

Lemma replies_then_quiet {A B : Type} (m : M A) (k : A → M B) inv r :
  (∀ w, pending (exec m w) = pending w ∧
        returns (exec m w) = (inv, r) :: returns w) →
  (∀ a, quiet (k a)) →
  ∀ w, pending (exec (bind m k) w) = pending w ∧
       returns (exec (bind m k) w) = (inv, r) :: returns w.
Proof.
  intros Hm Hq w. rewrite exec_bind.
  destruct (Hq (eval m w) (exec m w)) as [P R].
  fold (exec (k (eval m w)) (exec m w)) in P, R.
  destruct (Hm w) as [P0 R0]. rewrite P, R, P0, R0. split; reflexivity.
Qed.

Lemma parks_call c dest path iface method params ty timeout inv w :
  let w' := exec (g_dbus_connection_call (Some c) dest path iface method
                    params ty timeout inv) w in
  returns w' = returns w ∧
  pending w' = pending w ++ [mkPendingCall c dest path iface method params
                               timeout inv].
Proof. split; reflexivity. Qed.

Lemma parks_after_quiet {A : Type} (m : M A) (k : A → M unit) pc :
  quiet m →
  (∀ a w, returns (exec (k a) w) = returns w ∧
          pending (exec (k a) w) = pending w ++ [pc]) →
  ∀ w, returns (exec (bind m k) w) = returns w ∧
       pending (exec (bind m k) w) = pending w ++ [pc].
Proof.
  intros Hq Hk w. rewrite exec_bind.
  destruct (Hk (eval m w) (exec m w)) as [R P].
  destruct (Hq w) as [P0 R0]. fold (exec m w) in P0, R0.
  rewrite R, R0, P, P0. split; reflexivity.
Qed.

(** A callback that is quiet and then returns. *)
Lemma returns_after_quiet (m : M unit) w :
  quiet m →
  ∃ w', (m ;; ret (Returned tt))%io w = (Returned tt, w') ∧
        pending w' = pending w ∧ returns w' = returns w.
Proof.
  intros Hq. rewrite run_bind. eexists. split; [reflexivity|].
  destruct (Hq w) as [P R]. split; assumption.
Qed.

(** The method-call handlers park the forwarded call: on the source
    connection, for the configured service and object, with the caller's
    interface, method and parameters, and the invocation as the data of the
    ready callback. *)
Lemma MultiBus_forwards verbose ctx c sender object_path iface method params
    inv w :
  MultiBus.source_bus ctx = Some c →
  let w' := exec (MultiBus.handle_method_call verbose ctx sender object_path
                    iface method params inv) w in
  returns w' = returns w ∧
  pending w' = pending w ++ [mkPendingCall c (MultiBus.source_bus_name ctx)
                               (MultiBus.source_object_path ctx) iface
                               method params (-1) inv].
Proof.
  intros Hc. unfold MultiBus.handle_method_call. rewrite Hc.
  apply parks_after_quiet; [quiet_tac | intros; apply parks_call].
Qed.

Lemma quiet_log_message config log_fp fmt args :
  quiet (ConfigProxy.log_message config log_fp fmt args).
Proof. unfold ConfigProxy.log_message. quiet_tac. Qed.

Lemma ConfigProxy_forwards config log_fp c sender object_path iface method
    params inv w :
  let w' := exec (ConfigProxy.handle_method_call config log_fp (Some c)
                    sender object_path iface method params inv) w in
  returns w' = returns w ∧
  pending w' = pending w ++ [mkPendingCall c
                               (ConfigProxy.source_bus_name config)
                               (ConfigProxy.source_object_path config) iface
                               method params (ConfigProxy.timeout_ms config)
                               inv].
Proof.
  unfold ConfigProxy.handle_method_call.
  apply parks_after_quiet; [|intros; apply parks_call].
  destruct (ConfigProxy.verbose config);
    [apply quiet_log_message | apply quiet_ret].
Qed.

Lemma quiet_log_verbose st fmt args : quiet (CrossBus.log_verbose st fmt args).
Proof. unfold CrossBus.log_verbose. quiet_tac. Qed.

Lemma quiet_log_error fmt args : quiet (CrossBus.log_error fmt args).
Proof. unfold CrossBus.log_error. quiet_tac. Qed.

Lemma quiet_log_info fmt args : quiet (CrossBus.log_info fmt args).
Proof. unfold CrossBus.log_info. quiet_tac. Qed.

Lemma CrossBus_forwards st c sender object_path iface method params inv w :
  CrossBus.source_bus st = Some c →
  let w' := exec (CrossBus.handle_method_call st sender object_path iface
                    method params inv) w in
  returns w' = returns w ∧
  pending w' = pending w ++ [mkPendingCall c
                               (CrossBus.source_bus_name (CrossBus.config st))
                               (CrossBus.source_object_path
                                  (CrossBus.config st)) iface method params
                               (-1) inv].
Proof.
  intros Hc. unfold CrossBus.handle_method_call. rewrite Hc.
  apply parks_after_quiet;
    [apply quiet_log_verbose | intros; apply parks_call].
Qed.

Lemma MultiBus_forwarder verbose ctx :
  is_Some (MultiBus.source_bus ctx) →
  Forwarder (MultiBus.callbacks verbose ctx) (λ _, true).
Proof.
  intros [c Hc]. constructor; cbn [cb_method_call cb_call_ready cb_signal
    cb_get_property cb_set_property MultiBus.callbacks].
  - intros s p i m a inv w.
    destruct (MultiBus_forwards verbose ctx c s p i m a inv w Hc) as [R P].
    split; [exact R|]. eexists. split; [|exact P]. reflexivity.
  - intros res inv w. unfold MultiBus.handle_method_call_ready.
    destruct res as [v|e]; simpl.
    + split; [reflexivity|]. exists (ReplyValue (Some v)). split; reflexivity.
    + split; [reflexivity|]. exists (ReplyError e).
      split; [exists e; split; reflexivity | reflexivity].
  - intros cb s p i g a w _. apply returns_after_quiet.
    unfold MultiBus.on_signal_received. quiet_tac.
  - intros. unfold MultiBus.handle_get_property. quiet_tac.
  - intros. unfold MultiBus.handle_set_property. quiet_tac.
Qed.

Lemma ConfigProxy_forwarder config log_fp bus :
  is_Some bus →
  Forwarder (ConfigProxy.callbacks config log_fp bus) (λ _, true).
Proof.
  intros [c ->]. constructor; cbn [cb_method_call cb_call_ready cb_signal
    cb_get_property cb_set_property ConfigProxy.callbacks].
  - intros s p i m a inv w.
    destruct (ConfigProxy_forwards config log_fp c s p i m a inv w) as [R P].
    split; [exact R|]. eexists. split; [|exact P]. reflexivity.
  - intros res inv w. unfold ConfigProxy.handle_method_call_ready.
    destruct res as [v|e]; simpl.
    + destruct (replies_after_quiet
                  (if ConfigProxy.verbose config
                   then ConfigProxy.log_message config log_fp
                          "Method call succeeded, returning result\n" []
                   else ret tt)
                  (λ _, g_dbus_method_invocation_return_value inv (Some v))
                  inv (ReplyValue (Some v))) with (w := w) as [P R].
      * destruct (ConfigProxy.verbose config);
          [apply quiet_log_message | apply quiet_ret].
      * intros; apply replies_emit.
      * split; [exact P|]. eexists; split; [reflexivity | exact R].
    + destruct (replies_after_quiet
                  (if ConfigProxy.verbose config
                   then ConfigProxy.log_message config log_fp
                          "Method call failed: %s\n"
                          [PStr (ConfigProxy.message_or (Some e)
                                   "Unknown error")]
                   else ret tt)
                  (λ _, g_dbus_method_invocation_return_error_literal inv
                          G_IO_ERROR G_IO_ERROR_FAILED
                          (ConfigProxy.message_or (Some e) "Call failed") ;;
                        (if non_null (Some e) then g_error_free (Some e)
                         else ret tt))%io
                  inv (ReplyError (mkGError G_IO_ERROR G_IO_ERROR_FAILED
                                            (message e))))
        with (w := w) as [P R].
      * destruct (ConfigProxy.verbose config);
          [apply quiet_log_message | apply quiet_ret].
      * intros _. apply replies_then_quiet; [apply replies_emit|].
        intros; quiet_tac.
      * split; [exact P|].
        exists (ReplyError (mkGError G_IO_ERROR G_IO_ERROR_FAILED
                                     (message e))).
        split; [eexists; split; reflexivity | exact R].
  - intros cb s p i g a w _. apply returns_after_quiet.
    unfold ConfigProxy.on_signal_received.
    repeat first [apply quiet_log_message | quiet_step].
  - intros. unfold ConfigProxy.handle_get_property.
    repeat first [apply quiet_log_message | quiet_step].
  - intros. unfold ConfigProxy.handle_set_property.
    repeat first [apply quiet_log_message | quiet_step].
Qed.

Lemma quiet_CrossBus_on_signal_received st a b c d e :
  quiet (CrossBus.on_signal_received st a b c d e).
Proof.
  unfold CrossBus.on_signal_received.
  repeat first [apply quiet_log_verbose | apply quiet_log_error
               | quiet_step].
Qed.

Lemma CrossBus_forwarder st :
  is_Some (CrossBus.source_bus st) →
  Forwarder (CrossBus.callbacks st) well_formed.
Proof.
  intros [c Hc]. constructor; cbn [cb_method_call cb_call_ready cb_signal
    cb_get_property cb_set_property CrossBus.callbacks].
  - intros s p i m a inv w.
    destruct (CrossBus_forwards st c s p i m a inv w Hc) as [R P].
    split; [exact R|]. eexists. split; [|exact P]. reflexivity.
  - intros res inv w. unfold CrossBus.handle_method_call_ready.
    destruct res as [v|e]; simpl.
    + destruct (replies_after_quiet
                  (CrossBus.log_verbose st
                     "Method call successful, returning result" [])
                  (λ _, g_dbus_method_invocation_return_value inv (Some v))
                  inv (ReplyValue (Some v))) with (w := w) as [P R].
      * apply quiet_log_verbose.
      * intros; apply replies_emit.
      * split; [exact P|]. eexists; split; [reflexivity | exact R].
    + destruct (replies_after_quiet
                  (CrossBus.log_error "Method call failed: %s"
                     [PStr (CrossBus.message_or (Some e) "Unknown error")])
                  (λ _, g_dbus_method_invocation_return_gerror inv (Some e) ;;
                        (if non_null (Some e) then g_error_free (Some e)
                         else ret tt))%io
                  inv (ReplyError e)) with (w := w) as [P R].
      * apply quiet_log_error.
      * intros _. apply replies_then_quiet; [apply replies_emit|].
        intros; quiet_tac.
      * split; [exact P|]. eexists.
        split; [eexists; split; reflexivity | exact R].
  - intros cb s p i g a w Hok. destruct cb.
    + apply returns_after_quiet, quiet_CrossBus_on_signal_received.
    + unfold CrossBus.on_properties_changed. cbn [well_formed] in Hok.
      destruct (g_variant_get_child_0_s a) as [name|why]; [|discriminate].
      rewrite run_bind.
      destruct (returns_after_quiet
                  (CrossBus.on_signal_received st s p i g a)
                  (exec (CrossBus.log_verbose st
                           "Properties changed signal for interface: %s"
                           [PStr name]) w)
                  (quiet_CrossBus_on_signal_received st s p i g a))
        as (w' & E & P & R).
      exists w'. split; [exact E|]. rewrite P, R.
      apply quiet_log_verbose.
  - intros. unfold CrossBus.handle_get_property.
    repeat first [apply quiet_log_verbose | apply quiet_log_error
                 | quiet_step].
  - intros. unfold CrossBus.handle_set_property.
    repeat first [apply quiet_log_verbose | apply quiet_log_error
                 | quiet_step].
Qed.

(** C1.  For every inbound method invocation accepted by the facade's
    method-call handler, exactly one reply is eventually delivered to that
    invocation, the forwarded call's result value or an error, never zero
    and never more than one, whether the forwarded call succeeds or fails.

    In each of the three variants, with the source connection [c]: take a
    fresh invocation [inv] (no reply, no outstanding call) and hand it to
    the method-call handler.  The handler replies nothing and leaves one
    more outstanding call, the forwarded one: on [c], to the configured
    service and object, with the caller's interface, method and
    parameters.  Let the main loop then handle any further events [later]
    that do not hand in [inv] again (in the cross-bus variant: events
    whose PropertiesChanged payloads start with a string, which is what
    that callback takes apart).  The loop handles them all, and then [inv]
    has one reply or its one call outstanding, never both and never
    neither.  Whenever an event of [later] completes the call of [inv]
    with a result, the reply of [inv] is from then on the one that belongs
    to that result: the result value itself, or an error with the
    message of the source's error.  And once the main loop has finished
    the outstanding calls, no call is outstanding and [inv] has exactly
    one reply, which belongs to the result of the forwarded call if that
    was still outstanding. *)
Theorem method_call_replied_exactly_once
    (cbs : Callbacks) (c : GDBusConnection) (dest path : string)
    (timeout : Z) (sender object_path iface method : string)
    (params : option GVariant) (inv : GDBusMethodInvocation)
    (later : list LoopEvent) (w : World) :
  (∃ verbose ctx,
     MultiBus.source_bus ctx = Some c ∧
     dest = MultiBus.source_bus_name ctx ∧
     path = MultiBus.source_object_path ctx ∧
     timeout = (-1)%Z ∧
     cbs = MultiBus.callbacks verbose ctx) ∨
  (∃ config log_fp,
     dest = ConfigProxy.source_bus_name config ∧
     path = ConfigProxy.source_object_path config ∧
     timeout = ConfigProxy.timeout_ms config ∧
     cbs = ConfigProxy.callbacks config log_fp (Some c)) ∨
  (∃ st,
     CrossBus.source_bus st = Some c ∧
     dest = CrossBus.source_bus_name (CrossBus.config st) ∧
     path = CrossBus.source_object_path (CrossBus.config st) ∧
     timeout = (-1)%Z ∧
     cbs = CrossBus.callbacks st ∧
     forallb well_formed later = true) →
  balance inv w = 0%nat →
  accepted inv later = 0%nat →
  let pc := mkPendingCall c dest path iface method params timeout inv in
  let w1 := exec (cb_method_call cbs sender object_path iface method params
                    inv) w in
  (returns w1 = returns w ∧ pending w1 = pending w ++ [pc]) ∧
  ∃ w2,
    g_main_loop_run cbs later w1 = (Returned tt, w2) ∧
    (replies_to inv w2 + pending_for inv w2 = 1)%nat ∧
    (∀ before i res after wb pc',
       later = before ++ CallFinished i res :: after →
       g_main_loop_run cbs before w1 = (Returned tt, wb) →
       pending wb !! i = Some pc' →
       pc_user_data pc' = inv →
       pc' = pc ∧ ∃ r, reply_matches res r ∧ replies inv w2 = [r]) ∧
    (∀ results,
       let w3 := exec (finish_all cbs results) w2 in
       pending w3 = [] ∧
       ∃ r, replies inv w3 = [r] ∧
            (pending_for inv w2 = 1%nat → reply_matches (results pc) r)).
Proof.
  intros Hcbs Hfresh Hlater pc w1.
  assert (Hfw : ∃ ok, Forwarder cbs ok ∧ forallb ok later = true).
  { destruct Hcbs as [(v & ctx & Hs & _ & _ & _ & ->)
                     | [(cfg & l & _ & _ & _ & ->)
                       | (st & Hs & _ & _ & _ & -> & Hok)]].
    - exists (λ _, true). split; [apply MultiBus_forwarder; eauto|].
      apply forallb_forall. reflexivity.
    - exists (λ _, true). split; [apply ConfigProxy_forwarder; eauto|].
      apply forallb_forall. reflexivity.
    - exists well_formed. split; [apply CrossBus_forwarder; eauto | exact Hok]. }
  assert (Hpark : returns w1 = returns w ∧ pending w1 = pending w ++ [pc]).
  { unfold w1, pc.
    destruct Hcbs as [(v & ctx & Hs & -> & -> & -> & ->)
                     | [(cfg & l & -> & -> & -> & ->)
                       | (st & Hs & -> & -> & -> & -> & _)]].
    - apply MultiBus_forwards, Hs.
    - apply ConfigProxy_forwards.
    - apply CrossBus_forwards, Hs. }
  split; [exact Hpark|].
  destruct Hfw as (ok & Hfw & Hok).
  apply (forwarder_exactly_once cbs ok Hfw inv pc later w1);
    [|exact Hok | exact Hlater].
  destruct (fresh_invocation inv w Hfresh) as [Hc Hr].
  destruct Hpark as [R P]. unfold waiting, calls_for, replies in *.
  rewrite R, P, List.filter_app, Hc. cbn [List.filter pc_user_data pc].
  rewrite Nat.eqb_refl. split; [reflexivity | exact Hr].
Qed.

(** ** Errors of forwarded calls *)

(** C4, as the code has it.  When a forwarded method call fails, the
    multi-bus and cross-bus variants reply with the source-side error
    itself, message, domain and code unchanged; the configuration-file
    variant replies with the source-side message unchanged under the fixed
    domain G_IO_ERROR and code G_IO_ERROR_FAILED. *)
Theorem forwarded_error_reply (e : GError) (inv : GDBusMethodInvocation)
    (w : World) :
  returns (exec (MultiBus.handle_method_call_ready (inr e) inv) w)
  = (inv, ReplyError e) :: returns w ∧
  (∀ st,
     returns (exec (CrossBus.handle_method_call_ready st (inr e) inv) w)
     = (inv, ReplyError e) :: returns w) ∧
  (∀ config log_fp,
     returns (exec (ConfigProxy.handle_method_call_ready config log_fp
                      (inr e) inv) w)
     = (inv, ReplyError (mkGError G_IO_ERROR G_IO_ERROR_FAILED (message e)))
       :: returns w).
Proof.
  split; [|split].
  - reflexivity.
  - intros st. unfold CrossBus.handle_method_call_ready; simpl.
    apply (replies_after_quiet
             (CrossBus.log_error "Method call failed: %s"
                [PStr (CrossBus.message_or (Some e) "Unknown error")])
             (λ _, g_dbus_method_invocation_return_gerror inv (Some e) ;;
                   (if non_null (Some e) then g_error_free (Some e)
                    else ret tt))%io
             inv (ReplyError e)).
    + apply quiet_log_error.
    + intros _. apply replies_then_quiet; [apply replies_emit|].
      intros; quiet_tac.
  - intros config log_fp.
    unfold ConfigProxy.handle_method_call_ready; simpl.
    apply (replies_after_quiet
             (if ConfigProxy.verbose config
              then ConfigProxy.log_message config log_fp
                     "Method call failed: %s\n"
                     [PStr (ConfigProxy.message_or (Some e)
                              "Unknown error")]
              else ret tt)
             (λ _, g_dbus_method_invocation_return_error_literal inv
                     G_IO_ERROR G_IO_ERROR_FAILED
                     (ConfigProxy.message_or (Some e) "Call failed") ;;
                   (if non_null (Some e) then g_error_free (Some e)
                    else ret tt))%io
             inv (ReplyError (mkGError G_IO_ERROR G_IO_ERROR_FAILED
                                       (message e)))).
    + destruct (ConfigProxy.verbose config);
        [apply quiet_log_message | apply quiet_ret].
    + intros _. apply replies_then_quiet; [apply replies_emit|].
      intros; quiet_tac.
Qed.

(** C4 as stated fails: in the configuration-file variant a forwarded call
    that fails with a D-Bus error is answered with an error of another
    domain and code. *)
Lemma config_proxy_replaces_error_domain :
  let w := exec (ConfigProxy.handle_method_call_ready example_config false
                   (inr example_error) 7%nat) (example_world None) in
  returns w
  = [(7%nat, ReplyError (mkGError "g-io-error-quark" 0 "No such method"))] ∧
  returns w ≠ [(7%nat, ReplyError example_error)].
Proof. split; [reflexivity | discriminate]. Qed.

(** ** Property access *)

Lemma calls_emit_other (e : Event) (w : World) :
  called e = None → calls (exec (emit e) w) = calls w.
Proof. intros H. unfold calls; simpl. rewrite H. reflexivity. Qed.

Ltac relay_unfold :=
  unfold exec, eval, bind, ret, g_print, g_printerr, emit,
    g_dbus_connection_call_sync, properties_iface,
    g_variant_new_ss, g_variant_new_ssv, calls in *; simpl in *.

Lemma MultiBus_relays_properties verbose ctx c :
  MultiBus.source_bus ctx = Some c →
  relays_properties (MultiBus.handle_get_property verbose ctx)
    (MultiBus.handle_set_property verbose ctx) c
    (MultiBus.source_bus_name ctx) (MultiBus.source_object_path ctx).
Proof.
  intros Hc sender object_path iface prop w.
  unfold MultiBus.handle_get_property, MultiBus.handle_set_property.
  rewrite Hc. repeat split.
  - destruct verbose; relay_unfold; repeat case_match; simplify_eq; reflexivity.
  - intros v H. destruct verbose; relay_unfold; rewrite H; reflexivity.
  - intros e H. destruct verbose; relay_unfold; rewrite H; reflexivity.
  - destruct verbose; relay_unfold; repeat case_match; simplify_eq; reflexivity.
  - intros r H. destruct verbose; relay_unfold; rewrite H; reflexivity.
  - intros e H. destruct verbose; relay_unfold; rewrite H; reflexivity.
Qed.

Lemma ConfigProxy_relays_properties config log_fp c :
  relays_properties (ConfigProxy.handle_get_property config log_fp (Some c))
    (ConfigProxy.handle_set_property config log_fp (Some c)) c
    (ConfigProxy.source_bus_name config)
    (ConfigProxy.source_object_path config).
Proof.
  intros sender object_path iface prop w.
  unfold ConfigProxy.handle_get_property, ConfigProxy.handle_set_property,
    ConfigProxy.log_message.
  destruct config as [sbn sop pbn bt vb el tm lf]; simpl.
  repeat split.
  - destruct vb, el, log_fp; relay_unfold; repeat case_match; simplify_eq; reflexivity.
  - intros v H. destruct vb, el, log_fp; relay_unfold; rewrite H;
      reflexivity.
  - intros e H. destruct vb, el, log_fp; relay_unfold; rewrite H;
      reflexivity.
  - destruct vb, el, log_fp; relay_unfold; repeat case_match; simplify_eq; reflexivity.
  - intros r H. destruct vb, el, log_fp; relay_unfold; rewrite H;
      reflexivity.
  - intros e H. destruct vb, el, log_fp; relay_unfold; rewrite H;
      reflexivity.
Qed.

Lemma CrossBus_relays_properties st c :
  CrossBus.source_bus st = Some c →
  relays_properties (CrossBus.handle_get_property st)
    (CrossBus.handle_set_property st) c
    (CrossBus.source_bus_name (CrossBus.config st))
    (CrossBus.source_object_path (CrossBus.config st)).
Proof.
  intros Hc sender object_path iface prop w.
  unfold CrossBus.handle_get_property, CrossBus.handle_set_property,
    CrossBus.log_verbose, CrossBus.log_error.
  rewrite Hc. destruct (CrossBus.verbose (CrossBus.config st)); simpl.
  - repeat split.
    + relay_unfold; repeat case_match; simplify_eq; reflexivity.
    + intros v H. relay_unfold; rewrite H; reflexivity.
    + intros e H. relay_unfold; rewrite H; reflexivity.
    + relay_unfold; repeat case_match; simplify_eq; reflexivity.
    + intros r H. relay_unfold; rewrite H; reflexivity.
    + intros e H. relay_unfold; rewrite H; reflexivity.
  - repeat split.
    + relay_unfold; repeat case_match; simplify_eq; reflexivity.
    + intros v H. relay_unfold; rewrite H; reflexivity.
    + intros e H. relay_unfold; rewrite H; reflexivity.
    + relay_unfold; repeat case_match; simplify_eq; reflexivity.
    + intros r H. relay_unfold; rewrite H; reflexivity.
    + intros e H. relay_unfold; rewrite H; reflexivity.
Qed.

(** C7.  The property-get handler unwraps the variant wrapper from the
    source's Properties.Get reply and returns the inner value; the
    property-set handler forwards the caller's value wrapped as a variant
    unchanged; on failure, either handler surfaces the source-side error
    verbatim to the caller.  This holds of the handlers of all three
    variants once the source bus is connected ([relays_properties] spells
    the behaviour out). *)
Theorem property_handlers_relay
    (get : string → string → string → string →
           M (option GVariant * option GError))
    (set : string → string → string → string → GVariant →
           M (bool * option GError))
    (c : GDBusConnection) (dest path : string) :
  (∃ verbose ctx,
     MultiBus.source_bus ctx = Some c ∧
     dest = MultiBus.source_bus_name ctx ∧
     path = MultiBus.source_object_path ctx ∧
     get = MultiBus.handle_get_property verbose ctx ∧
     set = MultiBus.handle_set_property verbose ctx) ∨
  (∃ config log_fp,
     dest = ConfigProxy.source_bus_name config ∧
     path = ConfigProxy.source_object_path config ∧
     get = ConfigProxy.handle_get_property config log_fp (Some c) ∧
     set = ConfigProxy.handle_set_property config log_fp (Some c)) ∨
  (∃ st,
     CrossBus.source_bus st = Some c ∧
     dest = CrossBus.source_bus_name (CrossBus.config st) ∧
     path = CrossBus.source_object_path (CrossBus.config st) ∧
     get = CrossBus.handle_get_property st ∧
     set = CrossBus.handle_set_property st) →
  relays_properties get set c dest path.
Proof.
  intros [(v & ctx & Hc & -> & -> & -> & ->)
         | [(cfg & l & -> & -> & -> & ->)
           | (st & Hc & -> & -> & -> & ->)]].
  - apply MultiBus_relays_properties; exact Hc.
  - apply ConfigProxy_relays_properties.
  - apply CrossBus_relays_properties; exact Hc.
Qed.

(** ** Start-up failures *)

Lemma exits_before_introspection_intro {Ctx : Type} w w' fmt args :
  In (EvPrintErr fmt args) (trace w') →
  calls w' = calls w →
  exits_before_introspection (Returned (Exit 1) : Outcome (Stage Ctx)) w w'
                             (EvPrintErr fmt args).
Proof.
  intros Hin Hcalls. split; [|split; [|split]].
  - exists 1. split; [reflexivity | discriminate].
  - eauto.
  - exact Hin.
  - exact Hcalls.
Qed.

(** C8.  If connecting to the source bus fails at startup, context
    creation fails with a connection error, the error is reported, and the
    process exits with a non-zero status without ever issuing the
    introspection call.  Stated for the three variants: when the
    connection attempt to the source bus yields error [e], [main] returns
    status 1, has printed the failure with [e]'s message on stderr, and has
    sent no method call at all. *)
Theorem source_connection_failure_is_fatal (e : GError) (w : World) :
  (∀ source_address target_address source_service source_path proxy_service,
     MultiBus.create_connection source_address w = ((None, Some e), w) →
     let (r, w') := MultiBus.main_startup source_address target_address
                      source_service source_path proxy_service w in
     exits_before_introspection r w w'
       (EvPrintErr "Failed to connect to source bus (%s): %s\n"
                   [PStr source_address; PStr (message e)])) ∧
  (∀ config log_fp,
     bus_get w (if String.eqb (ConfigProxy.bus_type config) "system"
                then G_BUS_TYPE_SYSTEM else G_BUS_TYPE_SESSION) = inr e →
     let (r, w') := ConfigProxy.main_startup config log_fp w in
     exits_before_introspection r w w'
       (EvPrintErr "Failed to connect to %s bus: %s\n"
                   [PStr (ConfigProxy.bus_type config); PStr (message e)])) ∧
  (∀ config,
     bus_get w (CrossBus.source_bus_type config) = inr e →
     let '(r, proxy_state, w') := CrossBus.main_startup config w in
     proxy_state = None ∧
     exits_before_introspection r w w'
       (EvPrintErr "Failed to connect to source bus: %s"
                   [PStr (message e)])).
Proof.
  split; [|split].
  - intros a t s p x H.
    unfold MultiBus.main_startup, and_then, MultiBus.setup_proxy, bind.
    rewrite H. simpl.
    apply exits_before_introspection_intro; [simpl; tauto | reflexivity].
  - intros config log_fp H.
    unfold ConfigProxy.main_startup, bind, g_bus_get_sync.
    rewrite H. simpl.
    apply exits_before_introspection_intro; [simpl; tauto | reflexivity].
  - intros config H.
    unfold CrossBus.main_startup, CrossBus.init_proxy_state,
      CrossBus.connect_to_buses, CrossBus.log_info, CrossBus.log_error.
    simpl. unfold bind, g_print, g_printerr, emit, g_bus_get_sync; simpl.
    rewrite H; simpl.
    split; [reflexivity|].
    apply exits_before_introspection_intro; [simpl; tauto | reflexivity].
Qed.

(** ** Signals that cannot be re-emitted *)

Lemma MultiBus_signal_failure verbose ctx c w sender path iface signal params :
  MultiBus.target_bus ctx = Some c →
  closed (conns w c) = true →
  ∃ events,
    contained (MultiBus.on_signal_received verbose ctx sender path iface
                 signal params) w events ∧
    In (EvPrintErr "Failed to emit signal: %s\n"
                   [PStr (message connection_closed_error)]) events ∧
    In (EvErrorFree connection_closed_error) events.
Proof.
  intros Ht Hclosed. unfold MultiBus.on_signal_received, contained.
  rewrite Ht. destruct verbose.
  - refine (ex_intro _ [_; _; _] _).
    unfold exec, bind, g_dbus_connection_emit_signal,
      g_dbus_connection_get_unique_name, g_print, g_printerr, emit; simpl.
    rewrite Hclosed; simpl. repeat split; simpl; tauto.
  - refine (ex_intro _ [_; _] _).
    unfold exec, bind, g_dbus_connection_emit_signal, ret; simpl.
    rewrite Hclosed; simpl. repeat split; simpl; tauto.
Qed.

Lemma CrossBus_signal_failure st c w sender path iface signal params :
  CrossBus.target_bus st = Some c →
  closed (conns w c) = true →
  ∃ events,
    contained (CrossBus.on_signal_received st sender path iface signal
                 params) w events ∧
    In (EvPrintErr "Failed to forward signal: %s"
                   [PStr (message connection_closed_error)]) events ∧
    In (EvErrorFree connection_closed_error) events.
Proof.
  intros Ht Hclosed.
  unfold CrossBus.on_signal_received, CrossBus.log_verbose,
    CrossBus.log_error, contained.
  rewrite Ht. destruct (CrossBus.verbose (CrossBus.config st)); simpl.
  - refine (ex_intro _ [_; _; _; _; _; _; _] _).
    unfold exec, bind, g_dbus_connection_emit_signal, g_print, g_printerr,
      emit; simpl.
    rewrite Hclosed; simpl. repeat split; simpl; tauto.
  - refine (ex_intro _ [_; _; _; _] _).
    unfold exec, bind, g_dbus_connection_emit_signal, g_printerr, emit, ret;
      simpl.
    rewrite Hclosed; simpl. repeat split; simpl; tauto.
Qed.

Lemma ConfigProxy_signal_failure config log_fp c w sender path iface signal
    params :
  closed (conns w c) = true →
  ∃ events,
    contained (ConfigProxy.on_signal_received config log_fp (Some c) sender
                 path iface signal params) w events ∧
    (ConfigProxy.verbose config = true →
     In (EvErrorFree connection_closed_error) events ∧
     (ConfigProxy.enable_logging config = true →
      In ((if log_fp then EvLogFile else EvPrint)
            "Failed to emit signal: %s\n"
            [PStr (message connection_closed_error)]) events)) ∧
    (ConfigProxy.verbose config = false → events = []).
Proof.
  intros Hclosed.
  unfold ConfigProxy.on_signal_received, ConfigProxy.log_message, contained.
  destruct config as [sbn sop pbn bt vb el tm lf]; simpl.
  destruct vb, el; simpl.
  - destruct log_fp; refine (ex_intro _ [_; _; _] _);
      unfold exec, bind, g_dbus_connection_emit_signal, emit; simpl;
      rewrite Hclosed; simpl;
      (split; [split; reflexivity|]); (split; [|discriminate]);
      intros _; simpl; tauto.
  - refine (ex_intro _ [_] _).
    unfold exec, bind, g_dbus_connection_emit_signal, emit, ret; simpl.
    rewrite Hclosed; simpl.
    (split; [split; reflexivity|]); (split; [|discriminate]).
    intros _; split; [simpl; tauto | discriminate].
  - exists []. destruct w.
    unfold exec, bind, g_dbus_connection_emit_signal, ret; simpl in *.
    rewrite Hclosed; simpl.
    (split; [split; reflexivity|]); (split; [discriminate | reflexivity]).
  - exists []. destruct w.
    unfold exec, bind, g_dbus_connection_emit_signal, ret; simpl in *.
    rewrite Hclosed; simpl.
    (split; [split; reflexivity|]); (split; [discriminate | reflexivity]).
Qed.

Lemma signals_forwarded_when_accepted (c : GDBusConnection) (w : World)
    sender path iface signal params :
  closed (conns w c) = false →
  (∀ verbose ctx,
     MultiBus.target_bus ctx = Some c →
     emits (MultiBus.on_signal_received verbose ctx sender path iface signal
              params) w
       (EvEmitSignal c (MultiBus.source_object_path ctx) iface signal
                     params)) ∧
  (∀ config log_fp,
     emits (ConfigProxy.on_signal_received config log_fp (Some c) sender
              path iface signal params) w
       (EvEmitSignal c (ConfigProxy.source_object_path config) iface signal
                     params)) ∧
  (∀ st,
     CrossBus.target_bus st = Some c →
     emits (CrossBus.on_signal_received st sender path iface signal params) w
       (EvEmitSignal c (CrossBus.source_object_path (CrossBus.config st))
                     iface signal params)).
Proof.
  intros Hopen. split; [|split].
  - intros verbose ctx Ht. unfold emits, MultiBus.on_signal_received.
    rewrite Ht.
    destruct verbose;
      unfold exec, bind, g_dbus_connection_emit_signal,
        g_dbus_connection_get_unique_name, g_print, emit, ret; simpl;
      rewrite Hopen; simpl; tauto.
  - intros config log_fp.
    unfold emits, ConfigProxy.on_signal_received, ConfigProxy.log_message.
    destruct config as [sbn sop pbn bt vb el tm lf]; simpl.
    destruct vb, el, log_fp;
      unfold exec, bind, g_dbus_connection_emit_signal, emit, ret; simpl;
      rewrite Hopen; simpl; tauto.
  - intros st Ht.
    unfold emits, CrossBus.on_signal_received, CrossBus.log_verbose.
    rewrite Ht.
    destruct (CrossBus.verbose (CrossBus.config st));
      unfold exec, bind, g_dbus_connection_emit_signal, g_print, emit, ret;
      simpl; rewrite Hopen; simpl; tauto.
Qed.

(** C10.  If re-emitting a forwarded signal on the target endpoint fails,
    the signal handler logs the failure, frees the error and returns
    normally; the failure is not propagated to the source endpoint and
    does not affect the forwarding of other signals.

    In all three variants the handler returns with nothing put on any bus
    and every connection and outstanding call untouched
    ([signals_forwarded_when_accepted]: a signal the target accepts is
    emitted, in whatever world).  The multi-bus and cross-bus handlers log
    the failure on stderr and free the error.  The configuration-file
    handler does both only inside its [verbose] branch: with [verbose] on
    it frees the error (and writes the log line if logging is enabled),
    with [verbose] off it leaves no event at all, so the failure is not
    logged and the error it was handed is never freed. *)
Theorem signal_emit_failure_is_contained (c : GDBusConnection) (w : World)
    (sender path iface signal : string) (params : option GVariant) :
  closed (conns w c) = true →
  (∀ verbose ctx,
     MultiBus.target_bus ctx = Some c →
     ∃ events,
       contained (MultiBus.on_signal_received verbose ctx sender path iface
                    signal params) w events ∧
       In (EvPrintErr "Failed to emit signal: %s\n"
                      [PStr (message connection_closed_error)]) events ∧
       In (EvErrorFree connection_closed_error) events) ∧
  (∀ st,
     CrossBus.target_bus st = Some c →
     ∃ events,
       contained (CrossBus.on_signal_received st sender path iface signal
                    params) w events ∧
       In (EvPrintErr "Failed to forward signal: %s"
                      [PStr (message connection_closed_error)]) events ∧
       In (EvErrorFree connection_closed_error) events) ∧
  (∀ config log_fp,
     eval (g_dbus_connection_emit_signal (Some c) None
             (ConfigProxy.source_object_path config) iface signal params) w
     = (false, Some connection_closed_error) ∧
     ∃ events,
       contained (ConfigProxy.on_signal_received config log_fp (Some c)
                    sender path iface signal params) w events ∧
       (ConfigProxy.verbose config = true →
        In (EvErrorFree connection_closed_error) events ∧
        (ConfigProxy.enable_logging config = true →
         In ((if log_fp then EvLogFile else EvPrint)
               "Failed to emit signal: %s\n"
               [PStr (message connection_closed_error)]) events)) ∧
       (ConfigProxy.verbose config = false → events = [])).
Proof.
  intros Hclosed. split; [|split].
  - intros verbose ctx Ht.
    apply MultiBus_signal_failure with (c := c); assumption.
  - intros st Ht. apply CrossBus_signal_failure with (c := c); assumption.
  - intros config log_fp. split.
    + unfold eval, g_dbus_connection_emit_signal. rewrite Hclosed.
      reflexivity.
    + apply ConfigProxy_signal_failure; assumption.
Qed.

(** The configuration-file handler on the example configuration, whose
    [verbose] is off, leaves no trace of a failed emission: no log line
    and no release of the error. *)
Lemma config_proxy_silent_on_emit_failure :
  let handler :=
    ConfigProxy.on_signal_received example_config false (Some 1%nat)
      ":1.7" "/com/example/Object" "com.example.Demo" "Ping" None in
  eval (g_dbus_connection_emit_signal (Some 1%nat) None
          "/com/example/Object" "com.example.Demo" "Ping" None)
       example_world_closed
  = (false, Some connection_closed_error) ∧
  trace (exec handler example_world_closed) = [] ∧
  ¬ In (EvErrorFree connection_closed_error)
       (trace (exec handler example_world_closed)).
Proof. repeat split. intros []. Qed.

(** ** Registration and subscription *)

Lemma silent_ret {A : Type} (a : A) : silent (ret a).
Proof. intros w; reflexivity. Qed.

Lemma silent_bind {A B : Type} (m : M A) (k : A → M B) :
  silent m → (∀ a, silent (k a)) → silent (bind m k).
Proof.
  intros Hm Hk w. rewrite exec_bind, Hk. apply Hm.
Qed.

Lemma silent_emit (e : Event) : silent (emit e).
Proof. intros w; reflexivity. Qed.

Lemma silent_g_error_free error : silent (g_error_free error).
Proof. destruct error; intros w; reflexivity. Qed.

Lemma silent_g_object_unref conn : silent (g_object_unref conn).
Proof. destruct conn; intros w; reflexivity. Qed.

Lemma silent_log_info fmt args : silent (CrossBus.log_info fmt args).
Proof.
  unfold CrossBus.log_info, g_print.
  repeat (apply silent_bind; [|intros ?]); apply silent_emit.
Qed.

Lemma silent_log_error fmt args : silent (CrossBus.log_error fmt args).
Proof.
  unfold CrossBus.log_error, g_printerr.
  repeat (apply silent_bind; [|intros ?]); apply silent_emit.
Qed.

Lemma silent_log_verbose st fmt args :
  silent (CrossBus.log_verbose st fmt args).
Proof.
  unfold CrossBus.log_verbose, g_print.
  destruct (negb _); [apply silent_ret|].
  repeat (apply silent_bind; [|intros ?]); apply silent_emit.
Qed.

Lemma silent_log_message config log_fp fmt args :
  silent (ConfigProxy.log_message config log_fp fmt args).
Proof.
  unfold ConfigProxy.log_message.
  destruct (negb _); [apply silent_ret|].
  destruct log_fp; apply silent_emit.
Qed.

Lemma lookup_install {V : Type} (vs : list V) n (m : gmap nat V) k :
  install n vs m !! k
  = if decide (n ≤ k < n + length vs)%nat then vs !! (k - n)%nat
    else m !! k.
Proof.
  revert n m. induction vs as [|v r IH]; intros n m; simpl.
  - case_decide; [lia | reflexivity].
  - rewrite IH. repeat case_decide; try lia.
    + replace (k - n)%nat with (S (k - S n)) by lia. reflexivity.
    + assert (k = n) as -> by lia.
      rewrite lookup_insert_eq, Nat.sub_diag. reflexivity.
    + rewrite lookup_insert_ne by lia. reflexivity.
Qed.

Lemma install_app {V : Type} (l1 l2 : list V) n (m : gmap nat V) :
  install n (l1 ++ l2) m = install (n + length l1) l2 (install n l1 m).
Proof.
  revert n m. induction l1 as [|v r IH]; intros n m; simpl.
  - rewrite Nat.add_0_r. reflexivity.
  - rewrite IH. f_equal. lia.
Qed.

Lemma registered_on_silent {A : Type} (m : M A) w t s :
  silent m → registered_on w (exec m w) t s [] [].
Proof.
  intros Hs. specialize (Hs w). unfold bus_state in Hs.
  injection Hs as Hc Hr Hn _ _ _ _ _ _.
  unfold registered_on. rewrite Hc, Hr, Hn. simpl.
  repeat split; try lia; intros c; case_decide; subst; reflexivity.
Qed.

Lemma registered_on_refl w t s : registered_on w w t s [] [].
Proof. apply (registered_on_silent (ret tt)). apply silent_ret. Qed.

Lemma registered_on_trans w w1 w2 t s e1 r1 e2 r2 :
  registered_on w w1 t s e1 r1 →
  registered_on w1 w2 t s e2 r2 →
  registered_on w w2 t s (e1 ++ e2) (r1 ++ r2).
Proof.
  intros (E1 & S1 & Nr1 & Ns1) (E2 & S2 & Nr2 & Ns2).
  unfold registered_on. rewrite !length_app. repeat split; try lia.
  - intros c. rewrite E2. case_decide.
    + rewrite E1, Nr1, install_app. rewrite decide_True by reflexivity.
      reflexivity.
    + rewrite E1. rewrite decide_False by assumption. reflexivity.
  - intros c. rewrite S2. case_decide.
    + rewrite S1, Ns1, install_app. rewrite decide_True by reflexivity.
      reflexivity.
    + rewrite S1. rewrite decide_False by assumption. reflexivity.
Qed.

Lemma registered_on_subscribe w t s sender iface member path cb :
  g_dbus_connection_signal_subscribe (Some s) sender iface member path cb w
  = (next_subscriber_id w,
     exec (g_dbus_connection_signal_subscribe (Some s) sender iface member
             path cb) w) ∧
  registered_on w
    (exec (g_dbus_connection_signal_subscribe (Some s) sender iface member
             path cb) w)
    t s [] [mkSignalRule sender iface member path cb].
Proof.
  split; [reflexivity|].
  unfold registered_on, exec; simpl. repeat split; try lia.
  - intros c. repeat case_decide; subst; try reflexivity; contradiction.
  - intros c. case_decide; reflexivity.
Qed.

Lemma register_object_collides w t path iface :
  exported_at (conns w t) path (iface_name iface) = true →
  ∃ e, g_dbus_connection_register_object (Some t) path iface SlotNull w
       = ((0%nat, SlotSet e), w).
Proof.
  intros H. unfold g_dbus_connection_register_object. rewrite H.
  eexists; reflexivity.
Qed.

Lemma register_object_fresh w t s path iface :
  exported_at (conns w t) path (iface_name iface) = false →
  ∃ w', g_dbus_connection_register_object (Some t) path iface SlotNull w
        = ((next_registration_id w, SlotNull), w') ∧
        registered_on w w' t s [(path, iface_name iface)] [] ∧
        trace w' = trace w.
Proof.
  intros H. unfold g_dbus_connection_register_object. rewrite H.
  eexists; split; [reflexivity|]. split; [|reflexivity].
  unfold registered_on; simpl. repeat split; try lia.
  - intros c. case_decide; reflexivity.
  - intros c. repeat case_decide; subst; try reflexivity; contradiction.
Qed.

Lemma CrossBus_subscribe_signals iface signals st w s t :
  CrossBus.source_bus st = Some s →
  let (st', w') := CrossBus.subscribe_signals st iface signals w in
  registered_on w w' t s []
    (rules_of_signals (CrossBus.source_bus_name (CrossBus.config st))
       (CrossBus.source_object_path (CrossBus.config st)) iface signals) ∧
  st' = CrossBus.set_signal_subscriptions
          (install (next_subscriber_id w) (labels_of_signals iface signals)
             <$> CrossBus.signal_subscriptions st) st.
Proof.
  revert st w. induction signals as [|sig rest IH]; intros st w Hs.
  - simpl. split; [apply registered_on_refl|].
    destruct st as [a b c d [e|] f]; reflexivity.
  - simpl. rewrite run_bind.
    set (w0 := exec (CrossBus.log_verbose st _ _) w).
    assert (R0 : registered_on w w0 t s [] [])
      by (apply registered_on_silent, silent_log_verbose).
    rewrite run_bind, Hs.
    destruct (registered_on_subscribe w0 t s
                (CrossBus.source_bus_name (CrossBus.config st))
                (iface_name iface) (signal_info_name sig)
                (CrossBus.source_object_path (CrossBus.config st))
                CbOnSignalReceived) as [E1 R1].
    unfold eval at 1. rewrite E1. simpl fst.
    set (w1 := exec (g_dbus_connection_signal_subscribe _ _ _ _ _ _) w0)
      in *.
    set (st1 := CrossBus.set_signal_subscriptions _ st).
    specialize (IH st1 w1 Hs).
    destruct (CrossBus.subscribe_signals st1 iface rest w1) as [st' w'].
    destruct IH as [R2 Hst]. split.
    + apply (registered_on_trans w w0 w' t s [] [] [] _ R0).
      apply (registered_on_trans w0 w1 w' t s [] _ [] _ R1 R2).
    + rewrite Hst. destruct R0 as (_ & _ & _ & N0).
      destruct R1 as (_ & _ & _ & N1).
      unfold st1. rewrite N1, N0. simpl length.
      rewrite Nat.add_0_r, Nat.add_1_r.
      destruct st as [a b c d [e|] f]; reflexivity.
Qed.

Lemma exported_at_ext b1 b2 path name :
  exported b1 = exported b2 →
  exported_at b1 path name = exported_at b2 path name.
Proof. intros H. unfold exported_at. rewrite H. reflexivity. Qed.

Lemma registered_on_exported_at_nil w w' t s rules path name :
  registered_on w w' t s [] rules →
  exported_at (conns w' t) path name = exported_at (conns w t) path name.
Proof.
  intros (E & _). apply exported_at_ext. rewrite E.
  rewrite decide_True by reflexivity. reflexivity.
Qed.

Lemma rules_labels_length sender path iface signals :
  length (rules_of_signals sender path iface signals)
  = length (labels_of_signals iface signals).
Proof.
  unfold rules_of_signals, labels_of_signals.
  rewrite !length_fmap. reflexivity.
Qed.

Lemma CrossBus_subscribe_interface iface st w s t :
  CrossBus.source_bus st = Some s →
  let (st', w') :=
    match iface_signals iface with
    | Some signals => CrossBus.subscribe_signals st iface signals
    | None => ret st
    end w in
  registered_on w w' t s []
    (signal_rules (CrossBus.source_bus_name (CrossBus.config st))
       (CrossBus.source_object_path (CrossBus.config st)) iface) ∧
  st' = CrossBus.set_signal_subscriptions
          (install (next_subscriber_id w) (signal_labels iface)
             <$> CrossBus.signal_subscriptions st) st.
Proof.
  intros Hs. unfold signal_rules, signal_labels.
  destruct (iface_signals iface) as [signals|]; simpl.
  - apply CrossBus_subscribe_signals; exact Hs.
  - split; [apply registered_on_refl|].
    destruct st as [a b c d [e|] f]; reflexivity.
Qed.

Lemma CrossBus_register_interfaces interfaces st w s t :
  CrossBus.source_bus st = Some s →
  CrossBus.target_bus st = Some t →
  (1 ≤ next_registration_id w)%nat →
  let sender := CrossBus.source_bus_name (CrossBus.config st) in
  let path := CrossBus.source_object_path (CrossBus.config st) in
  ∃ ok st' w' registered rest,
    CrossBus.register_interfaces st interfaces w = (Returned (ok, st'), w') ∧
    interfaces = registered ++ rest ∧
    (if ok then rest = []
     else ∃ bad rest', rest = bad :: rest' ∧
            exported_at (conns w' t) path (iface_name bad) = true) ∧
    registered_on w w' t s (exports_of path registered)
      (registered ≫= signal_rules sender path) ∧
    st' = CrossBus.set_signal_subscriptions
            (install (next_subscriber_id w) (registered ≫= signal_labels)
               <$> CrossBus.signal_subscriptions st)
            (CrossBus.set_registered_objects
               (install (next_registration_id w) (iface_name <$> registered)
                  <$> CrossBus.registered_objects st) st).
Proof.
  revert st w. induction interfaces as [|iface more IH];
    intros st w Hs Ht Hn sender path.
  - exists true, st, w, [], []. simpl.
    split; [reflexivity|]. split; [reflexivity|]. split; [reflexivity|].
    split; [apply registered_on_refl|].
    destruct st as [a b c [d|] [e|] f]; reflexivity.
  - simpl. rewrite run_bind.
    set (w0 := exec (CrossBus.log_info _ _) w).
    assert (R0 : registered_on w w0 t s [] [])
      by (apply registered_on_silent, silent_log_info).
    rewrite run_bind, Ht. fold path.
    destruct (exported_at (conns w0 t) path (iface_name iface)) eqn:Hcol.
    + (* the registration fails: [return FALSE] *)
      destruct (register_object_collides w0 t path iface Hcol) as [e He].
      unfold eval at 1, exec at 1. rewrite He. cbn [fst snd Nat.eqb].
      unfold with_slot_message, slot_message. cbv beta iota.
      rewrite run_bind. unfold and_then, slot_free.
      rewrite !run_bind. cbn [eval fst ret].
      set (wl := exec (CrossBus.log_error _ _) w0).
      set (w1 := exec _ wl).
      assert (R1 : registered_on w0 w1 t s [] []).
      { apply (registered_on_trans w0 wl w1 t s [] [] [] []);
          apply registered_on_silent;
          [apply silent_log_error
          | apply silent_bind; [apply silent_emit | intros; apply silent_ret]]. }
      exists false, st, w1, [], (iface :: more).
      split; [reflexivity|]. split; [reflexivity|]. split.
      * exists iface, more. split; [reflexivity|].
        rewrite (registered_on_exported_at_nil w0 w1 t s [] path) by exact R1.
        exact Hcol.
      * split.
        -- apply (registered_on_trans w w0 w1 t s [] [] [] [] R0 R1).
        -- destruct st as [a b c [d|] [g|] f]; reflexivity.
    + (* the registration succeeds *)
      destruct (register_object_fresh w0 t s path iface Hcol)
        as (w1 & He & R1 & _).
      unfold eval at 1, exec at 1. rewrite He. cbn [fst snd].
      destruct R0 as (E0 & S0 & Nr0 & Ns0).
      assert (Hid : (next_registration_id w0 =? 0)%nat = false).
      { apply Nat.eqb_neq. rewrite Nr0. simpl length. lia. }
      rewrite Hid.
      set (st1 := CrossBus.set_registered_objects _ st).
      rewrite run_bind.
      pose proof (CrossBus_subscribe_interface iface st1 w1 s t Hs) as H2.
      unfold eval at 1, exec at 1.
      destruct (match iface_signals iface with
                | Some signals => CrossBus.subscribe_signals st1 iface signals
                | None => ret st1
                end w1) as [st2 w2].
      destruct H2 as [R2 Hst2]. cbn [fst snd].
      assert (Hs2 : CrossBus.source_bus st2 = Some s)
        by (rewrite Hst2; exact Hs).
      assert (Ht2 : CrossBus.target_bus st2 = Some t)
        by (rewrite Hst2; exact Ht).
      assert (Hn2 : (1 ≤ next_registration_id w2)%nat).
      { destruct R1 as (_ & _ & N1 & _). destruct R2 as (_ & _ & N2 & _).
        lia. }
      destruct (IH st2 w2 Hs2 Ht2 Hn2)
        as (ok & st' & w' & registered & rest & Hrun & Hsplit & Hok & R3
            & Hst').
      assert (Hcfg : CrossBus.config st2 = CrossBus.config st)
        by (rewrite Hst2; reflexivity).
      rewrite Hcfg in Hok, R3. fold sender path in Hok, R3.
      exists ok, st', w', (iface :: registered), rest.
      split; [exact Hrun|]. split; [rewrite Hsplit; reflexivity|].
      split; [exact Hok|]. split.
      * pose proof (registered_on_trans _ _ _ t s _ _ _ _
                      (conj E0 (conj S0 (conj Nr0 Ns0))) R1) as R01.
        pose proof (registered_on_trans _ _ _ t s _ _ _ _ R01 R2) as R02.
        pose proof (registered_on_trans _ _ _ t s _ _ _ _ R02 R3) as R03.
        simpl in R03. exact R03.
      * rewrite Hst', Hst2. unfold st1.
        destruct R1 as (_ & _ & Nr1 & Ns1). destruct R2 as (_ & _ & Nr2 & Ns2).
        rewrite Nr2, Ns2, Nr1, Ns1, Nr0, Ns0. simpl length.
        rewrite !Nat.add_0_r. rewrite Nat.add_1_r.
        unfold signal_rules. rewrite rules_labels_length.
        fold (signal_labels iface).
        destruct st as [a b c [d|] [g|] f]; simpl;
          rewrite ?install_app; reflexivity.
Qed.

Lemma bind_rules_labels_length sender path (interfaces : list GDBusInterfaceInfo) :
  length (interfaces ≫= signal_rules sender path)
  = length (interfaces ≫= signal_labels).
Proof.
  induction interfaces as [|i l IH]; [reflexivity|].
  change (length (signal_rules sender path i
                  ++ (l ≫= signal_rules sender path))
          = length (signal_labels i ++ (l ≫= signal_labels))).
  rewrite !length_app, IH. f_equal. apply rules_labels_length.
Qed.

Lemma CrossBus_setup_proxy_interfaces interfaces st w s t :
  CrossBus.source_bus st = Some s →
  CrossBus.target_bus st = Some t →
  (1 ≤ next_registration_id w)%nat →
  CrossBus.introspection_data st = Some (mkNodeInfo (Some interfaces)) →
  let sender := CrossBus.source_bus_name (CrossBus.config st) in
  let path := CrossBus.source_object_path (CrossBus.config st) in
  ∃ ok st' w',
    CrossBus.setup_proxy_interfaces st w = (Returned (ok, st'), w') ∧
    if ok then
      registered_on w w' t s (exports_of path interfaces)
        ((interfaces ≫= signal_rules sender path)
         ++ [properties_changed_rule sender path CbOnPropertiesChanged]) ∧
      st' = CrossBus.set_signal_subscriptions
              (install (next_subscriber_id w)
                 ((interfaces ≫= signal_labels)
                  ++ ["org.freedesktop.DBus.Properties.PropertiesChanged"])
                 <$> CrossBus.signal_subscriptions st)
              (CrossBus.set_registered_objects
                 (install (next_registration_id w)
                    (iface_name <$> interfaces)
                    <$> CrossBus.registered_objects st) st)
    else
      ∃ registered bad rest,
        interfaces = registered ++ bad :: rest ∧
        exported_at (conns w' t) path (iface_name bad) = true ∧
        registered_on w w' t s (exports_of path registered)
          (registered ≫= signal_rules sender path) ∧
        st' = CrossBus.set_signal_subscriptions
                (install (next_subscriber_id w)
                   (registered ≫= signal_labels)
                   <$> CrossBus.signal_subscriptions st)
                (CrossBus.set_registered_objects
                   (install (next_registration_id w)
                      (iface_name <$> registered)
                      <$> CrossBus.registered_objects st) st).
Proof.
  intros Hs Ht Hn Hdata sender path.
  unfold CrossBus.setup_proxy_interfaces. rewrite Hdata. simpl.
  destruct (CrossBus_register_interfaces interfaces st w s t Hs Ht Hn)
    as (ok & st1 & w1 & registered & rest & Hrun & Hsplit & Hok & R1 & Hst1).
  fold sender path in Hok, R1.
  unfold and_then. rewrite run_bind. unfold eval at 1, exec at 1.
  rewrite Hrun. cbn [fst snd].
  destruct ok; cbn [negb].
  - subst rest. rewrite app_nil_r in Hsplit. subst registered.
    assert (Hs1 : CrossBus.source_bus st1 = Some s)
      by (rewrite Hst1; exact Hs).
    assert (Hcfg : CrossBus.config st1 = CrossBus.config st)
      by (rewrite Hst1; reflexivity).
    rewrite run_bind, Hs1, Hcfg. fold sender path.
    destruct (registered_on_subscribe w1 t s sender
                "org.freedesktop.DBus.Properties" "PropertiesChanged" path
                CbOnPropertiesChanged) as [E2 R2].
    unfold eval at 1. rewrite E2. cbn [fst].
    set (w2 := exec (g_dbus_connection_signal_subscribe _ _ _ _ _ _) w1) in *.
    rewrite run_bind.
    set (w3 := exec (CrossBus.log_info _ _) w2).
    assert (R3 : registered_on w2 w3 t s [] [])
      by (apply registered_on_silent, silent_log_info).
    eexists true, _, w3. split; [reflexivity|]. split.
    + pose proof (registered_on_trans _ _ _ t s _ _ _ _ R1 R2) as R12.
      pose proof (registered_on_trans _ _ _ t s _ _ _ _ R12 R3) as R13.
      rewrite !app_nil_r in R13. exact R13.
    + rewrite Hst1. destruct R1 as (_ & _ & _ & Ns1). rewrite Ns1.
      rewrite (bind_rules_labels_length sender path interfaces).
      destruct st as [a b c [d|] [g|] f]; simpl;
        rewrite ?install_app; reflexivity.
  - destruct Hok as (bad & rest' & -> & Hbad).
    eexists false, st1, w1. split; [reflexivity|].
    exists registered, bad, rest'. auto.
Qed.

(** ** Teardown *)

Lemma exec_for_each_cons {A : Type} (x : A) (l : list A) (body : A → M unit)
    (w : World) :
  exec (for_each (x :: l) body) w = exec (for_each l body) (exec (body x) w).
Proof. simpl. rewrite exec_bind. reflexivity. Qed.

Lemma exec_bind_ret_tt {A : Type} (m : M A) (w : World) :
  exec (bind m (λ _, ret tt)) w = exec m w.
Proof. rewrite exec_bind. reflexivity. Qed.

Lemma unregister_view t id w :
  let w' := exec (g_dbus_connection_unregister_object (Some t) id) w in
  (∀ c, exported (conns w' c)
        = if decide (c = t) then delete id (exported (conns w t))
          else exported (conns w c)) ∧
  (∀ c, subscriptions (conns w' c) = subscriptions (conns w c)) ∧
  trace w' = trace w.
Proof.
  unfold exec, g_dbus_connection_unregister_object; simpl.
  destruct (exported (conns w t) !! id) eqn:E; simpl.
  - repeat split; intros c; case_decide; subst; reflexivity.
  - repeat split; intros c. case_decide; [subst|reflexivity].
    rewrite delete_id by exact E. reflexivity.
Qed.

Lemma unsubscribe_view s id w :
  let w' := exec (g_dbus_connection_signal_unsubscribe (Some s) id) w in
  (∀ c, subscriptions (conns w' c)
        = if decide (c = s) then delete id (subscriptions (conns w s))
          else subscriptions (conns w c)) ∧
  (∀ c, exported (conns w' c) = exported (conns w c)) ∧
  trace w' = trace w.
Proof.
  unfold exec, g_dbus_connection_signal_unsubscribe; simpl.
  repeat split; intros c; case_decide; subst; reflexivity.
Qed.

Lemma delete_step_lookup {V : Type} (c t : GDBusConnection) (k key : nat)
    (keys : list nat) (m1 m0 mt : gmap nat V) :
  m1 = (if decide (c = t) then delete key mt else m0) →
  (c = t → m0 = mt) →
  (if decide (c = t ∧ k ∈ keys) then None else m1 !! k)
  = if decide (c = t ∧ k ∈ key :: keys) then None else m0 !! k.
Proof.
  intros -> Hm. destruct (decide (c = t)) as [Hc|Hc].
  - rewrite (Hm Hc). destruct (decide (k ∈ keys)) as [Hin|Hnin].
    + rewrite !decide_True; [reflexivity | |]; split; auto.
      apply elem_of_cons; auto.
    + rewrite (decide_False (P := c = t ∧ k ∈ keys)) by tauto.
      destruct (decide (k = key)) as [->|Hk].
      * rewrite lookup_delete_eq, decide_True; [reflexivity|].
        split; [exact Hc | apply elem_of_cons; auto].
      * rewrite lookup_delete_ne by auto. rewrite decide_False; [reflexivity|].
        intros [_ Hin]. apply elem_of_cons in Hin. destruct Hin; tauto.
  - rewrite !decide_False by tauto. reflexivity.
Qed.

(** Unregistering the keys of a table, one by one. *)
Lemma unregister_all_view t (entries : list (nat * string)) w :
  let w' := exec (for_each entries (λ '(key, value),
                    _ <- g_dbus_connection_unregister_object (Some t) key ;;
                    ret tt)) w in
  (∀ c k, exported (conns w' c) !! k
          = if decide (c = t ∧ k ∈ entries.*1) then None
            else exported (conns w c) !! k) ∧
  (∀ c, subscriptions (conns w' c) = subscriptions (conns w c)) ∧
  trace w' = trace w.
Proof.
  revert w. induction entries as [|[key value] rest IH]; intros w.
  - simpl. repeat split. intros c k.
    rewrite decide_False; [reflexivity|]. intros [_ H].
    apply elem_of_nil in H. exact H.
  - rewrite exec_for_each_cons, exec_bind_ret_tt.
    set (w1 := exec (g_dbus_connection_unregister_object (Some t) key) w).
    destruct (unregister_view t key w) as (E1 & S1 & T1). fold w1 in E1, S1, T1.
    destruct (IH w1) as (E2 & S2 & T2).
    cbv zeta. split; [|split].
    + intros c k. rewrite E2. cbn [fmap list_fmap fst].
      apply (delete_step_lookup c t k key (rest.*1) _ _
               (exported (conns w t))); [apply E1 | intros ->; reflexivity].
    + intros c. rewrite S2, S1. reflexivity.
    + rewrite T2, T1. reflexivity.
Qed.

Lemma unsubscribe_all_view s (entries : list (nat * string)) w :
  let w' := exec (for_each entries (λ '(key, value),
                    g_dbus_connection_signal_unsubscribe (Some s) key)) w in
  (∀ c k, subscriptions (conns w' c) !! k
          = if decide (c = s ∧ k ∈ entries.*1) then None
            else subscriptions (conns w c) !! k) ∧
  (∀ c, exported (conns w' c) = exported (conns w c)) ∧
  trace w' = trace w.
Proof.
  revert w. induction entries as [|[key value] rest IH]; intros w.
  - simpl. repeat split. intros c k.
    rewrite decide_False; [reflexivity|]. intros [_ H].
    apply elem_of_nil in H. exact H.
  - rewrite exec_for_each_cons.
    set (w1 := exec (g_dbus_connection_signal_unsubscribe (Some s) key) w).
    destruct (unsubscribe_view s key w) as (S1 & E1 & T1).
    fold w1 in E1, S1, T1.
    destruct (IH w1) as (S2 & E2 & T2).
    cbv zeta. split; [|split].
    + intros c k. rewrite S2. cbn [fmap list_fmap fst].
      apply (delete_step_lookup c s k key (rest.*1) _ _
               (subscriptions (conns w s)));
        [apply S1 | intros ->; reflexivity].
    + intros c. rewrite E2, E1. reflexivity.
    + rewrite T2, T1. reflexivity.
Qed.

Lemma elem_of_map_to_list_keys {V : Type} (m : gmap nat V) (k : nat) :
  k ∈ (map_to_list m).*1 ↔ is_Some (m !! k).
Proof.
  rewrite list_elem_of_fmap. split.
  - intros [[k' v] [-> H]]. apply elem_of_map_to_list in H.
    exists v. exact H.
  - intros [v H]. exists (k, v). split; [reflexivity|].
    apply elem_of_map_to_list. exact H.
Qed.

Lemma silent_unrefs (a b : option GDBusConnection) :
  silent ((if non_null a then g_object_unref a else ret tt) ;;
          (if non_null b then g_object_unref b else ret tt) ;;
          ret (None : option CrossBus.ProxyState))%io.
Proof.
  apply silent_bind; [|intros _; apply silent_bind; [|intros _]].
  - destruct (non_null a); [apply silent_g_object_unref | apply silent_ret].
  - destruct (non_null b); [apply silent_g_object_unref | apply silent_ret].
  - apply silent_ret.
Qed.

(** What [cleanup_proxy_state] does to a live state with both tables and
    both connections in place: every identifier in a table is gone from
    its connection, nothing else changes there, the pointer is reset. *)
Lemma CrossBus_cleanup_view st t s ro ss w :
  CrossBus.target_bus st = Some t →
  CrossBus.source_bus st = Some s →
  CrossBus.registered_objects st = Some ro →
  CrossBus.signal_subscriptions st = Some ss →
  let (p, w') := CrossBus.cleanup_proxy_state (Some st) w in
  p = None ∧
  (∀ c k, exported (conns w' c) !! k
          = if decide (c = t ∧ is_Some (ro !! k)) then None
            else exported (conns w c) !! k) ∧
  (∀ c k, subscriptions (conns w' c) !! k
          = if decide (c = s ∧ is_Some (ss !! k)) then None
            else subscriptions (conns w c) !! k).
Proof.
  intros Ht Hs Hro Hss. unfold CrossBus.cleanup_proxy_state.
  rewrite Ht, Hs, Hro, Hss.
  rewrite run_bind.
  set (w1 := exec (for_each (map_to_list ro) _) w).
  rewrite run_bind.
  set (w2 := exec (for_each (map_to_list ss) _) w1).
  destruct (unregister_all_view t (map_to_list ro) w) as (E1 & S1 & _).
  fold w1 in E1, S1.
  destruct (unsubscribe_all_view s (map_to_list ss) w1) as (S2 & E2 & _).
  fold w2 in E2, S2.
  pose proof (silent_unrefs (Some s) (Some t) w2) as H3.
  destruct ((_ ;; _ ;; ret None)%io w2) as [p w3] eqn:E3.
  unfold exec in H3. rewrite E3 in H3. simpl in H3.
  unfold bus_state in H3. injection H3 as Hc _ _ _ _ _ _ _ _.
  assert (p = None) as ->.
  { revert E3. unfold bind, g_object_unref, emit, ret; simpl.
    intros [= <- _]. reflexivity. }
  split; [reflexivity|]. rewrite Hc. split.
  - intros c k. rewrite E2, E1.
    destruct (decide (c = t ∧ k ∈ (map_to_list ro).*1)) as [[-> Hin]|Hn].
    + rewrite decide_True; [reflexivity|].
      split; [reflexivity | apply elem_of_map_to_list_keys, Hin].
    + rewrite decide_False; [reflexivity|].
      intros [-> Hin]. apply Hn. split; [reflexivity|].
      apply elem_of_map_to_list_keys, Hin.
  - intros c k. rewrite S2, S1.
    destruct (decide (c = s ∧ k ∈ (map_to_list ss).*1)) as [[-> Hin]|Hn].
    + rewrite decide_True; [reflexivity|].
      split; [reflexivity | apply elem_of_map_to_list_keys, Hin].
    + rewrite decide_False; [reflexivity|].
      intros [-> Hin]. apply Hn. split; [reflexivity|].
      apply elem_of_map_to_list_keys, Hin.
Qed.

Lemma CrossBus_cleanup_resets proxy_state w :
  fst (CrossBus.cleanup_proxy_state proxy_state w) = None.
Proof.
  destruct proxy_state as [st|]; [|reflexivity].
  unfold CrossBus.cleanup_proxy_state.
  rewrite !run_bind. reflexivity.
Qed.

Lemma CrossBus_cleanup_empty st w :
  CrossBus.registered_objects st = Some ∅ →
  CrossBus.signal_subscriptions st = Some ∅ →
  bus_state (exec (CrossBus.cleanup_proxy_state (Some st)) w) = bus_state w.
Proof.
  intros Hro Hss. unfold CrossBus.cleanup_proxy_state.
  rewrite Hro, Hss, !map_to_list_empty.
  rewrite exec_bind. change (exec (for_each [] _) w) with w.
  rewrite exec_bind. change (exec (for_each [] _) w) with w.
  cbv beta. apply silent_unrefs.
Qed.

(** C9, as the code has it.  In the cross-bus variant release_all
    ([cleanup_proxy_state]) is idempotent: one invocation leaves the ledger
    pointer reset and every identifier that was in the ledger gone from
    its connection, and a second invocation changes nothing, so twice is
    once; on an empty ledger no registration or subscription is touched,
    and on no ledger at all (a [NULL] pointer) nothing happens.  The
    multi-bus [cleanup_proxy] likewise does nothing on a [NULL] context. *)
Theorem release_all_idempotent (proxy_state : option CrossBus.ProxyState)
    (w : World) :
  let (p1, w1) := CrossBus.cleanup_proxy_state proxy_state w in
  p1 = None ∧
  CrossBus.cleanup_proxy_state p1 w1 = (p1, w1) ∧
  (∀ st t s ro ss,
     proxy_state = Some st →
     CrossBus.target_bus st = Some t →
     CrossBus.source_bus st = Some s →
     CrossBus.registered_objects st = Some ro →
     CrossBus.signal_subscriptions st = Some ss →
     (∀ id, is_Some (ro !! id) → exported (conns w1 t) !! id = None) ∧
     (∀ id, is_Some (ss !! id) → subscriptions (conns w1 s) !! id = None)) ∧
  (∀ st,
     proxy_state = Some st →
     CrossBus.registered_objects st = Some ∅ →
     CrossBus.signal_subscriptions st = Some ∅ →
     bus_state w1 = bus_state w) ∧
  (proxy_state = None → w1 = w) ∧
  MultiBus.cleanup_proxy MultiBus.CtxNull w = (Returned MultiBus.CtxNull, w).
Proof.
  pose proof (CrossBus_cleanup_resets proxy_state w) as Hreset.
  destruct (CrossBus.cleanup_proxy_state proxy_state w) as [p1 w1] eqn:E.
  simpl in Hreset. subst p1.
  split; [reflexivity|]. split; [reflexivity|]. split; [|split; [|split]].
  - intros st t s ro ss -> Ht Hs Hro Hss.
    pose proof (CrossBus_cleanup_view st t s ro ss w Ht Hs Hro Hss) as H.
    rewrite E in H. destruct H as (_ & He & Hsub). split.
    + intros id Hid. rewrite He. rewrite decide_True; [reflexivity|]. auto.
    + intros id Hid. rewrite Hsub. rewrite decide_True; [reflexivity|]. auto.
  - intros st -> Hro Hss.
    pose proof (CrossBus_cleanup_empty st w Hro Hss) as H.
    unfold exec in H. rewrite E in H. exact H.
  - intros ->. simpl in E. injection E as <-. reflexivity.
  - reflexivity.
Qed.

(** C9 as stated fails for the multi-bus [cleanup_proxy]: it frees the
    context it is given, so a second invocation on the same context reads
    freed memory instead of being a no-op. *)
Lemma multibus_cleanup_twice_is_use_after_free :
  let (r1, w1) := MultiBus.cleanup_proxy (MultiBus.CtxLive example_ctx)
                    (example_world None) in
  r1 = Returned MultiBus.CtxFreed ∧
  fst (MultiBus.cleanup_proxy MultiBus.CtxFreed w1) = Undefined UseAfterFree ∧
  fst (MultiBus.cleanup_proxy MultiBus.CtxFreed w1) ≠ r1.
Proof. repeat split. discriminate. Qed.

(** ** Collisions *)

Lemma exported_at_spec b path name :
  exported_at b path name = true
  ↔ ∃ id, exported b !! id = Some (path, name).
Proof.
  unfold exported_at. rewrite existsb_exists. split.
  - intros [[id x] [Hin Hx]]. apply bool_decide_eq_true in Hx.
    simpl in Hx. subst x. exists id.
    apply elem_of_map_to_list. apply list_elem_of_In. exact Hin.
  - intros [id H]. exists (id, (path, name)). split.
    + apply list_elem_of_In. apply elem_of_map_to_list. exact H.
    + apply bool_decide_eq_true. reflexivity.
Qed.

Lemma exported_at_false b path name :
  exported_at b path name = false
  ↔ ∀ id, exported b !! id ≠ Some (path, name).
Proof.
  split.
  - intros H id Hid.
    assert (exported_at b path name = true)
      by (apply exported_at_spec; eauto).
    congruence.
  - intros H. destruct (exported_at b path name) eqn:E; [|reflexivity].
    apply exported_at_spec in E as [id Hid]. destruct (H id Hid).
Qed.

(** After a registration of [(path, name')] under a new identifier: *)
Lemma exported_at_insert b b' id path name name' :
  exported b' = <[id := (path, name')]> (exported b) →
  exported b !! id = None →
  exported_at b' path name
  = (bool_decide (name = name') || exported_at b path name).
Proof.
  intros Hb Hfresh.
  destruct (bool_decide (name = name') || exported_at b path name) eqn:E.
  - apply exported_at_spec. rewrite Hb.
    apply orb_true_iff in E as [E|E].
    + apply bool_decide_eq_true in E as ->. exists id.
      apply lookup_insert_eq.
    + apply exported_at_spec in E as [id' Hid']. exists id'.
      rewrite lookup_insert_ne; [exact Hid'|]. congruence.
  - apply orb_false_iff in E as [E1 E2].
    apply bool_decide_eq_false in E1.
    apply exported_at_false. intros id' Hid'. rewrite Hb in Hid'.
    destruct (decide (id = id')) as [->|Hne].
    + rewrite lookup_insert_eq in Hid'. congruence.
    + rewrite lookup_insert_ne in Hid' by exact Hne.
      rewrite exported_at_false in E2. exact (E2 id' Hid').
Qed.

Lemma all_fresh_nil b path : all_fresh b path [].
Proof.
  split; [constructor|]. intros i H. apply elem_of_nil in H. destruct H.
Qed.

(** One registration done, the rest of a fresh list is still fresh, and
    the collision status of every other name is what it was. *)
Lemma all_fresh_step b b' id path iface rest :
  all_fresh b path (iface :: rest) →
  exported b' = <[id := (path, iface_name iface)]> (exported b) →
  exported b !! id = None →
  all_fresh b' path rest ∧
  exported_at b' path (iface_name iface) = true ∧
  ∀ name, name ≠ iface_name iface →
          exported_at b' path name = exported_at b path name.
Proof.
  intros [Hnd Hf] Hb Hid. simpl in Hnd. apply NoDup_cons in Hnd as [Hni Hnd].
  split; [|split].
  - split; [exact Hnd|]. intros j Hj.
    rewrite (exported_at_insert b b' id path _ _ Hb Hid).
    rewrite (Hf j) by (apply elem_of_cons; auto).
    rewrite orb_false_r. apply bool_decide_eq_false.
    intros Heq. apply Hni. rewrite <- Heq.
    apply list_elem_of_fmap. exists j. auto.
  - rewrite (exported_at_insert b b' id path _ _ Hb Hid).
    rewrite bool_decide_eq_true_2 by reflexivity. reflexivity.
  - intros name Hne.
    rewrite (exported_at_insert b b' id path _ _ Hb Hid).
    rewrite bool_decide_eq_false_2 by exact Hne. reflexivity.
Qed.

Lemma world_wf_registered_on w w' t s exports rules :
  world_wf w → registered_on w w' t s exports rules → world_wf w'.
Proof.
  intros (H1 & H2 & H3 & H4) (E & S & Nr & Ns).
  split; [lia|]. split; [lia|]. split.
  - intros c id Hid. rewrite E. case_decide.
    + rewrite lookup_install. rewrite decide_False by lia.
      apply H3. lia.
    + apply H3. lia.
  - intros c id Hid. rewrite S. case_decide.
    + rewrite lookup_install. rewrite decide_False by lia.
      apply H4. lia.
    + apply H4. lia.
Qed.

(** The registrations that [registered_on] adds keep [(path, name)]
    exported, and one registration adds exactly its own name. *)
Lemma registered_on_one_export w w' t s path iface rules :
  world_wf w →
  registered_on w w' t s [(path, iface_name iface)] rules →
  exported (conns w' t)
  = <[next_registration_id w := (path, iface_name iface)]>
      (exported (conns w t)) ∧
  exported (conns w t) !! next_registration_id w = None.
Proof.
  intros (_ & _ & H3 & _) (E & _). split.
  - rewrite E, decide_True by reflexivity. reflexivity.
  - apply H3. lia.
Qed.

Lemma MultiBus_subscribe_signals iface signals ctx w s t :
  MultiBus.source_bus ctx = Some s →
  let (ctx', w') := MultiBus.subscribe_signals ctx iface signals w in
  registered_on w w' t s []
    (rules_of_signals (MultiBus.source_bus_name ctx)
       (MultiBus.source_object_path ctx) iface signals) ∧
  trace w' = trace w ∧
  ctx' = MultiBus.set_signal_subscriptions
           (rev (seq (next_subscriber_id w) (length signals))
            ++ MultiBus.signal_subscriptions ctx) ctx.
Proof.
  revert ctx w. induction signals as [|sig rest IH]; intros ctx w Hs.
  - simpl. split; [apply registered_on_refl|]. split; [reflexivity|].
    destruct ctx; reflexivity.
  - simpl MultiBus.subscribe_signals. rewrite run_bind, Hs.
    destruct (registered_on_subscribe w t s (MultiBus.source_bus_name ctx)
                (iface_name iface) (signal_info_name sig)
                (MultiBus.source_object_path ctx) CbOnSignalReceived)
      as [E1 R1].
    unfold eval at 1. rewrite E1. cbn [fst].
    set (w1 := exec (g_dbus_connection_signal_subscribe _ _ _ _ _ _) w) in *.
    set (ctx1 := MultiBus.set_signal_subscriptions _ ctx).
    specialize (IH ctx1 w1 Hs).
    destruct (MultiBus.subscribe_signals ctx1 iface rest w1) as [ctx' w'].
    destruct IH as (R2 & T2 & Hctx). split; [|split].
    + apply (registered_on_trans w w1 w' t s [] _ [] _ R1 R2).
    + rewrite T2. reflexivity.
    + rewrite Hctx. destruct R1 as (_ & _ & _ & N1). rewrite N1.
      unfold ctx1. simpl length. rewrite Nat.add_1_r.
      destruct ctx; simpl. rewrite <- app_assoc. reflexivity.
Qed.

Lemma MultiBus_subscribe_interface iface ctx w s t :
  MultiBus.source_bus ctx = Some s →
  let (ctx', w') :=
    match iface_signals iface with
    | Some signals => MultiBus.subscribe_signals ctx iface signals
    | None => ret ctx
    end w in
  registered_on w w' t s []
    (signal_rules (MultiBus.source_bus_name ctx)
       (MultiBus.source_object_path ctx) iface) ∧
  trace w' = trace w ∧
  ctx' = MultiBus.set_signal_subscriptions
           (rev (seq (next_subscriber_id w)
                     (length (signal_rules (MultiBus.source_bus_name ctx)
                                (MultiBus.source_object_path ctx) iface)))
            ++ MultiBus.signal_subscriptions ctx) ctx.
Proof.
  intros Hs. unfold signal_rules.
  destruct (iface_signals iface) as [signals|]; simpl.
  - unfold rules_of_signals. rewrite length_fmap.
    apply MultiBus_subscribe_signals; exact Hs.
  - split; [apply registered_on_refl|]. split; [reflexivity|].
    destruct ctx; reflexivity.
Qed.

Lemma MultiBus_register_interfaces_cons ctx error iface rest w :
  MultiBus.register_interfaces ctx error (iface :: rest) w
  = (let (r, w1) := g_dbus_connection_register_object
                      (MultiBus.target_bus ctx)
                      (MultiBus.source_object_path ctx) iface error w in
     let (id, error) := r in
     let ctx := MultiBus.set_registration_id id ctx in
     if (MultiBus.registration_id ctx =? 0)%nat then
       with_slot_message error (λ msg,
         g_printerr "Failed to register interface %s: %s\n"
                    [PStr (iface_name iface); PStr msg] ;;
         and_then (slot_free error) (λ error,
           MultiBus.register_interfaces ctx error rest)) w1
     else
       (ctx <- match iface_signals iface with
               | Some signals => MultiBus.subscribe_signals ctx iface signals
               | None => ret ctx
               end ;;
        MultiBus.register_interfaces ctx error rest) w1).
Proof.
  simpl. unfold bind at 1.
  destruct (g_dbus_connection_register_object _ _ _ _ w) as [[id e] w1].
  simpl. destruct (id =? 0)%nat; reflexivity.
Qed.

(** The loop over a fresh prefix [pre]: every interface of it is
    registered and subscribed, nothing is printed, and the loop goes on
    with [tail], its error variable still [NULL]. *)
Lemma MultiBus_register_fresh pre tail ctx w s t :
  MultiBus.source_bus ctx = Some s →
  MultiBus.target_bus ctx = Some t →
  world_wf w →
  all_fresh (conns w t) (MultiBus.source_object_path ctx) pre →
  let sender := MultiBus.source_bus_name ctx in
  let path := MultiBus.source_object_path ctx in
  ∃ rid w1,
    let ctx1 :=
      MultiBus.set_signal_subscriptions
        (rev (seq (next_subscriber_id w)
                  (length (pre ≫= signal_rules sender path)))
         ++ MultiBus.signal_subscriptions ctx)
        (MultiBus.set_registration_id rid ctx) in
    MultiBus.register_interfaces ctx SlotNull (pre ++ tail) w
    = MultiBus.register_interfaces ctx1 SlotNull tail w1 ∧
    registered_on w w1 t s (exports_of path pre)
      (pre ≫= signal_rules sender path) ∧
    trace w1 = trace w ∧
    world_wf w1 ∧
    (∀ iface, iface ∈ pre →
              exported_at (conns w1 t) path (iface_name iface) = true) ∧
    (∀ name, name ∉ iface_name <$> pre →
             exported_at (conns w1 t) path name
             = exported_at (conns w t) path name).
Proof.
  revert ctx w. induction pre as [|iface pre IH];
    intros ctx w Hs Ht Hwf Hfresh sender path.
  - exists (MultiBus.registration_id ctx), w. cbv zeta.
    split; [destruct ctx; reflexivity|].
    split; [apply registered_on_refl|]. split; [reflexivity|].
    split; [exact Hwf|]. split; [|reflexivity].
    intros i Hi. apply elem_of_nil in Hi. destruct Hi.
  - assert (Hf1 : exported_at (conns w t) path (iface_name iface) = false)
      by (apply Hfresh, elem_of_cons; auto).
    destruct (register_object_fresh w t s path iface Hf1)
      as (w1 & He & R1 & T1).
    change ((iface :: pre) ++ tail) with (iface :: (pre ++ tail)).
    rewrite MultiBus_register_interfaces_cons, Ht. fold path. rewrite He.
    set (ctxa := MultiBus.set_registration_id (next_registration_id w) ctx).
    assert (Hid : (MultiBus.registration_id ctxa =? 0)%nat = false).
    { apply Nat.eqb_neq. unfold ctxa; simpl. destruct Hwf as [H1 _]. lia. }
    cbv zeta. rewrite Hid. rewrite run_bind.
    assert (Hsa : MultiBus.source_bus ctxa = Some s) by exact Hs.
    pose proof (MultiBus_subscribe_interface iface ctxa w1 s t Hsa) as H2.
    unfold eval at 1, exec at 1.
    destruct (match iface_signals iface with
              | Some signals => MultiBus.subscribe_signals ctxa iface signals
              | None => ret ctxa
              end w1) as [ctxb w2].
    destruct H2 as (R2 & T2 & Hctxb). cbn [fst snd].
    change (MultiBus.source_bus_name ctxa) with sender in R2, Hctxb.
    change (MultiBus.source_object_path ctxa) with path in R2, Hctxb.
    pose proof (registered_on_trans _ _ _ t s _ _ _ _ R1 R2) as R12.
    simpl in R12.
    destruct (registered_on_one_export w w2 t s path iface _ Hwf R12)
      as [Hexp Hnone].
    destruct (all_fresh_step _ _ _ path iface pre Hfresh Hexp Hnone)
      as (Hfresh2 & Hhere & Hothers).
    assert (Hwf2 : world_wf w2)
      by (eapply world_wf_registered_on; eassumption).
    assert (Hsb : MultiBus.source_bus ctxb = Some s)
      by (rewrite Hctxb; exact Hs).
    assert (Htb : MultiBus.target_bus ctxb = Some t)
      by (rewrite Hctxb; exact Ht).
    assert (Hpb : MultiBus.source_object_path ctxb = path)
      by (rewrite Hctxb; reflexivity).
    assert (Hnb : MultiBus.source_bus_name ctxb = sender)
      by (rewrite Hctxb; reflexivity).
    rewrite <- Hpb in Hfresh2.
    destruct (IH ctxb w2 Hsb Htb Hwf2 Hfresh2)
      as (rid & w3 & Hrun & R3 & T3 & Hwf3 & Hin3 & Hout3).
    rewrite Hpb in Hrun, R3, Hin3, Hout3. rewrite Hnb in Hrun, R3.
    exists rid, w3. cbv zeta. split; [|split; [|split; [|split; [|split]]]].
    + rewrite Hrun. f_equal.
      rewrite Hctxb. destruct R12 as (_ & _ & _ & N12). rewrite N12.
      change ((iface :: pre) ≫= signal_rules sender path)
        with (signal_rules sender path iface
              ++ (pre ≫= signal_rules sender path)).
      rewrite length_app, seq_app, rev_app_distr.
      destruct R1 as (_ & _ & _ & N1). rewrite N1. simpl length.
      rewrite Nat.add_0_r.
      destruct ctx; simpl. rewrite <- app_assoc. reflexivity.
    + pose proof (registered_on_trans _ _ _ t s _ _ _ _ R12 R3) as R.
      exact R.
    + rewrite T3, T2, T1. reflexivity.
    + exact Hwf3.
    + intros i Hi. apply elem_of_cons in Hi as [->|Hi].
      * destruct (decide (iface_name iface ∈ iface_name <$> pre))
          as [Hdup|Hnd].
        -- destruct Hfresh as [Hnd _]. simpl in Hnd.
           apply NoDup_cons in Hnd as [Hni _]. contradiction.
        -- rewrite Hout3 by exact Hnd. exact Hhere.
      * apply Hin3, Hi.
    + intros name Hname.
      rewrite Hout3.
      * apply Hothers. intros ->. apply Hname.
        apply elem_of_cons. left. reflexivity.
      * intros Hin. apply Hname. simpl. apply elem_of_cons. right.
        exact Hin.
Qed.

Lemma and_then_slot_free_set {B : Type} (e : GError)
    (k : GErrorSlot → M (Outcome B)) (w : World) :
  and_then (slot_free (SlotSet e)) k w
  = k (SlotFreed e) (exec (emit (EvErrorFree e)) w).
Proof. reflexivity. Qed.

(** The interface that fails to register is skipped: the failure is
    printed, the error freed, nothing registered or subscribed; if it was
    the last interface the loop is done. *)
Lemma MultiBus_register_last_fails ctx w t bad :
  MultiBus.target_bus ctx = Some t →
  exported_at (conns w t) (MultiBus.source_object_path ctx) (iface_name bad)
  = true →
  ∃ e,
    MultiBus.register_interfaces ctx SlotNull [bad] w
    = (Returned (MultiBus.set_registration_id 0 ctx),
       set_trace
         (EvErrorFree e
          :: EvPrintErr "Failed to register interface %s: %s\n"
               [PStr (iface_name bad); PStr (message e)]
          :: trace w) w).
Proof.
  intros Ht Hcol.
  destruct (register_object_collides w t _ bad Hcol) as [e He].
  exists e. rewrite MultiBus_register_interfaces_cons, Ht, He.
  reflexivity.
Qed.

(** After a failure the loop's error variable points to a freed error:
    the next iteration hands it to GIO again and reads it. *)
Lemma MultiBus_register_after_failure ctx w t bad next rest :
  MultiBus.target_bus ctx = Some t →
  exported_at (conns w t) (MultiBus.source_object_path ctx) (iface_name bad)
  = true →
  fst (MultiBus.register_interfaces ctx SlotNull (bad :: next :: rest) w)
  = Undefined UseAfterFree.
Proof.
  intros Ht Hcol.
  destruct (register_object_collides w t _ bad Hcol) as [e He].
  rewrite MultiBus_register_interfaces_cons, Ht, He.
  cbv zeta. simpl Nat.eqb. cbv iota.
  unfold with_slot_message, slot_message. cbv beta iota.
  rewrite run_bind, and_then_slot_free_set.
  rewrite MultiBus_register_interfaces_cons.
  unfold g_dbus_connection_register_object.
  destruct (MultiBus.target_bus (MultiBus.set_registration_id 0 ctx));
    reflexivity.
Qed.

Lemma registered_on_own_name w t s conn name :
  registered_on w (exec (g_bus_own_name_on_connection conn name) w) t s [] [].
Proof.
  destruct conn as [c|]; [|apply registered_on_refl].
  unfold registered_on, exec; simpl. repeat split; try lia.
  - intros c'. case_decide; subst; reflexivity.
  - intros c'. case_decide; subst; reflexivity.
Qed.

(** [setup_proxy] once both connections are up and the source has answered
    [Introspect] with a document that parses: what is left is the
    registration loop and the name request. *)
Lemma MultiBus_setup_proxy_introspected
    source_address target_address source_service source_path proxy_service
    s t xml info w :
  MultiBus.create_connection source_address w = ((Some s, None), w) →
  MultiBus.create_connection target_address w = ((Some t, None), w) →
  answer w s source_service source_path
         "org.freedesktop.DBus.Introspectable" "Introspect" None
  = inl (GVTuple [GVString xml]) →
  parse_xml w xml = inl info →
  let ctx0 := MultiBus.mkProxyContext (Some s) (Some t) source_service
                source_path proxy_service (Some info) 0 [] in
  let w0 := set_trace
              (EvCall s source_service source_path
                      "org.freedesktop.DBus.Introspectable" "Introspect"
                      None (-1) :: trace w) w in
  MultiBus.setup_proxy source_address target_address source_service
                       source_path proxy_service w
  = match node_interfaces info with
    | None => (Undefined NullDeref, w0)
    | Some interfaces =>
        and_then (MultiBus.register_interfaces ctx0 SlotNull interfaces)
          (λ ctx,
             _ <- g_bus_own_name_on_connection (MultiBus.target_bus ctx)
                    (MultiBus.proxy_bus_name ctx) ;;
             t <- g_dbus_connection_get_unique_name
                    (MultiBus.target_bus ctx) ;;
             g_print "Proxy setup: %s (%s) -> %s (%s) as %s\n"
                     [PStr source_service; PStr source_address; PStr t;
                      PStr target_address; PStr proxy_service] ;;
             ret (Returned (Some ctx))) w0
    end.
Proof.
  intros H1 H2 H3 H4 ctx0 w0.
  unfold MultiBus.setup_proxy.
  unfold bind at 1. rewrite H1. cbn [non_null negb].
  unfold bind at 1. rewrite H2. cbn [non_null negb].
  cbv zeta. unfold bind at 1.
  unfold g_dbus_connection_call_sync.
  cbn [MultiBus.source_bus MultiBus.source_bus_name
       MultiBus.source_object_path].
  rewrite H3.
  change (g_variant_is_of_type (GVTuple [GVString xml]) (Some "(s)"))
    with true. cbv iota. fold w0.
  unfold bind at 1. unfold g_dbus_node_info_new_for_xml.
  change (g_variant_get_s (GVTuple [GVString xml])) with xml.
  change (parse_xml w0 xml) with (parse_xml w xml). rewrite H4.
  unfold MultiBus.set_introspection_data.
  cbn [MultiBus.source_bus MultiBus.target_bus MultiBus.source_bus_name
       MultiBus.source_object_path MultiBus.proxy_bus_name
       MultiBus.introspection_data MultiBus.registration_id
       MultiBus.signal_subscriptions].
  destruct (node_interfaces info); reflexivity.
Qed.

(** ** What stays off the wire *)

Lemma offline_ret {A : Type} (a : A) : offline (ret a).
Proof. intros w; reflexivity. Qed.

Lemma offline_bind {A B : Type} (m : M A) (k : A → M B) :
  offline m → (∀ a, offline (k a)) → offline (bind m k).
Proof. intros Hm Hk w. rewrite exec_bind, Hk. apply Hm. Qed.

Lemma offline_emit (e : Event) : on_the_wire e = false → offline (emit e).
Proof.
  intros He w. unfold wire, exec; simpl. rewrite He. reflexivity.
Qed.

Lemma offline_same_trace {A : Type} (m : M A) :
  (∀ w, trace (exec m w) = trace w) → offline m.
Proof. intros H w. unfold wire. rewrite H. reflexivity. Qed.

Lemma offline_register conn path iface error :
  offline (g_dbus_connection_register_object conn path iface error).
Proof.
  apply offline_same_trace. intros w.
  unfold exec, g_dbus_connection_register_object.
  destruct conn as [c|], error; try reflexivity.
  destruct (exported_at _ _ _); reflexivity.
Qed.

Lemma offline_unregister conn id :
  offline (g_dbus_connection_unregister_object conn id).
Proof.
  apply offline_same_trace. intros w.
  unfold exec, g_dbus_connection_unregister_object.
  destruct conn as [c|]; [|reflexivity].
  destruct (exported (conns w c) !! id); reflexivity.
Qed.

Lemma offline_subscribe conn sender iface member path cb :
  offline (g_dbus_connection_signal_subscribe conn sender iface member path
                                              cb).
Proof.
  apply offline_same_trace. intros w. destruct conn; reflexivity.
Qed.

Lemma offline_unsubscribe conn id :
  offline (g_dbus_connection_signal_unsubscribe conn id).
Proof.
  apply offline_same_trace. intros w. destruct conn; reflexivity.
Qed.

Lemma offline_g_error_free error : offline (g_error_free error).
Proof.
  destruct error; [apply offline_emit; reflexivity | apply offline_ret].
Qed.

Lemma offline_g_object_unref conn : offline (g_object_unref conn).
Proof.
  destruct conn; [apply offline_emit; reflexivity | apply offline_ret].
Qed.

Lemma offline_slot_free error : offline (slot_free error).
Proof.
  destruct error; try apply offline_ret.
  apply offline_bind; [apply offline_emit; reflexivity|].
  intros; apply offline_ret.
Qed.

Lemma offline_for_each {A : Type} (l : list A) (body : A → M unit) :
  (∀ x, offline (body x)) → offline (for_each l body).
Proof.
  intros H. induction l as [|x l IH]; [apply offline_ret|].
  simpl. apply offline_bind; [apply H | intros _; exact IH].
Qed.

Ltac offline_step :=
  first
    [ apply offline_ret
    | apply offline_register
    | apply offline_unregister
    | apply offline_subscribe
    | apply offline_unsubscribe
    | apply offline_g_error_free
    | apply offline_g_object_unref
    | apply offline_slot_free
    | apply offline_emit; reflexivity
    | apply offline_for_each; intros ?
    | apply offline_bind; [|intros ?]
    | match goal with
      | |- offline (if ?b then _ else _) => destruct b
      | |- offline (match ?x with _ => _ end) => destruct x
      end ].

Ltac offline_tac :=
  repeat (unfold CrossBus.log_info, CrossBus.log_error, CrossBus.log_verbose,
            ConfigProxy.log_message, g_print, g_printerr, and_then,
            with_slot_message, with_message;
          offline_step).

Lemma offline_log_info fmt args : offline (CrossBus.log_info fmt args).
Proof. offline_tac. Qed.

Lemma offline_log_error fmt args : offline (CrossBus.log_error fmt args).
Proof. offline_tac. Qed.

Lemma offline_log_verbose st fmt args :
  offline (CrossBus.log_verbose st fmt args).
Proof. offline_tac. Qed.

Lemma offline_CrossBus_subscribe_signals st iface signals :
  offline (CrossBus.subscribe_signals st iface signals).
Proof.
  revert st. induction signals as [|sig rest IH]; intros st; simpl.
  - apply offline_ret.
  - apply offline_bind; [apply offline_log_verbose|]. intros _.
    apply offline_bind; [apply offline_subscribe|]. intros id. apply IH.
Qed.

Lemma offline_CrossBus_cleanup proxy_state :
  offline (CrossBus.cleanup_proxy_state proxy_state).
Proof.
  destruct proxy_state as [st|]; [|apply offline_ret].
  unfold CrossBus.cleanup_proxy_state. offline_tac.
Qed.

Lemma CrossBus_register_interfaces_cons st iface rest w :
  CrossBus.register_interfaces st (iface :: rest) w
  = (let w0 := exec (CrossBus.log_info "Registering interface: %s"
                       [PStr (iface_name iface)]) w in
     let (r, w1) := g_dbus_connection_register_object
                      (CrossBus.target_bus st)
                      (CrossBus.source_object_path (CrossBus.config st))
                      iface SlotNull w0 in
     let (registration_id, error) := r in
     if (registration_id =? 0)%nat then
       with_slot_message error (λ msg,
         CrossBus.log_error "Failed to register interface %s: %s"
                            [PStr (iface_name iface); PStr msg] ;;
         and_then (slot_free error) (λ _, ret (Returned (false, st)))) w1
     else
       (st <- match iface_signals iface with
              | Some signals =>
                  CrossBus.subscribe_signals
                    (CrossBus.set_registered_objects
                       (CrossBus.g_hash_table_insert
                          (CrossBus.registered_objects st) registration_id
                          (iface_name iface)) st) iface signals
              | None =>
                  ret (CrossBus.set_registered_objects
                         (CrossBus.g_hash_table_insert
                            (CrossBus.registered_objects st) registration_id
                            (iface_name iface)) st)
              end ;;
        CrossBus.register_interfaces st rest) w1).
Proof.
  simpl. rewrite run_bind. cbv zeta. unfold bind at 1.
  destruct (g_dbus_connection_register_object _ _ _ _ _) as [[id e] w1].
  destruct (id =? 0)%nat; reflexivity.
Qed.

(** The cross-bus loop over a fresh prefix [pre]: every interface of it is
    registered, subscribed and entered in the two tables, and the loop goes
    on with [tail]. *)
Lemma CrossBus_register_fresh pre tail st w s t :
  CrossBus.source_bus st = Some s →
  CrossBus.target_bus st = Some t →
  world_wf w →
  all_fresh (conns w t) (CrossBus.source_object_path (CrossBus.config st))
            pre →
  let sender := CrossBus.source_bus_name (CrossBus.config st) in
  let path := CrossBus.source_object_path (CrossBus.config st) in
  ∃ w1,
    let st1 :=
      CrossBus.set_signal_subscriptions
        (install (next_subscriber_id w) (pre ≫= signal_labels)
           <$> CrossBus.signal_subscriptions st)
        (CrossBus.set_registered_objects
           (install (next_registration_id w) (iface_name <$> pre)
              <$> CrossBus.registered_objects st) st) in
    CrossBus.register_interfaces st (pre ++ tail) w
    = CrossBus.register_interfaces st1 tail w1 ∧
    registered_on w w1 t s (exports_of path pre)
      (pre ≫= signal_rules sender path) ∧
    wire w1 = wire w ∧
    world_wf w1 ∧
    (∀ iface, iface ∈ pre →
              exported_at (conns w1 t) path (iface_name iface) = true) ∧
    (∀ name, name ∉ iface_name <$> pre →
             exported_at (conns w1 t) path name
             = exported_at (conns w t) path name).
Proof.
  revert st w. induction pre as [|iface pre IH];
    intros st w Hs Ht Hwf Hfresh sender path.
  - exists w. cbv zeta.
    split; [destruct st as [a b c [d|] [e|] f]; reflexivity|].
    split; [apply registered_on_refl|]. split; [reflexivity|].
    split; [exact Hwf|]. split; [|reflexivity].
    intros i Hi. apply elem_of_nil in Hi. destruct Hi.
  - change ((iface :: pre) ++ tail) with (iface :: (pre ++ tail)).
    rewrite CrossBus_register_interfaces_cons, Ht. fold path. cbv zeta.
    set (w0 := exec (CrossBus.log_info _ _) w).
    assert (R0 : registered_on w w0 t s [] [])
      by (apply registered_on_silent, silent_log_info).
    assert (W0 : wire w0 = wire w) by apply offline_log_info.
    assert (Hf0 : exported_at (conns w0 t) path (iface_name iface) = false).
    { rewrite (registered_on_exported_at_nil w w0 t s [] path) by exact R0.
      apply Hfresh, elem_of_cons; auto. }
    destruct (register_object_fresh w0 t s path iface Hf0)
      as (w1 & He & R1 & T1).
    rewrite He.
    pose proof (registered_on_trans _ _ _ t s _ _ _ _ R0 R1) as R01.
    simpl app in R01.
    assert (Hid : (next_registration_id w0 =? 0)%nat = false).
    { apply Nat.eqb_neq. destruct R0 as (_ & _ & N0 & _). rewrite N0.
      destruct Hwf as [H1 _]. simpl length. lia. }
    rewrite Hid. rewrite run_bind.
    set (sta := CrossBus.set_registered_objects _ st).
    assert (Hsa : CrossBus.source_bus sta = Some s) by exact Hs.
    pose proof (CrossBus_subscribe_interface iface sta w1 s t Hsa) as H2.
    assert (W2 : wire (exec (match iface_signals iface with
                             | Some signals =>
                                 CrossBus.subscribe_signals sta iface signals
                             | None => ret sta
                             end) w1) = wire w1).
    { destruct (iface_signals iface);
        [apply offline_CrossBus_subscribe_signals | reflexivity]. }
    unfold eval at 1, exec at 1. unfold exec at 1 in W2.
    destruct (match iface_signals iface with
              | Some signals => CrossBus.subscribe_signals sta iface signals
              | None => ret sta
              end w1) as [stb w2].
    destruct H2 as (R2 & Hstb). cbn [fst snd] in *.
    change (CrossBus.source_bus_name (CrossBus.config sta)) with sender in R2.
    change (CrossBus.source_object_path (CrossBus.config sta)) with path in R2.
    pose proof (registered_on_trans _ _ _ t s _ _ _ _ R01 R2) as R02.
    simpl app in R02.
    destruct (registered_on_one_export w w2 t s path iface _ Hwf R02)
      as [Hexp Hnone].
    destruct (all_fresh_step _ _ _ path iface pre Hfresh Hexp Hnone)
      as (Hfresh2 & Hhere & Hothers).
    assert (Hwf2 : world_wf w2)
      by (eapply world_wf_registered_on; eassumption).
    assert (Hsb : CrossBus.source_bus stb = Some s)
      by (rewrite Hstb; exact Hs).
    assert (Htb : CrossBus.target_bus stb = Some t)
      by (rewrite Hstb; exact Ht).
    assert (Hcb : CrossBus.config stb = CrossBus.config st)
      by (rewrite Hstb; reflexivity).
    assert (Hfresh2' : all_fresh (conns w2 t)
              (CrossBus.source_object_path (CrossBus.config stb)) pre)
      by (rewrite Hcb; exact Hfresh2).
    destruct (IH stb w2 Hsb Htb Hwf2 Hfresh2')
      as (w3 & Hrun & R3 & W3 & Hwf3 & Hin3 & Hout3).
    rewrite ?Hcb in Hrun. rewrite ?Hcb in R3. rewrite ?Hcb in Hin3.
    rewrite ?Hcb in Hout3. fold sender path in Hrun, R3.
    fold path in Hin3, Hout3.
    exists w3. cbv zeta. split; [|split; [|split; [|split; [|split]]]].
    + rewrite Hrun. f_equal.
      rewrite Hstb. unfold sta.
      destruct R02 as (_ & _ & Nr02 & Ns02).
      destruct R01 as (_ & _ & Nr01 & Ns01).
      destruct R0 as (_ & _ & Nr0 & Ns0).
      rewrite Nr02, Ns02, Ns01, Nr0. simpl length.
      rewrite !Nat.add_0_r, Nat.add_1_r.
      unfold signal_rules at 1. rewrite rules_labels_length.
      fold (signal_labels iface).
      destruct st as [a b c [d|] [g|] f]; simpl;
        rewrite ?install_app; reflexivity.
    + exact (registered_on_trans _ _ _ t s _ _ _ _ R02 R3).
    + rewrite W3, W2. unfold wire. rewrite T1. exact W0.
    + exact Hwf3.
    + intros i Hi. apply elem_of_cons in Hi as [->|Hi].
      * destruct (decide (iface_name iface ∈ iface_name <$> pre))
          as [Hdup|Hnd].
        -- destruct Hfresh as [Hnd _]. simpl in Hnd.
           apply NoDup_cons in Hnd as [Hni _]. contradiction.
        -- rewrite Hout3 by exact Hnd. exact Hhere.
      * apply Hin3, Hi.
    + intros name Hname.
      rewrite Hout3.
      * apply Hothers. intros ->. apply Hname.
        apply elem_of_cons. left. reflexivity.
      * intros Hin. apply Hname. simpl. apply elem_of_cons. right.
        exact Hin.
Qed.

(** The cross-bus loop at an interface that fails to register: the failure
    is printed and the loop returns [FALSE] at once. *)
Lemma CrossBus_register_fails st w s t bad rest :
  CrossBus.target_bus st = Some t →
  exported_at (conns w t) (CrossBus.source_object_path (CrossBus.config st))
              (iface_name bad) = true →
  ∃ e w',
    CrossBus.register_interfaces st (bad :: rest) w
    = (Returned (false, st), w') ∧
    registered_on w w' t s [] [] ∧
    wire w' = wire w ∧
    In (EvPrintErr "Failed to register interface %s: %s"
                   [PStr (iface_name bad); PStr (message e)]) (trace w').
Proof.
  intros Ht Hcol.
  rewrite CrossBus_register_interfaces_cons, Ht. cbv zeta.
  set (w0 := exec (CrossBus.log_info _ _) w).
  assert (R0 : registered_on w w0 t s [] [])
    by (apply registered_on_silent, silent_log_info).
  assert (W0 : wire w0 = wire w) by apply offline_log_info.
  assert (Hc0 : exported_at (conns w0 t)
                  (CrossBus.source_object_path (CrossBus.config st))
                  (iface_name bad) = true).
  { rewrite (registered_on_exported_at_nil w w0 t s [] _) by exact R0.
    exact Hcol. }
  destruct (register_object_collides w0 t _ bad Hc0) as [e He].
  rewrite He. simpl Nat.eqb. cbv iota.
  unfold with_slot_message, slot_message. cbv beta iota.
  rewrite run_bind, and_then_slot_free_set.
  set (wl := exec (CrossBus.log_error _ _) w0).
  exists e, (exec (emit (EvErrorFree e)) wl).
  split; [reflexivity|]. split; [|split].
  - apply (registered_on_trans w w0 _ t s [] [] [] [] R0).
    apply (registered_on_trans w0 wl _ t s [] [] [] []);
      apply registered_on_silent;
      [apply silent_log_error | apply silent_emit].
  - rewrite (offline_emit (EvErrorFree e) eq_refl wl).
    unfold wl. rewrite offline_log_error. exact W0.
  - simpl. right. right. left. reflexivity.
Qed.

(** ** The cross-bus start-up, stage by stage *)

Lemma CrossBus_connect_to_buses st s t w :
  bus_get w (CrossBus.source_bus_type (CrossBus.config st)) = inl s →
  bus_get w (CrossBus.target_bus_type (CrossBus.config st)) = inl t →
  ∃ events,
    List.filter on_the_wire events = [] ∧
    CrossBus.connect_to_buses st w
    = (Returned (true, CrossBus.set_target_bus (Some t)
                         (CrossBus.set_source_bus (Some s) st)),
       set_trace (events ++ trace w) w).
Proof.
  intros H1 H2. refine (ex_intro _ [_; _; _; _; _; _] _).
  unfold CrossBus.connect_to_buses, bind, g_bus_get_sync, CrossBus.log_info,
    g_print, emit; simpl.
  rewrite H1; simpl. rewrite H2; simpl.
  split; cycle 1; reflexivity.
Qed.

Lemma CrossBus_fetch_introspection_data st s xml info w :
  CrossBus.source_bus st = Some s →
  answer w s (CrossBus.source_bus_name (CrossBus.config st))
         (CrossBus.source_object_path (CrossBus.config st))
         "org.freedesktop.DBus.Introspectable" "Introspect" None
  = inl (GVTuple [GVString xml]) →
  parse_xml w xml = inl info →
  ∃ events,
    List.filter on_the_wire events
    = [EvCall s (CrossBus.source_bus_name (CrossBus.config st))
              (CrossBus.source_object_path (CrossBus.config st))
              "org.freedesktop.DBus.Introspectable" "Introspect" None (-1)] ∧
    CrossBus.fetch_introspection_data st w
    = (Returned (true, CrossBus.set_introspection_data (Some info) st),
       set_trace (events ++ trace w) w).
Proof.
  intros Hs H3 H4.
  unfold CrossBus.fetch_introspection_data, CrossBus.log_verbose,
    CrossBus.log_info.
  rewrite Hs. destruct (CrossBus.verbose (CrossBus.config st)).
  - refine (ex_intro _ [_; _; _; _; _; _; _; _; _; _] _).
    unfold bind, g_dbus_connection_call_sync, g_dbus_node_info_new_for_xml,
      g_print, emit; simpl.
    rewrite H3; simpl. rewrite H4; simpl.
    split; cycle 1; reflexivity.
  - refine (ex_intro _ [_; _; _; _; _; _; _] _).
    unfold bind, g_dbus_connection_call_sync, g_dbus_node_info_new_for_xml,
      g_print, emit, ret; simpl.
    rewrite H3; simpl. rewrite H4; simpl.
    split; cycle 1; reflexivity.
Qed.

(** [main] once both buses are connected and the source has answered
    [Introspect] with a document that parses: it has printed its progress
    and sent that one call, and goes on with [setup_proxy_interfaces]. *)
Lemma CrossBus_main_introspected config s t xml info w :
  bus_get w (CrossBus.source_bus_type config) = inl s →
  bus_get w (CrossBus.target_bus_type config) = inl t →
  answer w s (CrossBus.source_bus_name config)
         (CrossBus.source_object_path config)
         "org.freedesktop.DBus.Introspectable" "Introspect" None
  = inl (GVTuple [GVString xml]) →
  parse_xml w xml = inl info →
  let st0 := CrossBus.mkProxyState (Some s) (Some t) (Some info) (Some ∅)
               (Some ∅) config in
  ∃ events,
    List.filter on_the_wire events
    = [EvCall s (CrossBus.source_bus_name config)
              (CrossBus.source_object_path config)
              "org.freedesktop.DBus.Introspectable" "Introspect" None (-1)] ∧
    CrossBus.main_startup config w
    = CrossBus.main_from_setup st0 (set_trace (events ++ trace w) w).
Proof.
  intros H1 H2 H3 H4 st0.
  unfold CrossBus.main_startup, CrossBus.init_proxy_state.
  cbn [negb]. rewrite !run_bind.
  set (w1 := exec _ (exec _ (exec _ w))).
  assert (Hw1 : w1 = set_trace ([EvPrint "\n" []; EvPrint "Target: %s on %s bus"
           [PStr (CrossBus.proxy_bus_name config);
            PStr (CrossBus.bus_type_name (CrossBus.target_bus_type config))];
           EvPrint "[INFO] " []; EvPrint "\n" [];
           EvPrint "Source: %s%s on %s bus"
           [PStr (CrossBus.source_bus_name config);
            PStr (CrossBus.source_object_path config);
            PStr (CrossBus.bus_type_name (CrossBus.source_bus_type config))];
           EvPrint "[INFO] " []; EvPrint "\n" [];
           EvPrint "Starting cross-bus D-Bus proxy" [];
           EvPrint "[INFO] " []] ++ trace w) w) by reflexivity.
  set (sti := CrossBus.mkProxyState None None None (Some ∅) (Some ∅) config).
  destruct (CrossBus_connect_to_buses sti s t w1) as (ev1 & F1 & E1);
    [rewrite Hw1; exact H1 | rewrite Hw1; exact H2 |].
  unfold eval at 1, exec at 1. rewrite E1. cbn [fst snd].
  set (stc := CrossBus.set_target_bus _ _).
  unfold CrossBus.main_from_fetch. rewrite run_bind.
  set (w2 := set_trace (ev1 ++ trace w1) w1).
  destruct (CrossBus_fetch_introspection_data stc s xml info w2 eq_refl)
    as (ev2 & F2 & E2);
    [unfold w2; rewrite Hw1; exact H3 | unfold w2; rewrite Hw1; exact H4 |].
  unfold eval at 1, exec at 1. rewrite E2. cbn [fst snd].
  exists (ev2 ++ ev1 ++ [EvPrint "\n" []; EvPrint "Target: %s on %s bus"
           [PStr (CrossBus.proxy_bus_name config);
            PStr (CrossBus.bus_type_name (CrossBus.target_bus_type config))];
           EvPrint "[INFO] " []; EvPrint "\n" [];
           EvPrint "Source: %s%s on %s bus"
           [PStr (CrossBus.source_bus_name config);
            PStr (CrossBus.source_object_path config);
            PStr (CrossBus.bus_type_name (CrossBus.source_bus_type config))];
           EvPrint "[INFO] " []; EvPrint "\n" [];
           EvPrint "Starting cross-bus D-Bus proxy" [];
           EvPrint "[INFO] " []]).
  split.
  - rewrite !List.filter_app, F2, F1. reflexivity.
  - f_equal. unfold w2. rewrite Hw1. unfold set_trace; simpl.
    rewrite <- !app_assoc. reflexivity.
Qed.

Lemma collides_after b b1 path pre bad :
  collides b path pre bad →
  (∀ iface, iface ∈ pre → exported_at b1 path (iface_name iface) = true) →
  (∀ name, name ∉ iface_name <$> pre →
           exported_at b1 path name = exported_at b path name) →
  exported_at b1 path (iface_name bad) = true.
Proof.
  intros Hc Hin Hout.
  destruct (decide (iface_name bad ∈ iface_name <$> pre)) as [Hm|Hm].
  - apply list_elem_of_fmap in Hm as [i [Heq Hi]]. rewrite Heq.
    apply Hin, Hi.
  - rewrite Hout by exact Hm. destruct Hc as [Hc|Hc]; [exact Hc|].
    contradiction.
Qed.

Lemma wire_set_trace events w :
  wire (set_trace (events ++ trace w) w)
  = List.filter on_the_wire events ++ wire w.
Proof. unfold wire. simpl. apply List.filter_app. Qed.

Lemma world_wf_set_trace events w :
  world_wf w → world_wf (set_trace events w).
Proof. intros H. exact H. Qed.

(** Teardown only adds to the log: what was printed before it stays. *)
Lemma CrossBus_cleanup_keeps_log st s t ro ss w ev :
  CrossBus.target_bus st = Some t →
  CrossBus.source_bus st = Some s →
  CrossBus.registered_objects st = Some ro →
  CrossBus.signal_subscriptions st = Some ss →
  In ev (trace w) →
  In ev (trace (exec (CrossBus.cleanup_proxy_state (Some st)) w)).
Proof.
  intros Ht Hs Hro Hss Hin. unfold CrossBus.cleanup_proxy_state.
  rewrite Ht, Hs, Hro, Hss. rewrite !exec_bind.
  destruct (unregister_all_view t (map_to_list ro) w) as (_ & _ & T1).
  set (w1 := exec (for_each (map_to_list ro) _) w) in *.
  destruct (unsubscribe_all_view s (map_to_list ss) w1) as (_ & _ & T2).
  set (w2 := exec (for_each (map_to_list ss) _) w1) in *.
  cbn [non_null g_object_unref exec emit ret fst snd trace set_trace].
  simpl. right. right. rewrite T2, T1. exact Hin.
Qed.

(** Cross-bus: a registration that fails stops the start-up.  With the
    buses connected and the introspection parsed into [pre ++ bad :: rest],
    where [pre] registers and [bad] collides, [main] prints the failure
    and returns status 1, the global pointer reset, having put nothing on
    a bus but the [Introspect] call: no name was requested. *)
Lemma CrossBus_registration_failure_aborts config s t xml pre bad rest w :
  bus_get w (CrossBus.source_bus_type config) = inl s →
  bus_get w (CrossBus.target_bus_type config) = inl t →
  answer w s (CrossBus.source_bus_name config)
         (CrossBus.source_object_path config)
         "org.freedesktop.DBus.Introspectable" "Introspect" None
  = inl (GVTuple [GVString xml]) →
  parse_xml w xml = inl (mkNodeInfo (Some (pre ++ bad :: rest))) →
  world_wf w →
  all_fresh (conns w t) (CrossBus.source_object_path config) pre →
  collides (conns w t) (CrossBus.source_object_path config) pre bad →
  ∃ w' e,
    CrossBus.main_startup config w = ((Returned (Exit 1), None), w') ∧
    wire w'
    = EvCall s (CrossBus.source_bus_name config)
             (CrossBus.source_object_path config)
             "org.freedesktop.DBus.Introspectable" "Introspect" None (-1)
      :: wire w ∧
    In (EvPrintErr "Failed to register interface %s: %s"
                   [PStr (iface_name bad); PStr (message e)]) (trace w').
Proof.
  intros H1 H2 H3 H4 Hwf Hfresh Hcol.
  destruct (CrossBus_main_introspected config s t xml _ w H1 H2 H3 H4)
    as (events & Hev & Hmain).
  rewrite Hmain. clear Hmain.
  set (st0 := CrossBus.mkProxyState _ _ _ _ _ config).
  set (w0 := set_trace (events ++ trace w) w).
  assert (W0 : wire w0 = EvCall s (CrossBus.source_bus_name config)
                           (CrossBus.source_object_path config)
                           "org.freedesktop.DBus.Introspectable"
                           "Introspect" None (-1) :: wire w).
  { unfold w0. rewrite wire_set_trace, Hev. reflexivity. }
  destruct (CrossBus_register_fresh pre (bad :: rest) st0 w0 s t
              eq_refl eq_refl Hwf Hfresh)
    as (w1 & Hrun & R1 & W1 & Hwf1 & Hin1 & Hout1).
  cbv zeta in Hrun. set (st1 := CrossBus.set_signal_subscriptions _ _) in Hrun.
  assert (Hc1 : exported_at (conns w1 t)
                  (CrossBus.source_object_path (CrossBus.config st1))
                  (iface_name bad) = true).
  { apply (collides_after (conns w t) (conns w1 t) _ pre bad Hcol Hin1 Hout1). }
  destruct (CrossBus_register_fails st1 w1 s t bad rest eq_refl Hc1)
    as (e & w2 & Hfail & R2 & W2 & Hlog).
  unfold CrossBus.main_from_setup. rewrite run_bind.
  assert (Hsetup : CrossBus.setup_proxy_interfaces st0 w0
                   = (Returned (false, st1), w2)).
  { unfold CrossBus.setup_proxy_interfaces.
    change (CrossBus.introspection_data st0)
      with (Some (mkNodeInfo (Some (pre ++ bad :: rest)))).
    cbv iota. cbn [node_interfaces].
    unfold and_then. rewrite run_bind.
    unfold eval at 1, exec at 1. rewrite Hrun, Hfail. reflexivity. }
  unfold eval at 1, exec at 1. rewrite Hsetup. cbn [fst snd].
  rewrite run_bind.
  exists (exec (CrossBus.cleanup_proxy_state (Some st1)) w2), e.
  split; [|split].
  - unfold eval. rewrite CrossBus_cleanup_resets. reflexivity.
  - rewrite offline_CrossBus_cleanup, W2, W1. exact W0.
  - destruct (CrossBus.registered_objects st1) as [ro|] eqn:Ero;
      [|discriminate Ero].
    destruct (CrossBus.signal_subscriptions st1) as [ss|] eqn:Ess;
      [|discriminate Ess].
    apply (CrossBus_cleanup_keeps_log st1 s t ro ss w2 _ eq_refl eq_refl
             Ero Ess Hlog).
Qed.

Lemma world_wf_bus_state w w' :
  bus_state w' = bus_state w → world_wf w → world_wf w'.
Proof.
  unfold bus_state. intros [= Hc Hr Hn _ _ _ _ _ _] (H1 & H2 & H3 & H4).
  unfold world_wf. rewrite Hc, Hr, Hn. auto.
Qed.

(** Multi-bus: a failed registration of the last interface is skipped.
    With the buses connected and the introspection parsed into
    [pre ++ [bad]], where [pre] registers and [bad] collides, [main] prints
    the failure, requests the name and enters the main loop; the
    interfaces of [pre] are registered and subscribed, nothing else. *)
Lemma MultiBus_last_registration_failure_skipped
    source_address target_address source_service source_path proxy_service
    s t xml pre bad w :
  MultiBus.create_connection source_address w = ((Some s, None), w) →
  MultiBus.create_connection target_address w = ((Some t, None), w) →
  answer w s source_service source_path
         "org.freedesktop.DBus.Introspectable" "Introspect" None
  = inl (GVTuple [GVString xml]) →
  parse_xml w xml = inl (mkNodeInfo (Some (pre ++ [bad]))) →
  world_wf w →
  all_fresh (conns w t) source_path pre →
  collides (conns w t) source_path pre bad →
  ∃ ctx w' e,
    MultiBus.main_startup source_address target_address source_service
                          source_path proxy_service w
    = (Returned (MainLoop [ctx]), w') ∧
    wire w'
    = EvOwnName (Some t) proxy_service
      :: EvCall s source_service source_path
                "org.freedesktop.DBus.Introspectable" "Introspect" None (-1)
      :: wire w ∧
    In (EvPrintErr "Failed to register interface %s: %s\n"
                   [PStr (iface_name bad); PStr (message e)]) (trace w') ∧
    registered_on w w' t s (exports_of source_path pre)
      (pre ≫= signal_rules source_service source_path) ∧
    (∀ iface, iface ∈ pre →
              exported_at (conns w' t) source_path (iface_name iface) = true).
Proof.
  intros H1 H2 H3 H4 Hwf Hfresh Hcol.
  unfold MultiBus.main_startup, and_then. unfold bind at 1.
  rewrite (MultiBus_setup_proxy_introspected _ _ _ _ _ s t xml _ w
             H1 H2 H3 H4).
  cbn [node_interfaces].
  set (ctx0 := MultiBus.mkProxyContext _ _ _ _ _ _ _ _).
  set (w0 := set_trace _ w).
  assert (R0 : registered_on w w0 t s [] [])
    by (apply (registered_on_silent (emit _)), silent_emit).
  destruct (MultiBus_register_fresh pre [bad] ctx0 w0 s t eq_refl eq_refl
              Hwf Hfresh)
    as (rid & w1 & Hrun & R1 & T1 & Hwf1 & Hin1 & Hout1).
  cbv zeta in Hrun.
  set (ctx1 := MultiBus.set_signal_subscriptions _ _) in Hrun.
  assert (Hc1 : exported_at (conns w1 t) (MultiBus.source_object_path ctx1)
                  (iface_name bad) = true).
  { apply (collides_after (conns w t) (conns w1 t) _ pre bad Hcol Hin1 Hout1). }
  destruct (MultiBus_register_last_fails ctx1 w1 t bad eq_refl Hc1)
    as [e Hlast].
  set (w2 := set_trace _ w1) in Hlast.
  assert (R2 : registered_on w1 w2 t s [] []).
  { apply (registered_on_silent
             (emit (EvPrintErr "Failed to register interface %s: %s\n"
                      [PStr (iface_name bad); PStr (message e)]) ;;
              emit (EvErrorFree e))%io).
    apply silent_bind; intros; apply silent_emit. }
  unfold and_then. unfold bind at 1. rewrite Hrun, Hlast.
  set (ctx2 := MultiBus.set_registration_id 0 ctx1).
  change (MultiBus.target_bus ctx2) with (Some t).
  change (MultiBus.proxy_bus_name ctx2) with proxy_service.
  rewrite !run_bind.
  set (w3 := exec (g_bus_own_name_on_connection (Some t) proxy_service) w2).
  assert (R3 : registered_on w2 w3 t s [] [])
    by apply registered_on_own_name.
  cbn [eval exec fst snd ret].
  change (exec (g_dbus_connection_get_unique_name (Some t)) w3) with w3.
  set (w4 := exec (g_print "Proxy setup: %s (%s) -> %s (%s) as %s\n" _) w3).
  rewrite run_bind. cbn [eval fst].
  set (w5 := exec (g_print _ _) w4).
  assert (R4 : registered_on w3 w5 t s [] []).
  { apply (registered_on_trans w3 w4 w5 t s [] [] [] []);
      apply (registered_on_silent (emit _)), silent_emit. }
  exists ctx2, w5, e.
  split; [reflexivity|]. split; [|split; [|split]].
  - unfold w5, w4, w3, w2, w0, wire. simpl. rewrite T1. reflexivity.
  - unfold w5, w4, w3, w2. simpl. tauto.
  - pose proof (registered_on_trans _ _ _ t s _ _ _ _ R0 R1) as R01.
    pose proof (registered_on_trans _ _ _ t s _ _ _ _ R01 R2) as R02.
    pose proof (registered_on_trans _ _ _ t s _ _ _ _ R02 R3) as R03.
    pose proof (registered_on_trans _ _ _ t s _ _ _ _ R03 R4) as R04.
    rewrite !app_nil_r in R04. exact R04.
  - intros i Hi.
    rewrite (registered_on_exported_at_nil w3 w5 t s [] _) by exact R4.
    rewrite (registered_on_exported_at_nil w2 w3 t s [] _) by exact R3.
    rewrite (registered_on_exported_at_nil w1 w2 t s [] _) by exact R2.
    apply Hin1, Hi.
Qed.

(** Multi-bus: a failed registration that is not the last one.  With the
    buses connected and the introspection parsed into
    [pre ++ bad :: next :: rest], where [pre] registers and [bad]
    collides, the loop frees the error of [bad] without resetting its
    variable and goes on to [next] with it: [main] does not get past the
    registration of [next], which is handed the freed error. *)
Lemma MultiBus_registration_failure_then_more
    source_address target_address source_service source_path proxy_service
    s t xml pre bad next rest w :
  MultiBus.create_connection source_address w = ((Some s, None), w) →
  MultiBus.create_connection target_address w = ((Some t, None), w) →
  answer w s source_service source_path
         "org.freedesktop.DBus.Introspectable" "Introspect" None
  = inl (GVTuple [GVString xml]) →
  parse_xml w xml = inl (mkNodeInfo (Some (pre ++ bad :: next :: rest))) →
  world_wf w →
  all_fresh (conns w t) source_path pre →
  collides (conns w t) source_path pre bad →
  fst (MultiBus.main_startup source_address target_address source_service
                             source_path proxy_service w)
  = Undefined UseAfterFree.
Proof.
  intros H1 H2 H3 H4 Hwf Hfresh Hcol.
  unfold MultiBus.main_startup, and_then. unfold bind at 1.
  rewrite (MultiBus_setup_proxy_introspected _ _ _ _ _ s t xml _ w
             H1 H2 H3 H4).
  cbn [node_interfaces].
  set (ctx0 := MultiBus.mkProxyContext _ _ _ _ _ _ _ _).
  set (w0 := set_trace _ w).
  destruct (MultiBus_register_fresh pre (bad :: next :: rest) ctx0 w0 s t
              eq_refl eq_refl Hwf Hfresh)
    as (rid & w1 & Hrun & R1 & T1 & Hwf1 & Hin1 & Hout1).
  cbv zeta in Hrun.
  set (ctx1 := MultiBus.set_signal_subscriptions _ _) in Hrun.
  assert (Hc1 : exported_at (conns w1 t) (MultiBus.source_object_path ctx1)
                  (iface_name bad) = true).
  { apply (collides_after (conns w t) (conns w1 t) _ pre bad Hcol Hin1 Hout1). }
  pose proof (MultiBus_register_after_failure ctx1 w1 t bad next rest
                eq_refl Hc1) as Hbad.
  unfold and_then. unfold bind at 1. rewrite Hrun.
  destruct (MultiBus.register_interfaces ctx1 SlotNull (bad :: next :: rest)
              w1) as [r w2].
  cbn [fst] in Hbad. rewrite Hbad. reflexivity.
Qed.

(** C3.  If registering one interface on the target endpoint fails, that
    interface is skipped, registration continues for the remaining
    interfaces, and the context still proceeds to name acquisition and
    reaches the main loop with the already-registered interfaces
    exported, rather than aborting setup.

    The code does this in one case only.  For a start-up in which the
    buses connect, the source answers [Introspect] and the answer parses,
    with [pre] interfaces that register and [bad] one that collides:
    - multi-bus, [bad] the last interface reported: the failure is logged,
      nothing is registered or subscribed for [bad], the name is requested
      and the main loop is reached with the interfaces of [pre] exported;
    - multi-bus, another interface after [bad]: the loop has freed the
      error of [bad] and left its variable pointing at it, and the
      registration of the next interface is handed that freed error;
      [main] is undefined from there and reaches neither the name request
      nor the main loop;
    - cross-bus: the first failure is logged and aborts the setup; [main]
      tears the state down and returns status 1, and the name is never
      requested. *)
Theorem registration_failure_handling
    (s t : GDBusConnection) (xml : string)
    (pre : list GDBusInterfaceInfo) (bad : GDBusInterfaceInfo) (w : World) :
  world_wf w →
  (∀ source_address target_address source_service source_path proxy_service,
     MultiBus.create_connection source_address w = ((Some s, None), w) →
     MultiBus.create_connection target_address w = ((Some t, None), w) →
     answer w s source_service source_path
            "org.freedesktop.DBus.Introspectable" "Introspect" None
     = inl (GVTuple [GVString xml]) →
     all_fresh (conns w t) source_path pre →
     collides (conns w t) source_path pre bad →
     (parse_xml w xml = inl (mkNodeInfo (Some (pre ++ [bad]))) →
      ∃ ctx w' e,
        MultiBus.main_startup source_address target_address source_service
                              source_path proxy_service w
        = (Returned (MainLoop [ctx]), w') ∧
        wire w'
        = EvOwnName (Some t) proxy_service
          :: EvCall s source_service source_path
                    "org.freedesktop.DBus.Introspectable" "Introspect" None
                    (-1)
          :: wire w ∧
        In (EvPrintErr "Failed to register interface %s: %s\n"
                       [PStr (iface_name bad); PStr (message e)])
           (trace w') ∧
        registered_on w w' t s (exports_of source_path pre)
          (pre ≫= signal_rules source_service source_path) ∧
        (∀ iface, iface ∈ pre →
                  exported_at (conns w' t) source_path (iface_name iface)
                  = true)) ∧
     (∀ next rest,
        parse_xml w xml
        = inl (mkNodeInfo (Some (pre ++ bad :: next :: rest))) →
        fst (MultiBus.main_startup source_address target_address
                                   source_service source_path proxy_service
                                   w)
        = Undefined UseAfterFree)) ∧
  (∀ config rest,
     bus_get w (CrossBus.source_bus_type config) = inl s →
     bus_get w (CrossBus.target_bus_type config) = inl t →
     answer w s (CrossBus.source_bus_name config)
            (CrossBus.source_object_path config)
            "org.freedesktop.DBus.Introspectable" "Introspect" None
     = inl (GVTuple [GVString xml]) →
     parse_xml w xml = inl (mkNodeInfo (Some (pre ++ bad :: rest))) →
     all_fresh (conns w t) (CrossBus.source_object_path config) pre →
     collides (conns w t) (CrossBus.source_object_path config) pre bad →
     ∃ w' e,
       CrossBus.main_startup config w = ((Returned (Exit 1), None), w') ∧
       wire w'
       = EvCall s (CrossBus.source_bus_name config)
                (CrossBus.source_object_path config)
                "org.freedesktop.DBus.Introspectable" "Introspect" None (-1)
         :: wire w ∧
       In (EvPrintErr "Failed to register interface %s: %s"
                      [PStr (iface_name bad); PStr (message e)])
          (trace w')).
Proof.
  intros Hwf. split.
  - intros a b svc path proxy H1 H2 H3 Hfresh Hcol. split.
    + intros H4.
      apply (MultiBus_last_registration_failure_skipped a b svc path proxy
               s t xml pre bad w); assumption.
    + intros next rest H4.
      apply (MultiBus_registration_failure_then_more a b svc path proxy
               s t xml pre bad next rest w); assumption.
  - intros config rest H1 H2 H3 H4 Hfresh Hcol.
    apply (CrossBus_registration_failure_aborts config s t xml pre bad rest
             w); assumption.
Qed.

(** The cross-bus start-up on a source that reports the same interface
    twice: registering the second fails (it collides with the first), and
    the process exits with status 1: the failure is printed, no name is
    requested, the main loop is not reached and the first interface is no
    longer exported. *)
Lemma crossbus_aborts_on_registration_failure :
  let '(r, p, w') :=
    CrossBus.main_startup example_cross_config
      (example_world (Some [demo_iface; demo_iface])) in
  r = Returned (Exit 1) ∧
  p = None ∧
  In (EvPrintErr "Failed to register interface %s: %s"
        [PStr "com.example.Demo";
         PStr "An object is already exported for the interface com.example.Demo at /com/example/Object"])
     (trace w') ∧
  wire w' = [EvCall 1%nat "com.example.Source" "/com/example/Object"
                    "org.freedesktop.DBus.Introspectable" "Introspect" None
                    (-1)] ∧
  exported_at (conns w' 2%nat) "/com/example/Object" "com.example.Demo"
  = false.
Proof. vm_compute. repeat split; tauto. Qed.

(** ** Signal subscriptions *)

(** Multi-bus: when every introspected interface registers, [main] reaches
    the main loop with exactly one subscription per declared signal of
    each interface, and no other. *)
Lemma MultiBus_startup_all_registered
    source_address target_address source_service source_path proxy_service
    s t xml interfaces w :
  MultiBus.create_connection source_address w = ((Some s, None), w) →
  MultiBus.create_connection target_address w = ((Some t, None), w) →
  answer w s source_service source_path
         "org.freedesktop.DBus.Introspectable" "Introspect" None
  = inl (GVTuple [GVString xml]) →
  parse_xml w xml = inl (mkNodeInfo (Some interfaces)) →
  world_wf w →
  all_fresh (conns w t) source_path interfaces →
  ∃ ctx w',
    MultiBus.main_startup source_address target_address source_service
                          source_path proxy_service w
    = (Returned (MainLoop [ctx]), w') ∧
    registered_on w w' t s (exports_of source_path interfaces)
      (interfaces ≫= signal_rules source_service source_path) ∧
    MultiBus.signal_subscriptions ctx
    = rev (seq (next_subscriber_id w)
               (length (interfaces
                        ≫= signal_rules source_service source_path))).
Proof.
  intros H1 H2 H3 H4 Hwf Hfresh.
  unfold MultiBus.main_startup, and_then. unfold bind at 1.
  rewrite (MultiBus_setup_proxy_introspected _ _ _ _ _ s t xml _ w
             H1 H2 H3 H4).
  cbn [node_interfaces].
  set (ctx0 := MultiBus.mkProxyContext _ _ _ _ _ _ _ _).
  set (w0 := set_trace _ w).
  assert (R0 : registered_on w w0 t s [] [])
    by (apply (registered_on_silent (emit _)), silent_emit).
  destruct (MultiBus_register_fresh interfaces [] ctx0 w0 s t eq_refl
              eq_refl Hwf Hfresh)
    as (rid & w1 & Hrun & R1 & T1 & Hwf1 & Hin1 & Hout1).
  cbv zeta in Hrun. rewrite app_nil_r in Hrun.
  set (ctx1 := MultiBus.set_signal_subscriptions _ _) in Hrun.
  unfold and_then. unfold bind at 1. rewrite Hrun.
  change (MultiBus.register_interfaces ctx1 SlotNull [] w1)
    with (Returned ctx1, w1).
  cbv beta iota.
  change (MultiBus.target_bus ctx1) with (Some t).
  change (MultiBus.proxy_bus_name ctx1) with proxy_service.
  rewrite !run_bind.
  set (w3 := exec (g_bus_own_name_on_connection (Some t) proxy_service) w1).
  assert (R3 : registered_on w1 w3 t s [] [])
    by apply registered_on_own_name.
  cbn [eval exec fst snd ret].
  change (exec (g_dbus_connection_get_unique_name (Some t)) w3) with w3.
  set (w4 := exec (g_print "Proxy setup: %s (%s) -> %s (%s) as %s\n" _) w3).
  rewrite run_bind. cbn [eval fst].
  set (w5 := exec (g_print _ _) w4).
  assert (R4 : registered_on w3 w5 t s [] []).
  { apply (registered_on_trans w3 w4 w5 t s [] [] [] []);
      apply (registered_on_silent (emit _)), silent_emit. }
  exists ctx1, w5. split; [reflexivity|]. split.
  - pose proof (registered_on_trans _ _ _ t s _ _ _ _ R0 R1) as R01.
    pose proof (registered_on_trans _ _ _ t s _ _ _ _ R01 R3) as R03.
    pose proof (registered_on_trans _ _ _ t s _ _ _ _ R03 R4) as R04.
    rewrite !app_nil_r in R04. exact R04.
  - unfold ctx1. simpl. rewrite app_nil_r. reflexivity.
Qed.

Lemma ConfigProxy_subscribe_to_properties_changed config log_fp c t w :
  (1 ≤ next_subscriber_id w)%nat →
  registered_on w
    (exec (ConfigProxy.subscribe_to_properties_changed config log_fp
             (Some c)) w)
    t c []
    [properties_changed_rule (ConfigProxy.source_bus_name config)
       (ConfigProxy.source_object_path config) CbOnSignalReceived].
Proof.
  intros Hn. unfold ConfigProxy.subscribe_to_properties_changed.
  rewrite exec_bind.
  set (w0 := exec (if ConfigProxy.verbose config then _ else ret tt) w).
  assert (R0 : registered_on w w0 t c [] []).
  { apply registered_on_silent.
    destruct (ConfigProxy.verbose config);
      [apply silent_log_message | apply silent_ret]. }
  cbv beta. rewrite exec_bind.
  destruct (registered_on_subscribe w0 t c
              (ConfigProxy.source_bus_name config)
              "org.freedesktop.DBus.Properties" "PropertiesChanged"
              (ConfigProxy.source_object_path config) CbOnSignalReceived)
    as [E1 R1].
  unfold eval at 1. rewrite E1. cbn [fst].
  set (w1 := exec (g_dbus_connection_signal_subscribe _ _ _ _ _ _) w0) in *.
  assert (R2 : registered_on w1
                 (exec (if (next_subscriber_id w0 =? 0)%nat
                        then g_printerr
                          "Failed to subscribe to PropertiesChanged signals\n"
                          []
                        else if ConfigProxy.verbose config
                             then ConfigProxy.log_message config log_fp
                                    "Subscribed to PropertiesChanged signals (subscription ID: %u)\n"
                                    [PNum (Z.of_nat (next_subscriber_id w0))]
                             else ret tt) w1) t c [] []).
  { apply registered_on_silent.
    destruct (next_subscriber_id w0 =? 0)%nat; [apply silent_emit|].
    destruct (ConfigProxy.verbose config);
      [apply silent_log_message | apply silent_ret]. }
  pose proof (registered_on_trans _ _ _ t c _ _ _ _ R0 R1) as R01.
  pose proof (registered_on_trans _ _ _ t c _ _ _ _ R01 R2) as R02.
  exact R02.
Qed.

(** [setup_proxy_interfaces] succeeds when every interface registers. *)
Lemma CrossBus_setup_succeeds interfaces st w s t :
  CrossBus.source_bus st = Some s →
  CrossBus.target_bus st = Some t →
  CrossBus.introspection_data st = Some (mkNodeInfo (Some interfaces)) →
  world_wf w →
  all_fresh (conns w t) (CrossBus.source_object_path (CrossBus.config st))
            interfaces →
  ∃ st' w', CrossBus.setup_proxy_interfaces st w = (Returned (true, st'), w').
Proof.
  intros Hs Ht Hdata Hwf Hfresh.
  destruct (CrossBus_setup_proxy_interfaces interfaces st w s t Hs Ht
              (proj1 Hwf) Hdata) as (ok & st' & w' & Hrun & _).
  assert (ok = true) as ->.
  { destruct (CrossBus_register_fresh interfaces [] st w s t Hs Ht Hwf
                Hfresh) as (w1 & Hreg & _).
    cbv zeta in Hreg. rewrite app_nil_r in Hreg.
    revert Hrun. unfold CrossBus.setup_proxy_interfaces.
    rewrite Hdata. cbn [node_interfaces].
    unfold and_then. rewrite run_bind. unfold eval at 1, exec at 1.
    rewrite Hreg. cbn [CrossBus.register_interfaces ret fst snd negb].
    rewrite !run_bind. cbn [ret]. intros [= <- _ _]. reflexivity. }
  exists st', w'. exact Hrun.
Qed.

(** C5, as the code has it.  The cross-bus setup succeeds when every
    interface registers, and whenever it succeeds it has subscribed once
    per declared signal of each interface and then exactly once more, to
    the PropertiesChanged signal of the standard properties interface at
    the object path; the configuration-file variant's
    [subscribe_to_properties_changed] makes exactly that one further
    subscription; the multi-bus setup subscribes once per declared signal
    of each registered interface and makes no further subscription. *)
Theorem signal_subscriptions_created (s t : GDBusConnection) (w : World) :
  world_wf w →
  (∀ st interfaces,
     CrossBus.source_bus st = Some s →
     CrossBus.target_bus st = Some t →
     CrossBus.introspection_data st = Some (mkNodeInfo (Some interfaces)) →
     (all_fresh (conns w t)
                (CrossBus.source_object_path (CrossBus.config st))
                interfaces →
      ∃ st' w',
        CrossBus.setup_proxy_interfaces st w = (Returned (true, st'), w')) ∧
     ∀ st' w',
       CrossBus.setup_proxy_interfaces st w = (Returned (true, st'), w') →
       let sender := CrossBus.source_bus_name (CrossBus.config st) in
       let path := CrossBus.source_object_path (CrossBus.config st) in
       registered_on w w' t s (exports_of path interfaces)
         ((interfaces ≫= signal_rules sender path)
          ++ [properties_changed_rule sender path CbOnPropertiesChanged])) ∧
  (∀ config log_fp,
     registered_on w
       (exec (ConfigProxy.subscribe_to_properties_changed config log_fp
                (Some s)) w)
       t s []
       [properties_changed_rule (ConfigProxy.source_bus_name config)
          (ConfigProxy.source_object_path config) CbOnSignalReceived]) ∧
  (∀ source_address target_address source_service source_path proxy_service
     xml interfaces,
     MultiBus.create_connection source_address w = ((Some s, None), w) →
     MultiBus.create_connection target_address w = ((Some t, None), w) →
     answer w s source_service source_path
            "org.freedesktop.DBus.Introspectable" "Introspect" None
     = inl (GVTuple [GVString xml]) →
     parse_xml w xml = inl (mkNodeInfo (Some interfaces)) →
     all_fresh (conns w t) source_path interfaces →
     ∃ ctx w',
       MultiBus.main_startup source_address target_address source_service
                             source_path proxy_service w
       = (Returned (MainLoop [ctx]), w') ∧
       registered_on w w' t s (exports_of source_path interfaces)
         (interfaces ≫= signal_rules source_service source_path) ∧
       MultiBus.signal_subscriptions ctx
       = rev (seq (next_subscriber_id w)
                  (length (interfaces
                           ≫= signal_rules source_service source_path)))).
Proof.
  intros Hwf. split; [|split].
  - intros st interfaces Hs Ht Hdata. split.
    + intros Hfresh.
      apply (CrossBus_setup_succeeds interfaces st w s t); assumption.
    + intros st' w' Hrun sender path.
      destruct Hwf as (Hn & _).
      destruct (CrossBus_setup_proxy_interfaces interfaces st w s t Hs Ht Hn
                  Hdata) as (ok & st1 & w1 & Hrun1 & Hres).
      rewrite Hrun in Hrun1. injection Hrun1 as <- <- <-.
      destruct Hres as [R _]. exact R.
  - intros config log_fp. destruct Hwf as (_ & Hn & _).
    apply ConfigProxy_subscribe_to_properties_changed. exact Hn.
  - intros a b svc path proxy xml interfaces H1 H2 H3 H4 Hfresh.
    apply (MultiBus_startup_all_registered a b svc path proxy s t xml
             interfaces w); assumption.
Qed.

(** C5 as stated fails in the multi-bus variant, which makes no
    subscription beyond those for the declared signals: after a start-up
    with interfaces whose one declared signal is [Ping], the source
    connection holds the subscription for [Ping] and none for
    PropertiesChanged. *)
Lemma multibus_has_no_properties_changed_subscription :
  let '(r, w') :=
    MultiBus.main_startup "system" "session" "com.example.Source"
      "/com/example/Object" "org.example.Proxy"
      (example_world (Some [demo_iface; other_iface])) in
  (∃ ctx, r = Returned (MainLoop [ctx])) ∧
  map_to_list (subscriptions (conns w' 1%nat))
  = [(1%nat, mkSignalRule "com.example.Source" "com.example.Demo" "Ping"
                          "/com/example/Object" CbOnSignalReceived)] ∧
  Forall (λ entry, rule_member entry.2 ≠ "PropertiesChanged")
         (map_to_list (subscriptions (conns w' 1%nat))).
Proof.
  vm_compute. split; [eexists; reflexivity|]. split; [reflexivity|].
  constructor; [intros H; discriminate H | constructor].
Qed.

(** ** Introspection without interfaces *)

(** C6 does not hold of the code: an introspection result without
    interfaces is not rejected.  Whenever the buses connect and the
    source's answer parses to an empty interface array, the multi-bus
    start-up reaches the main loop, having registered and subscribed
    nothing.  On the example world the multi-bus and the cross-bus
    start-up both go on to request the proxy name and reach the main loop
    with nothing exported; the cross-bus
    variant rejects only a [NULL] array (exit status 1), and on a [NULL]
    array the multi-bus loop dereferences it. *)
Theorem empty_interface_list_is_not_rejected :
  (∀ source_address target_address source_service source_path proxy_service
     s t xml w,
     MultiBus.create_connection source_address w = ((Some s, None), w) →
     MultiBus.create_connection target_address w = ((Some t, None), w) →
     answer w s source_service source_path
            "org.freedesktop.DBus.Introspectable" "Introspect" None
     = inl (GVTuple [GVString xml]) →
     parse_xml w xml = inl (mkNodeInfo (Some [])) →
     world_wf w →
     ∃ ctx w',
       MultiBus.main_startup source_address target_address source_service
                             source_path proxy_service w
       = (Returned (MainLoop [ctx]), w') ∧
       registered_on w w' t s [] []) ∧
  (let '(r, w') :=
     MultiBus.main_startup "system" "session" "com.example.Source"
       "/com/example/Object" "org.example.Proxy" (example_world (Some [])) in
   (∃ ctx, r = Returned (MainLoop [ctx]) ∧
           MultiBus.registration_id ctx = 0%nat ∧
           MultiBus.signal_subscriptions ctx = []) ∧
   wire w'
   = [EvOwnName (Some 2%nat) "org.example.Proxy";
      EvCall 1%nat "com.example.Source" "/com/example/Object"
             "org.freedesktop.DBus.Introspectable" "Introspect" None (-1)] ∧
   map_to_list (exported (conns w' 2%nat)) = []) ∧
  (let '(r, w') :=
     CrossBus.main_startup example_cross_config (example_world (Some [])) in
   (∃ st, r = (Returned (MainLoop st), Some st)) ∧
   wire w'
   = [EvOwnName (Some 2%nat) "org.example.Proxy";
      EvCall 1%nat "com.example.Source" "/com/example/Object"
             "org.freedesktop.DBus.Introspectable" "Introspect" None (-1)] ∧
   map_to_list (exported (conns w' 2%nat)) = []) ∧
  fst (CrossBus.main_startup example_cross_config (example_world None))
  = (Returned (Exit 1), None) ∧
  fst (MultiBus.main_startup "system" "session" "com.example.Source"
         "/com/example/Object" "org.example.Proxy" (example_world None))
  = Undefined NullDeref.
Proof.
  split.
  { intros a b svc path proxy s t xml w H1 H2 H3 H4 Hwf.
    destruct (MultiBus_startup_all_registered a b svc path proxy s t xml []
                w H1 H2 H3 H4 Hwf (all_fresh_nil _ _))
      as (ctx & w' & E & R & _).
    exists ctx, w'. split; [exact E | exact R]. }
  vm_compute. split; [|split; [|split]].
  - split; [eexists; repeat split | split; reflexivity].
  - split; [eexists; reflexivity | split; reflexivity].
  - reflexivity.
  - reflexivity.
Qed.

(** ** Teardown after a start-up *)

Lemma unsubscribe_each_exported (conn : option GDBusConnection)
    (ids : list nat) (w : World) :
  ∀ c, exported (conns (exec (for_each ids
                                (g_dbus_connection_signal_unsubscribe conn))
                              w) c)
       = exported (conns w c).
Proof.
  destruct conn as [s|].
  - revert w. induction ids as [|id ids IH]; intros w c; [reflexivity|].
    rewrite exec_for_each_cons, IH.
    destruct (unsubscribe_view s id w) as (_ & H & _). apply H.
  - revert w. induction ids as [|id ids IH]; intros w c; [reflexivity|].
    rewrite exec_for_each_cons, IH. reflexivity.
Qed.

(** The multi-bus [cleanup_proxy] touches at most one registration: every
    identifier other than the context's [registration_id] is exported
    afterwards exactly as before. *)
Lemma MultiBus_cleanup_keeps_other_registrations ctx w c id :
  id ≠ MultiBus.registration_id ctx →
  exported (conns (exec (MultiBus.cleanup_proxy (MultiBus.CtxLive ctx)) w) c)
    !! id
  = exported (conns w c) !! id.
Proof.
  intros Hid. unfold MultiBus.cleanup_proxy.
  rewrite exec_bind.
  set (w1 := exec (for_each _ _) w).
  assert (E1 : ∀ c, exported (conns w1 c) = exported (conns w c))
    by apply unsubscribe_each_exported.
  cbv beta. rewrite exec_bind.
  set (w2 := exec (if (0 <? MultiBus.registration_id ctx)%nat then _
                   else ret tt) w1).
  assert (E2 : exported (conns w2 c) !! id = exported (conns w1 c) !! id).
  { unfold w2. destruct (0 <? MultiBus.registration_id ctx)%nat;
      [|reflexivity].
    rewrite exec_bind_ret_tt.
    destruct (MultiBus.target_bus ctx) as [t|]; [|reflexivity].
    destruct (unregister_view t (MultiBus.registration_id ctx) w1)
      as (H & _). rewrite H.
    case_decide; [subst c|reflexivity].
    apply lookup_delete_ne. congruence. }
  cbv beta.
  assert (Hs : silent ((if non_null (MultiBus.source_bus ctx)
                 then g_object_unref (MultiBus.source_bus ctx) else ret tt) ;;
                (if non_null (MultiBus.target_bus ctx)
                 then g_object_unref (MultiBus.target_bus ctx) else ret tt) ;;
                ret (Returned MultiBus.CtxFreed))%io).
  { apply silent_bind; [|intros _; apply silent_bind; [|intros _]].
    - destruct (non_null _); [apply silent_g_object_unref | apply silent_ret].
    - destruct (non_null _); [apply silent_g_object_unref | apply silent_ret].
    - apply silent_ret. }
  specialize (Hs w2). unfold bus_state in Hs.
  injection Hs as Hc _ _ _ _ _ _ _ _.
  rewrite Hc, E2, E1. reflexivity.
Qed.

(** C2 does not hold of the multi-bus variant: its context has one
    [registration_id] field, which the registration loop overwrites for
    every interface, and [cleanup_proxy] unregisters that one identifier
    only: for every context, every other registration is left as it was.
    After a start-up with two interfaces and the teardown at exit, the
    first interface is still exported on the target connection.  The
    cross-bus variant, which keeps every identifier in a table, leaves
    nothing behind on the same input. *)
Theorem multibus_teardown_leaves_registrations :
  (∀ ctx w c id,
     id ≠ MultiBus.registration_id ctx →
     exported (conns (exec (MultiBus.cleanup_proxy (MultiBus.CtxLive ctx)) w)
                     c) !! id
     = exported (conns w c) !! id) ∧
  (let '(r, w1) :=
     MultiBus.main_startup "system" "session" "com.example.Source"
       "/com/example/Object" "org.example.Proxy"
       (example_world (Some [demo_iface; other_iface])) in
   ∃ ctx,
     r = Returned (MainLoop [ctx]) ∧
     MultiBus.registration_id ctx = 2%nat ∧
     map_to_list (exported (conns w1 2%nat))
     = [(2%nat, ("/com/example/Object", "com.example.Other"));
        (1%nat, ("/com/example/Object", "com.example.Demo"))] ∧
     let w2 := exec (MultiBus.main_shutdown [ctx]) w1 in
     map_to_list (exported (conns w2 2%nat))
     = [(1%nat, ("/com/example/Object", "com.example.Demo"))] ∧
     map_to_list (subscriptions (conns w2 1%nat)) = []) ∧
  (let '(r, w1) :=
     CrossBus.main_startup example_cross_config
       (example_world (Some [demo_iface; other_iface])) in
   (∃ st, r = (Returned (MainLoop st), Some st)) ∧
   map_to_list (exported (conns w1 2%nat))
   = [(2%nat, ("/com/example/Object", "com.example.Other"));
      (1%nat, ("/com/example/Object", "com.example.Demo"))] ∧
   let '(status, p, w2) := CrossBus.main_shutdown (snd r) w1 in
   status = 0%Z ∧ p = None ∧
   map_to_list (exported (conns w2 2%nat)) = [] ∧
   map_to_list (subscriptions (conns w2 1%nat)) = []).
Proof.
  split.
  { intros ctx w c id Hid.
    apply MultiBus_cleanup_keeps_other_registrations, Hid. }
  vm_compute. split.
  - eexists. repeat split.
  - split; [eexists; reflexivity | repeat split].
Qed.

(** ** The theorems at work on the example world *)

Lemma world_wf_example_world interfaces : world_wf (example_world interfaces).
Proof.
  split; [simpl; lia|]. split; [simpl; lia|].
  split; intros c id _; reflexivity.
Qed.

Lemma all_fresh_example_demo interfaces :
  all_fresh (conns (example_world interfaces) 2%nat) "/com/example/Object"
            [demo_iface].
Proof.
  split.
  - apply NoDup_singleton.
  - intros iface _. reflexivity.
Qed.

Lemma all_fresh_example_both interfaces :
  all_fresh (conns (example_world interfaces) 2%nat) "/com/example/Object"
            [demo_iface; other_iface].
Proof.
  split.
  - apply NoDup_cons. split; [|apply NoDup_singleton].
    intros H. apply list_elem_of_singleton in H. discriminate H.
  - intros iface _. reflexivity.
Qed.

(** The cross-bus handlers on the example state: invocation 7 arrives
    and its call to the source is parked; then a PropertiesChanged signal,
    the result of that call and a property read are handled.  Invocation 7
    ends with one reply, the value the source returned, and finishing the
    outstanding calls adds none. *)
Lemma method_call_replied_exactly_once_example :
  let cbs := CrossBus.callbacks example_state in
  let later :=
    [SignalReceived CbOnPropertiesChanged ":1.9" "/com/example/Object"
                    "org.freedesktop.DBus.Properties" "PropertiesChanged"
                    (Some (GVTuple [GVString "com.example.Demo"]));
     CallFinished 0 (inl (GVTuple [GVString "pong"]));
     GetProperty ":1.7" "/com/example/Object" "com.example.Other" "Level"] in
  let w := example_world None in
  let pc := mkPendingCall 1%nat "com.example.Source" "/com/example/Object"
              "com.example.Demo" "Echo" None (-1) 7%nat in
  let w1 := exec (cb_method_call cbs ":1.7" "/com/example/Object"
                    "com.example.Demo" "Echo" None 7%nat) w in
  (returns w1 = returns w ∧ pending w1 = pending w ++ [pc]) ∧
  ∃ w2,
    g_main_loop_run cbs later w1 = (Returned tt, w2) ∧
    (replies_to 7%nat w2 + pending_for 7%nat w2 = 1)%nat ∧
    replies 7%nat w2 = [ReplyValue (Some (GVTuple [GVString "pong"]))] ∧
    (∀ results,
       let w3 := exec (finish_all cbs results) w2 in
       pending w3 = [] ∧ ∃ r, replies 7%nat w3 = [r]).
Proof.
  intros cbs later w pc w1.
  destruct (method_call_replied_exactly_once cbs 1%nat "com.example.Source"
              "/com/example/Object" (-1) ":1.7" "/com/example/Object"
              "com.example.Demo" "Echo" None 7%nat later w)
    as [Hpark (w2 & Hrun & Hone & Hresult & Hfinish)].
  - right; right. exists example_state. repeat split; reflexivity.
  - reflexivity.
  - reflexivity.
  - split; [exact Hpark|]. exists w2.
    split; [exact Hrun|]. split; [exact Hone|]. split.
    + destruct (Hresult
                  [SignalReceived CbOnPropertiesChanged ":1.9"
                     "/com/example/Object" "org.freedesktop.DBus.Properties"
                     "PropertiesChanged"
                     (Some (GVTuple [GVString "com.example.Demo"]))]
                  0%nat (inl (GVTuple [GVString "pong"]))
                  [GetProperty ":1.7" "/com/example/Object"
                     "com.example.Other" "Level"]
                  (snd (g_main_loop_run cbs
                          [SignalReceived CbOnPropertiesChanged ":1.9"
                             "/com/example/Object"
                             "org.freedesktop.DBus.Properties"
                             "PropertiesChanged"
                             (Some (GVTuple [GVString "com.example.Demo"]))]
                          w1))
                  pc eq_refl eq_refl eq_refl eq_refl)
        as (_ & r & Hr & Hreplies).
      cbn [reply_matches] in Hr. subst r. exact Hreplies.
    + intros results. destruct (Hfinish results) as [Hp (r & Hr & _)].
      split; [exact Hp|]. exists r. exact Hr.
Defined.

(** The cross-bus property handlers on the example state relay to the
    source connection. *)
Lemma property_handlers_relay_example :
  relays_properties (CrossBus.handle_get_property example_state)
                    (CrossBus.handle_set_property example_state)
                    1%nat "com.example.Source" "/com/example/Object".
Proof.
  apply property_handlers_relay.
  right; right. exists example_state. repeat split; reflexivity.
Defined.

(** With every bus down, each variant's [main] stops before
    introspection. *)
Lemma source_connection_failure_is_fatal_example :
  let e := mkGError G_IO_ERROR 39 "Connection refused" in
  (let (r, w') := MultiBus.main_startup "system" "session"
                    "com.example.Source" "/com/example/Object"
                    "org.example.Proxy" example_world_down in
   exits_before_introspection r example_world_down w'
     (EvPrintErr "Failed to connect to source bus (%s): %s\n"
                 [PStr "system"; PStr (message e)])) ∧
  (let (r, w') := ConfigProxy.main_startup example_config false
                    example_world_down in
   exits_before_introspection r example_world_down w'
     (EvPrintErr "Failed to connect to %s bus: %s\n"
                 [PStr "system"; PStr (message e)])) ∧
  (let '(r, proxy_state, w') :=
     CrossBus.main_startup example_cross_config example_world_down in
   proxy_state = None ∧
   exits_before_introspection r example_world_down w'
     (EvPrintErr "Failed to connect to source bus: %s" [PStr (message e)])).
Proof.
  intros e.
  destruct (source_connection_failure_is_fatal e example_world_down)
    as (H1 & H2 & H3).
  split; [|split].
  - apply (H1 "system" "session" "com.example.Source" "/com/example/Object"
              "org.example.Proxy"). reflexivity.
  - apply (H2 example_config false). reflexivity.
  - apply (H3 example_cross_config). reflexivity.
Defined.

(** With the connections closed, a relayed signal fails to be emitted.
    The configuration-file handler on the example configuration, whose
    [verbose] is off, returns without a trace: the error that the failed
    emission produced is neither logged nor freed. *)
Lemma signal_emit_failure_is_contained_example :
  let handler :=
    ConfigProxy.on_signal_received example_config false (Some 2%nat) ":1.9"
      "/com/example/Object" "com.example.Demo" "Ping" None in
  closed (conns example_world_closed 2%nat) = true ∧
  ConfigProxy.verbose example_config = false ∧
  eval (g_dbus_connection_emit_signal (Some 2%nat) None
          (ConfigProxy.source_object_path example_config)
          "com.example.Demo" "Ping" None) example_world_closed
  = (false, Some connection_closed_error) ∧
  exec handler example_world_closed = example_world_closed ∧
  ¬ In (EvErrorFree connection_closed_error)
       (trace (exec handler example_world_closed)).
Proof.
  cbv zeta. split; [reflexivity|]. split; [reflexivity|].
  destruct (proj2 (proj2 (signal_emit_failure_is_contained 2%nat
                            example_world_closed ":1.9"
                            "/com/example/Object" "com.example.Demo" "Ping"
                            None eq_refl))
              example_config false) as [Hfail (events & [Hrun _] & _ & Hoff)].
  split; [exact Hfail|].
  unfold GDBusConnection in Hrun.
  rewrite Hrun, (Hoff eq_refl). split; [reflexivity | intros []].
Defined.

(** Teardown of the example state, whose ledger is empty: the pointer is
    reset, a second teardown changes nothing, and no registration or
    subscription is touched. *)
Lemma release_all_idempotent_example :
  let (p1, w1) := CrossBus.cleanup_proxy_state (Some example_state)
                    (example_world None) in
  p1 = None ∧
  CrossBus.cleanup_proxy_state p1 w1 = (p1, w1) ∧
  bus_state w1 = bus_state (example_world None).
Proof.
  pose proof (release_all_idempotent (Some example_state)
                (example_world None)) as H.
  destruct (CrossBus.cleanup_proxy_state (Some example_state)
              (example_world None)) as [p1 w1].
  destruct H as (H1 & H2 & _ & H4 & _).
  split; [exact H1|]. split; [exact H2|].
  apply (H4 example_state); reflexivity.
Defined.

(** The source declares an interface twice and then another one.
    Registering the second fails.  The multi-bus start-up goes on to the
    third with the freed error and is undefined; the cross-bus start-up
    logs the failure and exits with status 1. *)
Lemma registration_failure_handling_example :
  let w := example_world (Some [demo_iface; demo_iface; other_iface]) in
  fst (MultiBus.main_startup "system" "session" "com.example.Source"
                             "/com/example/Object" "org.example.Proxy" w)
  = Undefined UseAfterFree ∧
  (∃ w' e,
     CrossBus.main_startup example_cross_config w
     = ((Returned (Exit 1), None), w') ∧
     wire w'
     = EvCall 1%nat "com.example.Source" "/com/example/Object"
              "org.freedesktop.DBus.Introspectable" "Introspect" None (-1)
       :: wire w ∧
     In (EvPrintErr "Failed to register interface %s: %s"
                    [PStr (iface_name demo_iface); PStr (message e)])
        (trace w')).
Proof.
  intros w.
  assert (Hcol : collides (conns w 2%nat) "/com/example/Object" [demo_iface]
                          demo_iface).
  { right. apply list_elem_of_singleton. reflexivity. }
  destruct (registration_failure_handling 1%nat 2%nat "<node/>" [demo_iface]
              demo_iface w (world_wf_example_world _)) as [H1 H3].
  split.
  - apply (proj2 (H1 "system" "session" "com.example.Source"
                     "/com/example/Object" "org.example.Proxy"
                     eq_refl eq_refl eq_refl
                     (all_fresh_example_demo _) Hcol)
             other_iface []).
    reflexivity.
  - apply (H3 example_cross_config [other_iface]);
      [reflexivity | reflexivity | reflexivity | reflexivity
      | apply all_fresh_example_demo | exact Hcol].
Defined.

(** The three variants on a source with two interfaces, one of which
    declares a signal: the cross-bus setup succeeds and leaves the
    subscription for that signal and one for PropertiesChanged; the
    configuration-file variant adds the one for PropertiesChanged; the
    multi-bus start-up leaves the subscription for the signal only. *)
Lemma signal_subscriptions_created_example :
  let w := example_world (Some [demo_iface; other_iface]) in
  let interfaces := [demo_iface; other_iface] in
  let st :=
    CrossBus.set_introspection_data (Some (mkNodeInfo (Some interfaces)))
      example_state in
  (∃ st' w',
     CrossBus.setup_proxy_interfaces st w = (Returned (true, st'), w') ∧
     registered_on w w' 2%nat 1%nat
       (exports_of "/com/example/Object" interfaces)
       ((interfaces ≫= signal_rules "com.example.Source"
                                     "/com/example/Object")
        ++ [properties_changed_rule "com.example.Source"
              "/com/example/Object" CbOnPropertiesChanged])) ∧
  registered_on w
    (exec (ConfigProxy.subscribe_to_properties_changed example_config false
             (Some 1%nat)) w)
    2%nat 1%nat []
    [properties_changed_rule "com.example.Source" "/com/example/Object"
                             CbOnSignalReceived] ∧
  ∃ ctx w',
    MultiBus.main_startup "system" "session" "com.example.Source"
                          "/com/example/Object" "org.example.Proxy" w
    = (Returned (MainLoop [ctx]), w') ∧
    registered_on w w' 2%nat 1%nat
      (exports_of "/com/example/Object" interfaces)
      (interfaces ≫= signal_rules "com.example.Source"
                                   "/com/example/Object") ∧
    MultiBus.signal_subscriptions ctx
    = rev (seq (next_subscriber_id w)
               (length (interfaces
                        ≫= signal_rules "com.example.Source"
                                        "/com/example/Object"))).
Proof.
  intros w interfaces st.
  destruct (signal_subscriptions_created 1%nat 2%nat w
              (world_wf_example_world _)) as (H3 & H2 & H1).
  split; [|split].
  - destruct (H3 st interfaces eq_refl eq_refl eq_refl) as [Hruns Hthen].
    destruct (Hruns (all_fresh_example_both _)) as (st' & w' & Hrun).
    exists st', w'. split; [exact Hrun|].
    exact (Hthen st' w' Hrun).
  - apply (H2 example_config false).
  - apply (H1 "system" "session" "com.example.Source" "/com/example/Object"
              "org.example.Proxy" "<node/>" interfaces);
      [reflexivity | reflexivity | reflexivity | reflexivity
      | apply all_fresh_example_both].
Defined.

(** A context whose [registration_id] is 2, torn down in the world a
    start-up with two interfaces leaves: registration 1 stays. *)
Lemma multibus_teardown_leaves_registrations_example :
  let ctx := MultiBus.set_registration_id 2 example_ctx in
  let w :=
    snd (MultiBus.main_startup "system" "session" "com.example.Source"
           "/com/example/Object" "org.example.Proxy"
           (example_world (Some [demo_iface; other_iface]))) in
  exported (conns (exec (MultiBus.cleanup_proxy (MultiBus.CtxLive ctx)) w)
                  2%nat) !! 1%nat
  = exported (conns w 2%nat) !! 1%nat.
Proof.
  intros ctx w.
  apply (proj1 multibus_teardown_leaves_registrations ctx w 2%nat 1%nat).
  simpl. lia.
Defined.

(** The multi-bus start-up on a source without interfaces. *)
Lemma empty_interface_list_is_not_rejected_example :
  let w := example_world (Some []) in
  ∃ ctx w',
    MultiBus.main_startup "system" "session" "com.example.Source"
                          "/com/example/Object" "org.example.Proxy" w
    = (Returned (MainLoop [ctx]), w') ∧
    registered_on w w' 2%nat 1%nat [] [].
Proof.
  intros w.
  apply (proj1 empty_interface_list_is_not_rejected "system" "session"
           "com.example.Source" "/com/example/Object" "org.example.Proxy"
           1%nat 2%nat "<node/>" w);
    [reflexivity | reflexivity | reflexivity | reflexivity
    | apply world_wf_example_world].
Defined.

(** * Further properties *)

Local Open Scope Z_scope.

(** ** Strings *)

Lemma app_cons (c : ascii) (a b : string) :
  String c a +:+ b = String c (a +:+ b).
Proof. reflexivity. Qed.

Lemma app_nil (b : string) : "" +:+ b = b.
Proof. reflexivity. Qed.

Lemma app_assoc_string (a b c : string) : (a +:+ b) +:+ c = a +:+ b +:+ c.
Proof.
  induction a as [|x a IH]; [reflexivity|].
  rewrite !app_cons, IH. reflexivity.
Qed.

Lemma app_nil_r_string (a : string) : a +:+ "" = a.
Proof.
  induction a as [|x a IH]; [reflexivity|].
  rewrite app_cons, IH. reflexivity.
Qed.

Lemma size_String (c : ascii) (s : string) :
  Std.size (String c s) = 1 + Std.size s.
Proof. unfold Std.size. cbn [String.length]. lia. Qed.

Lemma size_app (a b : string) : Std.size (a +:+ b) = Std.size a + Std.size b.
Proof.
  induction a as [|x a IH]; [reflexivity|].
  rewrite app_cons, !size_String, IH. lia.
Qed.

Lemma size_nonneg (s : string) : 0 ≤ Std.size s.
Proof. unfold Std.size. lia. Qed.

Lemma take_app_size (a b : string) :
  Std.take (String.length a) (a +:+ b) = a.
Proof.
  induction a as [|x a IH]; [destruct b; reflexivity|].
  rewrite app_cons. cbn [String.length Std.take]. rewrite IH. reflexivity.
Qed.

Lemma drop_app_size (a b : string) :
  Std.drop (String.length a) (a +:+ b) = b.
Proof.
  induction a as [|x a IH]; [reflexivity|].
  rewrite app_cons. exact IH.
Qed.

Lemma take_all (n : nat) (s : string) :
  (String.length s ≤ n)%nat → Std.take n s = s.
Proof.
  revert n. induction s as [|x s IH]; intros [|n] H; simpl in *;
    try reflexivity; try lia.
  rewrite IH by lia. reflexivity.
Qed.

Lemma drop_all (n : nat) (s : string) :
  (String.length s ≤ n)%nat → Std.drop n s = "".
Proof.
  revert n. induction s as [|x s IH]; intros [|n] H; simpl in *;
    try reflexivity; try lia.
  apply IH. lia.
Qed.

Lemma take_drop (n : nat) (s : string) : Std.take n s +:+ Std.drop n s = s.
Proof.
  revert s. induction n as [|n IH]; intros [|x s]; try reflexivity.
  cbn [Std.take Std.drop]. rewrite app_cons, IH. reflexivity.
Qed.

(** *** Searching *)

Lemma find_first_not_of_from_skip (pad s chars : string) (i : Z) :
  all_in chars pad = true →
  Std.find_first_not_of_from (pad +:+ s) chars i
  = Std.find_first_not_of_from s chars (i + Std.size pad).
Proof.
  revert i. induction pad as [|c pad IH]; intros i H.
  - rewrite app_nil. f_equal. unfold Std.size; simpl. lia.
  - simpl in H. apply andb_prop in H as [Hc Hp].
    rewrite app_cons. cbn [Std.find_first_not_of_from].
    rewrite Hc, IH by exact Hp.
    f_equal. rewrite size_String. lia.
Qed.

Lemma find_first_not_of_from_all (s chars : string) (i : Z) :
  all_in chars s = true → Std.find_first_not_of_from s chars i = Std.npos.
Proof.
  revert i. induction s as [|c s IH]; intros i H; [reflexivity|].
  simpl in H. apply andb_prop in H as [Hc Hp].
  simpl. rewrite Hc. apply IH, Hp.
Qed.

(** The answer is [npos] or a position inside the string. *)
Lemma find_first_not_of_from_range (s chars : string) (i : Z) :
  let r := Std.find_first_not_of_from s chars i in
  r = Std.npos ∨ (i ≤ r < i + Std.size s).
Proof.
  revert i. induction s as [|c s IH]; intros i; simpl; [left; reflexivity|].
  rewrite size_String. pose proof (size_nonneg s).
  destruct (Std.contains chars c).
  - destruct (IH (i + 1)) as [E|E]; [left; exact E | right; lia].
  - right. lia.
Qed.

Lemma find_last_not_of_from_pad (s pad chars : string) (i found : Z) :
  all_in chars pad = true →
  Std.find_last_not_of_from (s +:+ pad) chars i found
  = Std.find_last_not_of_from s chars i found.
Proof.
  revert i found. induction s as [|c s IH]; intros i found H.
  - rewrite app_nil. cbn [Std.find_last_not_of_from].
    revert i. induction pad as [|d pad IHp]; intros i; [reflexivity|].
    simpl in H. apply andb_prop in H as [Hd Hp].
    cbn [Std.find_last_not_of_from]. rewrite Hd. apply IHp, Hp.
  - rewrite app_cons. cbn [Std.find_last_not_of_from]. apply IH, H.
Qed.

Lemma find_last_not_of_from_back (s chars : string) (i found : Z) :
  s ≠ "" → Std.contains chars (Std.back s) = false →
  Std.find_last_not_of_from s chars i found = i + Std.size s - 1.
Proof.
  revert i found. induction s as [|c s IH]; intros i found Hne Hb;
    [congruence|].
  destruct s as [|d s].
  - simpl in *. rewrite Hb. unfold Std.size; simpl. lia.
  - change (Std.find_last_not_of_from (String c (String d s)) chars i found)
      with (Std.find_last_not_of_from (String d s) chars (i + 1)
              (if Std.contains chars c then found else i)).
    rewrite IH; [rewrite !size_String; lia | discriminate | exact Hb].
Qed.

(** The answer is [found] or a position inside the string. *)
Lemma find_last_not_of_from_range (s chars : string) (i found : Z) :
  let r := Std.find_last_not_of_from s chars i found in
  r = found ∨ (i ≤ r < i + Std.size s).
Proof.
  revert i found. induction s as [|c s IH]; intros i found; simpl;
    [left; reflexivity|].
  rewrite size_String. pose proof (size_nonneg s).
  destruct (IH (i + 1) (if Std.contains chars c then found else i)) as [E|E].
  - destruct (Std.contains chars c); [left; exact E | right; lia].
  - right. lia.
Qed.

(** Once a character outside [chars] has been passed, the answer lies at
    or after it. *)
Lemma find_last_not_of_from_ge (s chars : string) (i found lo : Z) :
  lo ≤ found < i →
  lo ≤ Std.find_last_not_of_from s chars i found < i + Std.size s.
Proof.
  revert i found. induction s as [|c s IH]; intros i found H.
  - simpl. unfold Std.size; simpl. lia.
  - simpl. rewrite size_String.
    destruct (Std.contains chars c).
    + specialize (IH (i + 1) found). lia.
    + specialize (IH (i + 1) i). lia.
Qed.

Lemma find_last_not_of_from_after (pad r chars : string) (c : ascii)
    (i found : Z) :
  Std.contains chars c = false →
  i + Std.size pad
  ≤ Std.find_last_not_of_from (pad +:+ String c r) chars i found
  < i + Std.size (pad +:+ String c r).
Proof.
  intros Hc. revert i found. induction pad as [|d pad IH]; intros i found.
  - rewrite app_nil. cbn [Std.find_last_not_of_from]. rewrite Hc.
    rewrite size_String.
    pose proof (find_last_not_of_from_ge r chars (i + 1) i i).
    unfold Std.size at 1; simpl. lia.
  - rewrite app_cons. cbn [Std.find_last_not_of_from].
    rewrite !size_String.
    specialize (IH (i + 1) (if Std.contains chars d then found else i)).
    lia.
Qed.

Lemma find_from_skip (key r : string) (ch : ascii) (i : Z) :
  free_of ch key = true →
  Std.find_from (key +:+ String ch r) ch i = i + Std.size key.
Proof.
  revert i. induction key as [|c key IH]; intros i H.
  - rewrite app_nil. simpl. rewrite Ascii.eqb_refl. unfold Std.size; simpl. lia.
  - simpl in H. apply andb_prop in H as [Hc Hk].
    apply negb_true_iff in Hc.
    rewrite app_cons. cbn [Std.find_from]. rewrite Hc, IH by exact Hk.
    rewrite size_String. lia.
Qed.

Lemma find_from_range (s : string) (ch : ascii) (i : Z) :
  let r := Std.find_from s ch i in
  r = Std.npos ∨ (i ≤ r < i + Std.size s).
Proof.
  revert i. induction s as [|c s IH]; intros i; simpl; [left; reflexivity|].
  rewrite size_String. pose proof (size_nonneg s).
  destruct (Ascii.eqb c ch); [right; lia|].
  destruct (IH (i + 1)) as [E|E]; [left; exact E | right; lia].
Qed.

(** *** Cutting *)

Lemma back_app (a b : string) : b ≠ "" → Std.back (a +:+ b) = Std.back b.
Proof.
  intros Hb. induction a as [|c a IH]; [reflexivity|].
  rewrite app_cons. destruct (a +:+ b) eqn:E.
  - destruct a; [rewrite app_nil in E; congruence | discriminate E].
  - exact IH.
Qed.

Lemma to_nat_size (s : string) : Z.to_nat (Std.size s) = String.length s.
Proof. unfold Std.size. apply Nat2Z.id. Qed.

Lemma substr_middle (a b c : string) :
  Std.substr (a +:+ b +:+ c) (Std.size a) (Std.size b) = Std.Normal b.
Proof.
  unfold Std.substr. rewrite !size_app.
  pose proof (size_nonneg b). pose proof (size_nonneg c).
  destruct (Z.ltb_spec (Std.size a + (Std.size b + Std.size c)) (Std.size a));
    [lia|].
  rewrite Z.min_l by lia.
  rewrite !to_nat_size, drop_app_size, take_app_size. reflexivity.
Qed.

Lemma substr_prefix (a c : string) :
  Std.substr (a +:+ c) 0 (Std.size a) = Std.Normal a.
Proof.
  pose proof (substr_middle "" a c) as H. rewrite app_nil in H. exact H.
Qed.

Lemma substr_suffix (a c : string) :
  Std.substr (a +:+ c) (Std.size a) Std.npos
  = Std.Normal (Std.take (Z.to_nat Std.npos) c).
Proof.
  unfold Std.substr. rewrite size_app. pose proof (size_nonneg c).
  destruct (Z.ltb_spec (Std.size a + Std.size c) (Std.size a)); [lia|].
  rewrite to_nat_size, drop_app_size.
  destruct (Z.le_ge_cases Std.npos (Std.size a + Std.size c - Std.size a)).
  - rewrite Z.min_l by lia. reflexivity.
  - rewrite Z.min_r by lia.
    replace (Std.size a + Std.size c - Std.size a) with (Std.size c) by lia.
    rewrite to_nat_size, take_all by lia.
    rewrite take_all; [reflexivity|].
    apply Nat2Z.inj_le. fold (Std.size c). rewrite Z2Nat.id; [lia|].
    unfold Std.npos. lia.
Qed.

Lemma substr_suffix_fits (a c : string) :
  Std.size c ≤ Std.npos →
  Std.substr (a +:+ c) (Std.size a) Std.npos = Std.Normal c.
Proof.
  intros H. rewrite substr_suffix. f_equal. apply take_all.
  apply Nat2Z.inj_le. fold (Std.size c). rewrite Z2Nat.id; [lia|].
  unfold Std.npos. lia.
Qed.

Lemma size_t_small (z : Z) : 0 ≤ z ≤ Std.npos → Std.size_t z = z.
Proof. intros H. unfold Std.size_t. apply Z.mod_small. unfold Std.npos in H. lia. Qed.

Lemma size_t_npos_succ : Std.size_t (Std.npos + 1) = 0.
Proof. reflexivity. Qed.

(** [erase] from the front and [erase] to the end. *)
Lemma erase_front (a b : string) (count : Z) :
  count = Std.size a →
  Std.erase (a +:+ b) 0 count = Std.Normal b.
Proof.
  intros ->. unfold Std.erase. rewrite size_app.
  pose proof (size_nonneg a). pose proof (size_nonneg b).
  destruct (Z.ltb_spec (Std.size a + Std.size b) 0); [lia|].
  rewrite Z.min_l by lia. cbn [Z.to_nat Std.take]. rewrite app_nil.
  rewrite Z.add_0_l, to_nat_size, drop_app_size. reflexivity.
Qed.

Lemma erase_everything (s : string) :
  fits s → Std.erase s 0 Std.npos = Std.Normal "".
Proof.
  intros Hs. unfold fits in Hs. unfold Std.erase.
  pose proof (size_nonneg s).
  destruct (Z.ltb_spec (Std.size s) 0); [lia|].
  rewrite Z.min_r by lia. cbn [Z.to_nat Std.take]. rewrite app_nil.
  rewrite Z.add_0_l, Z.sub_0_r, to_nat_size, drop_all by lia. reflexivity.
Qed.

Lemma erase_tail (a b : string) :
  fits (a +:+ b) →
  Std.erase (a +:+ b) (Std.size a) Std.npos = Std.Normal a.
Proof.
  intros Hs. unfold fits in Hs. unfold Std.erase. rewrite size_app in *.
  pose proof (size_nonneg a). pose proof (size_nonneg b).
  destruct (Z.ltb_spec (Std.size a + Std.size b) (Std.size a)); [lia|].
  rewrite Z.min_r by lia.
  rewrite to_nat_size, take_app_size.
  replace (Std.size a + (Std.size a + Std.size b - Std.size a))
    with (Std.size (a +:+ b)) by (rewrite size_app; lia).
  rewrite to_nat_size, drop_all by lia. rewrite app_nil_r_string.
  reflexivity.
Qed.

(** *** Trimming and unquoting *)

Lemma blank_is_line_space (c : ascii) :
  Std.contains ConfigProxy.BLANK c = true →
  Std.contains ConfigProxy.LINE_SPACE c = true.
Proof.
  unfold ConfigProxy.BLANK, ConfigProxy.LINE_SPACE. cbn [Std.contains].
  destruct (Ascii.eqb c Std.SPACE), (Ascii.eqb c Std.TAB); simpl;
    intros H; congruence.
Qed.

Lemma all_blank_is_line_space (s : string) :
  all_in ConfigProxy.BLANK s = true → all_in ConfigProxy.LINE_SPACE s = true.
Proof.
  induction s as [|c s IH]; [reflexivity|]. cbn [all_in].
  intros H. apply andb_prop in H as [Hc Hs].
  rewrite (blank_is_line_space c Hc), IH by exact Hs. reflexivity.
Qed.

Lemma all_in_app (chars a b : string) :
  all_in chars (a +:+ b) = all_in chars a && all_in chars b.
Proof.
  induction a as [|c a IH]; [reflexivity|].
  rewrite app_cons. cbn [all_in]. rewrite IH, andb_assoc. reflexivity.
Qed.

Lemma free_of_app (c : ascii) (a b : string) :
  free_of c (a +:+ b) = free_of c a && free_of c b.
Proof.
  induction a as [|d a IH]; [reflexivity|].
  rewrite app_cons. cbn [free_of]. rewrite IH, andb_assoc. reflexivity.
Qed.

Lemma all_in_free_of (chars s : string) (c : ascii) :
  Std.contains chars c = false → all_in chars s = true → free_of c s = true.
Proof.
  intros Hc. induction s as [|d s IH]; [reflexivity|]. cbn [all_in free_of].
  intros H. apply andb_prop in H as [Hd Hs]. rewrite IH by exact Hs.
  destruct (Ascii.eqb_spec d c) as [->|]; [congruence | reflexivity].
Qed.

(** Trimming takes the blanks off both ends of a text whose own ends are
    no blanks. *)
Lemma trim_padded (a x b : string) :
  all_in ConfigProxy.BLANK a = true →
  all_in ConfigProxy.BLANK b = true →
  Std.empty x = true
  ∨ (Std.contains ConfigProxy.BLANK (Std.front x) = false
     ∧ Std.contains ConfigProxy.BLANK (Std.back x) = false) →
  fits (a +:+ x +:+ b) →
  ConfigProxy.trim (a +:+ x +:+ b) = Std.Normal x.
Proof.
  intros Ha Hb Hx Hfit. unfold ConfigProxy.trim.
  destruct x as [|c x].
  - (* nothing but blanks *)
    rewrite app_nil in *.
    unfold Std.find_first_not_of.
    rewrite find_first_not_of_from_all
      by (rewrite all_in_app, Ha, Hb; reflexivity).
    rewrite erase_everything by exact Hfit. cbn [Std.and_next].
    reflexivity.
  - destruct Hx as [Hx|[Hf Hl]]; [discriminate Hx|].
    cbn [Std.front] in Hf.
    unfold Std.find_first_not_of.
    rewrite find_first_not_of_from_skip by exact Ha.
    rewrite app_cons. cbn [Std.find_first_not_of_from]. rewrite Hf.
    rewrite <- app_cons.
    rewrite erase_front by lia. cbn [Std.and_next].
    unfold Std.find_last_not_of.
    rewrite find_last_not_of_from_pad by exact Hb.
    rewrite find_last_not_of_from_back by (discriminate || exact Hl).
    assert (Hfit' : fits (String c x +:+ b)).
    { unfold fits in *. rewrite !size_app in *.
      pose proof (size_nonneg a). lia. }
    replace (0 + Std.size (String c x) - 1 + 1) with (Std.size (String c x))
      by lia.
    rewrite size_t_small.
    + apply erase_tail, Hfit'.
    + unfold fits in Hfit'. rewrite size_app in Hfit'.
      pose proof (size_nonneg (String c x)). pose proof (size_nonneg b). lia.
Qed.

Lemma unquote_plain (value : string) :
  quoted value = false → ConfigProxy.unquote value = Std.Normal value.
Proof. unfold quoted, ConfigProxy.unquote. intros ->. reflexivity. Qed.

Lemma unquote_quoted (q : ascii) (inner : string) :
  q = Std.DOUBLE_QUOTE ∨ q = Std.SINGLE_QUOTE →
  ConfigProxy.unquote (String q (inner +:+ String q "")) = Std.Normal inner.
Proof.
  intros Hq. unfold ConfigProxy.unquote.
  set (value := String q (inner +:+ String q "")).
  assert (Hsize : Std.size value = 2 + Std.size inner).
  { unfold value. rewrite size_String, size_app, size_String.
    unfold Std.size at 2; simpl. lia. }
  assert (Hback : Std.back value = q).
  { unfold value. rewrite <- app_cons. apply back_app. discriminate. }
  pose proof (size_nonneg inner).
  rewrite Hback, Hsize. cbn [Std.front value].
  destruct (Z.leb_spec 2 (2 + Std.size inner)); [|lia].
  assert (Hc : (Ascii.eqb q Std.DOUBLE_QUOTE && Ascii.eqb q Std.DOUBLE_QUOTE
                || Ascii.eqb q Std.SINGLE_QUOTE
                   && Ascii.eqb q Std.SINGLE_QUOTE) = true)
    by (destruct Hq as [->| ->]; reflexivity).
  unfold value at 1. cbn [Std.front]. rewrite Hc. cbn [andb].
  replace (2 + Std.size inner - 2) with (Std.size inner) by lia.
  pose proof (substr_middle (String q "") inner (String q "")) as H1.
  rewrite app_cons, app_nil in H1. exact H1.
Qed.

(** ** Lines of the configuration file *)

Lemma config_key_facts (key : string) :
  config_key key = true →
  ∃ c r, key = String c r
         ∧ Std.contains ConfigProxy.LINE_SPACE c = false
         ∧ Ascii.eqb c "#"%char = false
         ∧ Ascii.eqb c ";"%char = false
         ∧ Std.contains ConfigProxy.BLANK (Std.back key) = false
         ∧ free_of "="%char key = true.
Proof.
  unfold config_key. intros H.
  apply andb_prop in H as [H H6]. apply andb_prop in H as [H H5].
  apply andb_prop in H as [H H4]. apply andb_prop in H as [H H3].
  apply andb_prop in H as [H1 H2].
  destruct key as [|c r]; [simpl in H1; discriminate H1|].
  exists c, r. cbn [Std.front] in *.
  repeat split; try apply negb_true_iff; assumption.
Qed.

(** A line with a key, blanks, ['='] and a tail, white space around it:
    the key is set to what trimming and unquoting leave of the tail. *)
Lemma process_line_split (lineNum : Z) (pad1 pad4 key pad2 tail value : string)
    (config : ConfigProxy.ProxyConfig) :
  all_in ConfigProxy.LINE_SPACE pad1 = true →
  all_in ConfigProxy.LINE_SPACE pad4 = true →
  config_key key = true →
  all_in ConfigProxy.BLANK pad2 = true →
  Std.contains ConfigProxy.LINE_SPACE (Std.back (String "="%char tail))
  = false →
  ConfigProxy.trim tail = Std.Normal value →
  fits (pad1 +:+ (key +:+ pad2 +:+ String "="%char tail) +:+ pad4) →
  ConfigProxy.process_line lineNum
    (pad1 +:+ (key +:+ pad2 +:+ String "="%char tail) +:+ pad4) config
  = ConfigProxy.unless_thrown (ConfigProxy.unquote value)
      (λ value, ConfigProxy.set_value key value config).
Proof.
  intros H1 H4 Hkey H2 Hback Htail Hfit.
  destruct (config_key_facts key Hkey)
    as (c & r & Ek & Hc & Hhash & Hsemi & Hkb & Hfree).
  set (body := key +:+ pad2 +:+ String "="%char tail) in *.
  assert (Ebody : body = String c (r +:+ pad2 +:+ String "="%char tail))
    by (unfold body; rewrite Ek, app_cons; reflexivity).
  assert (Hbb : Std.contains ConfigProxy.LINE_SPACE (Std.back body) = false).
  { unfold body.
    rewrite back_app by (destruct pad2; discriminate).
    rewrite back_app by discriminate. exact Hback. }
  assert (Hbne : body ≠ "") by (rewrite Ebody; discriminate).
  pose proof (size_nonneg pad1). pose proof (size_nonneg pad4).
  pose proof (size_nonneg body).
  assert (Hsb : 1 ≤ Std.size body).
  { rewrite Ebody, size_String.
    pose proof (size_nonneg (r +:+ pad2 +:+ String "="%char tail)). lia. }
  unfold fits in Hfit. rewrite !size_app in Hfit.
  assert (HF : Std.find_first_not_of (pad1 +:+ body +:+ pad4)
                 ConfigProxy.LINE_SPACE = Std.size pad1).
  { unfold Std.find_first_not_of.
    rewrite find_first_not_of_from_skip by exact H1.
    rewrite Ebody, app_cons. cbn [Std.find_first_not_of_from].
    rewrite Hc. lia. }
  assert (HL : Std.find_last_not_of (pad1 +:+ body +:+ pad4)
                 ConfigProxy.LINE_SPACE = Std.size pad1 + Std.size body - 1).
  { unfold Std.find_last_not_of.
    rewrite <- app_assoc_string, find_last_not_of_from_pad by exact H4.
    rewrite find_last_not_of_from_back.
    - rewrite size_app. lia.
    - rewrite Ebody. destruct pad1; discriminate.
    - rewrite back_app by exact Hbne. exact Hbb. }
  unfold ConfigProxy.process_line. cbv zeta. rewrite HF, HL.
  destruct (Z.eqb_spec (Std.size pad1) Std.npos) as [E|_]; [lia|].
  replace (Std.size pad1 + Std.size body - 1 - Std.size pad1 + 1)
    with (Std.size body) by lia.
  rewrite size_t_small by lia.
  rewrite substr_middle. cbn [ConfigProxy.unless_thrown].
  rewrite Ebody at 1 2 3. cbn [Std.empty Std.front].
  rewrite Hhash, Hsemi. cbn [orb].
  (* the separator *)
  assert (Hpos : Std.find body "="%char = Std.size (key +:+ pad2)).
  { unfold Std.find, body. rewrite <- app_assoc_string.
    rewrite find_from_skip; [lia|].
    rewrite free_of_app, Hfree. cbn [andb].
    apply (all_in_free_of ConfigProxy.BLANK); [reflexivity | exact H2]. }
  rewrite Hpos.
  pose proof (size_nonneg (key +:+ pad2)). pose proof (size_nonneg tail).
  assert (Hsz : Std.size body = Std.size (key +:+ pad2) + (1 + Std.size tail)).
  { unfold body. rewrite <- app_assoc_string, size_app, size_String.
    reflexivity. }
  destruct (Z.eqb_spec (Std.size (key +:+ pad2)) Std.npos) as [E|_]; [lia|].
  assert (Esplit : body = (key +:+ pad2) +:+ String "="%char tail)
    by (unfold body; rewrite app_assoc_string; reflexivity).
  rewrite Esplit at 1. rewrite substr_prefix.
  cbn [ConfigProxy.unless_thrown].
  rewrite size_t_small by lia.
  assert (Esplit2 : body = ((key +:+ pad2) +:+ "=") +:+ tail).
  { rewrite Esplit, (app_assoc_string (key +:+ pad2) "=" tail).
    reflexivity. }
  replace (Std.size (key +:+ pad2) + 1)
    with (Std.size ((key +:+ pad2) +:+ "="))
    by (rewrite (size_app (key +:+ pad2) "="); reflexivity).
  rewrite Esplit2 at 1. rewrite substr_suffix_fits by lia.
  cbn [ConfigProxy.unless_thrown].
  (* key and value *)
  pose proof (trim_padded "" key pad2 eq_refl H2) as Hk.
  rewrite app_nil in Hk. rewrite Hk.
  - cbn [ConfigProxy.unless_thrown]. rewrite Htail.
    cbn [ConfigProxy.unless_thrown]. reflexivity.
  - right. split; [|exact Hkb]. rewrite Ek. cbn [Std.front].
    destruct (Std.contains ConfigProxy.BLANK c) eqn:E; [|reflexivity].
    apply blank_is_line_space in E. congruence.
  - unfold fits. lia.
Qed.

Ltac sizes :=
  unfold fits in *;
  repeat (rewrite size_app in * || rewrite size_String in * );
  change (Std.size "") with 0 in *.

Ltac norm_app :=
  repeat (rewrite app_assoc_string || rewrite app_cons || rewrite app_nil).

Lemma process_line_assignment (lineNum : Z)
    (pad1 pad2 pad3 pad4 key value : string)
    (config : ConfigProxy.ProxyConfig) :
  all_in ConfigProxy.LINE_SPACE pad1 = true →
  all_in ConfigProxy.BLANK pad2 = true →
  all_in ConfigProxy.BLANK pad3 = true →
  all_in ConfigProxy.LINE_SPACE pad4 = true →
  config_key key = true →
  config_value value = true →
  fits (pad1 +:+ key +:+ pad2 +:+ "=" +:+ pad3 +:+ value +:+ pad4) →
  ConfigProxy.process_line lineNum
    (pad1 +:+ key +:+ pad2 +:+ "=" +:+ pad3 +:+ value +:+ pad4) config
  = ConfigProxy.unless_thrown (ConfigProxy.unquote value)
      (λ value, ConfigProxy.set_value key value config).
Proof.
  intros H1 H2 H3 H4 Hkey Hval Hfit.
  destruct value as [|v0 v].
  - (* no value: the blanks after the separator are trailing white space *)
    assert (E : pad1 +:+ key +:+ pad2 +:+ "=" +:+ pad3 +:+ "" +:+ pad4
                = pad1 +:+ (key +:+ pad2 +:+ String "="%char "")
                  +:+ (pad3 +:+ pad4)).
    { norm_app. reflexivity. }
    rewrite E in *.
    apply process_line_split; try assumption; try reflexivity.
    rewrite all_in_app, (all_blank_is_line_space pad3 H3), H4. reflexivity.
  - assert (E : pad1 +:+ key +:+ pad2 +:+ "=" +:+ pad3 +:+ String v0 v
                     +:+ pad4
                = pad1 +:+ (key +:+ pad2
                            +:+ String "="%char (pad3 +:+ String v0 v))
                  +:+ pad4).
    { norm_app. reflexivity. }
    rewrite E in *.
    unfold config_value in Hval. cbn [Std.empty orb Std.front] in Hval.
    apply andb_prop in Hval as [Hf Hb]. apply negb_true_iff in Hf, Hb.
    apply process_line_split; try assumption.
    + change (String "="%char (pad3 +:+ String v0 v))
        with (String "="%char pad3 +:+ String v0 v).
      rewrite back_app by discriminate. exact Hb.
    + pose proof (trim_padded pad3 (String v0 v) "" H3 eq_refl) as Ht.
      rewrite app_nil_r_string in Ht. apply Ht.
      * right. split; [exact Hf|].
        destruct (Std.contains ConfigProxy.BLANK (Std.back (String v0 v)))
          eqn:Eb; [|reflexivity].
        apply blank_is_line_space in Eb. congruence.
      * sizes.
        pose proof (size_nonneg pad1). pose proof (size_nonneg key).
        pose proof (size_nonneg pad2). pose proof (size_nonneg pad4).
        lia.
Qed.

(** X1.  White space around the key, around ['='] and around the value of
    a configuration line does not count: the line sets the key to the
    value, whatever the padding. *)
Theorem config_line_padding_is_insignificant (lineNum : Z)
    (pad1 pad2 pad3 pad4 key value : string)
    (config : ConfigProxy.ProxyConfig) :
  all_in ConfigProxy.LINE_SPACE pad1 = true →
  all_in ConfigProxy.BLANK pad2 = true →
  all_in ConfigProxy.BLANK pad3 = true →
  all_in ConfigProxy.LINE_SPACE pad4 = true →
  config_key key = true →
  config_value value = true →
  quoted value = false →
  fits (pad1 +:+ key +:+ pad2 +:+ "=" +:+ pad3 +:+ value +:+ pad4) →
  ConfigProxy.process_line lineNum
    (pad1 +:+ key +:+ pad2 +:+ "=" +:+ pad3 +:+ value +:+ pad4) config
  = ConfigProxy.set_value key value config.
Proof.
  intros H1 H2 H3 H4 Hkey Hval Hq Hfit.
  rewrite process_line_assignment by assumption.
  rewrite unquote_plain by exact Hq. reflexivity.
Qed.

(** X2.  A value between two double or two single quotation marks is taken
    as it stands between them, blanks at its ends included; only the
    outer pair of marks is removed. *)
Theorem config_quoted_value_is_taken_verbatim (lineNum : Z)
    (pad1 pad2 pad3 pad4 key inner : string) (q : ascii)
    (config : ConfigProxy.ProxyConfig) :
  q = Std.DOUBLE_QUOTE ∨ q = Std.SINGLE_QUOTE →
  all_in ConfigProxy.LINE_SPACE pad1 = true →
  all_in ConfigProxy.BLANK pad2 = true →
  all_in ConfigProxy.BLANK pad3 = true →
  all_in ConfigProxy.LINE_SPACE pad4 = true →
  config_key key = true →
  fits (pad1 +:+ key +:+ pad2 +:+ "=" +:+ pad3
        +:+ String q (inner +:+ String q "") +:+ pad4) →
  ConfigProxy.process_line lineNum
    (pad1 +:+ key +:+ pad2 +:+ "=" +:+ pad3
     +:+ String q (inner +:+ String q "") +:+ pad4) config
  = ConfigProxy.set_value key inner config.
Proof.
  intros Hq H1 H2 H3 H4 Hkey Hfit.
  rewrite process_line_assignment; try assumption.
  - rewrite unquote_quoted by exact Hq. reflexivity.
  - unfold config_value. cbn [Std.empty orb Std.front].
    rewrite <- app_cons, back_app by discriminate. cbn [Std.back].
    destruct Hq as [->| ->]; reflexivity.
Qed.

(** ** Comments and blank lines *)

Lemma take_S_String (n : Z) (c : ascii) (r : string) :
  1 ≤ n → Std.front (Std.take (Z.to_nat n) (String c r)) = c
           ∧ Std.empty (Std.take (Z.to_nat n) (String c r)) = false.
Proof.
  intros Hn. destruct (Z.to_nat n) as [|m] eqn:E; [lia|].
  split; reflexivity.
Qed.

Lemma process_line_comment_or_blank (lineNum : Z) (line : string)
    (config : ConfigProxy.ProxyConfig) :
  comment_or_blank line → fits line →
  ConfigProxy.process_line lineNum line config = ret (Std.Normal config).
Proof.
  intros (pad & rest & -> & Hpad & Hrest) Hfit.
  unfold ConfigProxy.process_line. cbv zeta.
  destruct rest as [|c r].
  - rewrite app_nil_r_string. unfold Std.find_first_not_of.
    rewrite find_first_not_of_from_all by exact Hpad. reflexivity.
  - destruct Hrest as [Hr|Hr]; [discriminate Hr|]. cbn [Std.front] in Hr.
    assert (Hc : Std.contains ConfigProxy.LINE_SPACE c = false)
      by (destruct Hr as [->| ->]; reflexivity).
    assert (HF : Std.find_first_not_of (pad +:+ String c r)
                   ConfigProxy.LINE_SPACE = Std.size pad).
    { unfold Std.find_first_not_of.
      rewrite find_first_not_of_from_skip by exact Hpad.
      cbn [Std.find_first_not_of_from]. rewrite Hc. lia. }
    pose proof (find_last_not_of_from_after pad r ConfigProxy.LINE_SPACE c
                  0 Std.npos Hc) as HL.
    fold (Std.find_last_not_of (pad +:+ String c r) ConfigProxy.LINE_SPACE)
      in HL.
    set (L := Std.find_last_not_of (pad +:+ String c r)
                ConfigProxy.LINE_SPACE) in *.
    rewrite HF. unfold fits in Hfit.
    pose proof (size_nonneg pad). rewrite size_app in *.
    pose proof (size_nonneg (String c r)).
    destruct (Z.eqb_spec (Std.size pad) Std.npos) as [E|_]; [lia|].
    rewrite size_t_small by lia.
    unfold Std.substr. rewrite size_app.
    destruct (Z.ltb_spec (Std.size pad + Std.size (String c r))
                (Std.size pad)); [lia|].
    rewrite to_nat_size, drop_app_size.
    cbn [ConfigProxy.unless_thrown].
    destruct (take_S_String
                (Z.min (L - Std.size pad + 1)
                   (Std.size pad + Std.size (String c r) - Std.size pad))
                c r) as [Hfront Hempty].
    { rewrite size_String in *. pose proof (size_nonneg r). lia. }
    rewrite Hempty, Hfront. cbn [orb].
    destruct Hr as [->| ->]; reflexivity.
Qed.

(** X3.  A configuration file that holds nothing but comments (lines whose
    first character after white space is ['#'] or [';']) and blank lines
    is read without a message and leaves the configuration as it was. *)
Theorem config_comments_change_nothing (filename content : string)
    (config : ConfigProxy.ProxyConfig) (w : World) :
  Forall (λ line, comment_or_blank line ∧ fits line)
         (Std.getlines content) →
  ConfigProxy.loadFromFile filename (Some content) config w
  = (Std.Normal (true, config), w).
Proof.
  intros H. unfold ConfigProxy.loadFromFile.
  assert (Hl : ∀ n, ConfigProxy.load_lines (Std.getlines content) n config w
                    = (Std.Normal config, w)).
  { induction H as [|line lines [Hc Hf] _ IH]; intros n; [reflexivity|].
    cbn [ConfigProxy.load_lines]. unfold bind at 1.
    rewrite process_line_comment_or_blank by assumption.
    cbn [ret]. apply IH. }
  unfold bind. rewrite Hl. reflexivity.
Qed.

(** ** Numbers *)

Lemma digit_value_digit_char (d : Z) :
  0 ≤ d ≤ 9 → Std.digit_value (Std.digit_char d) = Some d.
Proof.
  intros H.
  assert (d = 0 ∨ d = 1 ∨ d = 2 ∨ d = 3 ∨ d = 4 ∨ d = 5 ∨ d = 6 ∨ d = 7
          ∨ d = 8 ∨ d = 9) as E by lia.
  repeat (destruct E as [->|E]; [reflexivity|]). subst d. reflexivity.
Qed.

(** A digit is no white space and no sign. *)
Lemma digit_is_no_space (c : ascii) (d : Z) :
  Std.digit_value c = Some d →
  Std.isspace c = false ∧ Ascii.eqb c "-"%char = false
  ∧ Ascii.eqb c "+"%char = false
  ∧ Std.contains ConfigProxy.LINE_SPACE c = false
  ∧ Ascii.eqb c Std.DOUBLE_QUOTE = false
  ∧ Ascii.eqb c Std.SINGLE_QUOTE = false
  ∧ Ascii.eqb c Std.LF = false.
Proof.
  destruct c as [[] [] [] [] [] [] [] []]; vm_compute; intros H;
    try discriminate H; repeat split.
Qed.

Lemma digits_head (fuel : nat) (n : Z) :
  0 ≤ n →
  ∃ d r, 0 ≤ d ≤ 9 ∧ Std.digits (S fuel) n = String (Std.digit_char d) r.
Proof.
  revert n. induction fuel as [|fuel IH]; intros n Hn.
  - cbn [Std.digits]. destruct (Z.ltb_spec n 10).
    + exists n, "". split; [lia | reflexivity].
    + exists (n mod 10), "". split; [|reflexivity].
      pose proof (Z.mod_pos_bound n 10). lia.
  - change (Std.digits (S (S fuel)) n)
      with (if n <? 10 then String (Std.digit_char n) ""
            else Std.digits (S fuel) (n / 10)
                 +:+ String (Std.digit_char (n mod 10)) "").
    destruct (Z.ltb_spec n 10).
    + exists n, "". split; [lia | reflexivity].
    + destruct (IH (n / 10)) as (d & r & Hd & E).
      { apply Z.div_pos; lia. }
      rewrite E, app_cons. eauto.
Qed.

(** The digit loop reads back the number that was printed, and goes on
    with what follows. *)
Lemma read_digits_digits (fuel : nat) (n : Z) (rest : string) (any : bool) :
  0 ≤ n < 2 ^ Z.of_nat (S fuel) →
  Std.read_digits (Std.digits (S fuel) n +:+ rest) 0 any
  = Std.read_digits rest n true.
Proof.
  revert n rest any. induction fuel as [|fuel IH]; intros n rest any Hn.
  - change (2 ^ Z.of_nat 1) with 2 in Hn.
    cbn [Std.digits]. destruct (Z.ltb_spec n 10); [|lia].
    rewrite app_cons, app_nil. cbn [Std.read_digits].
    rewrite digit_value_digit_char by lia. reflexivity.
  - change (Std.digits (S (S fuel)) n)
      with (if n <? 10 then String (Std.digit_char n) ""
            else Std.digits (S fuel) (n / 10)
                 +:+ String (Std.digit_char (n mod 10)) "").
    destruct (Z.ltb_spec n 10).
    + rewrite app_cons, app_nil. cbn [Std.read_digits].
      rewrite digit_value_digit_char by lia. reflexivity.
    + rewrite app_assoc_string, app_cons, app_nil.
      rewrite IH.
      * cbn [Std.read_digits].
        pose proof (Z.mod_pos_bound n 10).
        rewrite digit_value_digit_char by lia.
        f_equal. pose proof (Z.div_mod n 10). lia.
      * split; [apply Z.div_pos; lia|].
        apply Z.div_lt_upper_bound; [lia|].
        rewrite Nat2Z.inj_succ, Z.pow_succ_r in Hn by lia. lia.
Qed.

Lemma skip_spaces_app (pad s : string) :
  all_space pad = true → Std.skip_spaces (pad +:+ s) = Std.skip_spaces s.
Proof.
  induction pad as [|c pad IH]; intros H; [reflexivity|].
  cbn [all_space] in H. apply andb_prop in H as [Hc Hp].
  rewrite app_cons. cbn [Std.skip_spaces]. rewrite Hc. apply IH, Hp.
Qed.

Lemma log2_fuel (n : Z) : 0 ≤ n → n < 2 ^ Z.of_nat (S (Z.to_nat (Z.log2 n))).
Proof.
  intros Hn. rewrite Nat2Z.inj_succ, Z2Nat.id by apply Z.log2_nonneg.
  destruct (Z.eq_dec n 0) as [->|]; [reflexivity|].
  apply Z.log2_spec. lia.
Qed.

(** What [std::stoi] makes of a printed [int] with white space before it
    and a tail that does not go on with a digit. *)
Lemma stoi_to_string (pad rest : string) (n : Z) :
  all_space pad = true →
  Std.INT_MIN ≤ n ≤ Std.INT_MAX →
  rest = "" ∨ Std.digit_value (Std.front rest) = None →
  Std.stoi (pad +:+ Std.to_string n +:+ rest) = Std.Normal n.
Proof.
  intros Hpad Hn Hrest. unfold Std.stoi.
  rewrite skip_spaces_app by exact Hpad.
  assert (Hread : ∀ m, Std.read_digits rest m true = Some m).
  { intros m. destruct rest as [|c r]; [reflexivity|].
    destruct Hrest as [E|E]; [discriminate E|]. cbn [Std.front] in E.
    cbn [Std.read_digits]. rewrite E. reflexivity. }
  unfold Std.to_string.
  set (fuel := Z.to_nat (Z.log2 (Z.abs n))).
  pose proof (log2_fuel (Z.abs n) (Z.abs_nonneg n)) as Hfuel. fold fuel in Hfuel.
  destruct (Z.ltb_spec n 0) as [Hneg|Hpos].
  - rewrite app_cons. cbn [Std.skip_spaces].
    change (Std.isspace "-") with false. cbv iota.
    change (Ascii.eqb "-" "-") with true. cbv iota.
    rewrite read_digits_digits, Hread by lia.
    replace (- Z.abs n) with n by lia.
    destruct (Z.ltb_spec n Std.INT_MIN); [lia|].
    destruct (Z.ltb_spec Std.INT_MAX n); [lia|]. reflexivity.
  - destruct (digits_head fuel (Z.abs n) (Z.abs_nonneg n))
      as (d & r & Hd & E).
    destruct (digit_is_no_space (Std.digit_char d) d
                (digit_value_digit_char d Hd)) as (Hs & Hm & Hp & _).
    rewrite E, app_cons. cbn [Std.skip_spaces]. rewrite Hs, Hm, Hp.
    rewrite <- app_cons, <- E.
    rewrite read_digits_digits, Hread by lia.
    replace (Z.abs n) with n by lia.
    destruct (Z.ltb_spec n Std.INT_MIN); [lia|].
    destruct (Z.ltb_spec Std.INT_MAX n); [lia|]. reflexivity.
Qed.

(** X4.  A [timeout_ms] value is read with [std::stoi]: the number that
    the stream operator prints for an [int] is read back as that [int],
    white space before it is skipped and whatever follows its digits is
    ignored. *)
Theorem timeout_value_is_read_back (pad rest : string) (n : Z)
    (config : ConfigProxy.ProxyConfig) (w : World) :
  all_space pad = true →
  Std.INT_MIN ≤ n ≤ Std.INT_MAX →
  rest = "" ∨ Std.digit_value (Std.front rest) = None →
  ConfigProxy.set_value "timeout_ms" (pad +:+ Std.to_string n +:+ rest)
                        config w
  = (Std.Normal
       (ConfigProxy.mkProxyConfig (ConfigProxy.source_bus_name config)
          (ConfigProxy.source_object_path config)
          (ConfigProxy.proxy_bus_name config) (ConfigProxy.bus_type config)
          (ConfigProxy.verbose config) (ConfigProxy.enable_logging config)
          n (ConfigProxy.log_file config)),
     w).
Proof.
  intros Hpad Hn Hrest. unfold ConfigProxy.set_value.
  change (String.eqb "timeout_ms" "source_bus_name") with false.
  change (String.eqb "timeout_ms" "source_object_path") with false.
  change (String.eqb "timeout_ms" "proxy_bus_name") with false.
  change (String.eqb "timeout_ms" "bus_type") with false.
  change (String.eqb "timeout_ms" "verbose") with false.
  change (String.eqb "timeout_ms" "enable_logging") with false.
  change (String.eqb "timeout_ms" "timeout_ms") with true.
  cbv iota. rewrite stoi_to_string by assumption. reflexivity.
Qed.

(** ** The template and the reader *)

Lemma template_text_lines (config : ConfigProxy.ProxyConfig) :
  ConfigProxy.template_text config = unlines (template_lines config).
Proof. reflexivity. Qed.

Lemma getlines_line (line rest : string) :
  free_of Std.LF line = true →
  Std.getlines (line +:+ String Std.LF rest) = line :: Std.getlines rest.
Proof.
  induction line as [|c line IH]; intros H.
  - rewrite app_nil. reflexivity.
  - cbn [free_of] in H. apply andb_prop in H as [Hc Hl].
    apply negb_true_iff in Hc.
    rewrite app_cons. cbn [Std.getlines]. rewrite Hc, IH by exact Hl.
    reflexivity.
Qed.

Lemma getlines_unlines (lines : list string) :
  Forall (λ line, free_of Std.LF line = true) lines →
  Std.getlines (unlines lines) = lines.
Proof.
  induction 1 as [|line lines Hl _ IH]; [reflexivity|].
  cbn [unlines]. unfold ConfigProxy.NL. rewrite app_cons, app_nil.
  rewrite getlines_line, IH by exact Hl. reflexivity.
Qed.

Lemma size_unlines_ge (lines : list string) (line : string) :
  In line lines → Std.size line < Std.size (unlines lines).
Proof.
  induction lines as [|l lines IH]; intros H; [destruct H|].
  cbn [unlines]. unfold ConfigProxy.NL. rewrite !size_app, size_String.
  pose proof (size_nonneg l). pose proof (size_nonneg (unlines lines)).
  change (Std.size "") with 0.
  destruct H as [->|H]; [lia|]. specialize (IH H). lia.
Qed.

(** A line [key=value] without padding. *)
Lemma process_line_plain (lineNum : Z) (key value : string)
    (config : ConfigProxy.ProxyConfig) :
  config_key key = true → config_value value = true →
  quoted value = false → fits (key +:+ "=" +:+ value) →
  ConfigProxy.process_line lineNum (key +:+ "=" +:+ value) config
  = ConfigProxy.set_value key value config.
Proof.
  intros Hk Hv Hq Hfit.
  pose proof (process_line_assignment lineNum "" "" "" "" key value config
                eq_refl eq_refl eq_refl eq_refl Hk Hv) as H.
  rewrite !app_nil, app_nil_r_string in H.
  rewrite H by exact Hfit. rewrite unquote_plain by exact Hq. reflexivity.
Qed.

Lemma plain_value_facts (value : string) :
  plain_value value = true →
  config_value value = true ∧ quoted value = false
  ∧ free_of Std.LF value = true.
Proof.
  unfold plain_value. intros H.
  apply andb_prop in H as [H H3]. apply andb_prop in H as [H1 H2].
  apply negb_true_iff in H2. auto.
Qed.

Lemma plain_value_bool_name (b : bool) :
  plain_value (ConfigProxy.bool_name b) = true.
Proof. destruct b; reflexivity. Qed.

(** A printed [int] is a plain value. *)
Lemma all_digits (fuel : nat) (n : Z) :
  0 ≤ n →
  all_in "0123456789" (Std.digits fuel n) = true.
Proof.
  revert n. induction fuel as [|fuel IH]; intros n Hn; [reflexivity|].
  cbn [Std.digits].
  assert (Hd : ∀ d, 0 ≤ d ≤ 9 →
                    Std.contains "0123456789" (Std.digit_char d) = true).
  { intros d H.
    assert (d = 0 ∨ d = 1 ∨ d = 2 ∨ d = 3 ∨ d = 4 ∨ d = 5 ∨ d = 6 ∨ d = 7
            ∨ d = 8 ∨ d = 9) as E by lia.
    repeat (destruct E as [->|E]; [reflexivity|]). subst d. reflexivity. }
  destruct (Z.ltb_spec n 10).
  - cbn [all_in]. rewrite Hd by lia. reflexivity.
  - rewrite all_in_app, IH by (apply Z.div_pos; lia). cbn [all_in andb].
    pose proof (Z.mod_pos_bound n 10). rewrite Hd by lia. reflexivity.
Qed.

Lemma all_in_back (chars s : string) :
  s ≠ "" → all_in chars s = true → Std.contains chars (Std.back s) = true.
Proof.
  induction s as [|c s IH]; intros Hne H; [congruence|].
  cbn [all_in] in H. apply andb_prop in H as [Hc Hs].
  destruct s as [|d s]; [exact Hc|].
  apply IH; [discriminate | exact Hs].
Qed.

Lemma number_char_is_plain (c : ascii) :
  Std.contains "-0123456789" c = true →
  Std.contains ConfigProxy.BLANK c = false
  ∧ Std.contains ConfigProxy.LINE_SPACE c = false
  ∧ Ascii.eqb c Std.DOUBLE_QUOTE = false
  ∧ Ascii.eqb c Std.SINGLE_QUOTE = false
  ∧ Ascii.eqb c Std.LF = false.
Proof.
  destruct c as [[] [] [] [] [] [] [] []]; vm_compute; intros H;
    try discriminate H; repeat split.
Qed.

Lemma all_in_number_free_of_lf (s : string) :
  all_in "-0123456789" s = true → free_of Std.LF s = true.
Proof.
  induction s as [|c s IH]; [reflexivity|]. cbn [all_in free_of].
  intros H. apply andb_prop in H as [Hc Hs]. rewrite IH by exact Hs.
  destruct (number_char_is_plain c Hc) as (_ & _ & _ & _ & ->). reflexivity.
Qed.

Lemma all_in_to_string (n : Z) :
  all_in "-0123456789" (Std.to_string n) = true ∧ Std.to_string n ≠ "".
Proof.
  unfold Std.to_string.
  set (fuel := Z.to_nat (Z.log2 (Z.abs n))).
  assert (H : all_in "-0123456789" (Std.digits (S fuel) (Z.abs n)) = true).
  { pose proof (all_digits (S fuel) (Z.abs n) (Z.abs_nonneg n)) as H.
    revert H. generalize (Std.digits (S fuel) (Z.abs n)).
    induction s as [|c s IH]; [reflexivity|]. cbn [all_in].
    intros H. apply andb_prop in H as [Hc Hs]. rewrite IH by exact Hs.
    cbn [Std.contains] in *. rewrite Hc. rewrite orb_true_r. reflexivity. }
  destruct (n <? 0).
  - split; [|discriminate]. cbn [all_in]. rewrite H. reflexivity.
  - split; [exact H|].
    destruct (digits_head fuel (Z.abs n) (Z.abs_nonneg n)) as (d & r & _ & E).
    rewrite E. discriminate.
Qed.

Lemma plain_value_to_string (n : Z) : plain_value (Std.to_string n) = true.
Proof.
  destruct (all_in_to_string n) as [Hall Hne].
  pose proof (all_in_back _ _ Hne Hall) as Hb.
  destruct (Std.to_string n) as [|c s] eqn:E; [congruence|].
  pose proof Hall as Hall'. cbn [all_in] in Hall'.
  apply andb_prop in Hall' as [Hc _].
  destruct (number_char_is_plain c Hc) as (Hc1 & _ & Hc3 & Hc4 & _).
  destruct (number_char_is_plain _ Hb) as (_ & Hb2 & Hb3 & Hb4 & _).
  unfold plain_value, config_value, quoted. cbn [Std.empty Std.front orb].
  rewrite Hc1, Hb2, Hc3, Hc4. cbn [negb andb orb].
  rewrite andb_false_r. cbn [negb andb].
  apply all_in_number_free_of_lf, Hall.
Qed.

Lemma load_lines_cons (lineNum : Z) (line : string) (lines : list string)
    (config config' : ConfigProxy.ProxyConfig) (w : World) :
  ConfigProxy.process_line (lineNum + 1) line config w
  = (Std.Normal config', w) →
  ConfigProxy.load_lines (line :: lines) lineNum config w
  = ConfigProxy.load_lines lines (lineNum + 1) config' w.
Proof.
  intros H. cbn [ConfigProxy.load_lines]. unfold bind at 1. rewrite H.
  reflexivity.
Qed.

Lemma comment_line (lineNum : Z) (line : string)
    (config : ConfigProxy.ProxyConfig) (w : World) :
  comment_or_blank line → fits line →
  ConfigProxy.process_line lineNum line config w = (Std.Normal config, w).
Proof.
  intros Hc Hf. rewrite process_line_comment_or_blank by assumption.
  reflexivity.
Qed.

Lemma assign_line (lineNum : Z) (key value : string)
    (config config' : ConfigProxy.ProxyConfig) (w : World) :
  config_key key = true → plain_value value = true →
  fits (key +:+ "=" +:+ value) →
  ConfigProxy.set_value key value config w = (Std.Normal config', w) →
  ConfigProxy.process_line lineNum (key +:+ "=" +:+ value) config w
  = (Std.Normal config', w).
Proof.
  intros Hk Hv Hf Hs. destruct (plain_value_facts value Hv) as (H1 & H2 & _).
  rewrite process_line_plain by assumption. exact Hs.
Qed.

Lemma set_value_timeout (n : Z) (config : ConfigProxy.ProxyConfig)
    (w : World) :
  Std.INT_MIN ≤ n ≤ Std.INT_MAX →
  ConfigProxy.set_value "timeout_ms" (Std.to_string n) config w
  = (Std.Normal
       (ConfigProxy.mkProxyConfig (ConfigProxy.source_bus_name config)
          (ConfigProxy.source_object_path config)
          (ConfigProxy.proxy_bus_name config) (ConfigProxy.bus_type config)
          (ConfigProxy.verbose config) (ConfigProxy.enable_logging config)
          n (ConfigProxy.log_file config)),
     w).
Proof.
  intros Hn. unfold ConfigProxy.set_value.
  change (String.eqb "timeout_ms" "source_bus_name") with false.
  change (String.eqb "timeout_ms" "source_object_path") with false.
  change (String.eqb "timeout_ms" "proxy_bus_name") with false.
  change (String.eqb "timeout_ms" "bus_type") with false.
  change (String.eqb "timeout_ms" "verbose") with false.
  change (String.eqb "timeout_ms" "enable_logging") with false.
  change (String.eqb "timeout_ms" "timeout_ms") with true.
  cbv iota.
  pose proof (stoi_to_string "" "" n eq_refl Hn (or_introl eq_refl)) as H.
  rewrite app_nil, app_nil_r_string in H. rewrite H. reflexivity.
Qed.

Lemma is_true_bool_name (b : bool) :
  ConfigProxy.is_true (ConfigProxy.bool_name b) = b.
Proof. destruct b; reflexivity. Qed.

Ltac in_list := cbn [In]; repeat first [left; reflexivity | right].

(** One comment or blank line of the template, one assignment. *)
Ltac comment Hfits :=
  erewrite load_lines_cons;
  [| apply comment_line;
     [eexists "", _; split; [reflexivity|]; split; [reflexivity|];
      first [left; reflexivity | right; left; reflexivity]
     | apply Hfits; in_list]].

Ltac fields :=
  cbn [ConfigProxy.source_bus_name ConfigProxy.source_object_path
       ConfigProxy.proxy_bus_name ConfigProxy.bus_type ConfigProxy.verbose
       ConfigProxy.enable_logging ConfigProxy.timeout_ms
       ConfigProxy.log_file].

Ltac assign Hfits key value :=
  erewrite load_lines_cons;
  [| apply (assign_line _ key value);
     [reflexivity | assumption | apply Hfits; in_list | reflexivity]];
  fields.

(** X5.  The template that [saveTemplate] writes for a configuration is
    read back by [loadFromFile] as that configuration, without a message,
    whatever the configuration was before: provided the five texts have
    no white space at their ends, are not in quotation marks and hold no
    line feed, and the text fits a string. *)
Theorem config_template_round_trip (filename : string)
    (config initial : ConfigProxy.ProxyConfig) (w : World) :
  plain_value (ConfigProxy.source_bus_name config) = true →
  plain_value (ConfigProxy.source_object_path config) = true →
  plain_value (ConfigProxy.proxy_bus_name config) = true →
  plain_value (ConfigProxy.bus_type config) = true →
  plain_value (ConfigProxy.log_file config) = true →
  Std.INT_MIN ≤ ConfigProxy.timeout_ms config ≤ Std.INT_MAX →
  fits (ConfigProxy.template_text config) →
  ConfigProxy.loadFromFile filename
    (Some (ConfigProxy.template_text config)) initial w
  = (Std.Normal (true, config), w).
Proof.
  intros Hn Hp Hx Hb Hl Ht Hfit.
  pose proof (plain_value_to_string (ConfigProxy.timeout_ms config)) as Hts.
  pose proof (plain_value_bool_name (ConfigProxy.verbose config)) as Hv.
  pose proof (plain_value_bool_name (ConfigProxy.enable_logging config))
    as He.
  rewrite template_text_lines in *.
  assert (Hfits : ∀ line, In line (template_lines config) → fits line).
  { intros line Hin. unfold fits in *.
    pose proof (size_unlines_ge _ _ Hin). lia. }
  unfold ConfigProxy.loadFromFile.
  rewrite getlines_unlines.
  2:{ unfold template_lines.
      repeat (apply Forall_cons; split;
              [first [reflexivity
                     | rewrite free_of_app; apply andb_true_intro;
                       split; [reflexivity|];
                       eapply plain_value_facts; eassumption]|]).
      constructor. }
  unfold bind.
  assert (Hload : ConfigProxy.load_lines (template_lines config) 0 initial w
                  = (Std.Normal config, w)).
  { unfold template_lines in *.
    comment Hfits. comment Hfits. comment Hfits. comment Hfits.
    assign Hfits "source_bus_name" (ConfigProxy.source_bus_name config).
    assign Hfits "source_object_path" (ConfigProxy.source_object_path config).
    comment Hfits. comment Hfits.
    assign Hfits "proxy_bus_name" (ConfigProxy.proxy_bus_name config).
    comment Hfits. comment Hfits.
    assign Hfits "bus_type" (ConfigProxy.bus_type config).
    comment Hfits. comment Hfits.
    assign Hfits "verbose"
      (ConfigProxy.bool_name (ConfigProxy.verbose config)).
    comment Hfits. comment Hfits.
    assign Hfits "enable_logging"
      (ConfigProxy.bool_name (ConfigProxy.enable_logging config)).
    comment Hfits. comment Hfits.
    erewrite load_lines_cons;
      [| apply (assign_line _ "timeout_ms"
                  (Std.to_string (ConfigProxy.timeout_ms config)));
         [reflexivity | assumption | apply Hfits; in_list
         | apply set_value_timeout; exact Ht]].
    fields.
    comment Hfits. comment Hfits.
    assign Hfits "log_file" (ConfigProxy.log_file config).
    cbn [ConfigProxy.load_lines ret].
    rewrite !is_true_bool_name. destruct config; reflexivity. }
  rewrite Hload. reflexivity.
Qed.

(** ** What reading a line can do *)

Lemma length_take (n : nat) (s : string) :
  String.length (Std.take n s) = Nat.min n (String.length s).
Proof.
  revert s. induction n as [|n IH]; intros [|c s]; try reflexivity.
  cbn [Std.take String.length]. rewrite IH. reflexivity.
Qed.

Lemma length_drop (n : nat) (s : string) :
  String.length (Std.drop n s) = (String.length s - n)%nat.
Proof.
  revert s. induction n as [|n IH]; intros [|c s]; try reflexivity.
  cbn [Std.drop String.length]. rewrite IH. reflexivity.
Qed.

Lemma length_app_string (a b : string) :
  String.length (a +:+ b) = (String.length a + String.length b)%nat.
Proof.
  induction a as [|c a IH]; [reflexivity|].
  rewrite app_cons. cbn [String.length]. rewrite IH. reflexivity.
Qed.

Lemma substr_ok (s : string) (pos count : Z) :
  0 ≤ pos ≤ Std.size s →
  ∃ r, Std.substr s pos count = Std.Normal r ∧ Std.size r ≤ Std.size s.
Proof.
  intros H. unfold Std.substr.
  destruct (Z.ltb_spec (Std.size s) pos); [lia|].
  eexists. split; [reflexivity|].
  unfold Std.size. rewrite length_take, length_drop.
  apply Nat2Z.inj_le.
  etransitivity; [apply Nat.le_min_r | apply Nat.le_sub_l].
Qed.

Lemma erase_ok (s : string) (index count : Z) :
  0 ≤ index ≤ Std.size s → 0 ≤ count →
  ∃ r, Std.erase s index count = Std.Normal r ∧ Std.size r ≤ Std.size s.
Proof.
  intros H Hc. unfold Std.erase.
  destruct (Z.ltb_spec (Std.size s) index); [lia|].
  eexists. split; [reflexivity|].
  pose proof (size_nonneg s) as Hs0.
  assert (Hmin : 0 ≤ Z.min count (Std.size s - index)) by lia.
  unfold Std.size in *.
  rewrite length_app_string, length_take, length_drop.
  apply Nat2Z.inj_le.
  set (n := String.length s) in *.
  assert (Z.to_nat index ≤ n)%nat by lia.
  assert (Z.to_nat index
          ≤ Z.to_nat (index + Z.min count (Z.of_nat n - index)))%nat by lia.
  rewrite Nat.min_l by assumption. lia.
Qed.

Lemma trim_ok (s : string) :
  fits s → ∃ r, ConfigProxy.trim s = Std.Normal r ∧ Std.size r ≤ Std.size s.
Proof.
  intros Hfit. unfold fits in Hfit. unfold ConfigProxy.trim.
  pose proof (size_nonneg s).
  destruct (erase_ok s 0 (Std.find_first_not_of s ConfigProxy.BLANK))
    as (s1 & E1 & H1); [lia| |].
  { pose proof (find_first_not_of_from_range s ConfigProxy.BLANK 0) as Hr.
    cbv zeta in Hr. fold (Std.find_first_not_of s ConfigProxy.BLANK) in Hr.
    unfold Std.npos in *. lia. }
  rewrite E1. cbn [Std.and_next].
  pose proof (size_nonneg s1).
  pose proof (find_last_not_of_from_range s1 ConfigProxy.BLANK 0 Std.npos)
    as Hr.
  cbv zeta in Hr. fold (Std.find_last_not_of s1 ConfigProxy.BLANK) in Hr.
  destruct (erase_ok s1
              (Std.size_t (Std.find_last_not_of s1 ConfigProxy.BLANK + 1))
              Std.npos) as (s2 & E2 & H2).
  - destruct Hr as [->|Hr]; [rewrite size_t_npos_succ; lia|].
    rewrite size_t_small; lia.
  - unfold Std.npos. lia.
  - exists s2. split; [exact E2 | lia].
Qed.

Lemma unquote_ok (s : string) :
  ∃ r, ConfigProxy.unquote s = Std.Normal r.
Proof.
  unfold ConfigProxy.unquote.
  destruct (Z.leb_spec 2 (Std.size s)); cbn [andb]; [|eauto].
  destruct (_ || _); [|eauto].
  destruct (substr_ok s 1 (Std.size s - 2)) as (r & E & _); [lia|].
  eauto.
Qed.

(** X6.  Whatever a line holds, reading it does one of three things: it
    changes nothing, it prints the invalid-line warning and changes
    nothing, or it sets one key to one value.  The string handling itself
    never throws. *)
Theorem config_line_is_skipped_or_sets_one_value (lineNum : Z)
    (line : string) (config : ConfigProxy.ProxyConfig) :
  fits line →
  ConfigProxy.process_line lineNum line config = ret (Std.Normal config)
  ∨ (∃ text,
       ConfigProxy.process_line lineNum line config
       = (g_printerr "Warning: Invalid line %d in config: %s\n"
                     [PNum lineNum; PStr text] ;;
          ret (Std.Normal config))%io)
  ∨ (∃ key value,
       ConfigProxy.process_line lineNum line config
       = ConfigProxy.set_value key value config).
Proof.
  intros Hfit. unfold fits in Hfit. pose proof (size_nonneg line).
  unfold ConfigProxy.process_line. cbv zeta.
  pose proof (find_first_not_of_from_range line ConfigProxy.LINE_SPACE 0)
    as Hs.
  cbv zeta in Hs.
  fold (Std.find_first_not_of line ConfigProxy.LINE_SPACE) in Hs.
  destruct (Z.eqb_spec (Std.find_first_not_of line ConfigProxy.LINE_SPACE)
              Std.npos) as [E|E]; [left; reflexivity|].
  destruct Hs as [Hs|Hs]; [congruence|].
  destruct (substr_ok line
              (Std.find_first_not_of line ConfigProxy.LINE_SPACE)
              (Std.size_t
                 (Std.find_last_not_of line ConfigProxy.LINE_SPACE
                  - Std.find_first_not_of line ConfigProxy.LINE_SPACE + 1)))
    as (body & Eb & Hb); [lia|].
  rewrite Eb. cbn [ConfigProxy.unless_thrown].
  destruct (_ || _); [left; reflexivity|].
  pose proof (size_nonneg body).
  pose proof (find_from_range body "="%char 0) as Hp. cbv zeta in Hp.
  fold (Std.find body "="%char) in Hp.
  destruct (Z.eqb_spec (Std.find body "="%char) Std.npos) as [Ep|Ep];
    [right; left; eauto|].
  destruct Hp as [Hp|Hp]; [congruence|].
  destruct (substr_ok body 0 (Std.find body "="%char)) as (key & Ek & Hk);
    [lia|].
  rewrite Ek. cbn [ConfigProxy.unless_thrown].
  rewrite size_t_small by lia.
  destruct (substr_ok body (Std.find body "="%char + 1) Std.npos)
    as (value & Ev & Hv); [lia|].
  rewrite Ev. cbn [ConfigProxy.unless_thrown].
  destruct (trim_ok key) as (key' & Ek' & _); [unfold fits; lia|].
  rewrite Ek'. cbn [ConfigProxy.unless_thrown].
  destruct (trim_ok value) as (value' & Ev' & _); [unfold fits; lia|].
  rewrite Ev'. cbn [ConfigProxy.unless_thrown].
  destruct (unquote_ok value') as (value'' & Eq).
  rewrite Eq. cbn [ConfigProxy.unless_thrown].
  right; right. eauto.
Qed.

(** ** Lines in sequence *)

Lemma load_lines_app (before after : list string) (lineNum : Z)
    (config : ConfigProxy.ProxyConfig) (w : World) :
  ConfigProxy.load_lines (before ++ after) lineNum config w
  = match ConfigProxy.load_lines before lineNum config w with
    | (Std.Normal config', w') =>
        ConfigProxy.load_lines after (lineNum + Z.of_nat (length before))
                               config' w'
    | (Std.Throws e, w') => (Std.Throws e, w')
    end.
Proof.
  revert lineNum config w.
  induction before as [|line before IH]; intros lineNum config w.
  - cbn [app ConfigProxy.load_lines length ret]. rewrite Z.add_0_r.
    reflexivity.
  - cbn [app ConfigProxy.load_lines]. unfold bind.
    destruct (ConfigProxy.process_line (lineNum + 1) line config w)
      as [[config'|e] w'].
    + rewrite IH. cbn [length]. rewrite Nat2Z.inj_succ.
      replace (lineNum + 1 + Z.of_nat (length before))
        with (lineNum + Z.succ (Z.of_nat (length before))) by lia.
      reflexivity.
    + reflexivity.
Qed.

(** X7.  A [timeout_ms] line whose value [std::stoi] rejects ends the
    reading: [loadFromFile] throws what [std::stoi] throws, the lines
    after it are not read, and what the lines before it printed
    stays. *)
Theorem config_bad_timeout_throws (filename : string)
    (before after : list string) (pad1 pad2 pad3 pad4 value : string)
    (e : Std.exception) (config config1 : ConfigProxy.ProxyConfig)
    (w w1 : World) :
  let line :=
    pad1 +:+ "timeout_ms" +:+ pad2 +:+ "=" +:+ pad3 +:+ value +:+ pad4 in
  Forall (λ l, free_of Std.LF l = true) (before ++ line :: after) →
  ConfigProxy.load_lines before 0 config w = (Std.Normal config1, w1) →
  all_in ConfigProxy.LINE_SPACE pad1 = true →
  all_in ConfigProxy.BLANK pad2 = true →
  all_in ConfigProxy.BLANK pad3 = true →
  all_in ConfigProxy.LINE_SPACE pad4 = true →
  config_value value = true → quoted value = false → fits line →
  Std.stoi value = Std.Throws e →
  ConfigProxy.loadFromFile filename
    (Some (unlines (before ++ line :: after))) config w
  = (Std.Throws e, w1).
Proof.
  intros line Hlf Hbefore H1 H2 H3 H4 Hv Hq Hfit Hstoi.
  unfold ConfigProxy.loadFromFile.
  rewrite getlines_unlines by exact Hlf.
  unfold bind at 1. rewrite load_lines_app, Hbefore.
  cbn [ConfigProxy.load_lines]. unfold bind at 1.
  unfold line in *.
  rewrite process_line_assignment by (assumption || reflexivity).
  rewrite unquote_plain by exact Hq. cbn [ConfigProxy.unless_thrown].
  unfold ConfigProxy.set_value.
  change (String.eqb "timeout_ms" "source_bus_name") with false.
  change (String.eqb "timeout_ms" "source_object_path") with false.
  change (String.eqb "timeout_ms" "proxy_bus_name") with false.
  change (String.eqb "timeout_ms" "bus_type") with false.
  change (String.eqb "timeout_ms" "verbose") with false.
  change (String.eqb "timeout_ms" "enable_logging") with false.
  change (String.eqb "timeout_ms" "timeout_ms") with true.
  cbv iota. rewrite Hstoi. reflexivity.
Qed.

(** ** Code that only prints *)

Lemma set_trace_set_trace (t t' : list Event) (w : World) :
  set_trace t (set_trace t' w) = set_trace t w.
Proof. reflexivity. Qed.

Lemma prints_only_ret {A : Type} (a : A) : prints_only (ret a).
Proof. intros w. exists []. split; [destruct w; reflexivity | reflexivity]. Qed.

Lemma prints_only_bind {A B : Type} (m : M A) (k : A → M B) :
  prints_only m → (∀ a, prints_only (k a)) → prints_only (bind m k).
Proof.
  intros Hm Hk w. rewrite exec_bind.
  destruct (Hm w) as (ev1 & E1 & P1).
  destruct (Hk (eval m w) (exec m w)) as (ev2 & E2 & P2).
  exists (ev2 ++ ev1). split.
  - rewrite E2, E1. cbn [trace set_trace]. rewrite <- app_assoc.
    reflexivity.
  - rewrite forallb_app, P1, P2. reflexivity.
Qed.

Lemma prints_only_g_print fmt args : prints_only (g_print fmt args).
Proof. intros w. exists [EvPrint fmt args]. split; reflexivity. Qed.

Lemma prints_only_g_printerr fmt args : prints_only (g_printerr fmt args).
Proof. intros w. exists [EvPrintErr fmt args]. split; reflexivity. Qed.

Lemma prints_only_run {A : Type} (m : M A) (w : World) :
  prints_only m →
  ∃ events, m w = (eval m w, set_trace (events ++ trace w) w)
            ∧ forallb is_print events = true.
Proof.
  intros H. destruct (H w) as (ev & E & P). exists ev. split; [|exact P].
  unfold exec, eval in *. destruct (m w) as [a w']. cbn in *. congruence.
Qed.

Ltac prints_tac :=
  repeat match goal with
         | |- prints_only (ret _) => apply prints_only_ret
         | |- prints_only (g_print _ _) => apply prints_only_g_print
         | |- prints_only (g_printerr _ _) => apply prints_only_g_printerr
         | |- prints_only (bind _ _) => apply prints_only_bind; [|intros ?]
         end.

Lemma prints_only_unless_thrown {A B : Type} (r : Std.Except A)
    (k : A → M (Std.Except B)) :
  (∀ a, prints_only (k a)) → prints_only (ConfigProxy.unless_thrown r k).
Proof. intros H. destruct r; [apply H | apply prints_only_ret]. Qed.

Lemma prints_only_set_value key value config :
  prints_only (ConfigProxy.set_value key value config).
Proof.
  unfold ConfigProxy.set_value.
  repeat (destruct (String.eqb key _);
          [first [apply prints_only_ret
                 | apply prints_only_unless_thrown; intros ?;
                   apply prints_only_ret]|]).
  prints_tac.
Qed.

Lemma prints_only_process_line lineNum line config :
  prints_only (ConfigProxy.process_line lineNum line config).
Proof.
  unfold ConfigProxy.process_line. cbv zeta.
  destruct (_ =? _); [apply prints_only_ret|].
  apply prints_only_unless_thrown; intros body.
  destruct (_ || _); [apply prints_only_ret|].
  destruct (_ =? _); [prints_tac|].
  repeat (apply prints_only_unless_thrown; intros ?).
  apply prints_only_set_value.
Qed.

Lemma prints_only_load_lines lines lineNum config :
  prints_only (ConfigProxy.load_lines lines lineNum config).
Proof.
  revert lineNum config.
  induction lines as [|line lines IH]; intros lineNum config;
    [apply prints_only_ret|].
  cbn [ConfigProxy.load_lines].
  apply prints_only_bind; [apply prints_only_process_line|].
  intros [config'|e]; [apply IH | apply prints_only_ret].
Qed.

Lemma prints_only_loadFromFile filename file config :
  prints_only (ConfigProxy.loadFromFile filename file config).
Proof.
  unfold ConfigProxy.loadFromFile. destruct file; [|prints_tac].
  apply prints_only_bind; [apply prints_only_load_lines|].
  intros ?. apply prints_only_ret.
Qed.

Lemma prints_only_print config : prints_only (ConfigProxy.print config).
Proof. unfold ConfigProxy.print. prints_tac. Qed.

Lemma prints_only_config_usage name :
  prints_only (ConfigProxy.print_usage name).
Proof. unfold ConfigProxy.print_usage. prints_tac. Qed.

Lemma prints_only_validate config :
  prints_only (ConfigProxy.validate config).
Proof.
  unfold ConfigProxy.validate.
  repeat (match goal with
          | |- prints_only (if ?b then _ else _) => destruct b
          end; [prints_tac|]).
  prints_tac.
Qed.

Lemma eval_validate config w :
  eval (ConfigProxy.validate config) w = valid_config config.
Proof.
  unfold ConfigProxy.validate, valid_config.
  destruct (Std.empty (ConfigProxy.source_bus_name config));
    [reflexivity|].
  destruct (Std.empty (ConfigProxy.source_object_path config));
    [reflexivity|].
  destruct (Std.empty (ConfigProxy.proxy_bus_name config)); [reflexivity|].
  destruct (String.eqb (ConfigProxy.bus_type config) "system"),
    (String.eqb (ConfigProxy.bus_type config) "session"); cbn [negb andb orb];
    try reflexivity;
    rewrite Z.leb_antisym; destruct (0 <? ConfigProxy.timeout_ms config);
    reflexivity.
Qed.

Lemma prints_only_saveTemplate config filename disk :
  prints_only (ConfigProxy.saveTemplate config filename disk).
Proof.
  unfold ConfigProxy.saveTemplate. destruct (negb _); prints_tac.
Qed.

Lemma prints_only_config_parse_args name args config_file show disk :
  prints_only (ConfigProxy.parse_args name args config_file show disk).
Proof.
  revert config_file show.
  induction args as [args IH] using (induction_ltof1 _ (@length _)).
  unfold ltof in IH. intros config_file show.
  destruct args as [|arg rest]; [apply prints_only_ret|].
  cbn [ConfigProxy.parse_args].
  destruct (_ || _); [prints_tac; apply prints_only_config_usage|].
  destruct (_ || _).
  { destruct rest as [|value rest]; [prints_tac|].
    apply IH. cbn [length]. lia. }
  destruct (String.eqb arg "--create-config").
  { destruct rest as [|value rest]; [prints_tac|].
    apply prints_only_bind; [apply prints_only_saveTemplate|].
    intros ?. apply prints_only_ret. }
  destruct (String.eqb arg "--show-config").
  { apply IH. cbn [length]. lia. }
  prints_tac. apply prints_only_config_usage.
Qed.

(** ** [main] of the configuration-file variant *)

Lemma config_main_parse_stage (argv : list string)
    (disk : ConfigProxy.Disk) :
  prints_only
    (match argv with
     | [] => ret (ConfigProxy.Go "proxy.conf" false, disk)
     | program_name :: args =>
         ConfigProxy.parse_args program_name args "proxy.conf" false disk
     end).
Proof.
  destruct argv; [apply prints_only_ret|].
  apply prints_only_config_parse_args.
Qed.

(** Whatever the command line, [main] only prints until it either stops
    (with an exit status, or terminated by an exception) or has a
    configuration that [validate] accepts and goes on as [main_startup]
    does with that configuration. *)
Lemma config_main_prints_before_startup (argv : list string)
    (disk : ConfigProxy.Disk) (w : World) :
  ∃ events,
    forallb is_print events = true ∧
    let w1 := set_trace (events ++ trace w) w in
    let '(run, (config, log_fp), disk', w') :=
      ConfigProxy.main argv disk w in
    (w' = w1 ∧ stopped_early run)
    ∨ (valid_config config = true
       ∧ run = ConfigProxy.Ran
                 (eval (ConfigProxy.main_startup config log_fp) w1)
       ∧ w' = exec (ConfigProxy.main_startup config log_fp) w1).
Proof.
  unfold ConfigProxy.main. unfold bind at 1.
  destruct (prints_only_run _ w (config_main_parse_stage argv disk))
    as (ev1 & E1 & P1).
  rewrite E1.
  destruct (eval _ w) as [[status|config_file show] disk1].
  { exists ev1. split; [exact P1|]. left. split; reflexivity. }
  set (wa := set_trace (ev1 ++ trace w) w).
  unfold bind at 1. cbn [g_print emit].
  set (wb := set_trace _ wa).
  unfold bind at 1.
  destruct (prints_only_run _ wb
              (prints_only_loadFromFile config_file
                 (ConfigProxy.disk_files disk1 !! config_file)
                 ConfigProxy.default_config)) as (ev2 & E2 & P2).
  rewrite E2.
  set (wc := set_trace (ev2 ++ trace wb) wb).
  destruct (eval _ wb) as [[ok config]|e].
  2:{ exists (ev2 ++ EvPrint "Loading configuration from: %s\n"
                        [PStr config_file] :: ev1).
      split.
      - rewrite forallb_app. cbn [forallb is_print]. rewrite P1, P2.
        reflexivity.
      - left. split; [|exact I]. unfold wc, wb, wa. cbn [trace set_trace].
        rewrite <- app_assoc. reflexivity. }
  unfold bind at 1.
  destruct (prints_only_run _ wc (prints_only_validate config))
    as (ev3 & E3 & P3).
  rewrite E3, eval_validate.
  set (wd := set_trace (ev3 ++ trace wc) wc).
  assert (Hwd : wd = set_trace
                       ((ev3 ++ ev2
                         ++ EvPrint "Loading configuration from: %s\n"
                                    [PStr config_file] :: ev1)
                        ++ trace w) w).
  { unfold wd, wc, wb, wa. cbn [trace set_trace].
    rewrite <- !app_assoc. reflexivity. }
  assert (Pd : forallb is_print
                 (ev3 ++ ev2
                  ++ EvPrint "Loading configuration from: %s\n"
                             [PStr config_file] :: ev1) = true).
  { rewrite !forallb_app. cbn [forallb is_print]. rewrite P1, P2, P3.
    reflexivity. }
  destruct (valid_config config) eqn:Hvalid; cbn [negb].
  2:{ eexists. split; [exact Pd|]. left. split; [exact Hwd | exact I]. }
  destruct show.
  { unfold bind at 1.
    destruct (prints_only_run _ wd (prints_only_print config))
      as (ev4 & E4 & P4).
    rewrite E4. cbn [ret].
    exists (ev4 ++ ev3 ++ ev2
            ++ EvPrint "Loading configuration from: %s\n"
                       [PStr config_file] :: ev1).
    split; [rewrite forallb_app, P4, Pd; reflexivity|].
    left. split; [|exact I]. rewrite Hwd. cbn [trace set_trace].
    rewrite <- !app_assoc. reflexivity. }
  unfold bind at 1.
  assert (Hp : prints_only (if ConfigProxy.verbose config
                            then ConfigProxy.print config else ret tt)).
  { destruct (ConfigProxy.verbose config);
      [apply prints_only_print | apply prints_only_ret]. }
  destruct (prints_only_run _ wd Hp) as (ev4 & E4 & P4).
  rewrite E4.
  set (we := set_trace (ev4 ++ trace wd) wd).
  unfold bind at 1.
  assert (Hf : prints_only
                 (if negb (Std.empty (ConfigProxy.log_file config))
                  then
                    let '(log_fp, disk) :=
                      ConfigProxy.fopen_append (ConfigProxy.log_file config)
                                               disk1 in
                    (if negb log_fp
                     then g_printerr "Warning: Cannot open log file: %s\n"
                                     [PStr (ConfigProxy.log_file config)]
                     else ret tt) ;;
                    ret (log_fp, disk)
                  else ret (false, disk1))%io).
  { destruct (negb _); [|apply prints_only_ret].
    destruct (ConfigProxy.fopen_append _ _) as [log_fp disk2].
    destruct log_fp; cbn [negb]; prints_tac. }
  destruct (prints_only_run _ we Hf) as (ev5 & E5 & P5).
  rewrite E5.
  destruct (eval _ we) as [log_fp disk2].
  set (wf := set_trace (ev5 ++ trace we) we).
  unfold bind at 1.
  destruct (ConfigProxy.main_startup config log_fp wf) as [stage wg] eqn:Es.
  cbn [ret].
  exists (ev5 ++ ev4 ++ ev3 ++ ev2
          ++ EvPrint "Loading configuration from: %s\n" [PStr config_file]
          :: ev1).
  split; [rewrite !forallb_app in *; rewrite P5, P4; exact Pd|].
  right. split; [exact Hvalid|].
  assert (Hwf : wf = set_trace
                       ((ev5 ++ ev4 ++ ev3 ++ ev2
                         ++ EvPrint "Loading configuration from: %s\n"
                                    [PStr config_file] :: ev1)
                        ++ trace w) w).
  { unfold wf, we. rewrite Hwd. cbn [trace set_trace].
    rewrite <- !app_assoc. reflexivity. }
  rewrite <- Hwf. unfold eval, exec. rewrite Es. split; reflexivity.
Qed.

(** The option loop reads over arguments that only select: it goes on
    behind them with the file and the flag they selected. *)
Lemma config_parse_args_selects name opts tail config_file show disk :
  selects_only opts = true →
  ConfigProxy.parse_args name (opts ++ tail) config_file show disk
  = ConfigProxy.parse_args name tail (selected_file opts config_file)
      (show || selected_show opts) disk.
Proof.
  revert config_file show.
  induction opts as [opts IH] using (induction_ltof1 _ (@length _)).
  unfold ltof in IH. intros config_file show Hsel.
  destruct opts as [|arg rest].
  { cbn [app selected_file selected_show]. rewrite orb_false_r.
    reflexivity. }
  cbn [selects_only selected_file selected_show] in *.
  cbn [app ConfigProxy.parse_args].
  destruct (String.eqb arg "--show-config") eqn:Eshow.
  { apply String.eqb_eq in Eshow. subst arg.
    cbn [String.eqb Ascii.eqb Bool.eqb orb andb].
    rewrite IH by (cbn [length]; lia || exact Hsel).
    rewrite orb_true_r. reflexivity. }
  destruct (String.eqb arg "-c" || String.eqb arg "--config") eqn:Ec;
    [|discriminate Hsel].
  assert (Eh : String.eqb arg "-h" || String.eqb arg "--help" = false).
  { apply orb_true_iff in Ec as [Ec|Ec]; apply String.eqb_eq in Ec;
      subst arg; reflexivity. }
  rewrite Eh.
  destruct rest as [|value rest]; [discriminate Hsel|].
  cbn [app]. apply IH; [cbn [length]; lia | exact Hsel].
Qed.

Lemma config_print_usage_run name w :
  ∃ events,
    forallb is_print events = true ∧
    In (EvPrint "Usage: %s [OPTIONS]\n" [PStr name]) events ∧
    ConfigProxy.print_usage name w = (tt, set_trace (events ++ trace w) w).
Proof.
  refine (ex_intro _ [_; _; _; _; _; _; _; _; _; _; _; _; _; _; _] _).
  split; [|split]; cycle 2.
  - reflexivity.
  - reflexivity.
  - cbn [In]. tauto.
Qed.

Lemma config_print_run config w :
  ∃ events,
    forallb is_print events = true ∧
    In (EvPrint "Configuration:\n" []) events ∧
    ConfigProxy.print config w = (tt, set_trace (events ++ trace w) w).
Proof.
  refine (ex_intro _ [_; _; _; _; _; _; _; _; _] _).
  split; [|split]; cycle 2.
  - reflexivity.
  - reflexivity.
  - cbn [In]. tauto.
Qed.

(** X8.  [main] of the configuration-file variant has a front end that
    only prints (and, for [--create-config], writes the template), and
    only then starts up.  Let [opts] be arguments that only select:
    [--show-config], and [-c] or [--config] with a file name.  After
    [opts],
    - [-h] or [--help] prints the usage text and returns 0;
    - [--create-config FILE] returns 0, having written the template of
      the default configuration to [FILE] if it can be created and
      printed an error if not;
    - [--create-config], [-c] or [--config] as the last argument, without
      a value, prints an error and returns 1;
    - an argument that is none of the options prints an error and
      returns 1.
    On the command line [opts] alone, [main] announces and loads the file
    selected (the one of the last [-c] or [--config], else [proxy.conf]),
    and then
    - is terminated when loading throws;
    - returns 1 when [validate] rejects the configuration loaded;
    - prints the configuration and returns 0 when [--show-config] is
      among [opts];
    - otherwise opens the log file if the configuration names one and
      goes on as [main_startup] does with that configuration.
    In every case but the last no bus is contacted and, [--create-config]
    apart, the files are as they were.  And whatever the command line,
    [main] only prints until it stops or has a configuration that
    [validate] accepts and starts up with it. *)
Theorem config_main_is_front_end_then_startup (prog : string)
    (opts : list string) (disk : ConfigProxy.Disk) (w : World) :
  selects_only opts = true →
  (∀ arg rest,
     arg = "-h" ∨ arg = "--help" →
     front_end_stops (prog :: opts ++ arg :: rest) disk w
       (ConfigProxy.Ran (Returned (Exit 0))) ConfigProxy.default_config disk
       (EvPrint "Usage: %s [OPTIONS]\n" [PStr prog])) ∧
  (∀ file rest,
     if ConfigProxy.disk_writable disk file then
       front_end_stops (prog :: opts ++ "--create-config" :: file :: rest)
         disk w
         (ConfigProxy.Ran (Returned (Exit 0))) ConfigProxy.default_config
         (ConfigProxy.mkDisk
            (<[file := ConfigProxy.template_text ConfigProxy.default_config]>
               (ConfigProxy.disk_files disk))
            (ConfigProxy.disk_writable disk))
         (EvPrint "Configuration template saved to: %s\n" [PStr file])
     else
       front_end_stops (prog :: opts ++ "--create-config" :: file :: rest)
         disk w
         (ConfigProxy.Ran (Returned (Exit 0))) ConfigProxy.default_config
         disk
         (EvPrintErr "Error: Cannot create config template: %s\n"
                     [PStr file])) ∧
  front_end_stops (prog :: opts ++ ["--create-config"]) disk w
    (ConfigProxy.Ran (Returned (Exit 1))) ConfigProxy.default_config disk
    (EvPrintErr "Error: --create-config requires a filename\n" []) ∧
  (∀ arg,
     arg = "-c" ∨ arg = "--config" →
     front_end_stops (prog :: opts ++ [arg]) disk w
       (ConfigProxy.Ran (Returned (Exit 1))) ConfigProxy.default_config disk
       (EvPrintErr "Error: --config requires a filename\n" [])) ∧
  (∀ arg rest,
     known_option arg = false →
     front_end_stops (prog :: opts ++ arg :: rest) disk w
       (ConfigProxy.Ran (Returned (Exit 1))) ConfigProxy.default_config disk
       (EvPrintErr "Error: Unknown option: %s\n" [PStr arg])) ∧
  (let config_file := selected_file opts "proxy.conf" in
   let announced :=
     EvPrint "Loading configuration from: %s\n" [PStr config_file] in
   match eval (ConfigProxy.loadFromFile config_file
                 (ConfigProxy.disk_files disk !! config_file)
                 ConfigProxy.default_config)
              (exec (emit announced) w) with
   | Std.Throws e =>
       front_end_stops (prog :: opts) disk w (ConfigProxy.Terminated e)
         ConfigProxy.default_config disk announced
   | Std.Normal (_, config) =>
       if negb (valid_config config) then
         front_end_stops (prog :: opts) disk w
           (ConfigProxy.Ran (Returned (Exit 1))) config disk announced
       else if selected_show opts then
         front_end_stops (prog :: opts) disk w
           (ConfigProxy.Ran (Returned (Exit 0))) config disk
           (EvPrint "Configuration:\n" [])
       else
         let '(log_fp, disk') :=
           if negb (Std.empty (ConfigProxy.log_file config))
           then ConfigProxy.fopen_append (ConfigProxy.log_file config) disk
           else (false, disk) in
         ∃ events,
           forallb is_print events = true ∧
           In announced events ∧
           let w1 := set_trace (events ++ trace w) w in
           ConfigProxy.main (prog :: opts) disk w
           = ((ConfigProxy.Ran
                 (eval (ConfigProxy.main_startup config log_fp) w1),
               (config, log_fp), disk'),
              exec (ConfigProxy.main_startup config log_fp) w1)
   end) ∧
  (∀ argv,
     ∃ events,
       forallb is_print events = true ∧
       let w1 := set_trace (events ++ trace w) w in
       let '(run, (config, log_fp), disk', w') :=
         ConfigProxy.main argv disk w in
       (w' = w1 ∧ stopped_early run)
       ∨ (valid_config config = true
          ∧ run = ConfigProxy.Ran
                    (eval (ConfigProxy.main_startup config log_fp) w1)
          ∧ w' = exec (ConfigProxy.main_startup config log_fp) w1)).
Proof.
  intros Hsel.
  assert (Hstop : ∀ tail status disk1 w1,
            ConfigProxy.parse_args prog tail
              (selected_file opts "proxy.conf") (selected_show opts) disk w
            = ((ConfigProxy.Stop status, disk1), w1) →
            ConfigProxy.main (prog :: opts ++ tail) disk w
            = ((ConfigProxy.Ran (Returned (Exit status)),
                (ConfigProxy.default_config, false), disk1), w1)).
  { intros tail status disk1 w1 Hp. unfold ConfigProxy.main.
    unfold bind at 1. cbv beta iota.
    rewrite (config_parse_args_selects prog opts tail "proxy.conf" false
               disk Hsel).
    cbn [orb]. rewrite Hp. reflexivity. }
  split; [|split; [|split; [|split; [|split; [|split]]]]];
    [| | | | | |intros argv; apply config_main_prints_before_startup].
  - intros arg rest Harg. unfold front_end_stops.
    assert (E : String.eqb arg "-h" || String.eqb arg "--help" = true)
      by (destruct Harg; subst arg; reflexivity).
    destruct (config_print_usage_run prog w) as (events & P & I & R).
    exists events. split; [exact P|]. split; [exact I|].
    apply Hstop. cbn [ConfigProxy.parse_args]. rewrite E.
    unfold bind. rewrite R. reflexivity.
  - intros file rest. unfold front_end_stops.
    destruct (ConfigProxy.disk_writable disk file) eqn:Ew.
    + exists [EvPrint "Configuration template saved to: %s\n" [PStr file]].
      split; [reflexivity|]. split; [left; reflexivity|].
      apply Hstop.
      cbn [ConfigProxy.parse_args String.eqb Ascii.eqb Bool.eqb andb orb].
      unfold ConfigProxy.saveTemplate. rewrite Ew. reflexivity.
    + exists [EvPrintErr "Error: Cannot create config template: %s\n"
                         [PStr file]].
      split; [reflexivity|]. split; [left; reflexivity|].
      apply Hstop.
      cbn [ConfigProxy.parse_args String.eqb Ascii.eqb Bool.eqb andb orb].
      unfold ConfigProxy.saveTemplate. rewrite Ew. reflexivity.
  - unfold front_end_stops.
    exists [EvPrintErr "Error: --create-config requires a filename\n" []].
    split; [reflexivity|]. split; [left; reflexivity|].
    apply Hstop. reflexivity.
  - intros arg Harg. unfold front_end_stops.
    exists [EvPrintErr "Error: --config requires a filename\n" []].
    split; [reflexivity|]. split; [left; reflexivity|].
    apply Hstop. destruct Harg; subst arg; reflexivity.
  - intros arg rest Harg. unfold front_end_stops.
    unfold known_option in Harg.
    repeat (apply orb_false_iff in Harg as [Harg ?]).
    destruct (config_print_usage_run prog
                (exec (emit (EvPrintErr "Error: Unknown option: %s\n"
                               [PStr arg])) w)) as (events & P & I & R).
    exists (events ++ [EvPrintErr "Error: Unknown option: %s\n" [PStr arg]]).
    split; [rewrite forallb_app, P; reflexivity|].
    split; [apply in_or_app; right; left; reflexivity|].
    apply Hstop.
    cbn [ConfigProxy.parse_args].
    repeat match goal with H : String.eqb arg _ = false |- _ =>
                             rewrite H; clear H end.
    cbn [orb].
    unfold bind, g_printerr. unfold exec in R.
    destruct (emit _ w) as [[] we] eqn:Ee. cbn [snd] in R. rewrite R.
    injection Ee as <-. cbn [trace set_trace].
    rewrite <- app_assoc. reflexivity.
  - cbv zeta.
    set (config_file := selected_file opts "proxy.conf").
    set (announced := EvPrint "Loading configuration from: %s\n"
                              [PStr config_file]).
    set (show := selected_show opts).
    assert (Hp : ConfigProxy.parse_args prog opts "proxy.conf" false disk w
                 = ((ConfigProxy.Go config_file show, disk), w)).
    { rewrite <- (app_nil_r opts) at 1.
      rewrite (config_parse_args_selects prog opts [] "proxy.conf" false
                 disk Hsel).
      reflexivity. }
    unfold front_end_stops.
    remember (ConfigProxy.main (prog :: opts) disk w) as result eqn:Hmain.
    unfold ConfigProxy.main in Hmain. unfold bind at 1 in Hmain.
    cbv beta iota in Hmain. rewrite Hp in Hmain. clear Hp.
    cbv beta iota in Hmain.
    unfold bind at 1 in Hmain.
    change (g_print "Loading configuration from: %s\n" [PStr config_file] w)
      with (tt, exec (emit announced) w) in Hmain.
    cbv beta iota in Hmain.
    set (wb := exec (emit announced) w) in *.
    assert (Hwb : wb = set_trace ([announced] ++ trace w) w) by reflexivity.
    unfold bind at 1 in Hmain.
    destruct (prints_only_run _ wb
                (prints_only_loadFromFile config_file
                   (ConfigProxy.disk_files disk !! config_file)
                   ConfigProxy.default_config)) as (ev2 & E2 & P2).
    rewrite E2 in Hmain.
    set (wc := set_trace (ev2 ++ trace wb) wb) in *.
    destruct (eval _ wb) as [[ok config]|e].
    2:{ exists (ev2 ++ [announced]).
        split; [rewrite forallb_app, P2; reflexivity|].
        split; [apply in_or_app; right; left; reflexivity|].
        rewrite Hmain. unfold wc. rewrite Hwb. cbn [trace set_trace ret].
        rewrite <- app_assoc. reflexivity. }
    unfold bind at 1 in Hmain.
    destruct (prints_only_run _ wc (prints_only_validate config))
      as (ev3 & E3 & P3).
    rewrite E3, eval_validate in Hmain.
    set (wd := set_trace (ev3 ++ trace wc) wc) in *.
    assert (Hwd : wd = set_trace ((ev3 ++ ev2 ++ [announced]) ++ trace w) w).
    { unfold wd, wc. rewrite Hwb. cbn [trace set_trace].
      rewrite <- !app_assoc. reflexivity. }
    assert (Pd : forallb is_print (ev3 ++ ev2 ++ [announced]) = true).
    { rewrite !forallb_app, P2, P3. reflexivity. }
    assert (Id : In announced (ev3 ++ ev2 ++ [announced])).
    { apply in_or_app; right. apply in_or_app; right. left; reflexivity. }
    destruct (valid_config config) eqn:Hvalid; cbn [negb] in *.
    2:{ exists (ev3 ++ ev2 ++ [announced]).
        split; [exact Pd|]. split; [exact Id|]. rewrite <- Hwd.
        exact Hmain. }
    destruct show.
    { unfold bind at 1 in Hmain.
      destruct (config_print_run config wd) as (ev4 & P4 & I4 & E4).
      rewrite E4 in Hmain. cbn [ret] in Hmain.
      exists (ev4 ++ ev3 ++ ev2 ++ [announced]).
      split; [rewrite forallb_app, P4, Pd; reflexivity|].
      split; [apply in_or_app; left; exact I4|].
      rewrite Hmain, Hwd. cbn [trace set_trace]. rewrite <- !app_assoc.
      reflexivity. }
    unfold bind at 1 in Hmain.
    assert (Hpr : prints_only (if ConfigProxy.verbose config
                               then ConfigProxy.print config else ret tt)).
    { destruct (ConfigProxy.verbose config);
        [apply prints_only_print | apply prints_only_ret]. }
    destruct (prints_only_run _ wd Hpr) as (ev4 & E4 & P4).
    rewrite E4 in Hmain.
    set (we := set_trace (ev4 ++ trace wd) wd) in *.
    assert (Hwe : we = set_trace ((ev4 ++ ev3 ++ ev2 ++ [announced])
                                  ++ trace w) w).
    { unfold we. rewrite Hwd. cbn [trace set_trace].
      rewrite <- !app_assoc. reflexivity. }
    unfold bind at 1 in Hmain.
    destruct (negb (Std.empty (ConfigProxy.log_file config))).
    + destruct (ConfigProxy.fopen_append (ConfigProxy.log_file config) disk)
        as [log_fp disk2].
      destruct log_fp; cbn [negb] in Hmain.
      * unfold bind at 1 in Hmain. cbn [ret] in Hmain.
        unfold bind at 1 in Hmain.
        exists (ev4 ++ ev3 ++ ev2 ++ [announced]).
        split; [rewrite forallb_app, P4, Pd; reflexivity|].
        split; [apply in_or_app; right; exact Id|].
        cbv zeta. rewrite <- Hwe, Hmain. unfold eval, exec.
        destruct (ConfigProxy.main_startup config true we). reflexivity.
      * unfold bind at 1 in Hmain. cbn [g_printerr emit ret] in Hmain.
        unfold bind at 1 in Hmain.
        set (line := EvPrintErr "Warning: Cannot open log file: %s\n" _)
          in *.
        exists (line :: ev4 ++ ev3 ++ ev2 ++ [announced]).
        split; [cbn [forallb is_print]; rewrite forallb_app, P4, Pd;
                reflexivity|].
        split; [right; apply in_or_app; right; exact Id|].
        assert (Hwl : set_trace (line :: trace we) we
                      = set_trace ((line :: ev4 ++ ev3 ++ ev2 ++ [announced])
                                   ++ trace w) w).
        { rewrite Hwe. reflexivity. }
        cbv zeta. rewrite <- Hwl, Hmain. unfold eval, exec.
        destruct (ConfigProxy.main_startup config false _). reflexivity.
    + cbn [ret] in Hmain. unfold bind at 1 in Hmain.
      exists (ev4 ++ ev3 ++ ev2 ++ [announced]).
      split; [rewrite forallb_app, P4, Pd; reflexivity|].
      split; [apply in_or_app; right; exact Id|].
      cbv zeta. rewrite <- Hwe, Hmain. unfold eval, exec.
      destruct (ConfigProxy.main_startup config false we). reflexivity.
Qed.

(** The command line [--show-config -c my.conf] followed by [--help], and
    followed by [--create-config new.conf]: the first prints the usage
    text, the second writes the template; both return 0 without
    contacting a bus. *)
Lemma config_main_is_front_end_then_startup_example :
  let disk := ConfigProxy.mkDisk ∅ (λ _, true) in
  let w := example_world None in
  selects_only ["--show-config"; "-c"; "my.conf"] = true ∧
  front_end_stops
    ["proxy"; "--show-config"; "-c"; "my.conf"; "--help"; "ignored"] disk w
    (ConfigProxy.Ran (Returned (Exit 0))) ConfigProxy.default_config disk
    (EvPrint "Usage: %s [OPTIONS]\n" [PStr "proxy"]) ∧
  front_end_stops
    ["proxy"; "--show-config"; "-c"; "my.conf"; "--create-config";
     "new.conf"] disk w
    (ConfigProxy.Ran (Returned (Exit 0))) ConfigProxy.default_config
    (ConfigProxy.mkDisk
       (<["new.conf" := ConfigProxy.template_text ConfigProxy.default_config]>
          ∅)
       (λ _, true))
    (EvPrint "Configuration template saved to: %s\n" [PStr "new.conf"]).
Proof.
  intros disk w.
  destruct (config_main_is_front_end_then_startup "proxy"
              ["--show-config"; "-c"; "my.conf"] disk w eq_refl)
    as (Hhelp & Hcreate & _).
  split; [reflexivity|]. split.
  - apply (Hhelp "--help" ["ignored"]). right. reflexivity.
  - exact (Hcreate "new.conf" []).
Defined.


(** X9.  When the configuration file cannot be opened, [main] prints the
    warning, keeps the built-in defaults and starts up with them: the
    result of [loadFromFile] is not looked at. *)
Theorem config_missing_file_means_defaults (argv : list string)
    (prog file : string) (disk : ConfigProxy.Disk) (w : World) :
  argv = [prog; "-c"; file] ∨ argv = [prog; "--config"; file]
  ∨ (file = "proxy.conf" ∧ (argv = [prog] ∨ argv = [])) →
  ConfigProxy.disk_files disk !! file = None →
  let w1 :=
    set_trace
      (EvPrintErr "Warning: Cannot open config file: %s, using defaults\n"
                  [PStr file]
       :: EvPrint "Loading configuration from: %s\n" [PStr file]
       :: trace w) w in
  ConfigProxy.main argv disk w
  = ((ConfigProxy.Ran
        (eval (ConfigProxy.main_startup ConfigProxy.default_config false)
              w1),
      (ConfigProxy.default_config, false), disk),
     exec (ConfigProxy.main_startup ConfigProxy.default_config false) w1).
Proof.
  intros Hargv Hfile w1.
  assert (Hparse :
            match argv with
            | [] => ret (ConfigProxy.Go "proxy.conf" false, disk)
            | program_name :: args =>
                ConfigProxy.parse_args program_name args "proxy.conf" false
                                       disk
            end w = ((ConfigProxy.Go file false, disk), w)).
  { destruct Hargv as [->|[->|[-> [->| ->]]]]; reflexivity. }
  unfold ConfigProxy.main. unfold bind at 1. rewrite Hparse.
  unfold bind at 1. cbn [g_print emit].
  rewrite Hfile. unfold ConfigProxy.loadFromFile.
  unfold bind at 1. cbn [g_printerr emit bind ret trace set_trace].
  change (ConfigProxy.validate ConfigProxy.default_config)
    with (ret true : M bool).
  cbn [bind ret negb ConfigProxy.verbose ConfigProxy.default_config
       ConfigProxy.log_file Std.empty].
  fold ConfigProxy.default_config.
  change (set_trace _ (set_trace _ w)) with w1.
  rewrite run_bind. reflexivity.
Qed.

(** ** Command lines *)

(** X10.  The option loop of the multi-bus variant reads back every
    setting from the command line that spells it out, with short or long
    option names, printing nothing; a value is taken as it stands even
    when it looks like an option.  [main] then starts up with these
    settings. *)
Theorem multibus_command_line_round_trip (long : bool) (prog : string)
    (o : MultiBus.Options) (w : World) :
  MultiBus.parse_args prog (multibus_command_line long o)
                      MultiBus.default_options w
  = (inr o, w)
  ∧ MultiBus.main (prog :: multibus_command_line long o) w
    = (let '(stage, w') :=
         MultiBus.main_startup (MultiBus.opt_source_address o)
           (MultiBus.opt_target_address o) (MultiBus.opt_source_service o)
           (MultiBus.opt_source_path o) (MultiBus.opt_proxy_service o) w in
       (match stage with
        | Returned (MainLoop proxy_contexts) =>
            Returned (MainLoop (MultiBus.opt_verbose o, proxy_contexts))
        | Returned (Exit status) => Returned (Exit status)
        | Undefined why => Undefined why
        end, w')).
Proof.
  assert (H : MultiBus.parse_args prog (multibus_command_line long o)
                MultiBus.default_options w = (inr o, w))
    by (destruct o as [[] a b c d e], long; reflexivity).
  split; [exact H|].
  unfold MultiBus.main. unfold bind at 1. rewrite H. reflexivity.
Qed.

Lemma prints_only_multibus_usage name :
  prints_only (MultiBus.print_usage name).
Proof. unfold MultiBus.print_usage. prints_tac. Qed.

(** X11.  The option loop of the multi-bus variant either returns
    settings, having printed nothing, or stops [main] with status 0 or 1
    having only printed; [verbose], once set, stays set. *)
Theorem multibus_option_loop_stops_or_is_silent (prog : string)
    (args : list string) (o : MultiBus.Options) (w : World) :
  match MultiBus.parse_args prog args o w with
  | (inr o', w') =>
      w' = w ∧ (MultiBus.opt_verbose o = true →
                MultiBus.opt_verbose o' = true)
  | (inl status, w') =>
      (status = 0 ∨ status = 1) ∧
      ∃ events, w' = set_trace (events ++ trace w) w ∧
                forallb is_print events = true
  end.
Proof.
  revert o.
  induction args as [args IH] using (induction_ltof1 _ (@length _)).
  unfold ltof in IH. intros o.
  destruct args as [|arg rest]; [split; [reflexivity | auto]|].
  cbn [MultiBus.parse_args].
  assert (Hstep : ∀ value rest' o',
            rest = value :: rest' →
            (MultiBus.opt_verbose o = true → MultiBus.opt_verbose o' = true) →
            match MultiBus.parse_args prog rest' o' w with
            | (inr o'', w') =>
                w' = w ∧ (MultiBus.opt_verbose o = true →
                          MultiBus.opt_verbose o'' = true)
            | (inl status, w') =>
                (status = 0 ∨ status = 1) ∧
                ∃ events, w' = set_trace (events ++ trace w) w ∧
                          forallb is_print events = true
            end).
  { intros value rest' o' -> Hv.
    specialize (IH rest' ltac:(cbn [length]; lia) o').
    destruct (MultiBus.parse_args prog rest' o' w) as [[status|o''] w'];
      [exact IH|].
    destruct IH as [-> Hv']. split; [reflexivity | auto]. }
  destruct (MultiBus.is_option arg "-v" "--verbose").
  { specialize (IH rest ltac:(cbn [length]; lia)
                  (MultiBus.mkOptions true (MultiBus.opt_source_address o)
                     (MultiBus.opt_target_address o)
                     (MultiBus.opt_source_service o)
                     (MultiBus.opt_source_path o)
                     (MultiBus.opt_proxy_service o))).
    destruct (MultiBus.parse_args prog rest _ w) as [[status|o''] w'];
      [exact IH|].
    destruct IH as [-> Hv']. split; [reflexivity|]. intros _. apply Hv'.
    reflexivity. }
  repeat (match goal with
          | |- context [if MultiBus.is_option arg ?a ?b then _ else _] =>
              destruct (MultiBus.is_option arg a b)
          end;
          [first
             [ destruct rest as [|value rest'];
               [split; [reflexivity | auto]
               | apply (Hstep value rest' _ eq_refl); intros Hv; exact Hv]
             | idtac ]|]).
  - (* help *)
    destruct (prints_only_run _ w
                (prints_only_bind _ _ (prints_only_multibus_usage prog)
                   (λ _, prints_only_ret (inl 0 : Z + MultiBus.Options))))
      as (ev & E & P).
    rewrite E. cbn [fst snd]. split; [left; reflexivity|]. eauto.
  - (* unknown option *)
    assert (Hp : prints_only
                   (g_printerr "Unknown option: %s\n" [PStr arg] ;;
                    MultiBus.print_usage prog ;;
                    ret (inl 1 : Z + MultiBus.Options))%io).
    { prints_tac. apply prints_only_multibus_usage. }
    destruct (prints_only_run _ w Hp) as (ev & E & P).
    rewrite E. split; [right; reflexivity|]. eauto.
Qed.

Lemma crossbus_option_facts (arg : string) :
  crossbus_option arg = false →
  String.eqb arg "--source-bus-name" = false
  ∧ String.eqb arg "--source-object-path" = false
  ∧ String.eqb arg "--proxy-bus-name" = false
  ∧ String.eqb arg "--source-bus-type" = false
  ∧ String.eqb arg "--target-bus-type" = false
  ∧ String.eqb arg "--verbose" = false
  ∧ String.eqb arg "--help" = false
  ∧ String.eqb arg "-h" = false.
Proof.
  unfold crossbus_option. cbn [existsb]. intros H.
  repeat (apply orb_false_elim in H as [? H]). repeat split; assumption.
Qed.

(** An argument that is no option is passed over, unless it is the only
    one. *)
Lemma crossbus_parse_args_skip (argc : nat) (argv0 arg : string)
    (rest : list string) (config : CrossBus.ProxyConfig) :
  crossbus_option arg = false → argc ≠ 1%nat →
  CrossBus.parse_args argc argv0 (arg :: rest) config
  = CrossBus.parse_args argc argv0 rest config.
Proof.
  intros H Hargc.
  destruct (crossbus_option_facts arg H)
    as (H1 & H2 & H3 & H4 & H5 & H6 & H7 & H8).
  cbn [CrossBus.parse_args].
  rewrite H1, H2, H3, H4, H5, H6, H7, H8. cbn [andb orb].
  destruct (Nat.eqb_spec argc 1); [congruence|]. reflexivity.
Qed.

(** X12.  The option loop of the cross-bus variant reads back a
    configuration from the command line that spells it out, printing
    nothing; arguments before it that are no options are passed over
    without a message, and a value is taken as it stands even when it
    looks like an option.  With the three names given, [main] goes on as
    [main_startup] does with that configuration. *)
Theorem crossbus_command_line_round_trip (prog : string)
    (junk : list string) (config : CrossBus.ProxyConfig) (w : World) :
  Forall (λ arg, crossbus_option arg = false) (prog :: junk) →
  let argv := prog :: junk ++ crossbus_command_line config in
  CrossBus.parse_args (length argv) prog argv CrossBus.default_config w
  = (inr config, w)
  ∧ (CrossBus.source_bus_name config ≠ "" →
     CrossBus.source_object_path config ≠ "" →
     CrossBus.proxy_bus_name config ≠ "" →
     CrossBus.main argv w = CrossBus.main_startup config w).
Proof.
  intros Hjunk argv.
  assert (Hargc : length argv ≠ 1%nat).
  { unfold argv, crossbus_command_line. cbn [length].
    rewrite !length_app. cbn [length]. lia. }
  assert (Hparse : CrossBus.parse_args (length argv) prog argv
                     CrossBus.default_config w = (inr config, w)).
  { unfold argv at 2. generalize (length argv) Hargc. intros argc Hargc'.
    change (prog :: junk ++ crossbus_command_line config)
      with ((prog :: junk) ++ crossbus_command_line config).
    induction Hjunk as [|arg rest Harg _ IH].
    - cbn [app]. destruct config as [n p x [] [] []]; reflexivity.
    - cbn [app]. rewrite crossbus_parse_args_skip by assumption. exact IH. }
  split; [exact Hparse|].
  intros Hn Hp Hx. unfold CrossBus.main. unfold bind at 1.
  replace (hd "" argv) with prog by reflexivity.
  rewrite Hparse. unfold bind at 1.
  unfold CrossBus.validateProxyConfigOrExit.
  destruct (CrossBus.source_bus_name config); [congruence|].
  destruct (CrossBus.source_object_path config); [congruence|].
  destruct (CrossBus.proxy_bus_name config); [congruence|].
  reflexivity.
Qed.

(** ** The cross-bus proxy without its required names *)

Lemma prints_only_log_error fmt args : prints_only (CrossBus.log_error fmt args).
Proof. unfold CrossBus.log_error. prints_tac. Qed.

Lemma prints_only_log_info fmt args : prints_only (CrossBus.log_info fmt args).
Proof. unfold CrossBus.log_info. prints_tac. Qed.

Lemma prints_only_crossbus_usage name :
  prints_only (CrossBus.print_usage name).
Proof. unfold CrossBus.print_usage. prints_tac. Qed.

Lemma prints_only_validateProxyConfigOrExit config :
  prints_only (CrossBus.validateProxyConfigOrExit config).
Proof.
  unfold CrossBus.validateProxyConfigOrExit.
  repeat (match goal with
          | |- prints_only (if ?b then _ else _) => destruct b
          end;
          [apply prints_only_bind;
           [apply prints_only_log_error | intros ?; apply prints_only_ret]|]).
  apply prints_only_ret.
Qed.

Lemma prints_only_crossbus_parse_args argc argv0 args config :
  prints_only (CrossBus.parse_args argc argv0 args config).
Proof.
  revert config.
  induction args as [args IH] using (induction_ltof1 _ (@length _)).
  unfold ltof in IH. intros config.
  destruct args as [|arg rest]; [apply prints_only_ret|].
  cbn [CrossBus.parse_args].
  assert (Htail : ∀ c,
            prints_only
              (if String.eqb arg "--verbose" then
                 CrossBus.parse_args argc argv0 rest c
               else if String.eqb arg "--help" || String.eqb arg "-h"
                       || (argc =? 1)%nat then
                 CrossBus.print_usage argv0 ;; ret (inl 0)
               else CrossBus.parse_args argc argv0 rest config)%io).
  { intros c. destruct (String.eqb arg "--verbose");
      [apply IH; cbn [length]; lia|].
    destruct (_ || _); [|apply IH; cbn [length]; lia].
    apply prints_only_bind;
      [apply prints_only_crossbus_usage | intros ?; apply prints_only_ret]. }
  destruct rest as [|value rest'].
  - rewrite !andb_false_r. apply Htail.
  - rewrite !andb_true_r.
    repeat (match goal with
            | |- prints_only (if String.eqb arg ?s then _ else _) =>
                lazymatch s with
                | "--verbose" => fail
                | _ => destruct (String.eqb arg s);
                       [apply IH; cbn [length]; lia|]
                end
            end).
    apply Htail.
Qed.

(** A required setting stays as it is when its option is not among the
    arguments. *)
Lemma crossbus_parse_args_keeps (option : string) (argc : nat)
    (argv0 : string) (args : list string)
    (config config' : CrossBus.ProxyConfig) (w w' : World) :
  option = "--source-bus-name" ∨ option = "--source-object-path"
  ∨ option = "--proxy-bus-name" →
  option ∉ args →
  CrossBus.parse_args argc argv0 args config w = (inr config', w') →
  required_setting option config' = required_setting option config.
Proof.
  intros Hopt. revert config.
  induction args as [args IH] using (induction_ltof1 _ (@length _)).
  unfold ltof in IH. intros config Hnot Hrun.
  destruct args as [|arg rest].
  { cbn in Hrun. injection Hrun as <- _. reflexivity. }
  assert (Harg : arg ≠ option) by (intros ->; apply Hnot; left).
  assert (Hrest : option ∉ rest) by (intros H; apply Hnot; right; exact H).
  assert (Hstep : ∀ rest' c,
            (length rest' < length (arg :: rest))%nat →
            option ∉ rest' →
            required_setting option c = required_setting option config →
            CrossBus.parse_args argc argv0 rest' c w = (inr config', w') →
            required_setting option config'
            = required_setting option config).
  { intros rest' c Hlen Hn Hc Hr. rewrite <- Hc.
    apply (IH rest' Hlen c Hn Hr). }
  cbn [CrossBus.parse_args] in Hrun.
  assert (Htail :
            (if String.eqb arg "--verbose" then
               CrossBus.parse_args argc argv0 rest
                 (CrossBus.mkProxyConfig (CrossBus.source_bus_name config)
                    (CrossBus.source_object_path config)
                    (CrossBus.proxy_bus_name config)
                    (CrossBus.source_bus_type config)
                    (CrossBus.target_bus_type config) true)
             else if String.eqb arg "--help" || String.eqb arg "-h"
                     || (argc =? 1)%nat then
               CrossBus.print_usage argv0 ;; ret (inl 0)
             else CrossBus.parse_args argc argv0 rest config)%io w
            = (inr config', w') →
            required_setting option config'
            = required_setting option config).
  { destruct (String.eqb arg "--verbose").
    - apply Hstep; [cbn [length]; lia | exact Hrest | reflexivity].
    - destruct (_ || _).
      + unfold bind. destruct (CrossBus.print_usage argv0 w).
        intros H. discriminate H.
      + apply Hstep; [cbn [length]; lia | exact Hrest | reflexivity]. }
  destruct rest as [|value rest'].
  { rewrite !andb_false_r in Hrun. apply Htail, Hrun. }
  rewrite !andb_true_r in Hrun.
  assert (Hrest' : option ∉ rest')
    by (intros H; apply Hrest; right; exact H).
  destruct (String.eqb_spec arg "--source-bus-name") as [Ea|_].
  { revert Hrun. apply Hstep; [cbn [length]; lia | exact Hrest'|].
    destruct Hopt as [->|[->| ->]]; [congruence | reflexivity..]. }
  destruct (String.eqb_spec arg "--source-object-path") as [Ea|_].
  { revert Hrun. apply Hstep; [cbn [length]; lia | exact Hrest'|].
    destruct Hopt as [->|[->| ->]]; [reflexivity | congruence | reflexivity]. }
  destruct (String.eqb_spec arg "--proxy-bus-name") as [Ea|_].
  { revert Hrun. apply Hstep; [cbn [length]; lia | exact Hrest'|].
    destruct Hopt as [->|[->| ->]]; [reflexivity.. | congruence]. }
  destruct (String.eqb arg "--source-bus-type").
  { revert Hrun. apply Hstep; [cbn [length]; lia | exact Hrest'|].
    destruct Hopt as [->|[->| ->]]; reflexivity. }
  destruct (String.eqb arg "--target-bus-type").
  { revert Hrun. apply Hstep; [cbn [length]; lia | exact Hrest'|].
    destruct Hopt as [->|[->| ->]]; reflexivity. }
  apply Htail, Hrun.
Qed.

(** X13.  Without one of [--source-bus-name], [--source-object-path]
    and [--proxy-bus-name] among its arguments the cross-bus proxy never
    starts: [main] returns status 0 (the usage was asked for) or 1,
    having done nothing but print, and leaves no proxy state. *)
Theorem crossbus_required_names (option : string) (argv : list string)
    (w : World) :
  option = "--source-bus-name" ∨ option = "--source-object-path"
  ∨ option = "--proxy-bus-name" →
  option ∉ argv →
  let '(stage, proxy_state, w') := CrossBus.main argv w in
  (stage = Returned (Exit 0) ∨ stage = Returned (Exit 1))
  ∧ proxy_state = None
  ∧ ∃ events, w' = set_trace (events ++ trace w) w
              ∧ forallb is_print events = true.
Proof.
  intros Hopt Hnot. unfold CrossBus.main. unfold bind at 1.
  destruct (prints_only_run _ w
              (prints_only_crossbus_parse_args (length argv) (hd "" argv)
                 argv CrossBus.default_config)) as (ev1 & E1 & P1).
  pose proof (crossbus_parse_args_keeps option (length argv) (hd "" argv)
                argv CrossBus.default_config) as Hkeep.
  rewrite E1.
  destruct (eval _ w) as [status|config] eqn:Ep.
  { cbn [ret]. split; [|split; [reflexivity | eauto]].
    (* the only status the loop returns is 0 *)
    clear - Ep. left. revert Ep. unfold eval.
    generalize (length argv) (hd "" argv) CrossBus.default_config.
    intros argc argv0.
    induction argv as [args IH] using (induction_ltof1 _ (@length _)).
    unfold ltof in IH. intros config.
    destruct args as [|arg rest]; [discriminate|].
    cbn [CrossBus.parse_args].
    assert (Htail : ∀ c,
              fst ((if String.eqb arg "--verbose" then
                      CrossBus.parse_args argc argv0 rest c
                    else if String.eqb arg "--help" || String.eqb arg "-h"
                            || (argc =? 1)%nat then
                      CrossBus.print_usage argv0 ;; ret (inl 0)
                    else CrossBus.parse_args argc argv0 rest config)%io w)
              = inl status →
              Returned (Exit status)
              = (Returned (Exit 0) : Outcome (Stage CrossBus.ProxyState))).
    { intros c. destruct (String.eqb arg "--verbose");
        [apply IH; cbn [length]; lia|].
      destruct (_ || _); [|apply IH; cbn [length]; lia].
      unfold bind. destruct (CrossBus.print_usage argv0 w).
      cbn. intros [= <-]. reflexivity. }
    destruct rest as [|value rest'].
    - rewrite !andb_false_r. apply Htail.
    - rewrite !andb_true_r.
      repeat (match goal with
              | |- context [if String.eqb arg ?s then _ else _] =>
                  lazymatch s with
                  | "--verbose" => fail
                  | _ => destruct (String.eqb arg s);
                         [apply IH; cbn [length]; lia|]
                  end
              end).
      apply Htail. }
  specialize (Hkeep config w _ Hopt Hnot E1).
  unfold bind at 1.
  destruct (prints_only_run _ (set_trace (ev1 ++ trace w) w)
              (prints_only_validateProxyConfigOrExit config))
    as (ev2 & E2 & P2).
  rewrite E2.
  assert (Hexit : eval (CrossBus.validateProxyConfigOrExit config)
                       (set_trace (ev1 ++ trace w) w) = Some 1).
  { unfold CrossBus.validateProxyConfigOrExit, eval.
    destruct Hopt as [->|[->| ->]]; cbn in Hkeep.
    - rewrite Hkeep. reflexivity.
    - rewrite Hkeep.
      destruct (String.length (CrossBus.source_bus_name config) =? 0)%nat;
        reflexivity.
    - rewrite Hkeep.
      destruct (String.length (CrossBus.source_bus_name config) =? 0)%nat;
        [reflexivity|].
      destruct (String.length (CrossBus.source_object_path config) =? 0)%nat;
        reflexivity. }
  rewrite Hexit. cbn [ret].
  split; [right; reflexivity|]. split; [reflexivity|].
  exists (ev2 ++ ev1). split.
  - cbn [trace set_trace]. rewrite <- app_assoc. reflexivity.
  - rewrite forallb_app, P1, P2. reflexivity.
Qed.

(** ** The configuration reader at work *)

Lemma config_line_padding_example :
  ConfigProxy.process_line 3 ("  verbose =  yes " +:+ String Std.CR "")
                           ConfigProxy.default_config
  = ConfigProxy.set_value "verbose" "yes" ConfigProxy.default_config.
Proof.
  apply (config_line_padding_is_insignificant 3 "  " " " "  "
           (" " +:+ String Std.CR "") "verbose" "yes"
           ConfigProxy.default_config);
    reflexivity.
Defined.

Lemma config_quoted_value_example :
  ConfigProxy.process_line 7 ("log_file = ' my log '")
                           ConfigProxy.default_config
  = ConfigProxy.set_value "log_file" " my log " ConfigProxy.default_config.
Proof.
  apply (config_quoted_value_is_taken_verbatim 7 "" " " " " "" "log_file"
           " my log " Std.SINGLE_QUOTE ConfigProxy.default_config);
    first [reflexivity | right; reflexivity].
Defined.

Lemma config_comments_example :
  ConfigProxy.loadFromFile "proxy.conf"
    (Some ("# a comment" +:+ ConfigProxy.NL +:+ ConfigProxy.NL
           +:+ "  ; another"))
    example_config (example_world None)
  = (Std.Normal (true, example_config), example_world None).
Proof.
  apply config_comments_change_nothing.
  repeat constructor.
  - exists "", "# a comment". repeat split; auto.
  - exists "", "". repeat split; auto.
  - exists "  ", "; another". repeat split; auto.
Defined.

Lemma timeout_value_example :
  ConfigProxy.set_value "timeout_ms" " 30000ms" ConfigProxy.default_config
                        (example_world None)
  = (Std.Normal ConfigProxy.default_config, example_world None).
Proof.
  apply (timeout_value_is_read_back " " "ms" 30000
           ConfigProxy.default_config (example_world None));
    first [reflexivity | split; discriminate | right; reflexivity].
Defined.

Lemma config_template_round_trip_example :
  ConfigProxy.loadFromFile "proxy.conf"
    (Some (ConfigProxy.template_text ConfigProxy.default_config))
    example_config (example_world None)
  = (Std.Normal (true, ConfigProxy.default_config), example_world None).
Proof.
  apply config_template_round_trip;
    first [reflexivity | split; discriminate].
Defined.

Lemma config_line_example :
  ConfigProxy.process_line 3 "nonsense" ConfigProxy.default_config
  = ret (Std.Normal ConfigProxy.default_config)
  ∨ (∃ text,
       ConfigProxy.process_line 3 "nonsense" ConfigProxy.default_config
       = (g_printerr "Warning: Invalid line %d in config: %s\n"
                     [PNum 3; PStr text] ;;
          ret (Std.Normal ConfigProxy.default_config))%io)
  ∨ (∃ key value,
       ConfigProxy.process_line 3 "nonsense" ConfigProxy.default_config
       = ConfigProxy.set_value key value ConfigProxy.default_config).
Proof.
  apply (config_line_is_skipped_or_sets_one_value 3 "nonsense"
           ConfigProxy.default_config).
  reflexivity.
Defined.

Lemma config_bad_timeout_example :
  ConfigProxy.loadFromFile "proxy.conf"
    (Some (unlines ["verbose=true"; "timeout_ms="; "bus_type=session"]))
    ConfigProxy.default_config (example_world None)
  = (Std.Throws Std.invalid_argument, example_world None).
Proof.
  apply (config_bad_timeout_throws "proxy.conf" ["verbose=true"]
           ["bus_type=session"] "" "" "" "" "" Std.invalid_argument
           ConfigProxy.default_config
           (ConfigProxy.mkProxyConfig "org.freedesktop.NetworkManager"
              "/org/freedesktop/NetworkManager" "org.example.Proxy" "system"
              true true 30000 "")
           (example_world None) (example_world None));
    first [reflexivity | repeat constructor].
Defined.

Lemma config_missing_file_example :
  let w := example_world None in
  let disk := ConfigProxy.mkDisk ∅ (λ _, true) in
  let w1 :=
    set_trace
      (EvPrintErr "Warning: Cannot open config file: %s, using defaults\n"
                  [PStr "missing.conf"]
       :: EvPrint "Loading configuration from: %s\n" [PStr "missing.conf"]
       :: trace w) w in
  ConfigProxy.main ["proxy"; "-c"; "missing.conf"] disk w
  = ((ConfigProxy.Ran
        (eval (ConfigProxy.main_startup ConfigProxy.default_config false)
              w1),
      (ConfigProxy.default_config, false), disk),
     exec (ConfigProxy.main_startup ConfigProxy.default_config false) w1).
Proof.
  intros w disk w1.
  apply (config_missing_file_means_defaults ["proxy"; "-c"; "missing.conf"]
           "proxy" "missing.conf" disk w).
  - left. reflexivity.
  - reflexivity.
Defined.

Lemma crossbus_command_line_example :
  let argv := "crossbus" :: ["extra"]
              ++ crossbus_command_line example_cross_config in
  CrossBus.parse_args (length argv) "crossbus" argv CrossBus.default_config
                      (example_world None)
  = (inr example_cross_config, example_world None)
  ∧ (CrossBus.source_bus_name example_cross_config ≠ "" →
     CrossBus.source_object_path example_cross_config ≠ "" →
     CrossBus.proxy_bus_name example_cross_config ≠ "" →
     CrossBus.main argv (example_world None)
     = CrossBus.main_startup example_cross_config (example_world None)).
Proof.
  apply (crossbus_command_line_round_trip "crossbus" ["extra"]
           example_cross_config (example_world None)).
  repeat constructor.
Defined.

Lemma crossbus_required_names_example :
  let '(stage, proxy_state, w') :=
    CrossBus.main ["crossbus"; "--source-bus-name"; "com.example.Source";
                   "--source-object-path"; "/com/example/Object"]
                  (example_world None) in
  (stage = Returned (Exit 0) ∨ stage = Returned (Exit 1))
  ∧ proxy_state = None
  ∧ ∃ events, w' = set_trace (events ++ trace (example_world None))
                             (example_world None)
              ∧ forallb is_print events = true.
Proof.
  apply (crossbus_required_names "--proxy-bus-name"
           ["crossbus"; "--source-bus-name"; "com.example.Source";
            "--source-object-path"; "/com/example/Object"]
           (example_world None)).
  - right; right. reflexivity.
  - intros H. apply (bool_decide_pack _) in H. vm_compute in H. exact H.
Defined.

(** ** What the handlers put on the wire *)

(** X14.  The method-call handler of each variant sends exactly one
    asynchronous call, on the source connection, to the configured
    service and object path (not the path the call arrived on), with the
    caller's interface, method and parameters unchanged and the
    invocation as the data of the ready callback; it replies to nothing
    itself and touches no registration.  The timeout is the default (-1)
    in the multi-bus and cross-bus variants and [timeout_ms] of the
    configuration in the configuration-file variant. *)
Theorem method_call_is_forwarded_unchanged (c : GDBusConnection)
    (sender object_path iface method : string) (params : option GVariant)
    (inv : GDBusMethodInvocation) (w : World) :
  (∀ verbose ctx,
     MultiBus.source_bus ctx = Some c →
     let w' := exec (MultiBus.handle_method_call verbose ctx sender
                       object_path iface method params inv) w in
     pending w'
     = pending w ++ [mkPendingCall c (MultiBus.source_bus_name ctx)
                       (MultiBus.source_object_path ctx) iface method
                       params (-1) inv]
     ∧ wire w'
       = EvCall c (MultiBus.source_bus_name ctx)
                (MultiBus.source_object_path ctx) iface method params (-1)
         :: wire w
     ∧ conns w' = conns w) ∧
  (∀ config log_fp,
     let w' := exec (ConfigProxy.handle_method_call config log_fp (Some c)
                       sender object_path iface method params inv) w in
     pending w'
     = pending w ++ [mkPendingCall c (ConfigProxy.source_bus_name config)
                       (ConfigProxy.source_object_path config) iface method
                       params (ConfigProxy.timeout_ms config) inv]
     ∧ wire w'
       = EvCall c (ConfigProxy.source_bus_name config)
                (ConfigProxy.source_object_path config) iface method params
                (ConfigProxy.timeout_ms config)
         :: wire w
     ∧ conns w' = conns w) ∧
  (∀ st,
     CrossBus.source_bus st = Some c →
     let w' := exec (CrossBus.handle_method_call st sender object_path iface
                       method params inv) w in
     pending w'
     = pending w ++ [mkPendingCall c
                       (CrossBus.source_bus_name (CrossBus.config st))
                       (CrossBus.source_object_path (CrossBus.config st))
                       iface method params (-1) inv]
     ∧ wire w'
       = EvCall c (CrossBus.source_bus_name (CrossBus.config st))
                (CrossBus.source_object_path (CrossBus.config st)) iface
                method params (-1)
         :: wire w
     ∧ conns w' = conns w).
Proof.
  split; [|split].
  - intros verbose ctx Hs. unfold MultiBus.handle_method_call.
    rewrite Hs. destruct verbose; repeat split.
  - intros config log_fp.
    unfold ConfigProxy.handle_method_call, ConfigProxy.log_message.
    destruct (ConfigProxy.verbose config),
      (ConfigProxy.enable_logging config), log_fp; repeat split.
  - intros st Hs. unfold CrossBus.handle_method_call, CrossBus.log_verbose.
    rewrite Hs.
    destruct (CrossBus.verbose (CrossBus.config st)); repeat split.
Qed.


(** ** Start-up failures after the source connection *)

Lemma gives_up_intro {Ctx : Type} w w' fmt args sent :
  In (EvPrintErr fmt args) (trace w') →
  wire w' = sent ++ wire w →
  bus_state w' = bus_state w →
  gives_up (Returned (Exit 1) : Outcome (Stage Ctx)) w w'
           (EvPrintErr fmt args) sent.
Proof.
  intros H1 H2 H3. split; [reflexivity|]. split; [eauto|].
  split; [exact H1|]. split; [exact H2 | exact H3].
Qed.

Lemma gives_up_set_trace {Ctx : Type} w events fmt args sent :
  In (EvPrintErr fmt args) events →
  List.filter on_the_wire events = sent →
  gives_up (Returned (Exit 1) : Outcome (Stage Ctx)) w
           (set_trace (events ++ trace w) w) (EvPrintErr fmt args) sent.
Proof.
  intros Hin Hsent. apply gives_up_intro.
  - cbn [trace set_trace]. apply in_or_app. left. exact Hin.
  - rewrite wire_set_trace, Hsent. reflexivity.
  - reflexivity.
Qed.

Lemma ConfigProxy_log_message_view config log_fp fmt args w :
  ∃ events,
    ConfigProxy.log_message config log_fp fmt args w
    = (tt, set_trace (events ++ trace w) w) ∧
    List.filter on_the_wire events = [].
Proof.
  unfold ConfigProxy.log_message.
  destruct (ConfigProxy.enable_logging config); cbn [negb].
  - destruct log_fp; (refine (ex_intro _ [_] _); split; reflexivity).
  - exists []. destruct w. split; reflexivity.
Qed.

Lemma MultiBus_introspection_call_fails e s t w
    source_address target_address source_service source_path
    proxy_service :
  MultiBus.create_connection source_address w = ((Some s, None), w) →
  MultiBus.create_connection target_address w = ((Some t, None), w) →
  answer w s source_service source_path
         "org.freedesktop.DBus.Introspectable" "Introspect" None
  = inr e →
  MultiBus.main_startup source_address target_address source_service
                        source_path proxy_service w
  = (Returned (Exit 1),
     set_trace ([EvUnref t; EvUnref s; EvErrorFree e;
                 EvPrintErr "Introspection failed for %s: %s\n"
                            [PStr source_service; PStr (message e)];
                 introspect_call s source_service source_path (-1)]
                ++ trace w) w).
Proof.
  intros H1 H2 H3.
  unfold MultiBus.main_startup, and_then, MultiBus.setup_proxy, bind.
  rewrite H1. cbn [non_null negb]. rewrite H2. cbn [non_null negb].
  cbn [MultiBus.source_bus MultiBus.source_bus_name
       MultiBus.source_object_path MultiBus.target_bus].
  unfold g_dbus_connection_call_sync. rewrite H3.
  reflexivity.
Qed.

Lemma MultiBus_introspection_unparsable e s t xml w
    source_address target_address source_service source_path
    proxy_service :
  MultiBus.create_connection source_address w = ((Some s, None), w) →
  MultiBus.create_connection target_address w = ((Some t, None), w) →
  answer w s source_service source_path
         "org.freedesktop.DBus.Introspectable" "Introspect" None
  = inl (GVTuple [GVString xml]) →
  parse_xml w xml = inr e →
  MultiBus.main_startup source_address target_address source_service
                        source_path proxy_service w
  = (Returned (Exit 1),
     set_trace ([EvUnref t; EvUnref s; EvErrorFree e;
                 EvPrintErr "Failed to parse introspection XML: %s\n"
                            [PStr (message e)];
                 introspect_call s source_service source_path (-1)]
                ++ trace w) w).
Proof.
  intros H1 H2 H3 H4.
  unfold MultiBus.main_startup, and_then, MultiBus.setup_proxy, bind.
  rewrite H1. cbn [non_null negb]. rewrite H2. cbn [non_null negb].
  cbn [MultiBus.source_bus MultiBus.source_bus_name
       MultiBus.source_object_path MultiBus.target_bus].
  unfold g_dbus_connection_call_sync. rewrite H3.
  change (g_variant_is_of_type (GVTuple [GVString xml]) (Some "(s)"))
    with true. cbv iota.
  unfold g_dbus_node_info_new_for_xml.
  change (g_variant_get_s (GVTuple [GVString xml])) with xml.
  cbn [parse_xml set_trace]. rewrite H4.
  reflexivity.
Qed.

Lemma MultiBus_target_connection_fails e s w
    source_address target_address source_service source_path
    proxy_service :
  MultiBus.create_connection source_address w = ((Some s, None), w) →
  MultiBus.create_connection target_address w = ((None, Some e), w) →
  MultiBus.main_startup source_address target_address source_service
                        source_path proxy_service w
  = (Returned (Exit 1),
     set_trace ([EvUnref s; EvErrorFree e;
                 EvPrintErr "Failed to connect to target bus (%s): %s\n"
                            [PStr target_address; PStr (message e)]]
                ++ trace w) w).
Proof.
  intros H1 H2.
  unfold MultiBus.main_startup, and_then, MultiBus.setup_proxy, bind.
  rewrite H1. cbn [non_null negb]. rewrite H2. cbn [non_null negb].
  reflexivity.
Qed.

Lemma ConfigProxy_introspection_call_fails config log_fp e s w :
  bus_get w (if String.eqb (ConfigProxy.bus_type config) "system"
             then G_BUS_TYPE_SYSTEM else G_BUS_TYPE_SESSION) = inl s →
  answer w s (ConfigProxy.source_bus_name config)
         (ConfigProxy.source_object_path config)
         "org.freedesktop.DBus.Introspectable" "Introspect" None
  = inr e →
  ∃ events,
    List.filter on_the_wire events = [] ∧
    ConfigProxy.main_startup config log_fp w
    = (Returned (Exit 1),
       set_trace (([EvErrorFree e;
                    EvPrintErr "Introspection failed: %s\n"
                               [PStr (message e)];
                    introspect_call s (ConfigProxy.source_bus_name config)
                      (ConfigProxy.source_object_path config)
                      (ConfigProxy.timeout_ms config)]
                   ++ events) ++ trace w) w).
Proof.
  intros H1 H3.
  destruct (ConfigProxy_log_message_view config log_fp
              "Connected to %s bus\n" [PStr (ConfigProxy.bus_type config)]
              w) as (ev1 & E1 & F1).
  destruct (ConfigProxy_log_message_view config log_fp
              "Introspecting %s at %s\n"
              [PStr (ConfigProxy.source_bus_name config);
               PStr (ConfigProxy.source_object_path config)]
              (set_trace (ev1 ++ trace w) w)) as (ev2 & E2 & F2).
  exists (ev2 ++ ev1). split.
  { rewrite List.filter_app, F1, F2. reflexivity. }
  unfold ConfigProxy.main_startup.
  unfold bind at 1. unfold g_bus_get_sync at 1. rewrite H1.
  cbn [non_null negb].
  unfold bind at 1. rewrite E1.
  unfold bind at 1. rewrite E2.
  unfold bind at 1. unfold g_dbus_connection_call_sync.
  cbn [answer set_trace]. rewrite H3. cbv beta iota.
  unfold with_message, error_message, bind, g_printerr, g_error_free,
    emit, ret.
  cbn [fst snd message]. unfold set_trace. cbn. rewrite <- !app_assoc.
  reflexivity.
Qed.

Lemma ConfigProxy_introspection_unparsable config log_fp e s xml w :
  bus_get w (if String.eqb (ConfigProxy.bus_type config) "system"
             then G_BUS_TYPE_SYSTEM else G_BUS_TYPE_SESSION) = inl s →
  answer w s (ConfigProxy.source_bus_name config)
         (ConfigProxy.source_object_path config)
         "org.freedesktop.DBus.Introspectable" "Introspect" None
  = inl (GVTuple [GVString xml]) →
  parse_xml w xml = inr e →
  ∃ events,
    List.filter on_the_wire events = [] ∧
    ConfigProxy.main_startup config log_fp w
    = (Returned (Exit 1),
       set_trace (([EvErrorFree e;
                    EvPrintErr "Failed to parse introspection XML: %s\n"
                               [PStr (message e)];
                    introspect_call s (ConfigProxy.source_bus_name config)
                      (ConfigProxy.source_object_path config)
                      (ConfigProxy.timeout_ms config)]
                   ++ events) ++ trace w) w).
Proof.
  intros H1 H3 H4.
  destruct (ConfigProxy_log_message_view config log_fp
              "Connected to %s bus\n" [PStr (ConfigProxy.bus_type config)]
              w) as (ev1 & E1 & F1).
  destruct (ConfigProxy_log_message_view config log_fp
              "Introspecting %s at %s\n"
              [PStr (ConfigProxy.source_bus_name config);
               PStr (ConfigProxy.source_object_path config)]
              (set_trace (ev1 ++ trace w) w)) as (ev2 & E2 & F2).
  exists (ev2 ++ ev1). split.
  { rewrite List.filter_app, F1, F2. reflexivity. }
  unfold ConfigProxy.main_startup.
  unfold bind at 1. unfold g_bus_get_sync at 1. rewrite H1.
  cbn [non_null negb].
  unfold bind at 1. rewrite E1.
  unfold bind at 1. rewrite E2.
  unfold bind at 1. unfold g_dbus_connection_call_sync.
  cbn [answer set_trace]. rewrite H3.
  change (g_variant_is_of_type (GVTuple [GVString xml]) (Some "(s)"))
    with true. cbv beta iota.
  unfold bind at 1. unfold g_dbus_node_info_new_for_xml.
  change (g_variant_get_s (GVTuple [GVString xml])) with xml.
  cbn [parse_xml set_trace]. rewrite H4. cbv beta iota.
  unfold with_message, error_message, bind, g_printerr, g_error_free,
    emit, ret.
  cbn [fst snd message]. unfold set_trace. cbn. rewrite <- !app_assoc.
  reflexivity.
Qed.

Lemma CrossBus_cleanup_unregistered st w :
  CrossBus.registered_objects st = Some ∅ →
  CrossBus.signal_subscriptions st = Some ∅ →
  CrossBus.cleanup_proxy_state (Some st) w
  = (None,
     set_trace ((match CrossBus.target_bus st with
                 | Some t => [EvUnref t]
                 | None => []
                 end
                 ++ match CrossBus.source_bus st with
                    | Some s => [EvUnref s]
                    | None => []
                    end) ++ trace w) w).
Proof.
  intros Hro Hss. unfold CrossBus.cleanup_proxy_state.
  rewrite Hro, Hss, !map_to_list_empty.
  destruct (CrossBus.target_bus st), (CrossBus.source_bus st), w;
    reflexivity.
Qed.

(** The cross-bus [main] up to the call of [connect_to_buses]: it has
    printed its three banner lines. *)
Lemma CrossBus_main_banner config w :
  ∃ events,
    List.filter on_the_wire events = [] ∧
    CrossBus.main_startup config w
    = (r <- CrossBus.connect_to_buses
              (CrossBus.mkProxyState None None None (Some ∅) (Some ∅)
                 config) ;;
       match r with
       | Undefined why =>
           ret (Undefined why,
                Some (CrossBus.mkProxyState None None None (Some ∅) (Some ∅)
                        config))
       | Returned (false, st) =>
           p <- CrossBus.cleanup_proxy_state (Some st) ;;
           ret (Returned (Exit 1), p)
       | Returned (true, st) => CrossBus.main_from_fetch st
       end)%io (set_trace (events ++ trace w) w).
Proof.
  refine (ex_intro _ [_; _; _; _; _; _; _; _; _] _).
  split; cycle 1.
  - unfold CrossBus.main_startup, CrossBus.init_proxy_state.
    cbn [negb]. rewrite !run_bind. reflexivity.
  - reflexivity.
Qed.

Lemma CrossBus_target_connection_fails_step st s e w :
  bus_get w (CrossBus.source_bus_type (CrossBus.config st)) = inl s →
  bus_get w (CrossBus.target_bus_type (CrossBus.config st)) = inr e →
  ∃ events,
    List.filter on_the_wire events = [] ∧
    In (EvPrintErr "Failed to connect to target bus: %s" [PStr (message e)])
       events ∧
    CrossBus.connect_to_buses st w
    = (Returned (false, CrossBus.set_target_bus None
                          (CrossBus.set_source_bus (Some s) st)),
       set_trace (events ++ trace w) w).
Proof.
  intros H1 H2. refine (ex_intro _ [_; _; _; _; _; _; _] _).
  unfold CrossBus.connect_to_buses, bind, g_bus_get_sync, CrossBus.log_info,
    CrossBus.log_error, g_print, g_printerr, emit; simpl.
  rewrite H1; simpl. rewrite H2; simpl.
  split; [|split]; cycle 2; [reflexivity | reflexivity | simpl; tauto].
Qed.

Lemma CrossBus_fetch_call_fails st s e w :
  CrossBus.source_bus st = Some s →
  answer w s (CrossBus.source_bus_name (CrossBus.config st))
         (CrossBus.source_object_path (CrossBus.config st))
         "org.freedesktop.DBus.Introspectable" "Introspect" None
  = inr e →
  ∃ events,
    List.filter on_the_wire events
    = [introspect_call s (CrossBus.source_bus_name (CrossBus.config st))
         (CrossBus.source_object_path (CrossBus.config st)) (-1)] ∧
    In (EvPrintErr "Introspection failed: %s" [PStr (message e)]) events ∧
    CrossBus.fetch_introspection_data st w
    = (Returned (false, st), set_trace (events ++ trace w) w).
Proof.
  intros Hs H3.
  unfold CrossBus.fetch_introspection_data, CrossBus.log_info,
    CrossBus.log_error.
  rewrite Hs. refine (ex_intro _ [_; _; _; _; _; _; _; _] _).
  unfold bind, g_dbus_connection_call_sync, g_print, g_printerr, emit; simpl.
  rewrite H3; simpl.
  split; [|split]; cycle 2; [reflexivity | reflexivity | simpl; tauto].
Qed.

Lemma CrossBus_fetch_unparsable st s e xml w :
  CrossBus.source_bus st = Some s →
  answer w s (CrossBus.source_bus_name (CrossBus.config st))
         (CrossBus.source_object_path (CrossBus.config st))
         "org.freedesktop.DBus.Introspectable" "Introspect" None
  = inl (GVTuple [GVString xml]) →
  parse_xml w xml = inr e →
  ∃ events,
    List.filter on_the_wire events
    = [introspect_call s (CrossBus.source_bus_name (CrossBus.config st))
         (CrossBus.source_object_path (CrossBus.config st)) (-1)] ∧
    In (EvPrintErr "Failed to parse introspection XML: %s"
                   [PStr (message e)]) events ∧
    CrossBus.fetch_introspection_data st w
    = (Returned (false, CrossBus.set_introspection_data None st),
       set_trace (events ++ trace w) w).
Proof.
  intros Hs H3 H4.
  unfold CrossBus.fetch_introspection_data, CrossBus.log_verbose,
    CrossBus.log_info, CrossBus.log_error.
  rewrite Hs. destruct (CrossBus.verbose (CrossBus.config st)).
  - refine (ex_intro _ [_; _; _; _; _; _; _; _; _; _; _] _).
    unfold bind, g_dbus_connection_call_sync, g_dbus_node_info_new_for_xml,
      g_print, g_printerr, emit; simpl.
    rewrite H3; simpl. rewrite H4; simpl.
    split; [|split]; cycle 2; [reflexivity | reflexivity | simpl; tauto].
  - refine (ex_intro _ [_; _; _; _; _; _; _; _] _).
    unfold bind, g_dbus_connection_call_sync, g_dbus_node_info_new_for_xml,
      g_print, g_printerr, emit, ret; simpl.
    rewrite H3; simpl. rewrite H4; simpl.
    split; [|split]; cycle 2; [reflexivity | reflexivity | simpl; tauto].
Qed.

(** The cross-bus [main] once both buses are connected: it goes on with
    [fetch_introspection_data], the ledgers still empty. *)
Lemma CrossBus_main_connected config s t w :
  bus_get w (CrossBus.source_bus_type config) = inl s →
  bus_get w (CrossBus.target_bus_type config) = inl t →
  ∃ events,
    List.filter on_the_wire events = [] ∧
    CrossBus.main_startup config w
    = CrossBus.main_from_fetch
        (CrossBus.mkProxyState (Some s) (Some t) None (Some ∅) (Some ∅)
           config)
        (set_trace (events ++ trace w) w).
Proof.
  intros H1 H2.
  destruct (CrossBus_main_banner config w) as (ev0 & F0 & E0).
  rewrite E0. clear E0.
  set (sti := CrossBus.mkProxyState None None None (Some ∅) (Some ∅) config).
  set (w1 := set_trace (ev0 ++ trace w) w).
  destruct (CrossBus_connect_to_buses sti s t w1 H1 H2) as (ev1 & F1 & E1).
  rewrite run_bind. unfold eval at 1, exec at 1. rewrite E1. cbn [fst snd].
  exists (ev1 ++ ev0).
  split; [rewrite List.filter_app, F1, F0; reflexivity|].
  f_equal. unfold w1, set_trace. cbn [trace bus_get new_for_address answer
    parse_xml conns next_registration_id next_subscriber_id next_owner_id
    pending].
  rewrite <- !app_assoc. reflexivity.
Qed.

(** [main_from_fetch] when [fetch_introspection_data] fails: teardown of
    the still empty ledger, exit status 1. *)
Lemma CrossBus_main_fetch_fails st st' events w :
  CrossBus.fetch_introspection_data st w
  = (Returned (false, st'), set_trace (events ++ trace w) w) →
  CrossBus.registered_objects st' = Some ∅ →
  CrossBus.signal_subscriptions st' = Some ∅ →
  ∃ after,
    List.filter on_the_wire after = [] ∧
    CrossBus.main_from_fetch st w
    = ((Returned (Exit 1), None),
       set_trace ((after ++ events) ++ trace w) w).
Proof.
  intros Hfetch Hro Hss.
  unfold CrossBus.main_from_fetch. rewrite run_bind.
  unfold eval at 1, exec at 1. rewrite Hfetch. cbn [fst snd].
  rewrite run_bind. unfold eval, exec.
  rewrite (CrossBus_cleanup_unregistered st' _ Hro Hss). cbn [fst snd ret].
  exists (match CrossBus.target_bus st' with
          | Some t => [EvUnref t]
          | None => []
          end
          ++ match CrossBus.source_bus st' with
             | Some s => [EvUnref s]
             | None => []
             end).
  split; [destruct (CrossBus.target_bus st'), (CrossBus.source_bus st');
          reflexivity|].
  f_equal. unfold set_trace. cbn [trace bus_get new_for_address answer
    parse_xml conns next_registration_id next_subscriber_id next_owner_id
    pending].
  rewrite <- !app_assoc. reflexivity.
Qed.

Lemma set_trace_app events1 events2 w :
  set_trace (events1 ++ trace (set_trace (events2 ++ trace w) w))
            (set_trace (events2 ++ trace w) w)
  = set_trace ((events1 ++ events2) ++ trace w) w.
Proof. unfold set_trace. cbn. rewrite <- app_assoc. reflexivity. Qed.

Lemma CrossBus_introspection_call_fails config e s t w :
  bus_get w (CrossBus.source_bus_type config) = inl s →
  bus_get w (CrossBus.target_bus_type config) = inl t →
  answer w s (CrossBus.source_bus_name config)
         (CrossBus.source_object_path config)
         "org.freedesktop.DBus.Introspectable" "Introspect" None
  = inr e →
  ∃ events,
    List.filter on_the_wire events
    = [introspect_call s (CrossBus.source_bus_name config)
         (CrossBus.source_object_path config) (-1)] ∧
    In (EvPrintErr "Introspection failed: %s" [PStr (message e)]) events ∧
    CrossBus.main_startup config w
    = ((Returned (Exit 1), None), set_trace (events ++ trace w) w).
Proof.
  intros H1 H2 H3.
  destruct (CrossBus_main_connected config s t w H1 H2) as (ev0 & F0 & E0).
  rewrite E0. clear E0.
  set (st := CrossBus.mkProxyState (Some s) (Some t) None (Some ∅) (Some ∅)
               config).
  set (w0 := set_trace (ev0 ++ trace w) w).
  destruct (CrossBus_fetch_call_fails st s e w0 eq_refl H3)
    as (ev & F & Hin & E).
  destruct (CrossBus_main_fetch_fails st st ev w0 E eq_refl eq_refl)
    as (after & Fa & Hmain).
  rewrite Hmain. exists ((after ++ ev) ++ ev0).
  split; [rewrite !List.filter_app, Fa, F, F0; reflexivity|].
  split.
  - apply in_or_app. left. apply in_or_app. right. exact Hin.
  - unfold w0. rewrite set_trace_app. reflexivity.
Qed.

Lemma CrossBus_introspection_unparsable config e s t xml w :
  bus_get w (CrossBus.source_bus_type config) = inl s →
  bus_get w (CrossBus.target_bus_type config) = inl t →
  answer w s (CrossBus.source_bus_name config)
         (CrossBus.source_object_path config)
         "org.freedesktop.DBus.Introspectable" "Introspect" None
  = inl (GVTuple [GVString xml]) →
  parse_xml w xml = inr e →
  ∃ events,
    List.filter on_the_wire events
    = [introspect_call s (CrossBus.source_bus_name config)
         (CrossBus.source_object_path config) (-1)] ∧
    In (EvPrintErr "Failed to parse introspection XML: %s"
                   [PStr (message e)]) events ∧
    CrossBus.main_startup config w
    = ((Returned (Exit 1), None), set_trace (events ++ trace w) w).
Proof.
  intros H1 H2 H3 H4.
  destruct (CrossBus_main_connected config s t w H1 H2) as (ev0 & F0 & E0).
  rewrite E0. clear E0.
  set (st := CrossBus.mkProxyState (Some s) (Some t) None (Some ∅) (Some ∅)
               config).
  set (w0 := set_trace (ev0 ++ trace w) w).
  destruct (CrossBus_fetch_unparsable st s e xml w0 eq_refl H3 H4)
    as (ev & F & Hin & E).
  destruct (CrossBus_main_fetch_fails st _ ev w0 E eq_refl eq_refl)
    as (after & Fa & Hmain).
  rewrite Hmain. exists ((after ++ ev) ++ ev0).
  split; [rewrite !List.filter_app, Fa, F, F0; reflexivity|].
  split.
  - apply in_or_app. left. apply in_or_app. right. exact Hin.
  - unfold w0. rewrite set_trace_app. reflexivity.
Qed.

Lemma CrossBus_target_connection_fails config e s w :
  bus_get w (CrossBus.source_bus_type config) = inl s →
  bus_get w (CrossBus.target_bus_type config) = inr e →
  ∃ events,
    List.filter on_the_wire events = [] ∧
    In (EvPrintErr "Failed to connect to target bus: %s" [PStr (message e)])
       events ∧
    In (EvUnref s) events ∧
    CrossBus.main_startup config w
    = ((Returned (Exit 1), None), set_trace (events ++ trace w) w).
Proof.
  intros H1 H2.
  destruct (CrossBus_main_banner config w) as (ev0 & F0 & E0).
  rewrite E0. clear E0.
  set (sti := CrossBus.mkProxyState None None None (Some ∅) (Some ∅) config).
  set (w1 := set_trace (ev0 ++ trace w) w).
  destruct (CrossBus_target_connection_fails_step sti s e w1 H1 H2)
    as (ev1 & F1 & Hin & E1).
  rewrite run_bind. unfold eval at 1, exec at 1. rewrite E1. cbn [fst snd].
  rewrite run_bind. unfold eval, exec.
  rewrite CrossBus_cleanup_unregistered by reflexivity.
  cbn [fst snd ret CrossBus.target_bus CrossBus.source_bus
       CrossBus.set_target_bus CrossBus.set_source_bus app].
  exists ((EvUnref s :: ev1) ++ ev0).
  split; [rewrite List.filter_app; cbn [List.filter on_the_wire];
          rewrite F1, F0; reflexivity|].
  split; [apply in_or_app; left; right; exact Hin|].
  split; [left; reflexivity|].
  unfold w1. rewrite <- set_trace_app. reflexivity.
Qed.

(** X16.  If the source does not answer the introspection request (the
    call fails with error [e]), start-up stops in every variant: [main]
    returns exit status 1 after reporting [e]'s message on stderr; the
    introspection request is the only thing it has put on a bus, and it
    has registered nothing, subscribed to nothing and not asked for the
    proxy name.  The multi-bus variant releases both connections, the
    cross-bus variant resets its state pointer. *)
Theorem introspection_failure_is_fatal (e : GError) (s : GDBusConnection)
    (w : World) :
  (∀ source_address target_address source_service source_path proxy_service
     t,
     MultiBus.create_connection source_address w = ((Some s, None), w) →
     MultiBus.create_connection target_address w = ((Some t, None), w) →
     answer w s source_service source_path
            "org.freedesktop.DBus.Introspectable" "Introspect" None
     = inr e →
     let (r, w') := MultiBus.main_startup source_address target_address
                      source_service source_path proxy_service w in
     gives_up r w w'
       (EvPrintErr "Introspection failed for %s: %s\n"
                   [PStr source_service; PStr (message e)])
       [introspect_call s source_service source_path (-1)] ∧
     In (EvUnref s) (trace w') ∧ In (EvUnref t) (trace w')) ∧
  (∀ config log_fp,
     bus_get w (if String.eqb (ConfigProxy.bus_type config) "system"
                then G_BUS_TYPE_SYSTEM else G_BUS_TYPE_SESSION) = inl s →
     answer w s (ConfigProxy.source_bus_name config)
            (ConfigProxy.source_object_path config)
            "org.freedesktop.DBus.Introspectable" "Introspect" None
     = inr e →
     let (r, w') := ConfigProxy.main_startup config log_fp w in
     gives_up r w w'
       (EvPrintErr "Introspection failed: %s\n" [PStr (message e)])
       [introspect_call s (ConfigProxy.source_bus_name config)
          (ConfigProxy.source_object_path config)
          (ConfigProxy.timeout_ms config)]) ∧
  (∀ config t,
     bus_get w (CrossBus.source_bus_type config) = inl s →
     bus_get w (CrossBus.target_bus_type config) = inl t →
     answer w s (CrossBus.source_bus_name config)
            (CrossBus.source_object_path config)
            "org.freedesktop.DBus.Introspectable" "Introspect" None
     = inr e →
     let '(r, proxy_state, w') := CrossBus.main_startup config w in
     proxy_state = None ∧
     gives_up r w w'
       (EvPrintErr "Introspection failed: %s" [PStr (message e)])
       [introspect_call s (CrossBus.source_bus_name config)
          (CrossBus.source_object_path config) (-1)]).
Proof.
  split; [|split].
  - intros a b svc path proxy t H1 H2 H3.
    rewrite (MultiBus_introspection_call_fails e s t w a b svc path proxy
               H1 H2 H3).
    split; [|split].
    + apply gives_up_set_trace; [simpl; tauto | reflexivity].
    + simpl; tauto.
    + simpl; tauto.
  - intros config log_fp H1 H3.
    destruct (ConfigProxy_introspection_call_fails config log_fp e s w H1 H3)
      as (events & F & E).
    rewrite E. apply gives_up_set_trace; [simpl; tauto|].
    rewrite List.filter_app, F. reflexivity.
  - intros config t H1 H2 H3.
    destruct (CrossBus_introspection_call_fails config e s t w H1 H2 H3)
      as (events & F & Hin & E).
    rewrite E. split; [reflexivity|].
    apply gives_up_set_trace; assumption.
Qed.

(** X17.  If the source answers the introspection request with a document
    that cannot be parsed (the parser fails with error [e]), start-up stops
    in every variant: [main] returns exit status 1 after reporting [e]'s
    message on stderr, having sent nothing but the introspection request;
    nothing is registered or subscribed and the proxy name is not asked
    for. *)
Theorem unparsable_introspection_is_fatal (e : GError) (s : GDBusConnection)
    (xml : string) (w : World) :
  parse_xml w xml = inr e →
  (∀ source_address target_address source_service source_path proxy_service
     t,
     MultiBus.create_connection source_address w = ((Some s, None), w) →
     MultiBus.create_connection target_address w = ((Some t, None), w) →
     answer w s source_service source_path
            "org.freedesktop.DBus.Introspectable" "Introspect" None
     = inl (GVTuple [GVString xml]) →
     let (r, w') := MultiBus.main_startup source_address target_address
                      source_service source_path proxy_service w in
     gives_up r w w'
       (EvPrintErr "Failed to parse introspection XML: %s\n"
                   [PStr (message e)])
       [introspect_call s source_service source_path (-1)] ∧
     In (EvUnref s) (trace w') ∧ In (EvUnref t) (trace w')) ∧
  (∀ config log_fp,
     bus_get w (if String.eqb (ConfigProxy.bus_type config) "system"
                then G_BUS_TYPE_SYSTEM else G_BUS_TYPE_SESSION) = inl s →
     answer w s (ConfigProxy.source_bus_name config)
            (ConfigProxy.source_object_path config)
            "org.freedesktop.DBus.Introspectable" "Introspect" None
     = inl (GVTuple [GVString xml]) →
     let (r, w') := ConfigProxy.main_startup config log_fp w in
     gives_up r w w'
       (EvPrintErr "Failed to parse introspection XML: %s\n"
                   [PStr (message e)])
       [introspect_call s (ConfigProxy.source_bus_name config)
          (ConfigProxy.source_object_path config)
          (ConfigProxy.timeout_ms config)]) ∧
  (∀ config t,
     bus_get w (CrossBus.source_bus_type config) = inl s →
     bus_get w (CrossBus.target_bus_type config) = inl t →
     answer w s (CrossBus.source_bus_name config)
            (CrossBus.source_object_path config)
            "org.freedesktop.DBus.Introspectable" "Introspect" None
     = inl (GVTuple [GVString xml]) →
     let '(r, proxy_state, w') := CrossBus.main_startup config w in
     proxy_state = None ∧
     gives_up r w w'
       (EvPrintErr "Failed to parse introspection XML: %s"
                   [PStr (message e)])
       [introspect_call s (CrossBus.source_bus_name config)
          (CrossBus.source_object_path config) (-1)]).
Proof.
  intros H4. split; [|split].
  - intros a b svc path proxy t H1 H2 H3.
    rewrite (MultiBus_introspection_unparsable e s t xml w a b svc path
               proxy H1 H2 H3 H4).
    split; [|split].
    + apply gives_up_set_trace; [simpl; tauto | reflexivity].
    + simpl; tauto.
    + simpl; tauto.
  - intros config log_fp H1 H3.
    destruct (ConfigProxy_introspection_unparsable config log_fp e s xml w
                H1 H3 H4) as (events & F & E).
    rewrite E. apply gives_up_set_trace; [simpl; tauto|].
    rewrite List.filter_app, F. reflexivity.
  - intros config t H1 H2 H3.
    destruct (CrossBus_introspection_unparsable config e s t xml w H1 H2 H3
                H4) as (events & F & Hin & E).
    rewrite E. split; [reflexivity|].
    apply gives_up_set_trace; assumption.
Qed.

(** X18.  If the source bus connects but the target bus does not
    (connection error [e]), the multi-bus and the cross-bus start-up stop
    before the introspection request: [main] returns exit status 1 after
    reporting [e]'s message on stderr, releases the source connection it
    had obtained, and has put nothing on any bus. *)
Theorem target_connection_failure_is_fatal (e : GError)
    (s : GDBusConnection) (w : World) :
  (∀ source_address target_address source_service source_path proxy_service,
     MultiBus.create_connection source_address w = ((Some s, None), w) →
     MultiBus.create_connection target_address w = ((None, Some e), w) →
     let (r, w') := MultiBus.main_startup source_address target_address
                      source_service source_path proxy_service w in
     gives_up r w w'
       (EvPrintErr "Failed to connect to target bus (%s): %s\n"
                   [PStr target_address; PStr (message e)]) [] ∧
     In (EvUnref s) (trace w')) ∧
  (∀ config,
     bus_get w (CrossBus.source_bus_type config) = inl s →
     bus_get w (CrossBus.target_bus_type config) = inr e →
     let '(r, proxy_state, w') := CrossBus.main_startup config w in
     proxy_state = None ∧
     gives_up r w w'
       (EvPrintErr "Failed to connect to target bus: %s" [PStr (message e)])
       [] ∧
     In (EvUnref s) (trace w')).
Proof.
  split.
  - intros a b svc path proxy H1 H2.
    rewrite (MultiBus_target_connection_fails e s w a b svc path proxy
               H1 H2).
    split.
    + apply gives_up_set_trace; [simpl; tauto | reflexivity].
    + simpl; tauto.
  - intros config H1 H2.
    destruct (CrossBus_target_connection_fails config e s w H1 H2)
      as (events & F & Hin & Hun & E).
    rewrite E. split; [reflexivity|]. split.
    + apply gives_up_set_trace; assumption.
    + cbn [trace set_trace]. apply in_or_app. left. exact Hun.
Qed.

(** ** Teardown after a setup *)

Lemma is_Some_lookup_install {V : Type} (vs : list V) (n k : nat) :
  is_Some (install n vs (∅ : gmap nat V) !! k)
  ↔ (n ≤ k < n + length vs)%nat.
Proof.
  rewrite lookup_install. case_decide as H.
  - split; [intros _; exact H|]. intros _.
    apply lookup_lt_is_Some. lia.
  - rewrite lookup_empty. split; [intros [x Hx]; discriminate | tauto].
Qed.

(** Deleting the identifiers of a ledger that holds exactly what was
    installed gives back the table as it was. *)
Lemma uninstall_lookup {V L : Type} (vs : list V) (ls : list L) (n k : nat)
    (m : gmap nat V) :
  length ls = length vs →
  (∀ id, (n ≤ id)%nat → m !! id = None) →
  (if decide (is_Some (install n ls (∅ : gmap nat L) !! k)) then None
   else install n vs m !! k)
  = m !! k.
Proof.
  intros Hlen Hfree. case_decide as H.
  - apply is_Some_lookup_install in H. symmetry. apply Hfree. lia.
  - rewrite lookup_install. case_decide as H'; [|reflexivity].
    exfalso. apply H, is_Some_lookup_install. lia.
Qed.

Lemma CrossBus_teardown_restores st t s names labels exports rules w w' :
  CrossBus.target_bus st = Some t →
  CrossBus.source_bus st = Some s →
  CrossBus.registered_objects st
  = Some (install (next_registration_id w) names ∅) →
  CrossBus.signal_subscriptions st
  = Some (install (next_subscriber_id w) labels ∅) →
  length names = length exports →
  length labels = length rules →
  world_wf w →
  registered_on w w' t s exports rules →
  let (p, w'') := CrossBus.cleanup_proxy_state (Some st) w' in
  p = None ∧
  ∀ c, exported (conns w'' c) = exported (conns w c) ∧
       subscriptions (conns w'' c) = subscriptions (conns w c).
Proof.
  intros Ht Hs Hro Hss Hn Hl (_ & _ & Hfe & Hfs) (Re & Rs & _ & _).
  pose proof (CrossBus_cleanup_view st t s _ _ w' Ht Hs Hro Hss) as Hview.
  destruct (CrossBus.cleanup_proxy_state (Some st) w') as [p w''].
  destruct Hview as (Hp & He & Hsu).
  split; [exact Hp|]. intros c. split.
  - apply map_eq. intros k. rewrite He, Re.
    destruct (decide (c = t)) as [->|Hc].
    + rewrite <- (uninstall_lookup exports names (next_registration_id w) k
                    (exported (conns w t)) Hn (Hfe t)).
      repeat case_decide; try reflexivity; tauto.
    + rewrite decide_False by tauto. reflexivity.
  - apply map_eq. intros k. rewrite Hsu, Rs.
    destruct (decide (c = s)) as [->|Hc].
    + rewrite <- (uninstall_lookup rules labels (next_subscriber_id w) k
                    (subscriptions (conns w s)) Hl (Hfs s)).
      repeat case_decide; try reflexivity; tauto.
    + rewrite decide_False by tauto. reflexivity.
Qed.

(** X19.  In the cross-bus variant teardown undoes setup.  Starting from
    an empty ledger and fresh identifiers, [setup_proxy_interfaces] returns
    (with success, or with failure at the first interface that cannot be
    registered), and [cleanup_proxy_state] on the state it leaves then
    removes exactly what the setup had registered and subscribed: on
    every connection the exported objects and the signal subscriptions are
    again what they were before the setup, and the state pointer is
    reset. *)
Theorem crossbus_teardown_undoes_setup (st : CrossBus.ProxyState)
    (interfaces : list GDBusInterfaceInfo) (s t : GDBusConnection)
    (w : World) :
  CrossBus.source_bus st = Some s →
  CrossBus.target_bus st = Some t →
  CrossBus.introspection_data st = Some (mkNodeInfo (Some interfaces)) →
  CrossBus.registered_objects st = Some ∅ →
  CrossBus.signal_subscriptions st = Some ∅ →
  world_wf w →
  ∃ ok st' w',
    CrossBus.setup_proxy_interfaces st w = (Returned (ok, st'), w') ∧
    let (p, w'') := CrossBus.cleanup_proxy_state (Some st') w' in
    p = None ∧
    ∀ c, exported (conns w'' c) = exported (conns w c) ∧
         subscriptions (conns w'' c) = subscriptions (conns w c).
Proof.
  intros Hs Ht Hdata Hro Hss Hwf.
  destruct (CrossBus_setup_proxy_interfaces interfaces st w s t Hs Ht
              (proj1 Hwf) Hdata) as (ok & st' & w' & Hrun & Hres).
  exists ok, st', w'. split; [exact Hrun|].
  cbv zeta in Hres. rewrite Hro, Hss in Hres.
  destruct ok.
  - destruct Hres as (R & ->).
    eapply (CrossBus_teardown_restores _ t s); try exact R; try exact Hwf.
    + exact Ht.
    + exact Hs.
    + reflexivity.
    + reflexivity.
    + unfold exports_of. rewrite !length_fmap. reflexivity.
    + rewrite !length_app. cbn [length].
      rewrite bind_rules_labels_length. reflexivity.
  - destruct Hres as (registered & bad & rest & _ & _ & R & ->).
    eapply (CrossBus_teardown_restores _ t s); try exact R; try exact Hwf.
    + exact Ht.
    + exact Hs.
    + reflexivity.
    + reflexivity.
    + unfold exports_of. rewrite !length_fmap. reflexivity.
    + rewrite bind_rules_labels_length. reflexivity.
Qed.

(** ** Multi-bus: what a start-up leaves in the context, and what
    teardown does with it *)

(** The registration loop over interfaces that all register: the context
    ends up with the identifier of the last registration (or the one it
    had, if there was no interface) and with every subscription
    identifier. *)
Lemma MultiBus_register_all interfaces ctx w s t :
  MultiBus.source_bus ctx = Some s →
  MultiBus.target_bus ctx = Some t →
  world_wf w →
  all_fresh (conns w t) (MultiBus.source_object_path ctx) interfaces →
  let sender := MultiBus.source_bus_name ctx in
  let path := MultiBus.source_object_path ctx in
  ∃ ctx' w',
    MultiBus.register_interfaces ctx SlotNull interfaces w
    = (Returned ctx', w') ∧
    registered_on w w' t s (exports_of path interfaces)
      (interfaces ≫= signal_rules sender path) ∧
    trace w' = trace w ∧
    MultiBus.source_bus ctx' = Some s ∧
    MultiBus.target_bus ctx' = Some t ∧
    MultiBus.proxy_bus_name ctx' = MultiBus.proxy_bus_name ctx ∧
    MultiBus.signal_subscriptions ctx'
    = rev (seq (next_subscriber_id w)
               (length (interfaces ≫= signal_rules sender path)))
      ++ MultiBus.signal_subscriptions ctx ∧
    MultiBus.registration_id ctx'
    = match interfaces with
      | [] => MultiBus.registration_id ctx
      | _ :: _ => (next_registration_id w + length interfaces - 1)%nat
      end.
Proof.
  intros Hs Ht Hwf Hfresh sender path.
  destruct interfaces as [|first others].
  { exists ctx, w. split; [reflexivity|].
    split; [apply registered_on_refl|]. repeat split; assumption. }
  destruct (exists_last (l := first :: others)) as (pre & last & Hsplit);
    [discriminate|].
  rewrite Hsplit in *. clear first others Hsplit.
  assert (Hfresh_pre : all_fresh (conns w t) path pre).
  { destruct Hfresh as [Hnd Hnone]. split.
    - rewrite fmap_app in Hnd. apply NoDup_app in Hnd. tauto.
    - intros i Hi. apply Hnone, elem_of_app. left. exact Hi. }
  destruct (MultiBus_register_fresh pre [last] ctx w s t Hs Ht Hwf
              Hfresh_pre)
    as (rid & w1 & Hrun & R1 & T1 & Hwf1 & _ & Hout1).
  cbv zeta in Hrun. fold sender path in Hrun, R1, Hout1.
  set (ctx1 := MultiBus.set_signal_subscriptions _ _) in Hrun.
  rewrite Hrun.
  assert (Hf1 : exported_at (conns w1 t) path (iface_name last) = false).
  { destruct Hfresh as [Hnd Hnone]. rewrite Hout1.
    - apply Hnone, elem_of_app. right. apply list_elem_of_singleton.
      reflexivity.
    - rewrite fmap_app in Hnd. apply NoDup_app in Hnd as (_ & Hdisj & _).
      intros Hin. apply (Hdisj _ Hin). simpl.
      apply list_elem_of_singleton. reflexivity. }
  destruct (register_object_fresh w1 t s path last Hf1)
    as (w2 & He & R2 & T2).
  rewrite MultiBus_register_interfaces_cons.
  change (MultiBus.target_bus ctx1) with (MultiBus.target_bus ctx).
  change (MultiBus.source_object_path ctx1) with path.
  rewrite Ht, He.
  set (ctxa := MultiBus.set_registration_id (next_registration_id w1) ctx1).
  assert (Hid : (MultiBus.registration_id ctxa =? 0)%nat = false).
  { apply Nat.eqb_neq. unfold ctxa; simpl. destruct Hwf1 as [H1 _]. lia. }
  cbv zeta. rewrite Hid. rewrite run_bind.
  assert (Hsa : MultiBus.source_bus ctxa = Some s) by exact Hs.
  pose proof (MultiBus_subscribe_interface last ctxa w2 s t Hsa) as H3.
  unfold eval at 1, exec at 1.
  destruct (match iface_signals last with
            | Some signals => MultiBus.subscribe_signals ctxa last signals
            | None => ret ctxa
            end w2) as [ctxb w3].
  destruct H3 as (R3 & T3 & Hctxb). cbn [fst snd].
  change (MultiBus.source_bus_name ctxa) with sender in R3, Hctxb.
  change (MultiBus.source_object_path ctxa) with path in R3, Hctxb.
  exists ctxb, w3. split; [reflexivity|].
  pose proof (registered_on_trans _ _ _ t s _ _ _ _ R1 R2) as R12.
  pose proof (registered_on_trans _ _ _ t s _ _ _ _ R12 R3) as R13.
  assert (Hrules : (pre ++ [last]) ≫= signal_rules sender path
                   = (pre ≫= signal_rules sender path)
                     ++ signal_rules sender path last).
  { rewrite bind_app. f_equal. simpl. apply app_nil_r. }
  split.
  { unfold exports_of. rewrite fmap_app, Hrules.
    rewrite !app_nil_r in R13. exact R13. }
  split; [rewrite T3, T2, T1; reflexivity|].
  split; [rewrite Hctxb; exact Hs|].
  split; [rewrite Hctxb; exact Ht|].
  split; [rewrite Hctxb; reflexivity|].
  split.
  - rewrite Hctxb, Hrules, length_app, seq_app, rev_app_distr.
    destruct R1 as (_ & _ & _ & N1). destruct R2 as (_ & _ & _ & N2).
    rewrite N2, N1. simpl length. rewrite Nat.add_0_r.
    unfold ctxa, ctx1. simpl. rewrite <- app_assoc. reflexivity.
  - rewrite Hctxb. unfold ctxa. simpl.
    destruct R1 as (_ & _ & N1 & _). rewrite N1.
    unfold exports_of. rewrite length_fmap, length_app. simpl.
    destruct pre; simpl; lia.
Qed.

Lemma MultiBus_startup_context
    source_address target_address source_service source_path proxy_service
    s t xml interfaces w :
  MultiBus.create_connection source_address w = ((Some s, None), w) →
  MultiBus.create_connection target_address w = ((Some t, None), w) →
  answer w s source_service source_path
         "org.freedesktop.DBus.Introspectable" "Introspect" None
  = inl (GVTuple [GVString xml]) →
  parse_xml w xml = inl (mkNodeInfo (Some interfaces)) →
  world_wf w →
  all_fresh (conns w t) source_path interfaces →
  ∃ ctx w',
    MultiBus.main_startup source_address target_address source_service
                          source_path proxy_service w
    = (Returned (MainLoop [ctx]), w') ∧
    registered_on w w' t s (exports_of source_path interfaces)
      (interfaces ≫= signal_rules source_service source_path) ∧
    wire w'
    = EvOwnName (Some t) proxy_service
      :: introspect_call s source_service source_path (-1) :: wire w ∧
    MultiBus.source_bus ctx = Some s ∧
    MultiBus.target_bus ctx = Some t ∧
    MultiBus.signal_subscriptions ctx
    = rev (seq (next_subscriber_id w)
               (length (interfaces
                        ≫= signal_rules source_service source_path))) ∧
    MultiBus.registration_id ctx
    = match interfaces with
      | [] => 0%nat
      | _ :: _ => (next_registration_id w + length interfaces - 1)%nat
      end.
Proof.
  intros H1 H2 H3 H4 Hwf Hfresh.
  unfold MultiBus.main_startup, and_then. unfold bind at 1.
  rewrite (MultiBus_setup_proxy_introspected _ _ _ _ _ s t xml _ w
             H1 H2 H3 H4).
  cbn [node_interfaces].
  set (ctx0 := MultiBus.mkProxyContext _ _ _ _ _ _ _ _).
  set (w0 := set_trace _ w).
  assert (R0 : registered_on w w0 t s [] [])
    by (apply (registered_on_silent (emit _)), silent_emit).
  destruct (MultiBus_register_all interfaces ctx0 w0 s t eq_refl eq_refl
              Hwf Hfresh)
    as (ctx1 & w1 & Hrun & R1 & T1 & Hs1 & Ht1 & Hp1 & Hsub1 & Hid1).
  cbv zeta in R1, Hsub1.
  unfold and_then. unfold bind at 1. rewrite Hrun.
  cbv beta iota. rewrite Ht1, Hp1.
  change (MultiBus.proxy_bus_name ctx0) with proxy_service.
  rewrite !run_bind.
  set (w3 := exec (g_bus_own_name_on_connection (Some t) proxy_service) w1).
  assert (R3 : registered_on w1 w3 t s [] [])
    by apply registered_on_own_name.
  cbn [eval exec fst snd ret].
  change (exec (g_dbus_connection_get_unique_name (Some t)) w3) with w3.
  set (w4 := exec (g_print "Proxy setup: %s (%s) -> %s (%s) as %s\n" _) w3).
  rewrite run_bind. cbn [eval fst].
  set (w5 := exec (g_print _ _) w4).
  assert (R4 : registered_on w3 w5 t s [] []).
  { apply (registered_on_trans w3 w4 w5 t s [] [] [] []);
      apply (registered_on_silent (emit _)), silent_emit. }
  exists ctx1, w5. split; [reflexivity|]. split.
  { pose proof (registered_on_trans _ _ _ t s _ _ _ _ R0 R1) as R01.
    pose proof (registered_on_trans _ _ _ t s _ _ _ _ R01 R3) as R03.
    pose proof (registered_on_trans _ _ _ t s _ _ _ _ R03 R4) as R04.
    rewrite !app_nil_r in R04. exact R04. }
  split.
  { unfold w5, w4, w3, wire, exec, g_print, emit,
      g_bus_own_name_on_connection.
    cbn [snd trace set_trace set_next_owner_id List.filter on_the_wire].
    rewrite T1. reflexivity. }
  split; [exact Hs1|]. split; [exact Ht1|]. split.
  - rewrite Hsub1. apply app_nil_r.
  - rewrite Hid1. reflexivity.
Qed.

Lemma unsubscribe_ids_view s (ids : list nat) w :
  let w' := exec (for_each ids
                    (g_dbus_connection_signal_unsubscribe (Some s))) w in
  (∀ c k, subscriptions (conns w' c) !! k
          = if decide (c = s ∧ k ∈ ids) then None
            else subscriptions (conns w c) !! k) ∧
  (∀ c, exported (conns w' c) = exported (conns w c)).
Proof.
  revert w. induction ids as [|id rest IH]; intros w.
  - simpl. split; [|reflexivity]. intros c k.
    rewrite decide_False; [reflexivity|]. intros [_ H].
    apply elem_of_nil in H. exact H.
  - rewrite exec_for_each_cons.
    destruct (unsubscribe_view s id w) as (S1 & E1 & _).
    set (w1 := exec (g_dbus_connection_signal_unsubscribe (Some s) id) w)
      in *.
    destruct (IH w1) as (S2 & E2). cbv zeta. split.
    + intros c k. rewrite S2, S1.
      destruct (decide (c = s)) as [->|Hc].
      * destruct (decide (k = id)) as [->|Hk].
        -- rewrite lookup_delete_eq.
           rewrite (decide_True (P := s = s ∧ id ∈ id :: rest))
             by (split; [reflexivity | apply elem_of_cons; auto]).
           case_decide; reflexivity.
        -- rewrite lookup_delete_ne by congruence.
           repeat case_decide; try reflexivity.
           ++ exfalso. apply H0. split; [reflexivity|].
              apply elem_of_cons. right. tauto.
           ++ exfalso. apply H. split; [reflexivity|].
              destruct H0 as [_ H0]. apply elem_of_cons in H0 as [?|?];
                [contradiction | assumption].
      * rewrite !decide_False by tauto. reflexivity.
    + intros c. rewrite E2, E1. reflexivity.
Qed.

(** What the multi-bus [cleanup_proxy] does to the buses: it removes every
    subscription whose identifier is in the context's list, and the one
    registration whose identifier is in [registration_id]. *)
Lemma MultiBus_cleanup_view ctx s t w :
  MultiBus.source_bus ctx = Some s →
  MultiBus.target_bus ctx = Some t →
  let w' := exec (MultiBus.cleanup_proxy (MultiBus.CtxLive ctx)) w in
  (∀ c k, subscriptions (conns w' c) !! k
          = if decide (c = s ∧ k ∈ MultiBus.signal_subscriptions ctx)
            then None
            else subscriptions (conns w c) !! k) ∧
  (∀ c, exported (conns w' c)
        = if decide (c = t ∧ (0 < MultiBus.registration_id ctx)%nat)
          then delete (MultiBus.registration_id ctx) (exported (conns w t))
          else exported (conns w c)) ∧
  wire w' = wire w.
Proof.
  intros Hs Ht. unfold MultiBus.cleanup_proxy. rewrite Hs, Ht.
  cbn [non_null]. cbv zeta.
  rewrite exec_bind.
  destruct (unsubscribe_ids_view s (MultiBus.signal_subscriptions ctx) w)
    as (S1 & E1).
  assert (W1 : wire (exec (for_each (MultiBus.signal_subscriptions ctx)
                             (g_dbus_connection_signal_unsubscribe
                                (Some s))) w) = wire w).
  { apply offline_for_each. intros id. apply offline_unsubscribe. }
  set (w1 := exec (for_each _ _) w) in *.
  rewrite exec_bind.
  set (w2 := exec (if (0 <? MultiBus.registration_id ctx)%nat then _
                   else ret tt) w1).
  assert (H2 : (∀ c, subscriptions (conns w2 c) = subscriptions (conns w1 c))
               ∧ (∀ c, exported (conns w2 c)
                       = if decide (c = t
                                    ∧ (0 < MultiBus.registration_id ctx)%nat)
                         then delete (MultiBus.registration_id ctx)
                                (exported (conns w1 t))
                         else exported (conns w1 c))
               ∧ wire w2 = wire w1).
  { unfold w2. destruct (0 <? MultiBus.registration_id ctx)%nat eqn:Hpos.
    - apply Nat.ltb_lt in Hpos. rewrite exec_bind_ret_tt.
      destruct (unregister_view t (MultiBus.registration_id ctx) w1)
        as (E & S & T).
      split; [exact S|]. split; [|unfold wire; rewrite T; reflexivity].
      intros c. rewrite E.
      repeat case_decide; try reflexivity; tauto.
    - apply Nat.ltb_ge in Hpos.
      split; [reflexivity|]. split; [|reflexivity].
      intros c. rewrite decide_False by lia. reflexivity. }
  destruct H2 as (S2 & E2 & W2).
  cbv beta.
  assert (Hc : conns (exec (g_object_unref (Some s) ;;
                            g_object_unref (Some t) ;;
                            ret (Returned MultiBus.CtxFreed))%io w2)
               = conns w2) by reflexivity.
  assert (Hoff : offline (g_object_unref (Some s) ;;
                          g_object_unref (Some t) ;;
                          ret (Returned MultiBus.CtxFreed))%io).
  { apply offline_bind; [apply offline_g_object_unref|]. intros _.
    apply offline_bind; [apply offline_g_object_unref|]. intros _.
    apply offline_ret. }
  specialize (Hoff w2).
  rewrite Hc, Hoff. split; [|split].
  - intros c k. rewrite S2. apply S1.
  - intros c. rewrite E2, !E1. reflexivity.
  - rewrite W2. exact W1.
Qed.

Lemma delete_last_installed {V : Type} (vs : list V) (v : V) (n : nat)
    (m : gmap nat V) :
  (∀ id, (n ≤ id)%nat → m !! id = None) →
  delete (n + length (vs ++ [v]) - 1)%nat (install n (vs ++ [v]) m)
  = install n vs m.
Proof.
  intros Hfree. rewrite install_app, length_app. simpl.
  replace (n + (length vs + 1) - 1)%nat with (n + length vs)%nat by lia.
  apply delete_insert_id.
  rewrite lookup_install. rewrite decide_False by lia.
  apply Hfree. lia.
Qed.

Lemma elem_of_rev_seq (k n len : nat) :
  k ∈ rev (seq n len) ↔ (n ≤ k < n + len)%nat.
Proof.
  rewrite list_elem_of_In, <- in_rev, <- list_elem_of_In.
  apply elem_of_seq.
Qed.

(** X20.  Multi-bus start-up followed by the teardown at exit.  When
    every introspected interface registers, [main] reaches the main loop
    having put on the buses the introspection request and then one request
    for the proxy name; the teardown then returns status 0, puts nothing on a bus, and removes
    every signal subscription the start-up made, so that each connection's
    subscriptions are what they were before.  Of the registrations it
    removes the last one only: the objects exported for all interfaces but
    the last stay on the target connection. *)
Theorem multibus_shutdown_after_startup
    (source_address target_address source_service source_path
     proxy_service xml : string) (s t : GDBusConnection)
    (interfaces : list GDBusInterfaceInfo) (w : World) :
  MultiBus.create_connection source_address w = ((Some s, None), w) →
  MultiBus.create_connection target_address w = ((Some t, None), w) →
  answer w s source_service source_path
         "org.freedesktop.DBus.Introspectable" "Introspect" None
  = inl (GVTuple [GVString xml]) →
  parse_xml w xml = inl (mkNodeInfo (Some interfaces)) →
  world_wf w →
  all_fresh (conns w t) source_path interfaces →
  ∃ ctx w',
    MultiBus.main_startup source_address target_address source_service
                          source_path proxy_service w
    = (Returned (MainLoop [ctx]), w') ∧
    wire w'
    = EvOwnName (Some t) proxy_service
      :: introspect_call s source_service source_path (-1) :: wire w ∧
    let (status, w'') := MultiBus.main_shutdown [ctx] w' in
    status = 0 ∧
    wire w'' = wire w' ∧
    (∀ c, subscriptions (conns w'' c) = subscriptions (conns w c)) ∧
    (∀ c, exported (conns w'' c)
          = if decide (c = t)
            then install (next_registration_id w)
                   (exports_of source_path (removelast interfaces))
                   (exported (conns w t))
            else exported (conns w c)).
Proof.
  intros H1 H2 H3 H4 Hwf Hfresh.
  destruct (MultiBus_startup_context source_address target_address
              source_service source_path proxy_service s t xml interfaces w
              H1 H2 H3 H4 Hwf Hfresh)
    as (ctx & w' & Hrun & R & Hwire & Hs & Ht & Hsub & Hid).
  exists ctx, w'. split; [exact Hrun|]. split; [exact Hwire|].
  destruct (MultiBus_cleanup_view ctx s t w' Hs Ht) as (Sv & Ev & Wv).
  unfold MultiBus.main_shutdown. rewrite run_bind. cbn [ret].
  rewrite exec_for_each_cons, exec_bind_ret_tt.
  change (exec (for_each [] _) ?x) with x.
  split; [reflexivity|]. split; [exact Wv|].
  destruct Hwf as (Hn1 & _ & Hfe & Hfs).
  destruct R as (Re & Rs & _ & _).
  split.
  - intros c. apply map_eq. intros k. rewrite Sv, Rs, Hsub.
    destruct (decide (c = s)) as [->|Hc].
    + rewrite lookup_install.
      destruct (decide (next_subscriber_id w ≤ k
                        < next_subscriber_id w
                          + length (interfaces
                                    ≫= signal_rules source_service
                                         source_path))%nat) as [Hin|Hout].
      * rewrite decide_True.
        -- symmetry. apply Hfs. lia.
        -- split; [reflexivity|]. apply elem_of_rev_seq. lia.
      * rewrite decide_False; [reflexivity|].
        intros [_ Hk]. apply elem_of_rev_seq in Hk. lia.
    + rewrite decide_False by tauto. reflexivity.
  - intros c. rewrite Ev, !Re.
    destruct (decide (c = t)) as [->|Hc];
      [|rewrite decide_False by tauto; reflexivity].
    rewrite !(decide_True (P := t = t)) by reflexivity.
    destruct interfaces as [|first others].
    + rewrite decide_False by (rewrite Hid; lia). reflexivity.
    + destruct (exists_last (l := first :: others)) as (pre & last & Hsplit);
        [discriminate|].
      rewrite Hsplit in *. clear first others Hsplit.
      assert (Hid' : MultiBus.registration_id ctx
                     = (next_registration_id w + length (pre ++ [last]) - 1)
                         %nat)
        by (rewrite Hid; destruct pre; reflexivity).
      rewrite decide_True
        by (split; [reflexivity|]; rewrite Hid', length_app; simpl; lia).
      rewrite removelast_last, Hid'. unfold exports_of.
      rewrite fmap_app. simpl.
      replace (length (pre ++ [last]))
        with (length (((λ iface, (source_path, iface_name iface)) <$> pre)
                      ++ [(source_path, iface_name last)]))
        by (rewrite !length_app, length_fmap; reflexivity).
      apply delete_last_installed, Hfe.
Qed.

(** ** Cross-bus: a start-up that succeeds, and the teardown after it *)

Lemma keeps_naming_ret {A : Type} (a : A) : keeps_naming (ret a).
Proof. intros w; split; reflexivity. Qed.

Lemma keeps_naming_bind {A B : Type} (m : M A) (k : A → M B) :
  keeps_naming m → (∀ a, keeps_naming (k a)) → keeps_naming (bind m k).
Proof.
  intros Hm Hk w. rewrite exec_bind.
  destruct (Hk (eval m w) (exec m w)) as [-> ->]. apply Hm.
Qed.

Lemma keeps_naming_silent {A : Type} (m : M A) :
  silent m → keeps_naming m.
Proof.
  intros H w. specialize (H w). unfold bus_state in H.
  injection H as _ _ _ Ho _ Hb _ _ _. split; [exact Ho | exact Hb].
Qed.

Lemma keeps_naming_register conn path iface error :
  keeps_naming (g_dbus_connection_register_object conn path iface error).
Proof.
  intros w. unfold exec, g_dbus_connection_register_object.
  destruct conn as [c|], error; try (split; reflexivity).
  destruct (exported_at _ _ _); split; reflexivity.
Qed.

Lemma keeps_naming_subscribe conn sender iface member path cb :
  keeps_naming (g_dbus_connection_signal_subscribe conn sender iface member
                    path cb).
Proof. intros w. destruct conn; split; reflexivity. Qed.

Lemma keeps_naming_slot_free error : keeps_naming (slot_free error).
Proof. intros w. destruct error; split; reflexivity. Qed.

Lemma keeps_naming_subscribe_signals st iface signals :
  keeps_naming (CrossBus.subscribe_signals st iface signals).
Proof.
  revert st. induction signals as [|sig rest IH]; intros st; simpl.
  - apply keeps_naming_ret.
  - apply keeps_naming_bind;
      [apply keeps_naming_silent, silent_log_verbose|]. intros _.
    apply keeps_naming_bind; [apply keeps_naming_subscribe|].
    intros id. apply IH.
Qed.

Lemma keeps_naming_register_interfaces st interfaces :
  keeps_naming (CrossBus.register_interfaces st interfaces).
Proof.
  revert st. induction interfaces as [|iface rest IH]; intros st; simpl.
  - apply keeps_naming_ret.
  - apply keeps_naming_bind;
      [apply keeps_naming_silent, silent_log_info|]. intros _.
    apply keeps_naming_bind; [apply keeps_naming_register|].
    intros [id error]. destruct (id =? 0)%nat.
    + unfold with_slot_message. destruct (slot_message error);
        [|apply keeps_naming_ret].
      apply keeps_naming_bind;
        [apply keeps_naming_silent, silent_log_error|]. intros _.
      unfold and_then. apply keeps_naming_bind;
        [apply keeps_naming_slot_free|].
      intros [?|?]; apply keeps_naming_ret.
    + apply keeps_naming_bind; [|intros st'; apply IH].
      destruct (iface_signals iface);
        [apply keeps_naming_subscribe_signals | apply keeps_naming_ret].
Qed.

Lemma offline_CrossBus_register_interfaces st interfaces :
  offline (CrossBus.register_interfaces st interfaces).
Proof.
  revert st. induction interfaces as [|iface rest IH]; intros st; simpl.
  - apply offline_ret.
  - apply offline_bind; [apply offline_log_info|]. intros _.
    apply offline_bind; [apply offline_register|].
    intros [id error]. destruct (id =? 0)%nat.
    + unfold with_slot_message. destruct (slot_message error);
        [|apply offline_ret].
      apply offline_bind; [apply offline_log_error|]. intros _.
      unfold and_then. apply offline_bind; [apply offline_slot_free|].
      intros [?|?]; apply offline_ret.
    + apply offline_bind; [|intros st'; apply IH].
      destruct (iface_signals iface);
        [apply offline_CrossBus_subscribe_signals | apply offline_ret].
Qed.

Lemma CrossBus_setup_keeps_wire_and_naming st :
  offline (CrossBus.setup_proxy_interfaces st) ∧
  keeps_naming (CrossBus.setup_proxy_interfaces st).
Proof.
  unfold CrossBus.setup_proxy_interfaces.
  destruct (CrossBus.introspection_data st) as [data|];
    [|split; [apply offline_ret | apply keeps_naming_ret]].
  destruct (node_interfaces data) as [interfaces|].
  - unfold and_then. split.
    + apply offline_bind; [apply offline_CrossBus_register_interfaces|].
      intros [[[] st']|?]; cbn [negb]; try apply offline_ret.
      apply offline_bind; [apply offline_subscribe|]. intros id.
      apply offline_bind; [apply offline_log_info|]. intros _.
      apply offline_ret.
    + apply keeps_naming_bind;
        [apply keeps_naming_register_interfaces|].
      intros [[[] st']|?]; cbn [negb]; try apply keeps_naming_ret.
      apply keeps_naming_bind; [apply keeps_naming_subscribe|].
      intros id.
      apply keeps_naming_bind;
        [apply keeps_naming_silent, silent_log_info|]. intros _.
      apply keeps_naming_ret.
  - split.
    + apply offline_bind; [apply offline_log_error|]. intros _.
      apply offline_ret.
    + apply keeps_naming_bind;
        [apply keeps_naming_silent, silent_log_error|]. intros _.
      apply keeps_naming_ret.
Qed.

(** [setup_proxy_interfaces] on interfaces that all register. *)
Lemma CrossBus_setup_fresh interfaces st w s t :
  CrossBus.source_bus st = Some s →
  CrossBus.target_bus st = Some t →
  CrossBus.introspection_data st = Some (mkNodeInfo (Some interfaces)) →
  world_wf w →
  all_fresh (conns w t) (CrossBus.source_object_path (CrossBus.config st))
            interfaces →
  let sender := CrossBus.source_bus_name (CrossBus.config st) in
  let path := CrossBus.source_object_path (CrossBus.config st) in
  ∃ st' w',
    CrossBus.setup_proxy_interfaces st w = (Returned (true, st'), w') ∧
    registered_on w w' t s (exports_of path interfaces)
      ((interfaces ≫= signal_rules sender path)
       ++ [properties_changed_rule sender path CbOnPropertiesChanged]) ∧
    st' = CrossBus.set_signal_subscriptions
            (install (next_subscriber_id w)
               ((interfaces ≫= signal_labels)
                ++ ["org.freedesktop.DBus.Properties.PropertiesChanged"])
               <$> CrossBus.signal_subscriptions st)
            (CrossBus.set_registered_objects
               (install (next_registration_id w)
                  (iface_name <$> interfaces)
                  <$> CrossBus.registered_objects st) st) ∧
    wire w' = wire w ∧
    next_owner_id w' = next_owner_id w.
Proof.
  intros Hs Ht Hdata Hwf Hfresh sender path.
  destruct (CrossBus_setup_proxy_interfaces interfaces st w s t Hs Ht
              (proj1 Hwf) Hdata) as (ok & st' & w' & Hrun & Hres).
  destruct (CrossBus_setup_keeps_wire_and_naming st) as [Hoff Hown].
  specialize (Hoff w). destruct (Hown w) as [Hown' _]. clear Hown.
  rename Hown' into Hown.
  unfold exec in Hoff, Hown. rewrite Hrun in Hoff, Hown.
  cbn [snd] in Hoff, Hown.
  assert (ok = true) as ->.
  { destruct (CrossBus_register_fresh interfaces [] st w s t Hs Ht Hwf
                Hfresh) as (w1 & Hreg & _).
    cbv zeta in Hreg. rewrite app_nil_r in Hreg.
    revert Hrun. unfold CrossBus.setup_proxy_interfaces.
    rewrite Hdata. cbn [node_interfaces].
    unfold and_then. rewrite run_bind. unfold eval at 1, exec at 1.
    rewrite Hreg. cbn [CrossBus.register_interfaces ret fst snd negb].
    rewrite !run_bind. cbn [ret]. intros [= <- _ _]. reflexivity. }
  exists st', w'. cbv zeta in Hres. destruct Hres as (R & Hst).
  split; [exact Hrun|]. split; [exact R|]. split; [exact Hst|].
  split; [exact Hoff | exact Hown].
Qed.

Lemma CrossBus_acquire_bus_name st t w :
  CrossBus.target_bus st = Some t →
  (1 ≤ next_owner_id w)%nat →
  ∃ events,
    List.filter on_the_wire events
    = [EvOwnName (Some t) (CrossBus.proxy_bus_name (CrossBus.config st))] ∧
    CrossBus.acquire_bus_name st w
    = (true, set_next_owner_id (S (next_owner_id w))
               (set_trace (events ++ trace w) w)).
Proof.
  intros Ht Hown. unfold CrossBus.acquire_bus_name. rewrite Ht.
  assert (E : (next_owner_id w =? 0)%nat = false)
    by (apply Nat.eqb_neq; lia).
  refine (ex_intro _ [_; _; _; _; _; _; _] _).
  unfold bind, CrossBus.log_info, CrossBus.log_error, g_print, emit,
    g_bus_own_name_on_connection.
  simpl. rewrite E. simpl. split; cycle 1; reflexivity.
Qed.

(** The cross-bus [main] on a source whose interfaces all register: it
    reaches the main loop, having sent the introspection request and then
    the name request, with every identifier in its ledgers. *)
Lemma CrossBus_startup_succeeds config s t xml interfaces w :
  bus_get w (CrossBus.source_bus_type config) = inl s →
  bus_get w (CrossBus.target_bus_type config) = inl t →
  answer w s (CrossBus.source_bus_name config)
         (CrossBus.source_object_path config)
         "org.freedesktop.DBus.Introspectable" "Introspect" None
  = inl (GVTuple [GVString xml]) →
  parse_xml w xml = inl (mkNodeInfo (Some interfaces)) →
  world_wf w →
  (1 ≤ next_owner_id w)%nat →
  all_fresh (conns w t) (CrossBus.source_object_path config) interfaces →
  let sender := CrossBus.source_bus_name config in
  let path := CrossBus.source_object_path config in
  let st :=
    CrossBus.mkProxyState (Some s) (Some t)
      (Some (mkNodeInfo (Some interfaces)))
      (Some (install (next_registration_id w) (iface_name <$> interfaces)
               ∅))
      (Some (install (next_subscriber_id w)
               ((interfaces ≫= signal_labels)
                ++ ["org.freedesktop.DBus.Properties.PropertiesChanged"])
               ∅))
      config in
  ∃ w',
    CrossBus.main_startup config w = ((Returned (MainLoop st), Some st), w') ∧
    registered_on w w' t s (exports_of path interfaces)
      ((interfaces ≫= signal_rules sender path)
       ++ [properties_changed_rule sender path CbOnPropertiesChanged]) ∧
    wire w'
    = EvOwnName (Some t) (CrossBus.proxy_bus_name config)
      :: introspect_call s sender path (-1) :: wire w.
Proof.
  intros H1 H2 H3 H4 Hwf Hown Hfresh sender path st.
  destruct (CrossBus_main_introspected config s t xml _ w H1 H2 H3 H4)
    as (events & Hev & Hmain).
  rewrite Hmain. clear Hmain.
  set (st0 := CrossBus.mkProxyState _ _ _ _ _ config).
  set (w0 := set_trace (events ++ trace w) w).
  assert (W0 : wire w0 = introspect_call s sender path (-1) :: wire w).
  { unfold w0. rewrite wire_set_trace, Hev. reflexivity. }
  destruct (CrossBus_setup_fresh interfaces st0 w0 s t eq_refl eq_refl
              eq_refl Hwf Hfresh)
    as (st' & w1 & Hsetup & R1 & Hst & W1 & O1).
  cbv zeta in R1, Hst.
  change (st' = st) in Hst. subst st'.
  unfold CrossBus.main_from_setup. rewrite run_bind.
  unfold eval at 1, exec at 1. rewrite Hsetup. cbn [fst snd].
  destruct (CrossBus_acquire_bus_name st t w1 eq_refl) as (ev2 & F2 & E2);
    [rewrite O1; exact Hown|].
  rewrite run_bind. unfold eval at 1, exec at 1. rewrite E2.
  cbn [fst snd negb]. rewrite !run_bind. cbn [ret].
  eexists. split; [reflexivity|]. split.
  - destruct R1 as (Re & Rs & Nr & Ns).
    split; [exact Re|]. split; [exact Rs|]. split; [exact Nr | exact Ns].
  - unfold wire, exec, CrossBus.log_info, bind, g_print, emit.
    cbn [snd trace set_trace set_next_owner_id List.filter on_the_wire].
    rewrite List.filter_app, F2. fold (wire w1). rewrite W1, W0.
    reflexivity.
Qed.

(** X21.  Cross-bus start-up followed by the teardown at exit.  When both
    buses connect, the source's introspection parses and every interface
    registers, [main] reaches the main loop having put on the buses the
    introspection request and then one request for the proxy name.  The teardown, whether
    reached by the return of the main loop or by the signal handler, then
    gives status 0, resets the state pointer, puts nothing on a bus and
    leaves every connection's exported objects and signal subscriptions as
    they were before the start-up. *)
Theorem crossbus_shutdown_after_startup (config : CrossBus.ProxyConfig)
    (xml : string) (s t : GDBusConnection)
    (interfaces : list GDBusInterfaceInfo) (w : World) :
  bus_get w (CrossBus.source_bus_type config) = inl s →
  bus_get w (CrossBus.target_bus_type config) = inl t →
  answer w s (CrossBus.source_bus_name config)
         (CrossBus.source_object_path config)
         "org.freedesktop.DBus.Introspectable" "Introspect" None
  = inl (GVTuple [GVString xml]) →
  parse_xml w xml = inl (mkNodeInfo (Some interfaces)) →
  world_wf w →
  (1 ≤ next_owner_id w)%nat →
  all_fresh (conns w t) (CrossBus.source_object_path config) interfaces →
  ∃ st w',
    CrossBus.main_startup config w = ((Returned (MainLoop st), Some st), w') ∧
    wire w'
    = EvOwnName (Some t) (CrossBus.proxy_bus_name config)
      :: introspect_call s (CrossBus.source_bus_name config)
           (CrossBus.source_object_path config) (-1)
      :: wire w ∧
    ∀ teardown,
      teardown = CrossBus.main_shutdown (Some st) ∨
      (∃ signum, teardown = CrossBus.signal_handler signum (Some st)) →
      let '(status, p, w'') := teardown w' in
      status = 0 ∧ p = None ∧
      wire w'' = wire w' ∧
      ∀ c, exported (conns w'' c) = exported (conns w c) ∧
           subscriptions (conns w'' c) = subscriptions (conns w c).
Proof.
  intros H1 H2 H3 H4 Hwf Hown Hfresh.
  destruct (CrossBus_startup_succeeds config s t xml interfaces w H1 H2 H3
              H4 Hwf Hown Hfresh) as (w' & Hrun & R & Hwire).
  cbv zeta in Hrun, R, Hwire.
  set (st := CrossBus.mkProxyState _ _ _ _ _ config) in Hrun.
  exists st, w'. split; [exact Hrun|]. split; [exact Hwire|].
  assert (Hlen1 : length (iface_name <$> interfaces)
                  = length (exports_of (CrossBus.source_object_path config)
                              interfaces))
    by (unfold exports_of; rewrite !length_fmap; reflexivity).
  assert (Hlen2 : length ((interfaces ≫= signal_labels)
                          ++ ["org.freedesktop.DBus.Properties.PropertiesChanged"])
                  = length ((interfaces
                             ≫= signal_rules
                                  (CrossBus.source_bus_name config)
                                  (CrossBus.source_object_path config))
                            ++ [properties_changed_rule
                                  (CrossBus.source_bus_name config)
                                  (CrossBus.source_object_path config)
                                  CbOnPropertiesChanged])).
  { rewrite !length_app. cbn [length].
    rewrite bind_rules_labels_length. reflexivity. }
  intros teardown [->|[signum ->]].
  - pose proof (CrossBus_teardown_restores st t s _ _ _ _ w w' eq_refl
                  eq_refl eq_refl eq_refl Hlen1 Hlen2 Hwf R) as Hback.
    pose proof (offline_CrossBus_cleanup (Some st) w') as Hoff.
    unfold CrossBus.main_shutdown. rewrite run_bind. cbn [ret].
    unfold eval, exec in *.
    destruct (CrossBus.cleanup_proxy_state (Some st) w') as [p w''].
    cbn [fst snd] in *. destruct Hback as (Hp & Hrest).
    split; [reflexivity|]. split; [exact Hp|]. split; assumption.
  - unfold CrossBus.signal_handler. rewrite run_bind.
    set (w1 := exec (CrossBus.log_info _ _) w').
    assert (R1 : registered_on w w1 t s
                   (exports_of (CrossBus.source_object_path config)
                      interfaces)
                   ((interfaces
                     ≫= signal_rules (CrossBus.source_bus_name config)
                          (CrossBus.source_object_path config))
                    ++ [properties_changed_rule
                          (CrossBus.source_bus_name config)
                          (CrossBus.source_object_path config)
                          CbOnPropertiesChanged])).
    { pose proof (registered_on_trans w w' w1 t s _ _ [] [] R
                    (registered_on_silent _ w' t s
                       (silent_log_info _ _))) as R1.
      rewrite !app_nil_r in R1. exact R1. }
    assert (W1 : wire w1 = wire w') by apply offline_log_info.
    pose proof (CrossBus_teardown_restores st t s _ _ _ _ w w1 eq_refl
                  eq_refl eq_refl eq_refl Hlen1 Hlen2 Hwf R1) as Hback.
    pose proof (offline_CrossBus_cleanup (Some st) w1) as Hoff.
    rewrite run_bind. cbn [ret].
    unfold eval, exec in Hoff |- *.
    destruct (CrossBus.cleanup_proxy_state (Some st) w1) as [p w''].
    cbn [fst snd] in *. destruct Hback as (Hp & Hrest).
    split; [reflexivity|]. split; [exact Hp|].
    split; [rewrite Hoff; exact W1 | exact Hrest].
Qed.

(** ** Configuration-file variant: a start-up that succeeds *)

Lemma keeps_naming_config_subscribe_signals config log_fp bus iface signals
    count :
  keeps_naming (ConfigProxy.subscribe_signals config log_fp bus iface signals
                  count).
Proof.
  revert count. induction signals as [|sig rest IH]; intros count; simpl.
  - apply keeps_naming_ret.
  - apply keeps_naming_bind.
    { destruct (ConfigProxy.verbose config);
        [apply keeps_naming_silent, silent_log_message
        | apply keeps_naming_ret]. }
    intros _. apply keeps_naming_bind; [apply keeps_naming_subscribe|].
    intros id. destruct (id =? 0)%nat; [|apply IH].
    apply keeps_naming_bind; [apply keeps_naming_silent, silent_emit|].
    intros _. apply IH.
Qed.

Lemma offline_config_subscribe_signals config log_fp bus iface signals
    count :
  offline (ConfigProxy.subscribe_signals config log_fp bus iface signals
             count).
Proof.
  revert count. induction signals as [|sig rest IH]; intros count; simpl.
  - apply offline_ret.
  - apply offline_bind.
    { destruct (ConfigProxy.verbose config); offline_tac. }
    intros _. apply offline_bind; [apply offline_subscribe|].
    intros id. destruct (id =? 0)%nat; [|apply IH].
    apply offline_bind; [apply offline_emit; reflexivity|].
    intros _. apply IH.
Qed.

(** The inner loop of the configuration-file [main]: with subscriber
    identifiers that are never 0, every declared signal is subscribed and
    counted. *)
Lemma ConfigProxy_subscribe_signals_count config log_fp iface signals count
    w s t :
  (1 ≤ next_subscriber_id w)%nat →
  let (n, w') := ConfigProxy.subscribe_signals config log_fp (Some s) iface
                   signals count w in
  n = count + Z.of_nat (length signals) ∧
  registered_on w w' t s []
    (rules_of_signals (ConfigProxy.source_bus_name config)
       (ConfigProxy.source_object_path config) iface signals).
Proof.
  remember (Some s) as bus eqn:Hbus.
  revert count w. induction signals as [|sig rest IH]; intros count w Hn.
  - simpl. split; [lia | apply registered_on_refl].
  - simpl ConfigProxy.subscribe_signals. rewrite Hbus in *.
    rewrite run_bind.
    set (w0 := exec (if ConfigProxy.verbose config then _ else ret tt) w).
    assert (R0 : registered_on w w0 t s [] []).
    { apply registered_on_silent.
      destruct (ConfigProxy.verbose config);
        [apply silent_log_message | apply silent_ret]. }
    cbv beta. rewrite run_bind.
    destruct (registered_on_subscribe w0 t s
                (ConfigProxy.source_bus_name config) (iface_name iface)
                (signal_info_name sig)
                (ConfigProxy.source_object_path config) CbOnSignalReceived)
      as [E1 R1].
    unfold eval at 1. rewrite E1. cbn [fst].
    set (w1 := exec (g_dbus_connection_signal_subscribe _ _ _ _ _ _) w0) in *.
    assert (N0 : next_subscriber_id w0 = next_subscriber_id w)
      by (destruct R0 as (_ & _ & _ & N); rewrite N; simpl; lia).
    assert (Hid : (next_subscriber_id w0 =? 0)%nat = false)
      by (apply Nat.eqb_neq; lia).
    rewrite Hid.
    assert (Hn1 : (1 ≤ next_subscriber_id w1)%nat)
      by (destruct R1 as (_ & _ & _ & N); rewrite N; lia).
    specialize (IH (count + 1) w1 Hn1).
    destruct (ConfigProxy.subscribe_signals config log_fp (Some s) iface rest
                (count + 1) w1) as [n w'].
    destruct IH as [Hcount R2]. split.
    + rewrite Hcount. cbn [length]. lia.
    + pose proof (registered_on_trans _ _ _ t s _ _ _ _ R0 R1) as R01.
      exact (registered_on_trans _ _ _ t s _ _ _ _ R01 R2).
Qed.

Lemma ConfigProxy_register_interfaces_cons config log_fp bus error ic sc iface
    rest w :
  ConfigProxy.register_interfaces config log_fp bus error ic sc
                                  (iface :: rest) w
  = (let w0 := exec (ConfigProxy.log_message config log_fp
                       "Registering interface: %s\n"
                       [PStr (iface_name iface)]) w in
     let (r, w1) := g_dbus_connection_register_object bus
                      (ConfigProxy.source_object_path config) iface error
                      w0 in
     let (registration_id, error) := r in
     if (registration_id =? 0)%nat then
       with_slot_message error (λ msg,
         g_printerr "Failed to register interface %s: %s\n"
                    [PStr (iface_name iface); PStr msg] ;;
         and_then (slot_free error) (λ error,
           ConfigProxy.register_interfaces config log_fp bus error ic sc
                                           rest)) w1
     else
       (signal_count <-
          match iface_signals iface with
          | Some signals =>
              ConfigProxy.subscribe_signals config log_fp bus iface signals
                                            sc
          | None => ret sc
          end ;;
        ConfigProxy.register_interfaces config log_fp bus error (ic + 1)
                                        signal_count rest) w1).
Proof.
  simpl. rewrite run_bind. cbv zeta. unfold bind at 1.
  destruct (g_dbus_connection_register_object _ _ _ _ _) as [[id e] w1].
  destruct (id =? 0)%nat; reflexivity.
Qed.

(** The outer loop of the configuration-file [main] over interfaces that
    all register: each is registered and counted, each of its signals
    subscribed and counted. *)
Lemma ConfigProxy_register_fresh config log_fp interfaces ic sc w s :
  world_wf w →
  all_fresh (conns w s) (ConfigProxy.source_object_path config) interfaces →
  let sender := ConfigProxy.source_bus_name config in
  let path := ConfigProxy.source_object_path config in
  ∃ w',
    ConfigProxy.register_interfaces config log_fp (Some s) SlotNull ic sc
                                    interfaces w
    = (Returned (ic + Z.of_nat (length interfaces),
                 sc + Z.of_nat (length (interfaces
                                        ≫= signal_rules sender path))),
       w') ∧
    registered_on w w' s s (exports_of path interfaces)
      (interfaces ≫= signal_rules sender path).
Proof.
  revert ic sc w. induction interfaces as [|iface rest IH];
    intros ic sc w Hwf Hfresh sender path.
  - exists w. split; [|apply registered_on_refl].
    simpl. rewrite !Z.add_0_r. reflexivity.
  - rewrite ConfigProxy_register_interfaces_cons. cbv zeta.
    set (w0 := exec (ConfigProxy.log_message _ _ _ _) w).
    assert (R0 : registered_on w w0 s s [] [])
      by apply registered_on_silent, silent_log_message.
    assert (Hwf0 : world_wf w0)
      by (eapply world_wf_registered_on; eassumption).
    assert (Hc0 : conns w0 = conns w).
    { pose proof (silent_log_message config log_fp
                    "Registering interface: %s\n"
                    [PStr (iface_name iface)] w) as H.
      unfold bus_state in H. injection H as H _ _ _ _ _ _ _ _. exact H. }
    assert (Hf0 : exported_at (conns w0 s) path (iface_name iface) = false)
      by (rewrite Hc0; apply Hfresh, elem_of_cons; auto).
    destruct (register_object_fresh w0 s s path iface Hf0)
      as (w1 & He & R1 & T1).
    fold path. rewrite He.
    assert (Hid : (next_registration_id w0 =? 0)%nat = false).
    { apply Nat.eqb_neq. destruct Hwf0 as [H1 _]. lia. }
    rewrite Hid. rewrite run_bind.
    assert (Hwf1 : world_wf w1)
      by (eapply world_wf_registered_on; eassumption).
    assert (H2 : let (n, w2) :=
                   match iface_signals iface with
                   | Some signals =>
                       ConfigProxy.subscribe_signals config log_fp (Some s)
                         iface signals sc
                   | None => ret sc
                   end w1 in
                 n = sc + Z.of_nat (length (signal_rules sender path iface))
                 ∧ registered_on w1 w2 s s []
                     (signal_rules sender path iface)).
    { unfold signal_rules. destruct (iface_signals iface) as [signals|].
      - unfold rules_of_signals at 1. rewrite length_fmap.
        apply ConfigProxy_subscribe_signals_count.
        destruct Hwf1 as (_ & H & _). exact H.
      - simpl. split; [lia | apply registered_on_refl]. }
    unfold eval at 1, exec at 1.
    destruct (match iface_signals iface with
              | Some signals =>
                  ConfigProxy.subscribe_signals config log_fp (Some s) iface
                    signals sc
              | None => ret sc
              end w1) as [n w2].
    destruct H2 as (Hn & R2). cbn [fst snd].
    pose proof (registered_on_trans _ _ _ s s _ _ _ _ R0 R1) as R01.
    pose proof (registered_on_trans _ _ _ s s _ _ _ _ R01 R2) as R02.
    simpl in R02.
    destruct (registered_on_one_export w w2 s s path iface _ Hwf R02)
      as [Hexp Hnone].
    destruct (all_fresh_step _ _ _ path iface rest Hfresh Hexp Hnone)
      as (Hfresh2 & _ & _).
    assert (Hwf2 : world_wf w2)
      by (eapply world_wf_registered_on; eassumption).
    destruct (IH (ic + 1) n w2 Hwf2 Hfresh2) as (w3 & Hrun & R3).
    cbv zeta in Hrun, R3. fold sender path in Hrun, R3.
    exists w3. split.
    + rewrite Hrun. f_equal. f_equal. f_equal.
      * cbn [length]. lia.
      * change ((iface :: rest) ≫= signal_rules sender path)
          with (signal_rules sender path iface
                ++ (rest ≫= signal_rules sender path)).
        rewrite length_app, Hn. lia.
    + exact (registered_on_trans _ _ _ s s _ _ _ _ R02 R3).
Qed.

Lemma keeps_naming_config_register_interfaces config log_fp bus error ic sc
    interfaces :
  keeps_naming (ConfigProxy.register_interfaces config log_fp bus error ic sc
                  interfaces) ∧
  offline (ConfigProxy.register_interfaces config log_fp bus error ic sc
             interfaces).
Proof.
  revert error ic sc. induction interfaces as [|iface rest IH];
    intros error ic sc; simpl.
  - split; [apply keeps_naming_ret | apply offline_ret].
  - split.
    + apply keeps_naming_bind;
        [apply keeps_naming_silent, silent_log_message|]. intros _.
      apply keeps_naming_bind; [apply keeps_naming_register|].
      intros [id e]. destruct (id =? 0)%nat.
      * unfold with_slot_message. destruct (slot_message e);
          [|apply keeps_naming_ret].
        apply keeps_naming_bind; [apply keeps_naming_silent, silent_emit|].
        intros _. unfold and_then.
        apply keeps_naming_bind; [apply keeps_naming_slot_free|].
        intros [e'|?]; [apply IH | apply keeps_naming_ret].
      * apply keeps_naming_bind; [|intros n; apply IH].
        destruct (iface_signals iface);
          [apply keeps_naming_config_subscribe_signals
          | apply keeps_naming_ret].
    + apply offline_bind; [offline_tac|]. intros _.
      apply offline_bind; [apply offline_register|].
      intros [id e]. destruct (id =? 0)%nat.
      * unfold with_slot_message. destruct (slot_message e);
          [|apply offline_ret].
        apply offline_bind; [apply offline_emit; reflexivity|].
        intros _. unfold and_then.
        apply offline_bind; [apply offline_slot_free|].
        intros [e'|?]; [apply IH | apply offline_ret].
      * apply offline_bind; [|intros n; apply IH].
        destruct (iface_signals iface);
          [apply offline_config_subscribe_signals | apply offline_ret].
Qed.

(** A line handed to [log_message]: it goes to the log file or to stdout
    when logging is enabled, and nowhere otherwise. *)
Lemma ConfigProxy_log_message_line config log_fp fmt args w :
  ∃ events,
    ConfigProxy.log_message config log_fp fmt args w
    = (tt, set_trace (events ++ trace w) w) ∧
    List.filter on_the_wire events = [] ∧
    (ConfigProxy.enable_logging config = true →
     In (if log_fp then EvLogFile fmt args else EvPrint fmt args) events).
Proof.
  unfold ConfigProxy.log_message.
  destruct (ConfigProxy.enable_logging config); cbn [negb].
  - destruct log_fp;
      (refine (ex_intro _ [_] _); split; [reflexivity|];
       split; [reflexivity|]; intros _; left; reflexivity).
  - exists []. destruct w. split; [reflexivity|].
    split; [reflexivity | discriminate].
Qed.

Lemma ConfigProxy_subscribe_to_properties_changed_view config log_fp s w :
  (1 ≤ next_subscriber_id w)%nat →
  let w' := exec (ConfigProxy.subscribe_to_properties_changed config log_fp
                    (Some s)) w in
  (∃ events, trace w' = events ++ trace w ∧
             List.filter on_the_wire events = []) ∧
  next_owner_id w' = next_owner_id w ∧
  bus_get w' = bus_get w.
Proof.
  intros Hn.
  assert (E : (next_subscriber_id w =? 0)%nat = false)
    by (apply Nat.eqb_neq; lia).
  unfold ConfigProxy.subscribe_to_properties_changed,
    ConfigProxy.log_message.
  destruct (ConfigProxy.verbose config),
    (ConfigProxy.enable_logging config), log_fp;
    unfold exec, bind, g_dbus_connection_signal_subscribe, emit, ret;
    simpl; rewrite E; simpl;
    (split; [|split; reflexivity]);
    first [ exists []; split; reflexivity
          | refine (ex_intro _ [_] _); split; reflexivity
          | refine (ex_intro _ [_; _] _); split; reflexivity ].
Qed.

Lemma registered_on_bus_state w w' t s :
  bus_state w' = bus_state w → registered_on w w' t s [] [].
Proof.
  unfold bus_state. intros [= Hc Hr Hn _ _ _ _ _ _].
  unfold registered_on. rewrite Hc, Hr, Hn. simpl.
  repeat split; try lia; intros c; case_decide; subst; reflexivity.
Qed.

(** The configuration-file [main] once the bus is connected and the source
    has answered [Introspect] with a document that parses to [interfaces]:
    it has logged its progress and sent that one call, and goes on with
    the registration loop. *)
Lemma ConfigProxy_main_introspected config log_fp s xml interfaces w :
  bus_get w (if String.eqb (ConfigProxy.bus_type config) "system"
             then G_BUS_TYPE_SYSTEM else G_BUS_TYPE_SESSION) = inl s →
  answer w s (ConfigProxy.source_bus_name config)
         (ConfigProxy.source_object_path config)
         "org.freedesktop.DBus.Introspectable" "Introspect" None
  = inl (GVTuple [GVString xml]) →
  parse_xml w xml = inl (mkNodeInfo (Some interfaces)) →
  ∃ events,
    List.filter on_the_wire events
    = [introspect_call s (ConfigProxy.source_bus_name config)
         (ConfigProxy.source_object_path config)
         (ConfigProxy.timeout_ms config)] ∧
    ConfigProxy.main_startup config log_fp w
    = and_then (ConfigProxy.register_interfaces config log_fp (Some s)
                  SlotNull 0 0 interfaces)
        (λ '(interface_count, signal_count),
           ConfigProxy.log_message config log_fp
             "Registered %d interfaces with %d signal subscriptions\n"
             [PNum interface_count; PNum signal_count] ;;
           ConfigProxy.subscribe_to_properties_changed config log_fp
             (Some s) ;;
           ConfigProxy.log_message config log_fp "Acquiring bus name: %s\n"
             [PStr (ConfigProxy.proxy_bus_name config)] ;;
           _ <- g_bus_own_name
                  (if String.eqb (ConfigProxy.bus_type config) "system"
                   then G_BUS_TYPE_SYSTEM else G_BUS_TYPE_SESSION)
                  (ConfigProxy.proxy_bus_name config) ;;
           g_print "Proxy running: %s -> %s on %s bus\n"
                   [PStr (ConfigProxy.source_bus_name config);
                    PStr (ConfigProxy.proxy_bus_name config);
                    PStr (ConfigProxy.bus_type config)] ;;
           ret (Returned (MainLoop (Some s,
                                    Some (mkNodeInfo (Some interfaces))))))
        (set_trace (events ++ trace w) w).
Proof.
  intros H1 H3 H4.
  destruct (ConfigProxy_log_message_view config log_fp
              "Connected to %s bus\n" [PStr (ConfigProxy.bus_type config)]
              w) as (ev1 & E1 & F1).
  destruct (ConfigProxy_log_message_view config log_fp
              "Introspecting %s at %s\n"
              [PStr (ConfigProxy.source_bus_name config);
               PStr (ConfigProxy.source_object_path config)]
              (set_trace (ev1 ++ trace w) w)) as (ev2 & E2 & F2).
  destruct (ConfigProxy_log_message_view config log_fp
              "Introspection successful\n" []
              (set_trace
                 (introspect_call s (ConfigProxy.source_bus_name config)
                    (ConfigProxy.source_object_path config)
                    (ConfigProxy.timeout_ms config)
                  :: trace (set_trace (ev2 ++ trace (set_trace
                                                      (ev1 ++ trace w) w))
                              (set_trace (ev1 ++ trace w) w)))
                 (set_trace (ev2 ++ trace (set_trace (ev1 ++ trace w) w))
                    (set_trace (ev1 ++ trace w) w))))
    as (ev3 & E3 & F3).
  exists (ev3 ++ introspect_call s (ConfigProxy.source_bus_name config)
                   (ConfigProxy.source_object_path config)
                   (ConfigProxy.timeout_ms config) :: ev2 ++ ev1).
  split.
  { rewrite List.filter_app. cbn [List.filter introspect_call on_the_wire].
    rewrite List.filter_app, F1, F2, F3. reflexivity. }
  unfold ConfigProxy.main_startup.
  unfold bind at 1. unfold g_bus_get_sync at 1. rewrite H1.
  cbn [non_null negb].
  unfold bind at 1. rewrite E1.
  unfold bind at 1. rewrite E2.
  unfold bind at 1. unfold g_dbus_connection_call_sync.
  change (answer (set_trace _ (set_trace _ w))) with (answer w).
  rewrite H3.
  change (g_variant_is_of_type (GVTuple [GVString xml]) (Some "(s)"))
    with true. cbv beta iota.
  unfold bind at 1. unfold g_dbus_node_info_new_for_xml.
  change (g_variant_get_s (GVTuple [GVString xml])) with xml.
  change (parse_xml (set_trace _ (set_trace _ (set_trace _ w))))
    with (parse_xml w).
  rewrite H4. cbv beta iota.
  unfold bind at 1. unfold introspect_call in E3. rewrite E3.
  cbn [node_interfaces]. f_equal.
  unfold set_trace. cbn [trace bus_get new_for_address answer parse_xml
    conns next_registration_id next_subscriber_id next_owner_id pending].
  rewrite <- !app_assoc, <- app_comm_cons, <- app_assoc. reflexivity.
Qed.

(** X22.  Start-up of the configuration-file variant when the bus
    connects, the source's introspection parses and every interface
    registers: [main] reaches the main loop with every interface exported
    at the configured path and one subscription per declared signal plus
    the one for PropertiesChanged, all on the one bus; on the wire it has
    put the introspection request (with the configured timeout) and then
    one request for the proxy name.  The counts
    it logs are the number of interfaces and the number of declared
    signals (the PropertiesChanged subscription is not counted). *)
Theorem config_startup_registers_and_counts
    (config : ConfigProxy.ProxyConfig) (log_fp : bool) (s : GDBusConnection)
    (xml : string) (interfaces : list GDBusInterfaceInfo) (w : World) :
  bus_get w (if String.eqb (ConfigProxy.bus_type config) "system"
             then G_BUS_TYPE_SYSTEM else G_BUS_TYPE_SESSION) = inl s →
  answer w s (ConfigProxy.source_bus_name config)
         (ConfigProxy.source_object_path config)
         "org.freedesktop.DBus.Introspectable" "Introspect" None
  = inl (GVTuple [GVString xml]) →
  parse_xml w xml = inl (mkNodeInfo (Some interfaces)) →
  world_wf w →
  all_fresh (conns w s) (ConfigProxy.source_object_path config) interfaces →
  let sender := ConfigProxy.source_bus_name config in
  let path := ConfigProxy.source_object_path config in
  ∃ w',
    ConfigProxy.main_startup config log_fp w
    = (Returned (MainLoop (Some s, Some (mkNodeInfo (Some interfaces)))),
       w') ∧
    registered_on w w' s s (exports_of path interfaces)
      ((interfaces ≫= signal_rules sender path)
       ++ [properties_changed_rule sender path CbOnSignalReceived]) ∧
    wire w'
    = EvOwnName (Some s) (ConfigProxy.proxy_bus_name config)
      :: introspect_call s sender path (ConfigProxy.timeout_ms config)
      :: wire w ∧
    (ConfigProxy.enable_logging config = true →
     In ((if log_fp then EvLogFile else EvPrint)
           "Registered %d interfaces with %d signal subscriptions\n"
           [PNum (Z.of_nat (length interfaces));
            PNum (Z.of_nat (length (interfaces
                                    ≫= signal_rules sender path)))])
        (trace w')).
Proof.
  intros H1 H3 H4 Hwf Hfresh sender path.
  destruct (ConfigProxy_main_introspected config log_fp s xml interfaces w
              H1 H3 H4) as (ev0 & F0 & Hmain).
  rewrite Hmain. clear Hmain.
  set (w0 := set_trace (ev0 ++ trace w) w).
  assert (W0 : wire w0 = introspect_call s sender path
                           (ConfigProxy.timeout_ms config) :: wire w).
  { unfold w0. rewrite wire_set_trace, F0. reflexivity. }
  destruct (ConfigProxy_register_fresh config log_fp interfaces 0 0 w0 s
              Hwf Hfresh) as (w1 & Hrun & R1).
  cbv zeta in Hrun, R1. fold sender path in Hrun, R1.
  destruct (keeps_naming_config_register_interfaces config log_fp (Some s)
              SlotNull 0 0 interfaces) as [Hkeep Hoff].
  destruct (Hkeep w0) as [O1 B1]. specialize (Hoff w0).
  unfold exec in O1, B1, Hoff. rewrite Hrun in O1, B1, Hoff.
  cbn [snd] in O1, B1, Hoff.
  unfold and_then. rewrite run_bind. unfold eval at 1, exec at 1.
  rewrite Hrun. cbn [fst snd]. rewrite !Z.add_0_l.
  destruct (ConfigProxy_log_message_line config log_fp
              "Registered %d interfaces with %d signal subscriptions\n"
              [PNum (Z.of_nat (length interfaces));
               PNum (Z.of_nat (length (interfaces
                                       ≫= signal_rules sender path)))] w1)
    as (ev2 & E2 & F2 & Hline).
  rewrite run_bind. cbv beta. unfold exec at 1. rewrite E2. cbn [snd].
  set (w2 := set_trace (ev2 ++ trace w1) w1).
  assert (Hn2 : (1 ≤ next_subscriber_id w2)%nat).
  { destruct R1 as (_ & _ & _ & N). destruct Hwf as (_ & H & _).
    change (next_subscriber_id w2) with (next_subscriber_id w1).
    rewrite N. change (next_subscriber_id w0) with (next_subscriber_id w).
    lia. }
  pose proof (ConfigProxy_subscribe_to_properties_changed config log_fp s s
                w2 Hn2) as R3.
  destruct (ConfigProxy_subscribe_to_properties_changed_view config log_fp s
              w2 Hn2) as ((ev3 & T3 & F3) & O3 & B3).
  rewrite run_bind.
  set (w3 := exec (ConfigProxy.subscribe_to_properties_changed config log_fp
                     (Some s)) w2) in *.
  destruct (ConfigProxy_log_message_line config log_fp
              "Acquiring bus name: %s\n"
              [PStr (ConfigProxy.proxy_bus_name config)] w3)
    as (ev4 & E4 & F4 & _).
  rewrite run_bind. cbv beta. unfold exec at 1. rewrite E4. cbn [snd].
  set (w4 := set_trace (ev4 ++ trace w3) w3).
  assert (B4 : bus_get w4 (if String.eqb (ConfigProxy.bus_type config)
                                         "system"
                           then G_BUS_TYPE_SYSTEM else G_BUS_TYPE_SESSION)
               = inl s).
  { change (bus_get w4) with (bus_get w3). rewrite B3.
    change (bus_get w2) with (bus_get w1). rewrite B1. exact H1. }
  unfold bind at 1. unfold g_bus_own_name at 1. rewrite B4.
  unfold bind, g_print, emit, ret. cbn [fst snd].
  eexists. split; [reflexivity|]. split; [|split].
  - pose proof (registered_on_trans _ _ _ s s _ _ _ _ R1 R3) as R13.
    rewrite app_nil_r in R13.
    destruct R13 as (Re & Rs & Nr & Ns).
    split; [exact Re|]. split; [exact Rs|]. split; [exact Nr | exact Ns].
  - unfold wire.
    cbn [trace set_trace set_next_owner_id List.filter on_the_wire].
    unfold w4. cbn [trace set_trace]. rewrite List.filter_app, F4, T3.
    rewrite List.filter_app, F3. unfold w2. cbn [trace set_trace app].
    rewrite List.filter_app, F2. cbn [app]. fold (wire w1).
    rewrite Hoff, W0. reflexivity.
  - intros Hlog. specialize (Hline Hlog).
    cbn [trace set_trace set_next_owner_id].
    right. right. unfold w4. cbn [trace set_trace].
    apply in_or_app. right. rewrite T3. apply in_or_app. right.
    unfold w2. cbn [trace set_trace]. apply in_or_app. left.
    destruct log_fp; exact Hline.
Qed.

(** ** The error variable after a failed registration *)

Lemma ConfigProxy_register_after_failure config log_fp w s bad next rest ic
    sc :
  exported_at (conns w s) (ConfigProxy.source_object_path config)
              (iface_name bad) = true →
  fst (ConfigProxy.register_interfaces config log_fp (Some s) SlotNull ic sc
         (bad :: next :: rest) w)
  = Undefined UseAfterFree.
Proof.
  intros Hcol.
  rewrite ConfigProxy_register_interfaces_cons. cbv zeta.
  set (w0 := exec (ConfigProxy.log_message _ _ _ _) w).
  assert (Hc0 : conns w0 = conns w).
  { pose proof (silent_log_message config log_fp
                  "Registering interface: %s\n"
                  [PStr (iface_name bad)] w) as H.
    unfold bus_state in H. injection H as H _ _ _ _ _ _ _ _. exact H. }
  rewrite <- Hc0 in Hcol.
  destruct (register_object_collides w0 s _ bad Hcol) as [e He].
  rewrite He. simpl Nat.eqb. cbv iota.
  unfold with_slot_message, slot_message. cbv beta iota.
  rewrite run_bind, and_then_slot_free_set.
  rewrite ConfigProxy_register_interfaces_cons. cbv zeta.
  unfold g_dbus_connection_register_object. reflexivity.
Qed.

(** X23.  In the multi-bus and the configuration-file variant the
    registration loop frees its error variable after a failed registration
    but does not reset it.  If an interface fails to register (it is
    exported at the path already) and another interface follows, the next
    call is handed the stale pointer, GIO refuses it, and the loop reads
    the message of the freed error: a use after free.  The cross-bus loop,
    which declares its error anew in each iteration and returns at the
    first failure, returns FALSE instead. *)
Theorem registration_failure_then_use_after_free
    (t : GDBusConnection) (path : string)
    (bad next : GDBusInterfaceInfo) (rest : list GDBusInterfaceInfo)
    (w : World) :
  exported_at (conns w t) path (iface_name bad) = true →
  (∀ ctx,
     MultiBus.target_bus ctx = Some t →
     MultiBus.source_object_path ctx = path →
     fst (MultiBus.register_interfaces ctx SlotNull (bad :: next :: rest) w)
     = Undefined UseAfterFree) ∧
  (∀ config log_fp interface_count signal_count,
     ConfigProxy.source_object_path config = path →
     fst (ConfigProxy.register_interfaces config log_fp (Some t) SlotNull
            interface_count signal_count (bad :: next :: rest) w)
     = Undefined UseAfterFree) ∧
  (∀ st,
     CrossBus.target_bus st = Some t →
     CrossBus.source_object_path (CrossBus.config st) = path →
     fst (CrossBus.register_interfaces st (bad :: next :: rest) w)
     = Returned (false, st)).
Proof.
  intros Hcol. split; [|split].
  - intros ctx Ht <-.
    apply (MultiBus_register_after_failure ctx w t bad next rest Ht Hcol).
  - intros config log_fp ic sc <-.
    apply ConfigProxy_register_after_failure. exact Hcol.
  - intros st Ht <-.
    destruct (CrossBus_register_fails st w t t bad (next :: rest) Ht Hcol)
      as (e & w' & Hrun & _).
    rewrite Hrun. reflexivity.
Qed.

(** ** The further theorems at work on the example world *)

(** The multi-bus handler forwards invocation 7, which arrived for another
    path, to the configured object. *)
Lemma method_call_is_forwarded_unchanged_example :
  let w := example_world None in
  let w' := exec (MultiBus.handle_method_call false example_ctx ":1.9"
                    "/any/path" "com.example.Demo" "Echo" None 7%nat) w in
  pending w'
  = pending w ++ [mkPendingCall 1%nat "com.example.Source"
                    "/com/example/Object" "com.example.Demo" "Echo" None
                    (-1) 7%nat]
  ∧ wire w'
    = EvCall 1%nat "com.example.Source" "/com/example/Object"
             "com.example.Demo" "Echo" None (-1) :: wire w
  ∧ conns w' = conns w.
Proof.
  exact (proj1 (method_call_is_forwarded_unchanged 1%nat ":1.9" "/any/path"
                  "com.example.Demo" "Echo" None 7%nat (example_world None))
           false example_ctx eq_refl).
Defined.


(** The multi-bus start-up against a source that does not answer. *)
Lemma introspection_failure_is_fatal_example :
  let (r, w') := MultiBus.main_startup "system" "session"
                   "com.example.Source" "/com/example/Object"
                   "org.example.Proxy" example_world_mute in
  gives_up r example_world_mute w'
    (EvPrintErr "Introspection failed for %s: %s\n"
                [PStr "com.example.Source"; PStr "No such method"])
    [introspect_call 1%nat "com.example.Source" "/com/example/Object" (-1)]
  ∧ In (EvUnref 1%nat) (trace w') ∧ In (EvUnref 2%nat) (trace w').
Proof.
  exact (proj1 (introspection_failure_is_fatal example_error 1%nat
                  example_world_mute)
           "system" "session" "com.example.Source" "/com/example/Object"
           "org.example.Proxy" 2%nat eq_refl eq_refl eq_refl).
Defined.

(** The cross-bus start-up against a source whose introspection document
    does not parse. *)
Lemma unparsable_introspection_is_fatal_example :
  parse_xml example_world_garbled "<node/>" = inr example_parse_error ∧
  let '(r, proxy_state, w') :=
    CrossBus.main_startup example_cross_config example_world_garbled in
  proxy_state = None ∧
  gives_up r example_world_garbled w'
    (EvPrintErr "Failed to parse introspection XML: %s"
                [PStr "Document was empty"])
    [introspect_call 1%nat "com.example.Source" "/com/example/Object" (-1)].
Proof.
  split; [reflexivity|].
  exact (proj2 (proj2 (unparsable_introspection_is_fatal example_parse_error
                         1%nat "<node/>" example_world_garbled eq_refl))
           example_cross_config 2%nat eq_refl eq_refl eq_refl).
Defined.

(** The multi-bus start-up with the session bus unreachable. *)
Lemma target_connection_failure_is_fatal_example :
  let (r, w') := MultiBus.main_startup "system" "session"
                   "com.example.Source" "/com/example/Object"
                   "org.example.Proxy" example_world_target_down in
  gives_up r example_world_target_down w'
    (EvPrintErr "Failed to connect to target bus (%s): %s\n"
                [PStr "session"; PStr "Connection refused"]) []
  ∧ In (EvUnref 1%nat) (trace w').
Proof.
  exact (proj1 (target_connection_failure_is_fatal
                  (mkGError G_IO_ERROR 39 "Connection refused") 1%nat
                  example_world_target_down)
           "system" "session" "com.example.Source" "/com/example/Object"
           "org.example.Proxy" eq_refl eq_refl).
Defined.

(** Setup and teardown of the example state with two interfaces. *)
Lemma crossbus_teardown_undoes_setup_example :
  let w := example_world None in
  let st := CrossBus.set_introspection_data
              (Some (mkNodeInfo (Some [demo_iface; other_iface])))
              example_state in
  ∃ ok st' w',
    CrossBus.setup_proxy_interfaces st w = (Returned (ok, st'), w') ∧
    let (p, w'') := CrossBus.cleanup_proxy_state (Some st') w' in
    p = None ∧
    ∀ c, exported (conns w'' c) = exported (conns w c) ∧
         subscriptions (conns w'' c) = subscriptions (conns w c).
Proof.
  intros w st.
  apply (crossbus_teardown_undoes_setup st [demo_iface; other_iface] 1%nat
           2%nat w);
    [reflexivity | reflexivity | reflexivity | reflexivity | reflexivity
    | apply world_wf_example_world].
Defined.

(** The multi-bus start-up and teardown with two interfaces: the first
    registration stays. *)
Lemma multibus_shutdown_after_startup_example :
  let w := example_world (Some [demo_iface; other_iface]) in
  ∃ ctx w',
    MultiBus.main_startup "system" "session" "com.example.Source"
                          "/com/example/Object" "org.example.Proxy" w
    = (Returned (MainLoop [ctx]), w') ∧
    wire w'
    = EvOwnName (Some 2%nat) "org.example.Proxy"
      :: introspect_call 1%nat "com.example.Source" "/com/example/Object"
           (-1)
      :: wire w ∧
    let (status, w'') := MultiBus.main_shutdown [ctx] w' in
    status = 0 ∧
    wire w'' = wire w' ∧
    (∀ c, subscriptions (conns w'' c) = subscriptions (conns w c)) ∧
    (∀ c, exported (conns w'' c)
          = if decide (c = 2%nat)
            then install (next_registration_id w)
                   (exports_of "/com/example/Object"
                      (removelast [demo_iface; other_iface]))
                   (exported (conns w 2%nat))
            else exported (conns w c)).
Proof.
  intros w.
  apply (multibus_shutdown_after_startup "system" "session"
           "com.example.Source" "/com/example/Object" "org.example.Proxy"
           "<node/>" 1%nat 2%nat [demo_iface; other_iface] w);
    [reflexivity | reflexivity | reflexivity | reflexivity
    | apply world_wf_example_world | apply all_fresh_example_both].
Defined.

(** The cross-bus start-up and teardown with two interfaces. *)
Lemma crossbus_shutdown_after_startup_example :
  let w := example_world (Some [demo_iface; other_iface]) in
  ∃ st w',
    CrossBus.main_startup example_cross_config w
    = ((Returned (MainLoop st), Some st), w') ∧
    wire w'
    = EvOwnName (Some 2%nat) "org.example.Proxy"
      :: introspect_call 1%nat "com.example.Source" "/com/example/Object"
           (-1)
      :: wire w ∧
    ∀ teardown,
      teardown = CrossBus.main_shutdown (Some st) ∨
      (∃ signum, teardown = CrossBus.signal_handler signum (Some st)) →
      let '(status, p, w'') := teardown w' in
      status = 0 ∧ p = None ∧
      wire w'' = wire w' ∧
      ∀ c, exported (conns w'' c) = exported (conns w c) ∧
           subscriptions (conns w'' c) = subscriptions (conns w c).
Proof.
  intros w.
  apply (crossbus_shutdown_after_startup example_cross_config "<node/>"
           1%nat 2%nat [demo_iface; other_iface] w);
    [reflexivity | reflexivity | reflexivity | reflexivity
    | apply world_wf_example_world | simpl; lia
    | apply all_fresh_example_both].
Defined.

(** The configuration-file start-up with two interfaces, one of them with
    one signal: the log says 2 interfaces, 1 subscription. *)
Lemma config_startup_registers_and_counts_example :
  let w := example_world (Some [demo_iface; other_iface]) in
  let interfaces := [demo_iface; other_iface] in
  ∃ w',
    ConfigProxy.main_startup example_config false w
    = (Returned (MainLoop (Some 1%nat, Some (mkNodeInfo (Some interfaces)))),
       w') ∧
    registered_on w w' 1%nat 1%nat
      (exports_of "/com/example/Object" interfaces)
      ((interfaces ≫= signal_rules "com.example.Source"
                                    "/com/example/Object")
       ++ [properties_changed_rule "com.example.Source"
             "/com/example/Object" CbOnSignalReceived]) ∧
    wire w'
    = EvOwnName (Some 1%nat) "org.example.Proxy"
      :: introspect_call 1%nat "com.example.Source" "/com/example/Object"
           30000
      :: wire w ∧
    (ConfigProxy.enable_logging example_config = true →
     In (EvPrint "Registered %d interfaces with %d signal subscriptions\n"
                 [PNum 2; PNum 1])
        (trace w')).
Proof.
  intros w interfaces.
  apply (config_startup_registers_and_counts example_config false 1%nat
           "<node/>" interfaces w);
    [reflexivity | reflexivity | reflexivity
    | apply world_wf_example_world
    | exact (all_fresh_example_both (Some [demo_iface; other_iface]))].
Defined.

(** With [demo_iface] exported already, the multi-bus loop over
    [demo_iface; other_iface] reads the freed error. *)
Lemma registration_failure_then_use_after_free_example :
  exported_at (conns example_world_taken 2%nat) "/com/example/Object"
              (iface_name demo_iface) = true ∧
  fst (MultiBus.register_interfaces example_ctx SlotNull
         [demo_iface; other_iface] example_world_taken)
  = Undefined UseAfterFree.
Proof.
  split; [reflexivity|].
  exact (proj1 (registration_failure_then_use_after_free 2%nat
                  "/com/example/Object" demo_iface other_iface []
                  example_world_taken eq_refl)
           example_ctx eq_refl eq_refl).
Defined.
